(** * pylogix: entity graph, rung text miner, dependency closure, rebind and
      the push-updates merge engine, embedded from the Python sources.

    Python objects that are mutated through several references (tags shared
    between rungs, the datatypes of a controller during its rebind) live in
    an explicit heap and are named by index; values that are only read
    (datatype definitions hanging off a tag) are carried as trees.
    Exceptions are a result of the computation, next to the state reached
    when they were raised. *)

From Stdlib Require Import ZArith QArith.QArith_base Ascii String DecimalString Bool Lia.
From Stdlib Require Import Sorted Permutation DecimalZ DecimalPos.
From stdpp Require Import base list strings.

Local Open Scope string_scope.
Local Open Scope list_scope.
Set Warnings "-register-all".

(** ** Python [str] primitives used by the sources *)

Module PyStr.

Definition len (s : string) : Z := Z.of_nat (String.length s).

Fixpoint drop_str (k : nat) (s : string) : string :=
  match k, s with
  | S k', String _ s' => drop_str k' s'
  | _, _ => s
  end.

Fixpoint take_str (k : nat) (s : string) : string :=
  match k, s with
  | S k', String c s' => String c (take_str k' s')
  | _, _ => EmptyString
  end.

(** A slice bound: negative bounds count from the end, all are clamped. *)
Definition norm_index (n i : Z) : nat :=
  Z.to_nat (if (i <? 0)%Z then Z.max 0 (n + i) else Z.min i n).

(** [s[start:stop]] *)
Definition slice (s : string) (start stop : Z) : string :=
  let a := norm_index (len s) start in
  let b := norm_index (len s) stop in
  take_str (b - a) (drop_str a s).

(** [s[start:]] *)
Definition slice_from (s : string) (start : Z) : string :=
  drop_str (norm_index (len s) start) s.

(** [s[:stop]] *)
Definition slice_to (s : string) (stop : Z) : string :=
  take_str (norm_index (len s) stop) s.

Fixpoint find_from (sub s : string) (pos : nat) : option nat :=
  if String.prefix sub s then Some pos
  else match s with
       | EmptyString => None
       | String _ s' => find_from sub s' (S pos)
       end.

(** [s.find(sub, start)], [-1] when absent *)
Definition find (s sub : string) (start : Z) : Z :=
  if (len s <? start)%Z then (-1)%Z
  else
    let a := norm_index (len s) start in
    match find_from sub (drop_str a s) a with
    | Some i => Z.of_nat i
    | None => (-1)%Z
    end.

(** [sub in s] *)
Fixpoint contains (sub s : string) : bool :=
  match s with
  | EmptyString => String.prefix sub EmptyString
  | String _ s' => String.prefix sub s || contains sub s'
  end.

(** [s.split(sep)] for a one-character separator *)
Fixpoint split (sep : ascii) (s : string) : list string :=
  match s with
  | EmptyString => [EmptyString]
  | String c s' =>
      if Ascii.eqb c sep then EmptyString :: split sep s'
      else match split sep s' with
           | w :: ws => String c w :: ws
           | [] => [String c EmptyString]
           end
  end.

Fixpoint replace_nonempty (old new : string) (skip : nat) (s : string) : string :=
  match s with
  | EmptyString => EmptyString
  | String c s' =>
      match skip with
      | S k => replace_nonempty old new k s'
      | O =>
          if String.prefix old s
          then new +:+ replace_nonempty old new (String.length old - 1) s'
          else String c (replace_nonempty old new 0 s')
      end
  end.

Fixpoint intersperse (new s : string) : string :=
  match s with
  | EmptyString => new
  | String c s' => new +:+ String c (intersperse new s')
  end.

(** [s.replace(old, new)]: every non-overlapping occurrence, leftmost
    first; an empty [old] matches before every character and at the end. *)
Definition replace (s old new : string) : string :=
  match old with
  | EmptyString => intersperse new s
  | _ => replace_nonempty old new 0 s
  end.

Definition mem_char (c : ascii) (cs : list ascii) : bool :=
  existsb (Ascii.eqb c) cs.

(** Python's [str.isspace] on the code points below 256 *)
Definition is_space (c : ascii) : bool :=
  let n := nat_of_ascii c in
  (Nat.leb 9 n && Nat.leb n 13) || (Nat.leb 28 n && Nat.leb n 32)
  || Nat.eqb n 133 || Nat.eqb n 160.

Fixpoint lstrip_by (p : ascii -> bool) (s : string) : string :=
  match s with
  | EmptyString => EmptyString
  | String c s' => if p c then lstrip_by p s' else s
  end.

(** Drop the trailing characters that satisfy [p]: what is left of the
    tail, and the head in front of it unless everything is dropped. *)
Fixpoint rstrip_by (p : ascii -> bool) (s : string) : string :=
  match s with
  | EmptyString => EmptyString
  | String c s' =>
      match rstrip_by p s' with
      | EmptyString => if p c then EmptyString else String c EmptyString
      | r => String c r
      end
  end.

Definition lstrip (s : string) : string := lstrip_by is_space s.
Definition rstrip (s : string) : string := rstrip_by is_space s.
Definition strip (s : string) : string := lstrip (rstrip s).

(** [s.lstrip(chars)], [s.rstrip(chars)] *)
Definition lstrip_chars (s chars : string) : string :=
  lstrip_by (fun c => mem_char c (list_ascii_of_string chars)) s.
Definition rstrip_chars (s chars : string) : string :=
  rstrip_by (fun c => mem_char c (list_ascii_of_string chars)) s.

(** [re.sub('[' + re.escape(chars) + ']', '', s)]: drop the listed
    characters. *)
Fixpoint remove_chars (cs : list ascii) (s : string) : string :=
  match s with
  | EmptyString => EmptyString
  | String c s' =>
      if mem_char c cs then remove_chars cs s' else String c (remove_chars cs s')
  end.

Definition is_digit (c : ascii) : bool :=
  let n := nat_of_ascii c in Nat.leb 48 n && Nat.leb n 57.

(** Digits with single underscores between them: [after_digit] tells
    whether the previous character was a digit. *)
Fixpoint digits_ok (after_digit : bool) (s : string) : bool :=
  match s with
  | EmptyString => after_digit
  | String c s' =>
      if is_digit c then digits_ok true s'
      else if Ascii.eqb c "_"%char then after_digit && digits_ok false s'
      else false
  end.

Fixpoint count_digits (s : string) : nat :=
  match s with
  | EmptyString => 0
  | String c s' => (if is_digit c then 1 else 0) + count_digits s'
  end.

(** The blanks [int] skips around a literal: those of [str.isspace] but
    for the four separators 28 to 31. *)
Definition is_int_space (c : ascii) : bool :=
  let n := nat_of_ascii c in
  (Nat.leb 9 n && Nat.leb n 13) || Nat.eqb n 32 || Nat.eqb n 133 || Nat.eqb n 160.

Definition int_strip (s : string) : string :=
  lstrip_by is_int_space (rstrip_by is_int_space s).

(** Whether [int(s)] returns (otherwise it raises [ValueError]): blanks
    around an optional sign and a decimal literal of at most 4300 digits,
    the default of [sys.int_max_str_digits]. *)
Definition int_parses (s : string) : bool :=
  match int_strip s with
  | String c s' =>
      (if Ascii.eqb c "+"%char || Ascii.eqb c "-"%char
       then digits_ok false s'
       else digits_ok false (String c s'))
      && Nat.leb (count_digits (String c s')) 4300
  | EmptyString => false
  end.

End PyStr.

(** ** Exceptions and the state-and-exception monad

    A computation runs from a state and ends either with a value or with a
    raised exception; in both cases the state reached is returned, because a
    Python exception does not undo the mutations made before it. *)

Inductive exn : Type :=
| ValueError (msg : string)
| AttributeError (msg : string).

Inductive result (A : Type) : Type :=
| Ok (a : A)
| Raise (e : exn).
Arguments Ok {A} a.
Arguments Raise {A} e.

Definition M (St A : Type) : Type := St -> result A * St.

Definition ret {St A} (a : A) : M St A := fun s => (Ok a, s).
Definition raise {St A} (e : exn) : M St A := fun s => (Raise e, s).
Definition bind {St A B} (m : M St A) (k : A -> M St B) : M St B :=
  fun s => match m s with
           | (Ok a, s') => k a s'
           | (Raise e, s') => (Raise e, s')
           end.
Definition get {St} : M St St := fun s => (Ok s, s).
Definition put {St} (s : St) : M St unit := fun _ => (Ok tt, s).
Definition modify {St} (f : St -> St) : M St unit := fun s => (Ok tt, f s).

Notation "'do' x <- m ; k" := (bind m (fun x => k))
  (at level 10, x name, m at level 100, k at level 200).
Notation "'do_' m ; k" := (bind m (fun _ => k))
  (at level 10, m at level 100, k at level 200).

(** [for x in xs: body x] *)
Fixpoint for_each {St A} (xs : list A) (body : A -> M St unit) : M St unit :=
  match xs with
  | [] => ret tt
  | x :: xs' => do_ body x; for_each xs' body
  end.

(** ** The document tree produced by the encoders (the part of
    [xml.dom.minidom] the sources use: elements, attributes set in order,
    CDATA and text children). *)

Inductive XmlNode : Type :=
| Element (tag : string) (attrs : list (string * option string)) (children : list XmlNode)
| CDATASection (data : string)
| TextNode (data : string).

(** [element.setAttribute(name, value)]: overwrite in place, else append.
    minidom stores the value it is given, [None] included. *)
Fixpoint set_attr (name : string) (value : option string)
    (attrs : list (string * option string)) : list (string * option string) :=
  match attrs with
  | [] => [(name, value)]
  | (n, v) :: rest =>
      if String.eqb n name then (n, value) :: rest
      else (n, v) :: set_attr name value rest
  end.

Definition setAttribute (name : string) (value : option string) (e : XmlNode) : XmlNode :=
  match e with
  | Element t attrs ch => Element t (set_attr name value attrs) ch
  | other => other
  end.

Definition appendChild (c : XmlNode) (e : XmlNode) : XmlNode :=
  match e with
  | Element t attrs ch => Element t attrs (ch ++ [c])
  | other => other
  end.

(** [element.getAttribute(name)]; the outer [None] is an absent attribute. *)
Definition getAttribute (name : string) (e : XmlNode) : option (option string) :=
  match e with
  | Element _ attrs _ =>
      snd <$> List.find (fun nv => String.eqb (fst nv) name) attrs
  | _ => None
  end.

Definition bool_to_l5x (my_bool : bool) : string :=
  if my_bool then "true" else "false".

(** ** base/pylogix_enum.py *)

Inductive LogixRadix := Decimal | ASCII | null_type | float.
Definition LogixRadix_value (r : LogixRadix) : string :=
  match r with
  | Decimal => "Decimal" | ASCII => "ASCII"
  | null_type => "NullType" | float => "Float"
  end.

Inductive LogixTagType := add_on_instruction | base | alias.

(** The values of [DescriptionPropertyIdentifier]. *)
Definition DescriptionPropertyIdentifier_values : list string :=
  ["N/A"; "@AOI"; "@CONTROLLER"; "@DATATYPE"; "@INFO"; "@MODULE"; "@PROGRAM";
   "@ROUTINE"; "@RUNG"; "@TAG"; "@TASK"; "@TODO"; "@UDT"].

(** [ExtendedEnum.from_string], returning the member's value. *)
Definition DescriptionPropertyIdentifier_from_string (s : string) : option string :=
  List.find (String.eqb s) DescriptionPropertyIdentifier_values.

(** ** base/pylogix_object.py *)

Record DescriptionProperties := {
  identifier : option string;
  type : option string;
  version : option string;
  dp_description : option string;
  editable : option bool
}.

Definition DescriptionProperties_default : DescriptionProperties :=
  {| identifier := None; type := None; version := None;
     dp_description := None; editable := None |}.

(** [DescriptionProperties.parse_from_property] *)
Definition parse_from_property (desc_props : list string) (property_to_find : string)
    : option string :=
  (fun prop => PyStr.strip (PyStr.replace prop property_to_find ""))
    <$> List.find (fun prop => PyStr.contains property_to_find prop) desc_props.

(** [DescriptionProperties.get_properties] *)
Definition get_properties (description_properties : list string) : DescriptionProperties :=
  match description_properties with
  | [] => DescriptionProperties_default
  | first :: _ =>
      {| identifier :=
           Some (match DescriptionPropertyIdentifier_from_string first with
                 | Some v => v
                 | None => ""
                 end);
         type := parse_from_property description_properties "@TYPE";
         version := parse_from_property description_properties "@VERSION";
         dp_description := parse_from_property description_properties "@DESC";
         editable :=
           Some (negb (existsb (String.eqb "@NOEDITS") description_properties)) |}
  end.

(** [PyLogixObject.property_list_from_string]: the recursion of the source,
    on a string that loses at least two characters per call; [fuel] bounds
    the number of calls.  The recursion limit of the interpreter, which a
    description of some thousand properties would hit, is left out. *)
Fixpoint property_list_from_string_rec (fuel : nat) (str : string)
    (properties : list string) (begin_char end_char : string) : list string :=
  match fuel with
  | O => properties
  | S fuel' =>
      if String.eqb str "" then properties
      else
        let find_begin := PyStr.find str begin_char 0 in
        if (find_begin =? -1)%Z then properties
        else
          let begin_anchor := (find_begin + PyStr.len begin_char)%Z in
          let find_end := PyStr.find str end_char begin_anchor in
          if (find_end =? -1)%Z then properties
          else
            let end_anchor := (begin_anchor + (find_end - PyStr.len end_char))%Z in
            let properties :=
              properties ++
              [PyStr.rstrip_chars
                 (PyStr.lstrip_chars (PyStr.slice str begin_anchor end_anchor) begin_char)
                 end_char] in
            property_list_from_string_rec fuel'
              (PyStr.lstrip (PyStr.slice_from str (begin_anchor + find_end)%Z))
              properties begin_char end_char
  end.

Definition property_list_from_string (str : option string) : list string :=
  match str with
  | None => []
  | Some s => property_list_from_string_rec (S (String.length s)) s [] "<" ">"
  end.

Record PyLogixObject := {
  _name : string;
  description : option string;
  description_properties : DescriptionProperties;
  _generator_properties : list string
}.

(** [PyLogixObject.__init__] *)
Definition PyLogixObject_init (name : string) (description : option string) : PyLogixObject :=
  {| _name := name; description := description;
     description_properties := DescriptionProperties_default;
     _generator_properties := [] |}.

(** The [name] property. *)
Definition name (self : PyLogixObject) : string := _name self.

Definition with_name (value : string) (self : PyLogixObject) : PyLogixObject :=
  {| _name := value; description := description self;
     description_properties := description_properties self;
     _generator_properties := _generator_properties self |}.

Definition with_description_properties (p : DescriptionProperties) (self : PyLogixObject)
    : PyLogixObject :=
  {| _name := _name self; description := description self;
     description_properties := p;
     _generator_properties := _generator_properties self |}.

Definition bad_vals : list string :=
  ["."; ","; "-"; "/"; "\"; "!"; "@"; "#"; "$"; "%"; "^"; "&"; "*"; "("; ")";
   "="; "+"; " "].

(** [PyLogixObject.__on_new_name__]; no class of the repository overrides it. *)
Definition __on_new_name__ (value : string) : bool := true.

(** The [name] setter. *)
Definition name_setter (value : string) : M PyLogixObject unit :=
  if existsb (fun x => PyStr.contains x value) bad_vals
  then raise (ValueError "illegal name set!")
  else if __on_new_name__ value then modify (with_name value)
  else ret tt.

(** [PyLogixObject.rebind] *)
Definition PyLogixObject_rebind (self : PyLogixObject) : PyLogixObject :=
  with_description_properties
    (get_properties (property_list_from_string (description self))) self.

(** [PyLogixObject.__eq__]: objects are equal when their names are. *)
Definition name_eqb (a b : string) : bool := String.eqb a b.

(** [int.__str__] *)
Definition int_to_str (z : Z) : string :=
  DecimalString.NilZero.string_of_int (Z.to_int z).

(** ** datatype/datatype.py *)

Module DataTypeMember.

(** A [bit_number]: [int | str]; the decoder passes the attribute string. *)
Inductive BitNumber : Type :=
| BitInt (n : Z)
| BitStr (s : string).

(** The member record, over the type of the datatype object it points to
    once rebound. *)
Record t (DataType : Type) := Build {
  super : PyLogixObject;
  datatype : option DataType;
  datatype_meta_name : option string;
  dimensions : Z;
  radix : option LogixRadix;
  hidden : bool;
  external_access : string;
  target : option string;
  bit_number : option BitNumber
}.
Arguments Build {DataType}.
Arguments super {DataType}.
Arguments datatype {DataType}.
Arguments datatype_meta_name {DataType}.
Arguments dimensions {DataType}.
Arguments radix {DataType}.
Arguments hidden {DataType}.
Arguments external_access {DataType}.
Arguments target {DataType}.
Arguments bit_number {DataType}.

(** [DataTypeMember.__init__]: a declared [BIT] is stored as [BOOL]. *)
Definition __init__ {DataType} (name : string) (description : option string)
    (datatype_meta_name : option string) (dimensions : Z)
    (radix : option LogixRadix) (hidden : bool) (target : option string)
    (bit_number : option BitNumber) : t DataType :=
  {| super := PyLogixObject_init name description;
     datatype := None;
     datatype_meta_name :=
       match datatype_meta_name with
       | Some s => if String.eqb s "BIT" then Some "BOOL" else Some s
       | None => None
       end;
     dimensions := dimensions;
     radix := radix;
     hidden := hidden;
     external_access := "Read/Write";
     target := target;
     bit_number := bit_number |}.

(** Python truthiness of [str | None]. *)
Definition truthy (s : option string) : bool :=
  match s with
  | Some s => negb (String.eqb s "")
  | None => false
  end.

(** Python truthiness of a [bit_number], and its [__str__]. *)
Definition bit_number_truthy (b : option BitNumber) : bool :=
  match b with
  | Some (BitInt n) => negb (n =? 0)%Z
  | Some (BitStr s) => negb (String.eqb s "")
  | None => false
  end.

Definition bit_number_str (b : BitNumber) : string :=
  match b with
  | BitInt n => int_to_str n
  | BitStr s => s
  end.

(** The value written to the [DataType] attribute. *)
Definition emitted_datatype {DataType} (self : t DataType) : option string :=
  match datatype_meta_name self with
  | Some s =>
      if negb (String.eqb s "BOOL") then Some s
      else if (dimensions self =? 0)%Z then Some "BIT" else Some "BOOL"
  | None => None
  end.

(** [DataTypeMember.to_l5x_xml_node] *)
Definition to_l5x_xml_node {DataType} (self : t DataType) : XmlNode :=
  let member_root := Element "Member" [] [] in
  let member_root := setAttribute "Name" (Some (name (super self))) member_root in
  let member_root := setAttribute "DataType" (emitted_datatype self) member_root in
  let member_root :=
    setAttribute "Dimension" (Some (int_to_str (dimensions self))) member_root in
  let member_root :=
    match radix self with
    | Some r => setAttribute "Radix" (Some (LogixRadix_value r)) member_root
    | None => member_root
    end in
  let member_root :=
    setAttribute "Hidden" (Some (bool_to_l5x (hidden self))) member_root in
  let member_root :=
    if truthy (target self) then setAttribute "Target" (target self) member_root
    else member_root in
  let member_root :=
    if bit_number_truthy (bit_number self)
    then setAttribute "BitNumber" (bit_number_str <$> bit_number self) member_root
    else member_root in
  let member_root :=
    setAttribute "ExternalAccess" (Some (external_access self)) member_root in
  match description (super self) with
  | Some d =>
      if negb (String.eqb d "")
      then appendChild (Element "Description" [] [CDATASection d; TextNode ""]) member_root
      else member_root
  | None => member_root
  end.

End DataTypeMember.

Module DataType.

(** The attributes [family] and [datatype_class] are read by the encoder
    only and are not carried. *)
Inductive t : Type := Build {
  super : PyLogixObject;
  is_atomic : bool;
  is_base_logix_instruction : bool;
  members : list (DataTypeMember.t t)
}.

(** [DataType.__init__]: no members yet. *)
Definition __init__ (name : string) (description : option string)
    (is_atomic is_base_logix_instruction : bool) : t :=
  {| super := PyLogixObject_init name description;
     is_atomic := is_atomic;
     is_base_logix_instruction := is_base_logix_instruction;
     members := [] |}.

Definition key (d : t) : string := name (super d).

End DataType.

Abbreviation DataTypeMember_t := (DataTypeMember.t DataType.t).

(** ** tag/tag.py, rung/rung.py, routine/routine.py, program/program.py,
       task/task.py, add_on_instruction/add_on_instruction.py, module/module.py:
       the entity records.

    Only the attributes read or written by the closure, rebind and merge
    operations are carried; a tag's decorated value tree and the encoder-only
    attributes are left out. *)

Module Tag.
Record t := Build {
  super : PyLogixObject;
  tag_type : option LogixTagType;
  datatype : option DataType.t;
  datatype_meta_name : option string;
  alias_for : option string
}.
Definition key (x : t) : string := name (super x).
End Tag.

(** A reference to a [Tag] object: its index in the heap. *)
Abbreviation TagRef := nat.
Abbreviation Heap := (list Tag.t).

Definition Tag_null : Tag.t :=
  {| Tag.super := PyLogixObject_init "" None; Tag.tag_type := None;
     Tag.datatype := None; Tag.datatype_meta_name := None; Tag.alias_for := None |}.

Definition deref (h : Heap) (r : TagRef) : Tag.t := default Tag_null (h !! r).

Module AddOnInstructionTag.
Record t := Build {
  super : PyLogixObject;
  datatype : option DataType.t
}.
End AddOnInstructionTag.

Module AddOnInstructionParameter.
Record t := Build {
  super : PyLogixObject;
  datatype : option DataType.t
}.
End AddOnInstructionParameter.

Module AddOnInstructionDefinition.
Record t := Build {
  super : PyLogixObject;
  parameters : list AddOnInstructionParameter.t;
  tags : list AddOnInstructionTag.t
}.
Definition key (x : t) : string := name (super x).
End AddOnInstructionDefinition.

Module Rung.
Record t := Build {
  super : PyLogixObject;
  number : option Z;
  text : option string;
  tags : list TagRef;
  program_tags : list TagRef;
  add_on_instructions : list AddOnInstructionDefinition.t;
  comment : option string
}.
End Rung.

Module Routine.
Record t := Build {
  super : PyLogixObject;
  rungs : list Rung.t
}.
Definition key (x : t) : string := name (super x).
End Routine.

Module Program.
Record t := Build {
  super : PyLogixObject;
  main_routine_name : option string;
  tags : list TagRef;
  routines : list Routine.t
}.
Definition key (x : t) : string := name (super x).
End Program.

Module Task.
Record t := Build {
  super : PyLogixObject;
  scheduled_meta_programs : list string;
  scheduled_programs : list Program.t
}.
Definition key (x : t) : string := name (super x).
End Task.

Module Module_.
Record t := Build { super : PyLogixObject }.
Definition key (x : t) : string := name (super x).
End Module_.

(** ** base/pylogix_dependencies.py *)

(** [item in my_list] for a list of [PyLogixObject]s: [__eq__] compares names. *)
Definition in_by {A} (key : A -> string) (item : A) (my_list : list A) : bool :=
  existsb (fun x => name_eqb (key x) (key item)) my_list.

Module PyLogixDependencies.

Record t := Build {
  add_on_instructions : list AddOnInstructionDefinition.t;
  datatypes : list DataType.t;
  modules : list Module_.t;
  programs : list Program.t;
  tags : list TagRef;
  program_tags : list TagRef;
  tasks : list Task.t
}.

(** [PyLogixDependencies.__init__] *)
Definition __init__ : t :=
  {| add_on_instructions := []; datatypes := []; modules := []; programs := [];
     tags := []; program_tags := []; tasks := [] |}.

(** [safe_add_item(my_list, item)] *)
Definition safe_add_item {A} (key : A -> string) (my_list : list A) (item : A) : list A :=
  if in_by key item my_list then my_list else my_list ++ [item].

(** [__safe_add__(list1, list2)] *)
Definition __safe_add__ {A} (key : A -> string) (list1 list2 : list A) : list A :=
  fold_left (safe_add_item key) list2 list1.

Section WithHeap.
Variable h : Heap.

(** The name of the tag object behind a reference. *)
Definition tag_key (r : TagRef) : string := Tag.key (deref h r).

(** [self.extend(other)] *)
Definition extend (self other : t) : t :=
  {| add_on_instructions :=
       __safe_add__ AddOnInstructionDefinition.key
         (add_on_instructions self) (add_on_instructions other);
     datatypes := __safe_add__ DataType.key (datatypes self) (datatypes other);
     modules := __safe_add__ Module_.key (modules self) (modules other);
     programs := __safe_add__ Program.key (programs self) (programs other);
     tags := __safe_add__ tag_key (tags self) (tags other);
     program_tags := __safe_add__ tag_key (program_tags self) (program_tags other);
     tasks := __safe_add__ Task.key (tasks self) (tasks other) |}.
End WithHeap.

Definition with_datatypes (l : list DataType.t) (d : t) : t :=
  {| add_on_instructions := add_on_instructions d; datatypes := l;
     modules := modules d; programs := programs d; tags := tags d;
     program_tags := program_tags d; tasks := tasks d |}.
Definition with_add_on_instructions (l : list AddOnInstructionDefinition.t) (d : t) : t :=
  {| add_on_instructions := l; datatypes := datatypes d;
     modules := modules d; programs := programs d; tags := tags d;
     program_tags := program_tags d; tasks := tasks d |}.
Definition with_programs (l : list Program.t) (d : t) : t :=
  {| add_on_instructions := add_on_instructions d; datatypes := datatypes d;
     modules := modules d; programs := l; tags := tags d;
     program_tags := program_tags d; tasks := tasks d |}.
Definition with_tags (l : list TagRef) (d : t) : t :=
  {| add_on_instructions := add_on_instructions d; datatypes := datatypes d;
     modules := modules d; programs := programs d; tags := l;
     program_tags := program_tags d; tasks := tasks d |}.
Definition with_program_tags (l : list TagRef) (d : t) : t :=
  {| add_on_instructions := add_on_instructions d; datatypes := datatypes d;
     modules := modules d; programs := programs d; tags := tags d;
     program_tags := l; tasks := tasks d |}.
Definition with_tasks (l : list Task.t) (d : t) : t :=
  {| add_on_instructions := add_on_instructions d; datatypes := datatypes d;
     modules := modules d; programs := programs d; tags := tags d;
     program_tags := program_tags d; tasks := l |}.

End PyLogixDependencies.

Import PyLogixDependencies.

(** ** The [get_dependencies] methods *)

(** The guard of the member loops: a bound, non-atomic, non-base datatype. *)
Definition is_dependency (d : DataType.t) : bool :=
  negb (DataType.is_atomic d) && negb (DataType.is_base_logix_instruction d).

Section Closure.
Variable h : Heap.

(** [DataType.get_dependencies].  The comprehension that filters the
    members is fused with the loop over its result. *)
Fixpoint DataType_get_dependencies (self : DataType.t) (include_root : bool)
    {struct self} : PyLogixDependencies.t :=
  let dependencies := PyLogixDependencies.__init__ in
  if DataType.is_atomic self || DataType.is_base_logix_instruction self
  then dependencies
  else
    let dependencies :=
      if include_root
      then with_datatypes
             (safe_add_item DataType.key (datatypes dependencies) self) dependencies
      else dependencies in
    (fix loop (mems : list DataTypeMember_t) (dependencies : PyLogixDependencies.t)
       {struct mems} : PyLogixDependencies.t :=
       match mems with
       | [] => dependencies
       | member :: rest =>
           match DataTypeMember.datatype member with
           | Some d =>
               if is_dependency d
               then
                 let dependencies :=
                   if negb (in_by DataType.key d (datatypes dependencies))
                   then with_datatypes (datatypes dependencies ++ [d]) dependencies
                   else dependencies in
                 loop rest
                   (extend h dependencies (DataType_get_dependencies d false))
               else loop rest dependencies
           | None => loop rest dependencies
           end
       end) (DataType.members self) dependencies.

(** [Tag.get_dependencies], on the tag object behind [self]. *)
Definition Tag_get_dependencies (self : TagRef) (include_root : bool)
    : PyLogixDependencies.t :=
  let dependencies := PyLogixDependencies.__init__ in
  let dependencies :=
    if include_root
    then with_tags (safe_add_item (tag_key h) (tags dependencies) self) dependencies
    else dependencies in
  match Tag.datatype (deref h self) with
  | Some d => extend h dependencies (DataType_get_dependencies d true)
  | None => dependencies
  end.

(** The datatype closures added for the tags of a rung. *)
Definition extend_with_tag_datatypes (refs : list TagRef)
    (dependencies : PyLogixDependencies.t) : PyLogixDependencies.t :=
  fold_left
    (fun deps r =>
       match Tag.datatype (deref h r) with
       | Some d =>
           if is_dependency d
           then extend h deps (DataType_get_dependencies d true)
           else deps
       | None => deps
       end) refs dependencies.

(** [Rung.get_dependencies] *)
Definition Rung_get_dependencies (self : Rung.t) : PyLogixDependencies.t :=
  let dependencies := PyLogixDependencies.__init__ in
  let dependencies :=
    with_tags (fold_left (safe_add_item (tag_key h)) (Rung.tags self)
                 (tags dependencies)) dependencies in
  let dependencies :=
    with_program_tags
      (fold_left (safe_add_item (tag_key h)) (Rung.program_tags self)
         (program_tags dependencies)) dependencies in
  let dependencies :=
    with_add_on_instructions
      (fold_left (safe_add_item AddOnInstructionDefinition.key)
         (Rung.add_on_instructions self) (add_on_instructions dependencies))
      dependencies in
  let dependencies := extend_with_tag_datatypes (Rung.tags self) dependencies in
  extend_with_tag_datatypes (Rung.program_tags self) dependencies.

(** [Routine.get_dependencies] *)
Definition Routine_get_dependencies (self : Routine.t) : PyLogixDependencies.t :=
  fold_left (fun deps rung => extend h deps (Rung_get_dependencies rung))
    (Routine.rungs self) PyLogixDependencies.__init__.

(** [Program.get_dependencies] *)
Definition Program_get_dependencies (self : Program.t) (include_root : bool)
    : PyLogixDependencies.t :=
  let dependencies := PyLogixDependencies.__init__ in
  let dependencies :=
    if include_root
    then with_programs (safe_add_item Program.key (programs dependencies) self)
           dependencies
    else dependencies in
  let dependencies :=
    fold_left (fun deps routine => extend h deps (Routine_get_dependencies routine))
      (Program.routines self) dependencies in
  fold_left (fun deps tag => extend h deps (Tag_get_dependencies tag false))
    (Program.tags self) dependencies.

(** [Task.get_dependencies] *)
Definition Task_get_dependencies (self : Task.t) (include_root : bool)
    : PyLogixDependencies.t :=
  let dependencies := PyLogixDependencies.__init__ in
  if include_root then with_tasks (tasks dependencies ++ [self]) dependencies
  else dependencies.

(** [AddOnInstructionTag.get_dependencies] *)
Definition AddOnInstructionTag_get_dependencies (self : AddOnInstructionTag.t)
    (include_root : bool) : result PyLogixDependencies.t :=
  match AddOnInstructionTag.datatype self with
  | None =>
      Raise (ValueError ("no datatype associated with add-on instruction tag: "
                         +:+ name (AddOnInstructionTag.super self)))
  | Some d => Ok (DataType_get_dependencies d include_root)
  end.

(** [AddOnInstructionParameter.get_dependencies] *)
Definition AddOnInstructionParameter_get_dependencies
    (self : AddOnInstructionParameter.t) (include_root : bool)
    : result PyLogixDependencies.t :=
  match AddOnInstructionParameter.datatype self with
  | None =>
      Raise (ValueError ("no datatype associated with add-on instruction parameter: "
                         +:+ name (AddOnInstructionParameter.super self)))
  | Some d => Ok (DataType_get_dependencies d include_root)
  end.

(** [for x in xs: dependencies.extend(f x)], where [f] may raise. *)
Fixpoint extend_each {A} (f : A -> result PyLogixDependencies.t) (xs : list A)
    (dependencies : PyLogixDependencies.t) : result PyLogixDependencies.t :=
  match xs with
  | [] => Ok dependencies
  | x :: rest =>
      match f x with
      | Ok d => extend_each f rest (extend h dependencies d)
      | Raise e => Raise e
      end
  end.

(** [AddOnInstructionDefinition.get_dependencies] *)
Definition AddOnInstructionDefinition_get_dependencies
    (self : AddOnInstructionDefinition.t) (include_root : bool)
    : result PyLogixDependencies.t :=
  let dependencies := PyLogixDependencies.__init__ in
  let dependencies :=
    if include_root
    then with_add_on_instructions
           (safe_add_item AddOnInstructionDefinition.key
              (add_on_instructions dependencies) self) dependencies
    else dependencies in
  match extend_each (fun tag => AddOnInstructionTag_get_dependencies tag include_root)
          (AddOnInstructionDefinition.tags self) dependencies with
  | Ok dependencies =>
      extend_each
        (fun param => AddOnInstructionParameter_get_dependencies param include_root)
        (AddOnInstructionDefinition.parameters self) dependencies
  | Raise e => Raise e
  end.

(** Every object with a [get_dependencies] of its own. *)
Inductive Entity : Type :=
| EDataType (d : DataType.t)
| ETag (r : TagRef)
| EAddOnInstructionTag (x : AddOnInstructionTag.t)
| EAddOnInstructionParameter (x : AddOnInstructionParameter.t)
| EAddOnInstructionDefinition (x : AddOnInstructionDefinition.t)
| ERung (x : Rung.t)
| ERoutine (x : Routine.t)
| EProgram (x : Program.t)
| ETask (x : Task.t).

(** [x.get_dependencies(include_root)], dispatched on the class of [x]. *)
Definition get_dependencies (x : Entity) (include_root : bool)
    : result PyLogixDependencies.t :=
  match x with
  | EDataType d => Ok (DataType_get_dependencies d include_root)
  | ETag r => Ok (Tag_get_dependencies r include_root)
  | EAddOnInstructionTag x => AddOnInstructionTag_get_dependencies x include_root
  | EAddOnInstructionParameter x => AddOnInstructionParameter_get_dependencies x include_root
  | EAddOnInstructionDefinition x => AddOnInstructionDefinition_get_dependencies x include_root
  | ERung x => Ok (Rung_get_dependencies x)
  | ERoutine x => Ok (Routine_get_dependencies x)
  | EProgram x => Ok (Program_get_dependencies x include_root)
  | ETask x => Ok (Task_get_dependencies x include_root)
  end.

End Closure.

(** ** base/pylogix_dependencies.py: [sort]

    [sorted(l, key=lambda x: x.name.lower())] is a stable sort that
    compares the keys as strings, code point by code point.  The result of
    a stable sort does not depend on the algorithm; it is computed here by
    insertion, an object going in front of the objects of the same key that
    came after it. *)

(** [str.lower] on the code points below 256. *)
Definition lower_char (c : ascii) : ascii :=
  let n := nat_of_ascii c in
  if (Nat.leb 65 n && Nat.leb n 90)
     || (Nat.leb 192 n && Nat.leb n 222 && negb (Nat.eqb n 215))
  then ascii_of_nat (n + 32)
  else c.

Fixpoint lower (s : string) : string :=
  match s with
  | EmptyString => EmptyString
  | String c s' => String (lower_char c) (lower s')
  end.

Fixpoint insert_sorted {A} (key : A -> string) (x : A) (l : list A) : list A :=
  match l with
  | [] => [x]
  | y :: l' =>
      if String.ltb (key y) (key x) then y :: insert_sorted key x l'
      else x :: y :: l'
  end.

Fixpoint sorted {A} (key : A -> string) (l : list A) : list A :=
  match l with
  | [] => []
  | x :: l' => insert_sorted key x (sorted key l')
  end.

(** [PyLogixDependencies.sort]: every bucket but [program_tags]. *)
Definition PyLogixDependencies_sort (h : Heap) (self : PyLogixDependencies.t)
    : PyLogixDependencies.t :=
  {| add_on_instructions :=
       sorted (fun x => lower (AddOnInstructionDefinition.key x)) (add_on_instructions self);
     datatypes := sorted (fun x => lower (DataType.key x)) (datatypes self);
     modules := sorted (fun x => lower (Module_.key x)) (modules self);
     programs := sorted (fun x => lower (Program.key x)) (programs self);
     tags := sorted (fun x => lower (tag_key h x)) (tags self);
     program_tags := program_tags self;
     tasks := sorted (fun x => lower (Task.key x)) (tasks self) |}.

(** [l'] holds the objects of [l], in ascending order of their keys, the
    objects of one key in the order they have in [l]. *)
Definition stably_sorted {A} (key : A -> string) (l l' : list A) : Prop :=
  Permutation l l'
  /\ StronglySorted (fun x y => String.leb (key x) (key y) = true) l'
  /\ forall k, List.filter (fun x => String.eqb (key x) k) l'
               = List.filter (fun x => String.eqb (key x) k) l.

(** ** instruction/instruction.py *)

Module Instruction.

Record t := Build {
  mnemonic : string;
  src_a : string;
  src_b : option string;
  dest : option string
}.

(** The local [src_text] of [to_neutral_text] when it returns. *)
Definition src_text (self : t) : string :=
  let src_text := src_a self in
  let src_text :=
    match src_b self with
    | Some b => if negb (String.eqb b "") then src_text +:+ "," +:+ b else src_text
    | None => src_text
    end in
  match dest self with
  | Some d => if negb (String.eqb d "") then src_text +:+ "," +:+ d else src_text
  | None => src_text
  end.

(** [Instruction.to_neutral_text] *)
Definition to_neutral_text (self : t) : string :=
  mnemonic self +:+ "(" +:+ src_text self +:+ ")".

End Instruction.

(** ** rung/rung.py: the rung text miner *)

(** [list(set(xs))]: the distinct elements.  Python leaves the order of a
    set unspecified; the first occurrences are kept here, and the results
    are only ever compared as sets. *)
Fixpoint list_of_set (xs : list string) : list string :=
  match xs with
  | [] => []
  | x :: rest => x :: List.filter (fun y => negb (String.eqb x y)) (list_of_set rest)
  end.

(** The double quote character. *)
Definition dquote : ascii := ascii_of_nat 34.

Definition head_or_empty (l : list string) : string :=
  match l with
  | x :: _ => x
  | [] => ""
  end.

(** [Rung.__get_tag_metas__] *)
Definition __get_tag_metas__ (text : option string) : list string :=
  match text with
  | None => []
  | Some text =>
      if String.eqb text "" then []
      else
        let iter_instructions :=
          concat
            (List.map
               (fun instr => PyStr.split "," (PyStr.slice_from instr (PyStr.find instr "(" 0 + 1)))
               (List.filter (fun instr => PyStr.contains "(" instr) (PyStr.split ")" text))) in
        let upper_tags_pre :=
          list_of_set (List.map (fun tag => head_or_empty (PyStr.split "." tag)) iter_instructions) in
        let illegal_chars := [","%char; dquote; "'"%char; "?"%char; ":"%char] in
        fold_left
          (fun upper_tags tag =>
             if String.eqb tag "" then upper_tags
             else if existsb (fun x => PyStr.contains (String x EmptyString) tag) illegal_chars
             then upper_tags
             else if PyStr.int_parses tag then upper_tags
             else
               let bracket_char := PyStr.find tag "[" 0 in
               let tag :=
                 if negb (bracket_char =? -1)%Z then PyStr.slice_to tag bracket_char
                 else tag in
               upper_tags ++ [tag])
          upper_tags_pre []
  end.

(** [Rung.__get_instruction_metas__] *)
Definition __get_instruction_metas__ (text : option string) : list string :=
  match text with
  | None => []
  | Some text =>
      if String.eqb text "" then []
      else
        let illegal_chars :=
          [","%char; dquote; "'"%char; "?"%char; ":"%char; "["%char; "]"%char] in
        let output_instructions :=
          List.map
            (fun instruction =>
               let inst := PyStr.slice_to instruction (PyStr.find instruction "(" 0) in
               PyStr.strip (PyStr.remove_chars illegal_chars inst))
            (PyStr.split ")" text) in
        list_of_set output_instructions
  end.

(** ** [difflib.SequenceMatcher(None, a, b).ratio()] of the Python standard
    library, which [Program.__push_routine__] calls: no junk predicate,
    [autojunk] on. *)

Module difflib.

Definition count_of (c : ascii) (b : list ascii) : nat :=
  length (List.filter (Ascii.eqb c) b).

(** [__chain_b]: in a sequence of 200 elements or more, an element that
    occurs more than [n // 100 + 1] times is popular and leaves [b2j]. *)
Definition popular (b : list ascii) (c : ascii) : bool :=
  let n := length b in
  Nat.leb 200 n && Nat.ltb (n / 100 + 1) (count_of c b).

Definition Match : Type := nat * nat * nat.

(** One pass of the inner loop of [find_longest_match] for [a[i]]: the
    new [j2len] as a dense row over the positions of [b], and the best
    match so far.  [prev] is the old [j2len[j-1]]. *)
Fixpoint row (pop : ascii -> bool) (ai : ascii) (i blo bhi : nat)
    (b : list ascii) (j prev : nat) (j2len : list nat) (best : Match)
    : list nat * Match :=
  match b, j2len with
  | bj :: b', old :: j2len' =>
      let k :=
        if Nat.leb blo j && Nat.ltb j bhi && Ascii.eqb ai bj && negb (pop bj)
        then S prev else 0 in
      let best :=
        if Nat.ltb (snd best) k then (i + 1 - k, j + 1 - k, k) else best in
      let '(newj2len, best) := row pop ai i blo bhi b' (S j) old j2len' best in
      (k :: newj2len, best)
  | _, _ => ([], best)
  end.

(** The outer loop, [for i in range(alo, ahi)]. *)
Fixpoint rows (pop : ascii -> bool) (a b : list ascii) (i alo ahi blo bhi : nat)
    (j2len : list nat) (best : Match) : Match :=
  match a with
  | [] => best
  | ai :: a' =>
      if Nat.leb alo i && Nat.ltb i ahi
      then
        let '(newj2len, best) := row pop ai i blo bhi b 0 0 j2len best in
        rows pop a' b (S i) alo ahi blo bhi newj2len best
      else rows pop a' b (S i) alo ahi blo bhi j2len best
  end.

Definition same_at (a b : list ascii) (i j : nat) : bool :=
  match a !! i, b !! j with
  | Some x, Some y => Ascii.eqb x y
  | _, _ => false
  end.

(** The first [while]: extend the match to the left. *)
Fixpoint extend_left (fuel : nat) (a b : list ascii) (alo blo : nat) (m : Match) : Match :=
  match fuel with
  | O => m
  | S fuel' =>
      let '(besti, bestj, bestsize) := m in
      if Nat.ltb alo besti && Nat.ltb blo bestj && same_at a b (besti - 1) (bestj - 1)
      then extend_left fuel' a b alo blo (besti - 1, bestj - 1, bestsize + 1)
      else m
  end.

(** The second [while]: extend the match to the right. *)
Fixpoint extend_right (fuel : nat) (a b : list ascii) (ahi bhi : nat) (m : Match) : Match :=
  match fuel with
  | O => m
  | S fuel' =>
      let '(besti, bestj, bestsize) := m in
      if Nat.ltb (besti + bestsize) ahi && Nat.ltb (bestj + bestsize) bhi
         && same_at a b (besti + bestsize) (bestj + bestsize)
      then extend_right fuel' a b ahi bhi (besti, bestj, bestsize + 1)
      else m
  end.

(** [find_longest_match(alo, ahi, blo, bhi)].  With no junk predicate the
    set of junk elements is empty, so the last two [while] loops, which
    only extend over junk, never run. *)
Definition find_longest_match (a b : list ascii) (alo ahi blo bhi : nat) : Match :=
  let m := rows (popular b) a b 0 alo ahi blo bhi (repeat 0 (length b)) (alo, blo, 0) in
  let m := extend_left (length a) a b alo blo m in
  extend_right (length a) a b ahi bhi m.

(** The sum of the sizes of the blocks [get_matching_blocks] collects
    (merging adjacent blocks does not change the sum).  Every nested call
    works on a strictly shorter stretch of [a]. *)
Fixpoint matches (fuel : nat) (a b : list ascii) (alo ahi blo bhi : nat) : nat :=
  match fuel with
  | O => 0
  | S fuel' =>
      let '(i, j, k) := find_longest_match a b alo ahi blo bhi in
      if Nat.eqb k 0 then 0
      else
        k
        + (if Nat.ltb alo i && Nat.ltb blo j then matches fuel' a b alo i blo j else 0)
        + (if Nat.ltb (i + k) ahi && Nat.ltb (j + k) bhi
           then matches fuel' a b (i + k) ahi (j + k) bhi else 0)
  end.

(** [ratio()]: [2.0 * matches / length], and [1.0] for two empty
    sequences.  The float is carried as the exact rational. *)
Definition ratio (a b : string) : Q :=
  let la := list_ascii_of_string a in
  let lb := list_ascii_of_string b in
  let length := (length la + length lb)%nat in
  if Nat.eqb length 0 then Qmake 1 1
  else
    Qmake (Z.of_nat (2 * matches (S (List.length la)) la lb 0 (List.length la) 0 (List.length lb)))
          (Pos.of_nat length).

End difflib.

(** ** base/pylogix_list.py: the list operations, which go by name

    Every list of the sources holds objects of its own class, so the type
    test of [append] and [remove] always passes. *)

Module PylogixList.
Section Ops.
Context {A : Type} (key : A -> string).

(** [list.remove(x)]: drop the first element equal to [x]. *)
Fixpoint list_remove (x : A) (l : list A) : list A :=
  match l with
  | [] => []
  | y :: rest =>
      if name_eqb (key y) (key x) then rest else y :: list_remove x rest
  end.

(** [PylogixList.append] *)
Definition append (self : list A) (__object : A) (__overwrite : bool) : list A :=
  if in_by key __object self && __overwrite
  then list_remove __object self ++ [__object]
  else if negb (in_by key __object self) then self ++ [__object]
  else self.

(** [PylogixList.by_name] *)
Definition by_name (self : list A) (name : string) : option A :=
  List.find (fun item => String.eqb (key item) name) self.

(** [PylogixList.extend] *)
Definition extend (self __iterable : list A) (__overwrite : bool) : list A :=
  fold_left (fun self x => append self x __overwrite) __iterable self.

(** [PylogixList.remove] *)
Definition remove (self : list A) (__object : A) : list A :=
  if in_by key __object self then list_remove __object self else self.
End Ops.
End PylogixList.

(** ** The rebind pass *)

Definition Tag_with_super (b : PyLogixObject) (x : Tag.t) : Tag.t :=
  {| Tag.super := b; Tag.tag_type := Tag.tag_type x; Tag.datatype := Tag.datatype x;
     Tag.datatype_meta_name := Tag.datatype_meta_name x; Tag.alias_for := Tag.alias_for x |}.

Definition Tag_with_datatype (d : option DataType.t) (m : option string) (x : Tag.t) : Tag.t :=
  {| Tag.super := Tag.super x; Tag.tag_type := Tag.tag_type x; Tag.datatype := d;
     Tag.datatype_meta_name := m; Tag.alias_for := Tag.alias_for x |}.

(** [self.alias_for and self.alias_for != ''] *)
Definition is_alias (x : Tag.t) : bool := DataTypeMember.truthy (Tag.alias_for x).

(** [Tag.rebind], as a function of the tag object and of the heap it reads
    its alias target from; [tags] is [kwargs['tags']], absent when [None]
    (the [KeyError] is caught by the method). *)
Definition Tag_rebind_object (tags : option (list TagRef)) (h : Heap) (x : Tag.t) : Tag.t :=
  let x := Tag_with_super (PyLogixObject_rebind (Tag.super x)) x in
  match Tag.alias_for x with
  | Some target =>
      if negb (String.eqb target "")
      then
        match tags with
        | Some tags =>
            match PylogixList.by_name (tag_key h) tags target with
            | Some alias_tag =>
                Tag_with_datatype (Tag.datatype (deref h alias_tag))
                  (Tag.datatype_meta_name (deref h alias_tag)) x
            | None => x
            end
        | None => x
        end
      else x
  | None => x
  end.

(** [tag.rebind] on the object behind a reference: the heap is
    updated in place. *)
Definition Tag_rebind (tags : option (list TagRef)) (self : TagRef) (h : Heap) : Heap :=
  <[self := Tag_rebind_object tags h (deref h self)]> h.

(** [TagList.rebind] (inherited from [PylogixList]): one tag after the
    other, each seeing the updates of the ones before it. *)
Definition TagList_rebind (tags : option (list TagRef)) (self : list TagRef) (h : Heap) : Heap :=
  fold_left (fun h x => Tag_rebind tags x h) self h.

(** [DataTypeMember.rebind]; [by_name] is the [by_name] of
    [kwargs['datatypes']], and the pointer it yields is the one stored. *)
Definition DataTypeMember_rebind_by {D} (by_name : string -> option D)
    (self : DataTypeMember.t D) : DataTypeMember.t D :=
  match DataTypeMember.datatype self with
  | Some _ => self
  | None =>
      {| DataTypeMember.super := DataTypeMember.super self;
         DataTypeMember.datatype :=
           match DataTypeMember.datatype_meta_name self with
           | Some n => by_name n
           | None => None
           end;
         DataTypeMember.datatype_meta_name := DataTypeMember.datatype_meta_name self;
         DataTypeMember.dimensions := DataTypeMember.dimensions self;
         DataTypeMember.radix := DataTypeMember.radix self;
         DataTypeMember.hidden := DataTypeMember.hidden self;
         DataTypeMember.external_access := DataTypeMember.external_access self;
         DataTypeMember.target := DataTypeMember.target self;
         DataTypeMember.bit_number := DataTypeMember.bit_number self |}
  end.

(** [DataTypeMember.rebind], with a list of datatypes as [kwargs['datatypes']]. *)
Definition DataTypeMember_rebind (datatypes : list DataType.t) (self : DataTypeMember_t)
    : DataTypeMember_t :=
  DataTypeMember_rebind_by (PylogixList.by_name DataType.key datatypes) self.

Definition Rung_with (b : PyLogixObject) (text : option string) (tags : list TagRef)
    (x : Rung.t) : Rung.t :=
  {| Rung.super := b; Rung.number := Rung.number x; Rung.text := text;
     Rung.tags := tags; Rung.program_tags := Rung.program_tags x;
     Rung.add_on_instructions := Rung.add_on_instructions x;
     Rung.comment := Rung.comment x |}.

(** [Rung.rebind].  The first loop of the method only rebinds its loop
    variable to a fresh copy and changes nothing; the second appends the
    controller tag behind every aliasing program tag. *)
Definition Rung_rebind (h : Heap) (tags : option (list TagRef)) (self : Rung.t) : Rung.t :=
  let b := PyLogixObject_rebind (Rung.super self) in
  match tags with
  | None => Rung_with b (Rung.text self) (Rung.tags self) self
  | Some ctrl_tags =>
      let aliasing := List.filter (fun t => is_alias (deref h t)) (Rung.program_tags self) in
      let new_tags :=
        fold_left
          (fun self_tags tag =>
             match Tag.alias_for (deref h tag) with
             | Some target =>
                 match PylogixList.by_name (tag_key h) ctrl_tags target with
                 | Some ctrl_tag => PylogixList.append (tag_key h) self_tags ctrl_tag false
                 | None => self_tags
                 end
             | None => self_tags
             end)
          aliasing (Rung.tags self) in
      Rung_with b (Rung.text self) new_tags self
  end.

(** [Routine.rebind] *)
Definition Routine_rebind (h : Heap) (tags : option (list TagRef)) (self : Routine.t)
    : Routine.t :=
  {| Routine.super := PyLogixObject_rebind (Routine.super self);
     Routine.rungs := List.map (Rung_rebind h tags) (Routine.rungs self) |}.

(** The [@GENERATOR] property list of a driver routine: that of the first
    rung whose comment has one, else the empty list. *)
Definition generator_properties_of (driver : Routine.t) : list string :=
  match List.find
          (fun rung =>
             existsb (String.eqb "@GENERATOR") (property_list_from_string (Rung.comment rung)))
          (Routine.rungs driver) with
  | Some rung => property_list_from_string (Rung.comment rung)
  | None => []
  end.

(** [Program.rebind]: the program's own description properties, its
    routines, its tags, and the generator properties read from its driver
    routines (the last driver wins; without a driver the list stays),
    stripped in place. *)
Definition Program_rebind (tags : option (list TagRef)) (self : Program.t) (h : Heap)
    : Program.t * Heap :=
  let b := PyLogixObject_rebind (Program.super self) in
  let routines := List.map (Routine_rebind h tags) (Program.routines self) in
  let h := TagList_rebind tags (Program.tags self) h in
  let drivers :=
    List.filter
      (fun routine =>
         bool_decide (type (description_properties (Routine.super routine)) = Some "DRIVER"))
      routines in
  let generator_properties :=
    fold_left (fun _ driver => generator_properties_of driver) drivers
      (_generator_properties b) in
  ({| Program.super :=
        {| _name := _name b; description := description b;
           description_properties := description_properties b;
           _generator_properties := List.map PyStr.strip generator_properties |};
      Program.main_routine_name := Program.main_routine_name self;
      Program.tags := Program.tags self;
      Program.routines := routines |}, h).

(** [Task.rebind], with [kwargs['programs']]. *)
Definition Task_rebind (programs : list Program.t) (self : Task.t) : Task.t :=
  {| Task.super := PyLogixObject_rebind (Task.super self);
     Task.scheduled_meta_programs := Task.scheduled_meta_programs self;
     Task.scheduled_programs :=
       List.filter
         (fun prog => existsb (String.eqb (Program.key prog)) (Task.scheduled_meta_programs self))
         programs |}.

(** ** controller/controller.py: the rebind of a controller

    The datatype objects of a controller are shared: a member points to a
    datatype of the controller's list, and the pass rebinds that object in
    place.  They are kept in a store of their own, the members pointing into
    it.  The pass only copies the datatype pointer of a tag and of an add-on
    instruction and never looks behind it, so these keep the representation
    they have in the other operations. *)

Abbreviation DataTypeRef := nat.

Module DataTypeObject.
Record t := Build {
  super : PyLogixObject;
  is_atomic : bool;
  is_base_logix_instruction : bool;
  members : list (DataTypeMember.t DataTypeRef)
}.
Definition key (x : t) : string := name (super x).
End DataTypeObject.

Abbreviation DataTypeHeap := (list DataTypeObject.t).

Definition DataTypeObject_null : DataTypeObject.t :=
  {| DataTypeObject.super := PyLogixObject_init "" None;
     DataTypeObject.is_atomic := false;
     DataTypeObject.is_base_logix_instruction := false;
     DataTypeObject.members := [] |}.

Definition deref_datatype (dh : DataTypeHeap) (r : DataTypeRef) : DataTypeObject.t :=
  default DataTypeObject_null (dh !! r).

Definition datatype_key (dh : DataTypeHeap) (r : DataTypeRef) : string :=
  DataTypeObject.key (deref_datatype dh r).

(** [DataType.rebind] on a datatype object: its description properties,
    then its members. *)
Definition DataTypeObject_rebind (by_name : string -> option DataTypeRef)
    (x : DataTypeObject.t) : DataTypeObject.t :=
  {| DataTypeObject.super := PyLogixObject_rebind (DataTypeObject.super x);
     DataTypeObject.is_atomic := DataTypeObject.is_atomic x;
     DataTypeObject.is_base_logix_instruction := DataTypeObject.is_base_logix_instruction x;
     DataTypeObject.members :=
       List.map (DataTypeMember_rebind_by by_name) (DataTypeObject.members x) |}.

(** [datatype.rebind] on the object behind a reference, in place. *)
Definition DataType_rebind (datatypes : list DataTypeRef) (self : DataTypeRef)
    (dh : DataTypeHeap) : DataTypeHeap :=
  <[self := DataTypeObject_rebind (PylogixList.by_name (datatype_key dh) datatypes)
              (deref_datatype dh self)]> dh.

(** [DataTypeList.rebind]: the list itself stands in for a
    [kwargs['datatypes']] that is absent, [None] or empty. *)
Definition DataTypeList_rebind (datatypes : option (list DataTypeRef))
    (self : list DataTypeRef) (dh : DataTypeHeap) : DataTypeHeap :=
  let datatypes :=
    match datatypes with
    | Some (d :: l) => d :: l
    | _ => self
    end in
  fold_left (fun dh d => DataType_rebind datatypes d dh) self dh.

(** [Module.rebind] and [AddOnInstructionDefinition.rebind]: the classes
    inherit the method of [PyLogixObject]. *)
Definition Module_rebind (self : Module_.t) : Module_.t :=
  {| Module_.super := PyLogixObject_rebind (Module_.super self) |}.

Definition AddOnInstructionDefinition_rebind (self : AddOnInstructionDefinition.t)
    : AddOnInstructionDefinition.t :=
  {| AddOnInstructionDefinition.super :=
       PyLogixObject_rebind (AddOnInstructionDefinition.super self);
     AddOnInstructionDefinition.parameters := AddOnInstructionDefinition.parameters self;
     AddOnInstructionDefinition.tags := AddOnInstructionDefinition.tags self |}.

(** [ProgramList.rebind]: one program after the other. *)
Fixpoint ProgramList_rebind (tags : option (list TagRef)) (self : list Program.t) (h : Heap)
    : list Program.t * Heap :=
  match self with
  | [] => ([], h)
  | prog :: rest =>
      let '(prog, h) := Program_rebind tags prog h in
      let '(rest, h) := ProgramList_rebind tags rest h in
      (prog :: rest, h)
  end.

Module Controller.
Record t := Build {
  super : PyLogixObject;
  datatypes : list DataTypeRef;
  modules : list Module_.t;
  add_on_instructions : list AddOnInstructionDefinition.t;
  tags : list TagRef;
  programs : list Program.t;
  tasks : list Task.t
}.
End Controller.

(** [Controller.rebind]: the collections of the controller are the
    [kwargs] of every pass. *)
Definition Controller_rebind (self : Controller.t) (dh : DataTypeHeap) (h : Heap)
    : Controller.t * DataTypeHeap * Heap :=
  let tags := Some (Controller.tags self) in
  let b := PyLogixObject_rebind (Controller.super self) in
  let dh :=
    DataTypeList_rebind (Some (Controller.datatypes self)) (Controller.datatypes self) dh in
  let h := TagList_rebind tags (Controller.tags self) h in
  let modules := List.map Module_rebind (Controller.modules self) in
  let '(programs, h) := ProgramList_rebind tags (Controller.programs self) h in
  let add_on_instructions :=
    List.map AddOnInstructionDefinition_rebind (Controller.add_on_instructions self) in
  let tasks := List.map (Task_rebind programs) (Controller.tasks self) in
  ({| Controller.super := b;
      Controller.datatypes := Controller.datatypes self;
      Controller.modules := modules;
      Controller.add_on_instructions := add_on_instructions;
      Controller.tags := Controller.tags self;
      Controller.programs := programs;
      Controller.tasks := tasks |}, dh, h).

(** ** program/program.py: the merge engine ("push updates")

    The state is the heap of tag objects and the target program; the source
    program and its routines are only read. *)

Record MergeState := {
  heap : Heap;
  other_prog : Program.t
}.

Definition with_heap (h : Heap) (st : MergeState) : MergeState :=
  {| heap := h; other_prog := other_prog st |}.

Definition with_routines (l : list Routine.t) (st : MergeState) : MergeState :=
  {| heap := heap st;
     other_prog :=
       {| Program.super := Program.super (other_prog st);
          Program.main_routine_name := Program.main_routine_name (other_prog st);
          Program.tags := Program.tags (other_prog st);
          Program.routines := l |} |}.

Definition with_program_tags_of (l : list TagRef) (st : MergeState) : MergeState :=
  {| heap := heap st;
     other_prog :=
       {| Program.super := Program.super (other_prog st);
          Program.main_routine_name := Program.main_routine_name (other_prog st);
          Program.tags := l;
          Program.routines := Program.routines (other_prog st) |} |}.

(** A raised exception of a sub-computation on a local object. *)
Definition lift_result {St A} (r : result A) : M St A :=
  match r with
  | Ok a => ret a
  | Raise e => raise e
  end.

(** [obj.name = value] on a local object. *)
Definition set_name (value : string) (obj : PyLogixObject) : result PyLogixObject :=
  match name_setter value obj with
  | (Ok _, obj') => Ok obj'
  | (Raise e, _) => Raise e
  end.

(** *** [copy.deepcopy(routine)]

    [PyLogixObject.__deepcopy__] copies an object once per call of
    [deepcopy] and hands the same copy out for every further reference to it
    (the memo).  Only tag objects are shared inside a routine, so only they
    need the memo; a [TagList] is rebuilt through its own [append]. *)

Abbreviation Memo := (list (TagRef * TagRef)).

Definition member_key (m : DataTypeMember_t) : string := name (DataTypeMember.super m).

(** The copy of a datatype: its member list, a [PylogixList], is rebuilt
    through [append], member by member. *)
Fixpoint deepcopy_DataType (d : DataType.t) : DataType.t :=
  match d with
  | DataType.Build b is_atomic is_base_logix_instruction members =>
      DataType.Build b is_atomic is_base_logix_instruction
        ((fix copy_members (members acc : list DataTypeMember_t) {struct members}
            : list DataTypeMember_t :=
            match members with
            | [] => acc
            | m :: rest =>
                let m' :=
                  DataTypeMember.Build (DataTypeMember.super m)
                    (match DataTypeMember.datatype m with
                     | Some d' => Some (deepcopy_DataType d')
                     | None => None
                     end)
                    (DataTypeMember.datatype_meta_name m)
                    (DataTypeMember.dimensions m) (DataTypeMember.radix m)
                    (DataTypeMember.hidden m) (DataTypeMember.external_access m)
                    (DataTypeMember.target m) (DataTypeMember.bit_number m) in
                copy_members rest (PylogixList.append member_key acc m' false)
            end) members [])
  end.

(** The copy of a tag object. *)
Definition deepcopy_Tag (x : Tag.t) : Tag.t :=
  Tag_with_datatype
    (match Tag.datatype x with
     | Some d => Some (deepcopy_DataType d)
     | None => None
     end)
    (Tag.datatype_meta_name x) x.

(** The copy of an add-on instruction: its parameter and tag lists are
    plain lists, copied item by item. *)
Definition deepcopy_AddOnInstructionDefinition (x : AddOnInstructionDefinition.t)
    : AddOnInstructionDefinition.t :=
  {| AddOnInstructionDefinition.super := AddOnInstructionDefinition.super x;
     AddOnInstructionDefinition.parameters :=
       List.map
         (fun p =>
            {| AddOnInstructionParameter.super := AddOnInstructionParameter.super p;
               AddOnInstructionParameter.datatype :=
                 deepcopy_DataType <$> AddOnInstructionParameter.datatype p |})
         (AddOnInstructionDefinition.parameters x);
     AddOnInstructionDefinition.tags :=
       List.map
         (fun t =>
            {| AddOnInstructionTag.super := AddOnInstructionTag.super t;
               AddOnInstructionTag.datatype :=
                 deepcopy_DataType <$> AddOnInstructionTag.datatype t |})
         (AddOnInstructionDefinition.tags x) |}.

Definition memo_get (memo : Memo) (r : TagRef) : option TagRef :=
  snd <$> List.find (fun p => Nat.eqb (fst p) r) memo.

Fixpoint deepcopy_TagList (refs acc : list TagRef) (memo : Memo) (h : Heap)
    : list TagRef * Memo * Heap :=
  match refs with
  | [] => (acc, memo, h)
  | r :: rest =>
      match memo_get memo r with
      | Some r' =>
          deepcopy_TagList rest (PylogixList.append (tag_key h) acc r' false) memo h
      | None =>
          let r' := length h in
          let h' := h ++ [deepcopy_Tag (deref h r)] in
          deepcopy_TagList rest (PylogixList.append (tag_key h') acc r' false)
            ((r, r') :: memo) h'
      end
  end.

Definition deepcopy_Rung (rung : Rung.t) (memo : Memo) (h : Heap) : Rung.t * Memo * Heap :=
  let '(tags, memo, h) := deepcopy_TagList (Rung.tags rung) [] memo h in
  let '(program_tags, memo, h) := deepcopy_TagList (Rung.program_tags rung) [] memo h in
  ({| Rung.super := Rung.super rung; Rung.number := Rung.number rung;
      Rung.text := Rung.text rung; Rung.tags := tags;
      Rung.program_tags := program_tags;
      Rung.add_on_instructions :=
        List.map deepcopy_AddOnInstructionDefinition (Rung.add_on_instructions rung);
      Rung.comment := Rung.comment rung |}, memo, h).

Fixpoint deepcopy_rungs (rungs : list Rung.t) (memo : Memo) (h : Heap)
    : list Rung.t * Memo * Heap :=
  match rungs with
  | [] => ([], memo, h)
  | rung :: rest =>
      let '(rung', memo, h) := deepcopy_Rung rung memo h in
      let '(rest', memo, h) := deepcopy_rungs rest memo h in
      (rung' :: rest', memo, h)
  end.

Definition deepcopy_Routine (routine : Routine.t) : M MergeState Routine.t :=
  fun st =>
    let '(rungs, _, h) := deepcopy_rungs (Routine.rungs routine) [] (heap st) in
    (Ok {| Routine.super := Routine.super routine; Routine.rungs := rungs |},
     with_heap h st).

(** *** [Program.__push_driver_routine__] *)

(** [tag.name = tag.name.replace(old, new)] on the object behind [tag]. *)
Definition rename_tag (old new : string) (tag : TagRef) : M MergeState unit :=
  fun st =>
    let x := deref (heap st) tag in
    match set_name (PyStr.replace (name (Tag.super x)) old new) (Tag.super x) with
    | Ok b => (Ok tt, with_heap (<[tag := Tag_with_super b x]> (heap st)) st)
    | Raise e => (Raise e, st)
    end.

(** The loop over the rungs of the clone. *)
Fixpoint update_rungs (old new : string) (rungs : list Rung.t) : M MergeState (list Rung.t) :=
  match rungs with
  | [] => ret []
  | rung :: rest =>
      match Rung.text rung with
      | None => raise (AttributeError "'NoneType' object has no attribute 'replace'")
      | Some text =>
          let rung :=
            Rung_with (Rung.super rung) (Some (PyStr.replace text old new))
              (Rung.tags rung) rung in
          do_ for_each (Rung.tags rung) (rename_tag old new);
          do rest' <- update_rungs old new rest;
          ret (rung :: rest')
      end
  end.

(** An entry of [routine_updates]. *)
Record routine_entry := {
  entry_routine : Routine.t;
  name_split : list string;
  other_name_split : list string
}.

(** [l[i]] for an index known to be in range. *)
Definition item (l : list string) (i : nat) : string := nth i l "".

(** The first loop: the routines of the target whose suffix matches. *)
Definition gather_routine_updates (split : list string) (routines : list Routine.t)
    : list routine_entry :=
  omap
    (fun other_routine =>
       let other_split := PyStr.split "_" (Routine.key other_routine) in
       if Nat.ltb (length other_split) 3 then None
       else if bool_decide (drop 2 split = drop 2 other_split)
       then Some {| entry_routine := other_routine; name_split := split;
                    other_name_split := other_split |}
       else None)
    routines.

(** The body of the second loop, for one entry. *)
Definition apply_routine_update (routine : Routine.t) (dependencies : PyLogixDependencies.t)
    (entry : routine_entry) : M MergeState PyLogixDependencies.t :=
  do_ modify (fun st =>
        with_routines
          (PylogixList.remove Routine.key (Program.routines (other_prog st))
             (entry_routine entry)) st);
  do new_routine <- deepcopy_Routine routine;
  do b <- lift_result
            (set_name
               (PyStr.replace (name (Routine.super new_routine))
                  (item (name_split entry) 0) (item (other_name_split entry) 0))
               (Routine.super new_routine));
  do b <- lift_result
            (set_name
               (PyStr.replace (name b)
                  (item (name_split entry) 1) (item (other_name_split entry) 1))
               b);
  do rungs <- update_rungs (item (name_split entry) 1) (item (other_name_split entry) 1)
                (Routine.rungs new_routine);
  let new_routine := {| Routine.super := b; Routine.rungs := rungs |} in
  do_ modify (fun st =>
        with_routines
          (PylogixList.append Routine.key (Program.routines (other_prog st))
             new_routine false) st);
  do st <- get;
  ret (PyLogixDependencies.extend (heap st) dependencies
         (Routine_get_dependencies (heap st) new_routine)).

Fixpoint apply_routine_updates (routine : Routine.t) (dependencies : PyLogixDependencies.t)
    (entries : list routine_entry) : M MergeState PyLogixDependencies.t :=
  match entries with
  | [] => ret dependencies
  | entry :: rest =>
      do dependencies <- apply_routine_update routine dependencies entry;
      apply_routine_updates routine dependencies rest
  end.

Definition __push_driver_routine__ (routine : Routine.t)
    : M MergeState PyLogixDependencies.t :=
  let dependencies := PyLogixDependencies.__init__ in
  let split := PyStr.split "_" (name (Routine.super routine)) in
  if Nat.ltb (length split) 3
  then raise (ValueError ("Master Driver Routine Naming Violation: "
                          +:+ name (Routine.super routine)))
  else
    do st <- get;
    let routine_updates :=
      gather_routine_updates split (Program.routines (other_prog st)) in
    apply_routine_updates routine dependencies routine_updates.

(** *** [Program.__push_routine__] *)

(** [ratio >= similarity_gain], both floats carried as exact rationals.
    The two comparisons agree as long as the two names together are shorter
    than some 10^14 characters: a quotient of such lengths that is not
    19/20 is further from it than a double can round. *)
Definition similar (similarity_gain : Q) (a b : string) : bool :=
  Qle_bool similarity_gain (difflib.ratio a b).

Definition __push_routine__ (routine : option Routine.t) (use_similarity_finding : bool)
    (similarity_gain : Q) : M MergeState PyLogixDependencies.t :=
  match routine with
  | None => ret PyLogixDependencies.__init__
  | Some routine =>
      do st <- get;
      let dependencies := Routine_get_dependencies (heap st) routine in
      let routines := Program.routines (other_prog st) in
      let target_routine :=
        if use_similarity_finding
        then List.find
               (fun r => similar similarity_gain (Routine.key routine) (Routine.key r))
               routines
        else PylogixList.by_name Routine.key routines (Routine.key routine) in
      let routines :=
        match target_routine with
        | Some target_routine =>
            if in_by Routine.key target_routine routines
            then PylogixList.remove Routine.key routines target_routine
            else routines
        | None => routines
        end in
      let routines := PylogixList.append Routine.key routines routine false in
      do_ put (with_program_tags_of
                 (PylogixList.extend (tag_key (heap st)) (Program.tags (other_prog st))
                    (program_tags dependencies) false)
                 (with_routines routines st));
      ret dependencies
  end.

(** *** [Program.push_updates] *)

Definition routines_of_type (ty : string) (self : Program.t) : list Routine.t :=
  List.filter
    (fun routine =>
       bool_decide (type (description_properties (Routine.super routine)) = Some ty))
    (Program.routines self).

Definition driver_routines := routines_of_type "DRIVER".
Definition internal_routines := routines_of_type "INTERNAL".
Definition main_routine (self : Program.t) : option Routine.t :=
  head (routines_of_type "MAIN" self).

(** [for x in xs: dependencies.extend(f x)] in the merge monad. *)
Fixpoint extend_with_each {A} (f : A -> M MergeState PyLogixDependencies.t) (xs : list A)
    (dependencies : PyLogixDependencies.t) : M MergeState PyLogixDependencies.t :=
  match xs with
  | [] => ret dependencies
  | x :: rest =>
      do d <- f x;
      do st <- get;
      extend_with_each f rest (PyLogixDependencies.extend (heap st) dependencies d)
  end.

Definition Program_push_updates (self : Program.t) (use_similarity_finding : bool)
    (similarity_gain : Q) : M MergeState PyLogixDependencies.t :=
  do st <- get;
  let dependencies := Program_get_dependencies (heap st) self false in
  do dependencies <-
    extend_with_each (fun r => __push_routine__ r false (19 # 20))
      [main_routine self] dependencies;
  do dependencies <-
    extend_with_each __push_driver_routine__ (driver_routines self) dependencies;
  if negb (bool_decide (type (description_properties (Program.super self)) = Some "DEVICE"))
  then
    extend_with_each
      (fun r => __push_routine__ (Some r) use_similarity_finding similarity_gain)
      (internal_routines self) dependencies
  else ret dependencies.

(** The built-in [TIMER] of the sources, cut to two members. *)
Definition LOGIX_TIMER : DataType.t :=
  {| DataType.super := PyLogixObject_init "TIMER" (Some "");
     DataType.is_atomic := false;
     DataType.is_base_logix_instruction := true;
     DataType.members :=
       [DataTypeMember.__init__ "PRE" (Some "") (Some "DINT") 0 (Some Decimal) false (Some "") None;
        DataTypeMember.__init__ "EN" (Some "") (Some "BOOL") 0 None false (Some "") None] |}.

(** No two entries of a bucket have equal names, in every bucket. *)
Definition dup_free (h : Heap) (d : PyLogixDependencies.t) : Prop :=
  NoDup (map AddOnInstructionDefinition.key (add_on_instructions d))
  /\ NoDup (map DataType.key (datatypes d))
  /\ NoDup (map Module_.key (modules d))
  /\ NoDup (map Program.key (programs d))
  /\ NoDup (map (tag_key h) (tags d))
  /\ NoDup (map (tag_key h) (program_tags d))
  /\ NoDup (map Task.key (tasks d)).

(** *** [ProgramList.push_updates]

    The state is the heap and the list of target programs; a target program
    is updated in place, also when the push into it raises. *)

Record ListState := {
  list_heap : Heap;
  other_list : list Program.t
}.

Definition type_of (p : Program.t) : option string :=
  type (description_properties (Program.super p)).

Definition with_description (d : option string) (p : Program.t) : Program.t :=
  {| Program.super :=
       {| _name := _name (Program.super p); description := d;
          description_properties := description_properties (Program.super p);
          _generator_properties := _generator_properties (Program.super p) |};
     Program.main_routine_name := Program.main_routine_name p;
     Program.tags := Program.tags p;
     Program.routines := Program.routines p |}.

(** The body of the inner loop, for the target program at index [i]. *)
Definition push_to_other (prog : Program.t) (dependencies : PyLogixDependencies.t) (i : nat)
    : M ListState PyLogixDependencies.t :=
  fun ls =>
    match other_list ls !! i with
    | None => (Ok dependencies, ls)
    | Some other =>
        if negb (DataTypeMember.truthy (type_of other)) then (Ok dependencies, ls)
        else if bool_decide (type_of prog = type_of other)
                || bool_decide (type_of prog = Some "DEVICE")
        then
          let other :=
            if bool_decide (type_of prog = type_of other)
            then with_description (description (Program.super prog)) other
            else other in
          let '(r, st) :=
            Program_push_updates prog true (19 # 20)
              {| heap := list_heap ls; other_prog := other |} in
          let ls := {| list_heap := heap st;
                       other_list := <[i := other_prog st]> (other_list ls) |} in
          match r with
          | Ok d => (Ok (PyLogixDependencies.extend (heap st) dependencies d), ls)
          | Raise e => (Raise e, ls)
          end
        else (Ok dependencies, ls)
    end.

Fixpoint push_to_others (prog : Program.t) (dependencies : PyLogixDependencies.t)
    (indices : list nat) : M ListState PyLogixDependencies.t :=
  match indices with
  | [] => ret dependencies
  | i :: rest =>
      do dependencies <- push_to_other prog dependencies i;
      push_to_others prog dependencies rest
  end.

Fixpoint ProgramList_push_updates_from (self : list Program.t)
    (dependencies : PyLogixDependencies.t) : M ListState PyLogixDependencies.t :=
  match self with
  | [] => ret dependencies
  | prog :: rest =>
      if negb (DataTypeMember.truthy (type_of prog))
      then ProgramList_push_updates_from rest dependencies
      else
        do ls <- get;
        do dependencies <-
          push_to_others prog dependencies (seq 0 (length (other_list ls)));
        ProgramList_push_updates_from rest dependencies
  end.

Definition ProgramList_push_updates (self : list Program.t)
    : M ListState PyLogixDependencies.t :=
  ProgramList_push_updates_from self PyLogixDependencies.__init__.

(** ** Example objects

    Small controller fragments in the naming convention of the merge
    engine, used to run the operations on concrete inputs. *)

Module Example.

(** An object as it is after [rebind]. *)
Definition obj (name : string) (description : option string) : PyLogixObject :=
  PyLogixObject_rebind (PyLogixObject_init name description).

Definition DINT : DataType.t := DataType.__init__ "DINT" (Some "") true false.

Definition member (name meta : string) (d : option DataType.t) : DataTypeMember_t :=
  {| DataTypeMember.super := PyLogixObject_init name None;
     DataTypeMember.datatype := d;
     DataTypeMember.datatype_meta_name := Some meta;
     DataTypeMember.dimensions := 0;
     DataTypeMember.radix := None;
     DataTypeMember.hidden := false;
     DataTypeMember.external_access := "Read/Write";
     DataTypeMember.target := None;
     DataTypeMember.bit_number := None |}.

Definition udt (name : string) (members : list DataTypeMember_t) : DataType.t :=
  {| DataType.super := obj name None;
     DataType.is_atomic := false;
     DataType.is_base_logix_instruction := false;
     DataType.members := members |}.

Definition ValveState : DataType.t := udt "ValveState" [member "Code" "DINT" (Some DINT)].
Definition Valve : DataType.t :=
  udt "Valve" [member "State" "ValveState" (Some ValveState);
               member "Backup" "ValveState" (Some ValveState);
               member "Count" "DINT" (Some DINT)].

Definition tag (name : string) (d : option DataType.t) (meta : string)
    (alias_for : option string) : Tag.t :=
  {| Tag.super := obj name None;
     Tag.tag_type := Some (if DataTypeMember.truthy alias_for then alias else base);
     Tag.datatype := d;
     Tag.datatype_meta_name := Some meta;
     Tag.alias_for := alias_for |}.

Definition rung (text : string) (tags program_tags : list TagRef) : Rung.t :=
  {| Rung.super := obj "" None; Rung.number := Some 0%Z; Rung.text := Some text;
     Rung.tags := tags; Rung.program_tags := program_tags;
     Rung.add_on_instructions := []; Rung.comment := None |}.

Definition routine (name : string) (role : string) (rungs : list Rung.t) : Routine.t :=
  {| Routine.super := obj name (Some ("<@ROUTINE><@TYPE " +:+ role +:+ ">"));
     Routine.rungs := rungs |}.

Definition program (name : string) (role : string) (tags : list TagRef)
    (routines : list Routine.t) : Program.t :=
  {| Program.super := obj name (Some ("<@PROGRAM><@TYPE " +:+ role +:+ ">"));
     Program.main_routine_name := None;
     Program.tags := tags;
     Program.routines := routines |}.

(** The heap of the master controller: two controller tags of pump A and
    a valve of a user-defined type. *)
Definition master_heap : Heap :=
  [tag "M01_PumpA_Run" (Some DINT) "DINT" None;
   tag "PumpA_Cmd" (Some DINT) "DINT" None;
   tag "PumpA_Valve" (Some Valve) "Valve" None].

(** The driver routine of the specification's example. *)
Definition M01_PumpA_Start : Routine.t :=
  routine "M01_PumpA_Start" "DRIVER"
    [rung "XIC(M01_PumpA_Run)OTE(PumpA_Cmd)" [0; 1] [];
     rung "XIC(PumpA_Valve.State.Code)" [2] []].

(** A driver routine whose name has two tokens only. *)
Definition Pump_Start : Routine.t :=
  routine "Pump_Start" "DRIVER" [rung "XIC(PumpA_Cmd)" [1] []].

Definition M02_PumpB_Start : Routine.t :=
  routine "M02_PumpB_Start" "DRIVER" [rung "NOP()" [] []].

Definition Housekeeping : Routine.t :=
  routine "Housekeeping" "INTERNAL" [rung "NOP()" [] []].

(** The master program: the malformed driver comes before the well-formed
    one. *)
Definition master_program : Program.t :=
  program "Pumps" "ZONE" [] [Pump_Start; M01_PumpA_Start].

Definition target_program : Program.t :=
  program "Pumps" "ZONE" [] [Housekeeping; M02_PumpB_Start].

Definition start : MergeState :=
  {| heap := master_heap; other_prog := target_program |}.

(** Internal routines whose names differ in their last characters. *)
Definition InternalRoutineName10 : Routine.t :=
  routine "InternalRoutineName10" "INTERNAL" [rung "NOP()" [] []].
Definition InternalRoutineName11 : Routine.t :=
  routine "InternalRoutineName11" "INTERNAL" [rung "XIC(PumpA_Cmd)" [1] []].
Definition InternalRoutineName10x : Routine.t :=
  routine "InternalRoutineName10x" "INTERNAL" [rung "OTE(PumpA_Cmd)" [1] []].

Definition similarity_start : MergeState :=
  {| heap := master_heap;
     other_prog :=
       program "Pumps" "ZONE" [] [InternalRoutineName11; InternalRoutineName10x] |}.

(** A chain of alias tags, the alias listed before its target. *)
Definition alias_heap : Heap :=
  [tag "A" None "" (Some "B");
   tag "B" None "" (Some "C");
   tag "C" (Some DINT) "DINT" None].

(** An alias tag listed before the base tag it points to. *)
Definition alias_to_base_heap : Heap :=
  [tag "A" None "" (Some "C");
   tag "C" (Some DINT) "DINT" None].

(** A datatype object as the decoder leaves it: its members point to no
    datatype yet. *)
Definition datatype_object (name : string) (is_atomic : bool) (members : list (string * string))
    : DataTypeObject.t :=
  {| DataTypeObject.super := PyLogixObject_init name (Some "");
     DataTypeObject.is_atomic := is_atomic;
     DataTypeObject.is_base_logix_instruction := false;
     DataTypeObject.members :=
       List.map
         (fun m => DataTypeMember.__init__ (fst m) None (Some (snd m)) 0 None false None None)
         members |}.

Definition datatype_store : DataTypeHeap :=
  [datatype_object "DINT" true [];
   datatype_object "ValveState" false [("Code", "DINT")];
   datatype_object "Valve" false [("State", "ValveState"); ("Count", "DINT")]].

(** A controller before its first rebind, over [alias_to_base_heap] and
    [datatype_store]; [Valve] is listed before the datatypes of its members. *)
Definition controller : Controller.t :=
  {| Controller.super := PyLogixObject_init "Plant" (Some "<@CONTROLLER><@TYPE CPU>");
     Controller.datatypes := [2; 1; 0];
     Controller.modules := [];
     Controller.add_on_instructions := [];
     Controller.tags := [0; 1];
     Controller.programs :=
       [{| Program.super := PyLogixObject_init "Pumps" (Some "<@PROGRAM><@TYPE ZONE>");
           Program.main_routine_name := Some "Main";
           Program.tags := [];
           Program.routines :=
             [{| Routine.super := PyLogixObject_init "Main" (Some "<@ROUTINE><@TYPE MAIN>");
                 Routine.rungs := [rung "XIC(A)OTE(C)" [0; 1] []] |}] |}];
     Controller.tasks :=
       [{| Task.super := PyLogixObject_init "MainTask" None;
           Task.scheduled_meta_programs := ["Pumps"];
           Task.scheduled_programs := [] |}] |}.

(** A controller whose tags are the chain of [alias_heap]. *)
Definition chain_controller : Controller.t :=
  {| Controller.super := PyLogixObject_init "Plant" None;
     Controller.datatypes := [];
     Controller.modules := [];
     Controller.add_on_instructions := [];
     Controller.tags := [0; 1; 2];
     Controller.programs := [];
     Controller.tasks := [] |}.

End Example.

(** ** Predicates of the statements *)

(** The tag object [Tag.rebind] reads the datatype of [x] from, if any:
    the first tag of [kwargs['tags']] named by the [alias_for] of [x]. *)
Definition alias_target (tags : option (list TagRef)) (h : Heap) (x : Tag.t)
    : option TagRef :=
  match Tag.alias_for x, tags with
  | Some target, Some tags =>
      if negb (String.eqb target "")
      then PylogixList.by_name (tag_key h) tags target
      else None
  | _, _ => None
  end.

(** No aliasing tag of [self] points to a tag that is an alias itself. *)
Definition no_alias_chain (tags : option (list TagRef)) (self : list TagRef) (h : Heap)
    : Prop :=
  forall r a, In r self -> alias_target tags h (deref h r) = Some a ->
              is_alias (deref h a) = false.

(** The heaps a pass over [self] goes through when it starts from [h]:
    every object is as in [h], or is the rebound object of a tag of [self]. *)
Definition reached_from (tags : option (list TagRef)) (self : list TagRef) (h h' : Heap)
    : Prop :=
  length h' = length h
  /\ forall i, deref h' i = deref h i
               \/ (In i self /\ deref h' i = Tag_rebind_object tags h (deref h i)).

(** A name the [name] setter accepts. *)
Definition name_ok (value : string) : Prop :=
  existsb (fun x => PyStr.contains x value) bad_vals = false.

(** The tag object [x] after [x.name = x.name.replace(old, new)]. *)
Definition renamed (old new : string) (x : Tag.t) : Tag.t :=
  Tag_with_super (with_name (PyStr.replace (Tag.key x) old new) (Tag.super x)) x.

(** The setter accepts the new name of the tag behind [n], and replacing
    once more changes nothing. *)
Definition renamable (old new : string) (h : Heap) (n : TagRef) : Prop :=
  name_ok (PyStr.replace (tag_key h n) old new)
  /\ PyStr.replace (PyStr.replace (tag_key h n) old new) old new
     = PyStr.replace (tag_key h n) old new.

(** The heaps the renaming loop goes through when it starts from [h1] and
    renames the tags of [N]. *)
Definition renaming (old new : string) (N : list TagRef) (h1 h : Heap) : Prop :=
  length h = length h1
  /\ forall i, deref h i = deref h1 i
               \/ (In i N /\ deref h i = renamed old new (deref h1 i)).

(** The rung of the clone made from [rung]: the text with the token
    replaced, the other attributes as they were (the tag lists apart). *)
Definition retext (old new : string) (rung : Rung.t) : Rung.t :=
  Rung_with (Rung.super rung)
    ((fun text => PyStr.replace text old new) <$> Rung.text rung)
    (Rung.tags rung) rung.

(** [n] is the copy, made since the heap was [h0], of the tag behind [r]. *)
Definition copy_of (h0 h : Heap) (r n : TagRef) : Prop :=
  length h0 <= n < length h /\ deref h n = deepcopy_Tag (deref h0 r).

(** Every entry of the memo of [deepcopy] points to a copy. *)
Definition memo_ok (h0 : Heap) (memo : Memo) (h : Heap) : Prop :=
  forall o n, memo_get memo o = Some n -> copy_of h0 h o n.

(** [h'] is [h] with new objects allocated behind it. *)
Definition extends (h h' : Heap) : Prop := exists ext, h' = h ++ ext.

(** The rung of a copy: the attributes of [rung], and copies of its tags. *)
Definition rung_copy (h0 h : Heap) (rung rung' : Rung.t) : Prop :=
  Rung.super rung' = Rung.super rung
  /\ Rung.number rung' = Rung.number rung
  /\ Rung.text rung' = Rung.text rung
  /\ Rung.add_on_instructions rung'
     = List.map deepcopy_AddOnInstructionDefinition (Rung.add_on_instructions rung)
  /\ Rung.comment rung' = Rung.comment rung
  /\ Forall2 (copy_of h0 h) (Rung.tags rung) (Rung.tags rung').

(** The rung of a clone, in the heap [h'] reached by the propagation that
    started in [h0]: the text and the name of every tag of the rung's tag
    list have the source token [old] replaced by the target token [new]. *)
Definition rung_clone (h0 h' : Heap) (old new : string) (rung rung' : Rung.t) : Prop :=
  Rung.super rung' = Rung.super rung
  /\ Rung.number rung' = Rung.number rung
  /\ Rung.text rung' = (fun text => PyStr.replace text old new) <$> Rung.text rung
  /\ Rung.add_on_instructions rung'
     = List.map deepcopy_AddOnInstructionDefinition (Rung.add_on_instructions rung)
  /\ Rung.comment rung' = Rung.comment rung
  /\ map (tag_key h') (Rung.tags rung')
     = map (fun r => PyStr.replace (tag_key h0 r) old new) (Rung.tags rung)
  /\ Forall (fun n => length h0 <= n < length h') (Rung.tags rung').

(** The name of the clone made of [routine] for [target]: token 0, then
    token 1, replaced by the tokens of the target. *)
Definition clone_name (routine target : Routine.t) : string :=
  let split := PyStr.split "_" (Routine.key routine) in
  let other_split := PyStr.split "_" (Routine.key target) in
  PyStr.replace (PyStr.replace (Routine.key routine) (item split 0) (item other_split 0))
    (item split 1) (item other_split 1).

(** [clone] is the clone of [routine] made for [target]. *)
Definition is_clone (routine : Routine.t) (h0 h' : Heap) (target clone : Routine.t) : Prop :=
  Routine.super clone = with_name (clone_name routine target) (Routine.super routine)
  /\ Forall2
       (rung_clone h0 h' (item (PyStr.split "_" (Routine.key routine)) 1)
          (item (PyStr.split "_" (Routine.key target)) 1))
       (Routine.rungs routine) (Routine.rungs clone).

(** What the propagation needs of a target: the setter accepts the two
    names the clone goes through and the new name of every tag it renames,
    and replacing token 1 twice in a tag name is the same as once. *)
Definition propagates_to (routine : Routine.t) (h0 : Heap) (target : Routine.t) : Prop :=
  let split := PyStr.split "_" (Routine.key routine) in
  let other_split := PyStr.split "_" (Routine.key target) in
  name_ok (PyStr.replace (Routine.key routine) (item split 0) (item other_split 0))
  /\ name_ok (clone_name routine target)
  /\ forall rung r, In rung (Routine.rungs routine) -> In r (Rung.tags rung) ->
                    renamable (item split 1) (item other_split 1) h0 r.

(** A routine the deep copy and the renaming loop go through: its rungs
    refer to objects of the heap, have a text, and hold no two tags of the
    same name in their tag list. *)
Definition well_formed_routine (h0 : Heap) (routine : Routine.t) : Prop :=
  (forall rung r, In rung (Routine.rungs routine) ->
                  In r (Rung.tags rung ++ Rung.program_tags rung) -> r < length h0)
  /\ (forall rung, In rung (Routine.rungs routine) -> Rung.text rung <> None)
  /\ (forall rung, In rung (Routine.rungs routine) ->
                   NoDup (map (tag_key h0) (Rung.tags rung))).

(** The target routines a driver routine with suffix [drop 2 split] is
    propagated to. *)
Definition is_candidate (split : list string) (other_routine : Routine.t) : bool :=
  let other_split := PyStr.split "_" (Routine.key other_routine) in
  negb (Nat.ltb (length other_split) 3)
  && bool_decide (drop 2 split = drop 2 other_split).

(** The suffix [tokens[2:]] of the target is that of the source. *)
Definition same_suffix (split : list string) (other_routine : Routine.t) : bool :=
  bool_decide (drop 2 split = drop 2 (PyStr.split "_" (Routine.key other_routine))).

(** The routine list after the second loop: each target is removed and its
    clone appended, one pair after the other. *)
Definition replace_targets (routines : list Routine.t) (pairs : list (Routine.t * Routine.t))
    : list Routine.t :=
  fold_left
    (fun routines pair =>
       PylogixList.append Routine.key
         (PylogixList.remove Routine.key routines (fst pair)) (snd pair) false)
    pairs routines.

(** A match inside the stretch [alo, ahi) of the first sequence. *)
Definition match_inside (alo ahi : nat) (m : difflib.Match) : Prop :=
  alo <= fst (fst m) /\ fst (fst m) + snd m <= ahi.

(** Append to [acc] the object [c] finds for [b], if it finds one. *)
Definition append_found {A B} (key : A -> string) (c : B -> option A)
    (acc : list A) (b : B) : list A :=
  match c b with
  | Some a => PylogixList.append key acc a false
  | None => acc
  end.

(** The stores a pass over the datatypes goes through when it starts from
    [dh]: every object is as in [dh], or is the rebound object. *)
Definition datatypes_reached_from (datatypes : list DataTypeRef) (dh dh' : DataTypeHeap)
    : Prop :=
  length dh' = length dh
  /\ forall i, deref_datatype dh' i = deref_datatype dh i
               \/ deref_datatype dh' i
                  = DataTypeObject_rebind (PylogixList.by_name (datatype_key dh) datatypes)
                      (deref_datatype dh i).

(** The tags a controller rebinds: its own, then those of its programs. *)
Definition Controller_all_tags (self : Controller.t) : list TagRef :=
  Controller.tags self ++ concat (List.map Program.tags (Controller.programs self)).

(** ** Further predicates *)

(** [d'] hangs off [d]: it is the datatype of a member of [d], or hangs off
    such a datatype, and the datatypes on the way are neither atomic nor
    base instructions. *)
Inductive member_datatype : DataType.t -> DataType.t -> Prop :=
| member_datatype_here (d : DataType.t) (m : DataTypeMember_t) (d' : DataType.t) :
    In m (DataType.members d) ->
    DataTypeMember.datatype m = Some d' ->
    is_dependency d' = true ->
    member_datatype d d'
| member_datatype_below (d : DataType.t) (m : DataTypeMember_t) (d' d'' : DataType.t) :
    In m (DataType.members d) ->
    DataTypeMember.datatype m = Some d' ->
    is_dependency d' = true ->
    member_datatype d' d'' ->
    member_datatype d d''.

(** Every entry of every bucket of [d] is, by name, in the same bucket of
    [d']. *)
Definition included (h : Heap) (d d' : PyLogixDependencies.t) : Prop :=
  (forall x, in_by AddOnInstructionDefinition.key x (add_on_instructions d) = true ->
             in_by AddOnInstructionDefinition.key x (add_on_instructions d') = true)
  /\ (forall x, in_by DataType.key x (datatypes d) = true ->
                in_by DataType.key x (datatypes d') = true)
  /\ (forall x, in_by Module_.key x (modules d) = true ->
                in_by Module_.key x (modules d') = true)
  /\ (forall x, in_by Program.key x (programs d) = true ->
                in_by Program.key x (programs d') = true)
  /\ (forall x, in_by (tag_key h) x (tags d) = true -> in_by (tag_key h) x (tags d') = true)
  /\ (forall x, in_by (tag_key h) x (program_tags d) = true ->
                in_by (tag_key h) x (program_tags d') = true)
  /\ (forall x, in_by Task.key x (tasks d) = true -> in_by Task.key x (tasks d') = true).

(** ** The decoders: the part of [xml.dom.minidom] they read with, and
    l5x/l5x.py

    A decoder ends with a value or with a raised exception.  Only the class
    of the exception is kept; the message texts of the built-in exceptions
    are left out. *)

Inductive exception : Type :=
| ValueErr
| TypeErr
| AttributeErr
| IndexErr
| KeyErr.

Inductive outcome (A : Type) : Type :=
| Returns (a : A)
| Raises (e : exception).
Arguments Returns {A} a.
Arguments Raises {A} e.

Definition and_then {A B} (m : outcome A) (k : A -> outcome B) : outcome B :=
  match m with
  | Returns a => k a
  | Raises e => Raises e
  end.

Notation "'let?' x := m 'in' k" := (and_then m (fun x => k))
  (at level 10, x name, m at level 100, k at level 200).

(** [node.childNodes] *)
Definition childNodes (node : XmlNode) : list XmlNode :=
  match node with
  | Element _ _ children => children
  | _ => []
  end.

(** [isinstance(node, minidom.Element)] *)
Definition is_Element (node : XmlNode) : bool :=
  match node with
  | Element _ _ _ => true
  | _ => false
  end.

(** [node.getElementsByTagName(name)]: the elements below [node] of that
    tag name, or all of them for the name [*], in document order. *)
Fixpoint getElementsByTagName (name : string) (node : XmlNode) : list XmlNode :=
  match node with
  | Element _ _ children =>
      (fix below (nodes : list XmlNode) : list XmlNode :=
         match nodes with
         | [] => []
         | child :: rest =>
             match child with
             | Element t _ _ =>
                 if String.eqb name "*" || String.eqb t name then [child] else []
             | _ => []
             end ++ getElementsByTagName name child ++ below rest
         end) children
  | _ => []
  end.

(** [element.getAttribute(name)] as the caller sees it: the empty string
    for an absent attribute, the stored value otherwise. *)
Definition attribute (name : string) (element : XmlNode) : option string :=
  match getAttribute name element with
  | Some value => value
  | None => Some ""
  end.

(** An attribute that is read into a name.  A name is a string in this
    development; an attribute stored as [None], which a parsed document
    never holds and no encoder writes for a name, reads as the empty
    string. *)
Definition attribute_str (name : string) (element : XmlNode) : string :=
  default "" (attribute name element).

(** [text.wholeText] of a first child: its data and the data of the text
    and CDATA nodes that follow it without a break. *)
Fixpoint wholeText (nodes : list XmlNode) : string :=
  match nodes with
  | TextNode data :: rest => data +:+ wholeText rest
  | CDATASection data :: rest => data +:+ wholeText rest
  | _ => ""
  end.

(** [get_first_element] *)
Definition get_first_element (element : XmlNode) (element_name : string)
    : outcome (option XmlNode) :=
  if is_Element element then Returns (head (getElementsByTagName element_name element))
  else Raises AttributeErr.

(** [get_text_data]: a match without children has no [firstChild], and an
    element as first child has no [wholeText]. *)
Definition get_text_data (element : XmlNode) (text_to_find : string)
    : outcome (option string) :=
  if is_Element element then
    match getElementsByTagName text_to_find element with
    | [] => Returns None
    | node :: _ =>
        match childNodes node with
        | [] => Raises AttributeErr
        | Element _ _ _ :: _ => Raises AttributeErr
        | children => Returns (Some (PyStr.strip (wholeText children)))
        end
    end
  else Raises AttributeErr.

(** [bool_from_l5x] *)
Definition bool_from_l5x (l5x_bool_str : option string) : bool :=
  bool_decide (l5x_bool_str = Some "true").

(** [int(s)] for a string: the value of the literal [PyStr.int_parses]
    accepts. *)
Definition int_of_str (s : string) : outcome Z :=
  if PyStr.int_parses s then
    let literal := PyStr.remove_chars ["_"%char; "+"%char] (PyStr.int_strip s) in
    match NilZero.int_of_string literal with
    | Some d => Returns (Z.of_int d)
    | None => Raises ValueErr
    end
  else Raises ValueErr.

(** [int(x)] for [x : str | None] *)
Definition int_of (x : option string) : outcome Z :=
  match x with
  | Some s => int_of_str s
  | None => Raises TypeErr
  end.

(** [str(n)] for an integer: it raises [ValueError] beyond 4300 digits. *)
Definition str_of_int (n : Z) : outcome string :=
  if Nat.ltb 4300 (PyStr.count_digits (int_to_str n)) then Raises ValueErr
  else Returns (int_to_str n).

(** [LogixRadix.from_string] *)
Definition LogixRadix_from_string (s : option string) : option LogixRadix :=
  List.find (fun r => bool_decide (Some (LogixRadix_value r) = s))
    [Decimal; ASCII; null_type; float].

(** [DataTypeMember.from_l5x_xml_node]; the caller may hand in [None]. *)
Definition DataTypeMember_from_l5x_xml_node {D} (xml_node : option XmlNode)
    : outcome (option (DataTypeMember.t D)) :=
  match xml_node with
  | None => Returns None
  | Some xml_node =>
      if is_Element xml_node then
        let? description := get_text_data xml_node "Description" in
        let? dimensions := int_of (attribute "Dimension" xml_node) in
        Returns
          (Some
             (DataTypeMember.__init__
                (attribute_str "Name" xml_node)
                description
                (attribute "DataType" xml_node)
                dimensions
                (LogixRadix_from_string (attribute "Radix" xml_node))
                (bool_decide (attribute "Hidden" xml_node = Some "true"))
                (attribute "Target" xml_node)
                (DataTypeMember.BitStr <$> attribute "BitNumber" xml_node)))
      else Raises AttributeErr
  end.

(** What [get_text_data] reads back from the [Description] element the
    encoders write for a description: nothing for a description that is
    [None] or empty, the description without the blanks around it
    otherwise. *)
Definition description_read_back (description : option string) : option string :=
  match description with
  | Some d => if String.eqb d "" then None else Some (PyStr.strip d)
  | None => None
  end.

(** A description that lists the properties [ps], each in angle brackets
    and followed by [gap]. *)
Definition bracketed (gap : string) (ps : list string) : string :=
  fold_right (fun p rest => "<" +:+ p +:+ ">" +:+ gap +:+ rest) "" ps.

(** The operands [Instruction.to_neutral_text] writes: the first source,
    then the second source and the destination when they are given and not
    empty. *)
Definition operands (i : Instruction.t) : list string :=
  Instruction.src_a i
  :: match Instruction.src_b i with
     | Some b => if negb (String.eqb b "") then [b] else []
     | None => []
     end
  ++ match Instruction.dest i with
     | Some d => if negb (String.eqb d "") then [d] else []
     | None => []
     end.

(** A rung text made of the neutral texts of [instructions], one after the
    other. *)
Definition neutral_text (instructions : list Instruction.t) : string :=
  fold_right (fun i rest => Instruction.to_neutral_text i +:+ rest) "" instructions.

(** What [Rung.__get_tag_metas__] keeps of one operand: nothing when the
    part in front of its first dot is empty, holds a comma, a quote, a
    question mark or a colon, or reads as an integer, else that part up to
    its first opening square bracket. *)
Definition mined_tag (operand : string) : option string :=
  let tag := head_or_empty (PyStr.split "." operand) in
  if String.eqb tag "" then None
  else if existsb (fun x => PyStr.contains (String x EmptyString) tag)
            [","%char; dquote; "'"%char; "?"%char; ":"%char]
  then None
  else if PyStr.int_parses tag then None
  else
    let bracket_char := PyStr.find tag "[" 0 in
    Some (if negb (bracket_char =? -1)%Z then PyStr.slice_to tag bracket_char else tag).

(** The characters a mnemonic is cut at or loses in
    [Rung.__get_instruction_metas__]. *)
Definition mnemonic_breakers : list ascii :=
  ["("%char; ")"%char; ","%char; dquote; "'"%char; "?"%char; ":"%char; "["%char; "]"%char].

(** ** base/pylogix_object.py: [get_unique_name] *)

Fixpoint all_digits (s : string) : bool :=
  match s with
  | EmptyString => true
  | String c s' => PyStr.is_digit c && all_digits s'
  end.

(** The longest suffix made of digits only. *)
Fixpoint digit_suffix (s : string) : string :=
  match s with
  | EmptyString => EmptyString
  | String c s' => if all_digits s then s else digit_suffix s'
  end.

(** The string without the line feed it may end with. *)
Fixpoint chop_newline (s : string) : string :=
  match s with
  | EmptyString => EmptyString
  | String c EmptyString => if Ascii.eqb c (ascii_of_nat 10) then EmptyString else s
  | String c s' => String c (chop_newline s')
  end.

(** [re.search(r'\d+$', s)], and the [group()] of a match: the digits the
    string ends with; [$] also matches in front of a line feed that ends
    the string.  Below code point 256 the class [\d] holds the ten ASCII
    digits only. *)
Definition search_trailing_digits (s : string) : option string :=
  match digit_suffix (chop_newline s) with
  | EmptyString => None
  | group => Some group
  end.

(** The f-strings that build [searching_name]. *)
Definition searching_name (searching_name_base : string) (counter : Z) : outcome string :=
  let? digits := str_of_int counter in
  Returns (if (10 <=? counter)%Z then searching_name_base +:+ digits
           else searching_name_base +:+ "0" +:+ digits).

(** The [while True] loop; [fuel] bounds the number of rounds. *)
Fixpoint get_unique_name_loop {A} (fuel : nat) (key : A -> string)
    (list_to_search : list A) (searching_name_base : string) (counter : Z)
    : option (outcome string) :=
  match fuel with
  | O => None
  | S fuel' =>
      match searching_name searching_name_base counter with
      | Raises e => Some (Raises e)
      | Returns name =>
          match List.find (fun thing => String.eqb (key thing) name) list_to_search with
          | Some _ =>
              get_unique_name_loop fuel' key list_to_search searching_name_base (counter + 1)
          | None => Some (Returns name)
          end
      end
  end.

(** [PyLogixObject.get_unique_name] *)
Definition get_unique_name {A} (fuel : nat) (key : A -> string)
    (named_object : PyLogixObject) (list_to_search : list A) : option (outcome string) :=
  let results := search_trailing_digits (name named_object) in
  let results_ctr :=
    match results with
    | Some group =>
        match int_of_str group with
        | Returns n => Some n
        | Raises _ => None
        end
    | None => None
    end in
  let searching_name_base :=
    match results, results_ctr with
    | Some group, Some n =>
        if negb (n =? 0)%Z then PyStr.replace (name named_object) group ""
        else name named_object
    | _, _ => name named_object
    end in
  let counter :=
    match results_ctr with
    | Some n => if negb (n =? 0)%Z then n else 1%Z
    | None => 1%Z
    end in
  get_unique_name_loop fuel key list_to_search searching_name_base counter.

(** ** datatype/datatype.py: a datatype written and read

    The record [DataType.t] does not carry [family] and [datatype_class];
    the encoder takes them as arguments and the decoder returns them next
    to the object. *)

Inductive LogixFamily := no_family | none | string_family.
Definition LogixFamily_value (f : LogixFamily) : string :=
  match f with
  | no_family => "NoFamily" | none => "None" | string_family => "StringFamily"
  end.

Inductive LogixDataTypeClass := User | standard.
Definition LogixDataTypeClass_value (c : LogixDataTypeClass) : string :=
  match c with
  | User => "User" | standard => "Standard"
  end.

(** [LogixFamily.from_string], [LogixDataTypeClass.from_string] *)
Definition LogixFamily_from_string (s : option string) : option LogixFamily :=
  List.find (fun f => bool_decide (Some (LogixFamily_value f) = s))
    [no_family; none; string_family].
Definition LogixDataTypeClass_from_string (s : option string) : option LogixDataTypeClass :=
  List.find (fun c => bool_decide (Some (LogixDataTypeClass_value c) = s)) [User; standard].

(** The members that get a [Dependency] element. *)
Definition dependant_members (include_dependencies : bool) (members : list DataTypeMember_t)
    : list DataTypeMember_t :=
  List.filter
    (fun member =>
       include_dependencies
       && match DataTypeMember.datatype member with
          | Some d =>
              negb (DataType.is_base_logix_instruction d || DataType.is_atomic d)
          | None => false
          end)
    members.

(** [DataType.to_l5x_xml_node] *)
Definition DataType_to_l5x_xml_node (self : DataType.t) (family : LogixFamily)
    (datatype_class : LogixDataTypeClass) (as_target include_dependencies : bool)
    : option XmlNode :=
  if DataType.is_atomic self || DataType.is_base_logix_instruction self then None
  else
    let dt_root := Element "DataType" [] [] in
    let dt_root :=
      if as_target then setAttribute "Use" (Some "Target") dt_root else dt_root in
    let dt_root := setAttribute "Name" (Some (name (DataType.super self))) dt_root in
    let dt_root := setAttribute "Family" (Some (LogixFamily_value family)) dt_root in
    let dt_root :=
      match datatype_class with
      | standard => dt_root
      | _ => setAttribute "Class" (Some (LogixDataTypeClass_value datatype_class)) dt_root
      end in
    let dt_root :=
      match description (DataType.super self) with
      | Some d =>
          if negb (String.eqb d "")
          then appendChild (Element "Description" [] [CDATASection d; TextNode ""]) dt_root
          else dt_root
      | None => dt_root
      end in
    match DataType.members self with
    | [] => Some dt_root
    | members =>
        let members_root :=
          fold_left
            (fun members_root member =>
               appendChild (DataTypeMember.to_l5x_xml_node member) members_root)
            members (Element "Members" [] []) in
        let dependant_members := dependant_members include_dependencies members in
        let dt_root := appendChild members_root dt_root in
        Some
          match dependant_members with
          | [] => dt_root
          | _ =>
              if include_dependencies then
                let dependencies_root :=
                  fold_left
                    (fun dependencies_root member =>
                       let dependency_node := Element "Dependency" [] [] in
                       let dependency_node :=
                         setAttribute "Type" (Some "DataType") dependency_node in
                       let dependency_node :=
                         setAttribute "Name"
                           (DataType.key <$> DataTypeMember.datatype member)
                           dependency_node in
                       appendChild dependency_node dependencies_root)
                    dependant_members (Element "Dependencies" [] []) in
                appendChild dependencies_root dt_root
              else dt_root
          end
    end.

(** A list comprehension whose body may raise: the items from left to
    right, up to the first that raises. *)
Fixpoint for_all {A B} (f : A -> outcome B) (l : list A) : outcome (list B) :=
  match l with
  | [] => Returns []
  | x :: rest =>
      let? y := f x in
      let? ys := for_all f rest in
      Returns (y :: ys)
  end.

(** [DataType.from_l5x_xml_node]; [members.extend] leaves out what is not a
    member object. *)
Definition DataType_from_l5x_xml_node (xml_node : option XmlNode)
    : outcome (option (DataType.t * LogixFamily * LogixDataTypeClass)) :=
  match xml_node with
  | None => Returns None
  | Some xml_node =>
      if is_Element xml_node then
        let? description := get_text_data xml_node "Description" in
        let family := LogixFamily_from_string (attribute "Family" xml_node) in
        let datatype_class :=
          LogixDataTypeClass_from_string (attribute "Class" xml_node) in
        let datatype :=
          DataType.__init__ (attribute_str "Name" xml_node) description false false in
        let? members_list_xml := get_first_element xml_node "Members" in
        let? members :=
          match members_list_xml with
          | Some members_list_xml =>
              let? read :=
                for_all (fun member_node => DataTypeMember_from_l5x_xml_node (Some member_node))
                  (List.filter is_Element (childNodes members_list_xml)) in
              Returns
                (PylogixList.extend member_key (DataType.members datatype)
                   (omap id read) false)
          | None => Returns (DataType.members datatype)
          end in
        Returns
          (Some
             (DataType.Build (DataType.super datatype) (DataType.is_atomic datatype)
                (DataType.is_base_logix_instruction datatype) members,
              default no_family family,
              default User datatype_class))
      else Raises AttributeErr
  end.

(** The member [DataTypeMember.from_l5x_xml_node] builds from the node
    [to_l5x_xml_node] writes for [m]. *)
Definition member_read_back {D D'} (m : DataTypeMember.t D) : DataTypeMember.t D' :=
  DataTypeMember.__init__
    (name (DataTypeMember.super m))
    (description_read_back (description (DataTypeMember.super m)))
    (DataTypeMember.datatype_meta_name m)
    (DataTypeMember.dimensions m)
    (DataTypeMember.radix m)
    (DataTypeMember.hidden m)
    (Some (if DataTypeMember.truthy (DataTypeMember.target m)
           then default "" (DataTypeMember.target m) else ""))
    (Some (DataTypeMember.BitStr
             (if DataTypeMember.bit_number_truthy (DataTypeMember.bit_number m)
              then default "" (DataTypeMember.bit_number_str <$> DataTypeMember.bit_number m)
              else ""))).

(** ** tag/tag.py: the dimensions of a tag *)






(** ** datatype/datatype.py: [DataTypeList.push_updates]

    [other_list] is another list object than [self]; the heap of tags is
    that of the closure. *)
Definition DataTypeList_push_updates (h : Heap) (self other_list : list DataType.t)
    : list DataType.t :=
  fold_left
    (fun other_list obj =>
       if in_by DataType.key obj other_list then
         let other_list := PylogixList.remove DataType.key other_list obj in
         let other_list :=
           PylogixList.append DataType.key other_list (deepcopy_DataType obj) false in
         fold_left
           (fun other_list d =>
              if in_by DataType.key d other_list then
                let other_list := PylogixList.remove DataType.key other_list d in
                PylogixList.append DataType.key other_list d false
              else if negb (in_by DataType.key d other_list) then
                PylogixList.append DataType.key other_list d false
              else other_list)
           (datatypes (DataType_get_dependencies h obj false)) other_list
       else other_list)
    self other_list.

(** ** base/pylogix_object.py, base/pylogix_list.py: [rename_strings] *)

Definition with_object_description (d : option string) (self : PyLogixObject)
    : PyLogixObject :=
  {| _name := _name self; description := d;
     description_properties := description_properties self;
     _generator_properties := _generator_properties self |}.

(** [PyLogixObject.rename_strings] *)
Definition PyLogixObject_rename_strings (_old_name _new_name : string)
    : M PyLogixObject unit :=
  do self <- get;
  do_ (if negb (String.eqb (name self) "")
       then name_setter (PyStr.replace (name self) _old_name _new_name)
       else ret tt);
  do self <- get;
  match description self with
  | Some d =>
      if negb (String.eqb d "")
      then put (with_object_description (Some (PyStr.replace d _old_name _new_name)) self)
      else ret tt
  | None => ret tt
  end.

(** [PylogixList.rename_strings] on a list of objects that have the
    [rename_strings] of [PyLogixObject] (datatype members, modules); the
    objects are given by their [PyLogixObject] part, the only one the method
    reads or writes.  The list returned is the list as the loop leaves it. *)
Fixpoint PylogixList_rename_strings (_old_name _new_name : string)
    (self : list PyLogixObject) : result unit * list PyLogixObject :=
  match self with
  | [] => (Ok tt, [])
  | x :: rest =>
      match PyLogixObject_rename_strings _old_name _new_name x with
      | (Ok _, x') =>
          let (r, rest') := PylogixList_rename_strings _old_name _new_name rest in
          (r, x' :: rest')
      | (Raise e, x') => (Raise e, x' :: rest)
      end
  end.

(** ** rung/rung.py: a rung read, and bound to the tags its text names

    The [kwargs] are the three lists the method looks names up in; a list
    that was not passed is [None], and looking into it raises the
    [KeyError] the method catches.  The type of the rung, which the record
    [Rung.t] does not carry, is returned next to the rung.  The names come
    in the order [list_of_set] gives them. *)

Inductive LogixRungType := rung_type_n.
Definition LogixRungType_from_string (s : option string) : option LogixRungType :=
  if bool_decide (s = Some "N") then Some rung_type_n else None.

(** The first loop of the [try] block; the flag tells whether it ended
    with a [KeyError]. *)
Fixpoint bind_tag_metas (h : Heap) (tags program_tags : option (list TagRef))
    (tag_metas : list string) (rung_tags rung_program_tags : list TagRef)
    : bool * list TagRef * list TagRef :=
  match tag_metas with
  | [] => (false, rung_tags, rung_program_tags)
  | tag_meta_name :: rest =>
      match tags with
      | None => (true, rung_tags, rung_program_tags)
      | Some tags' =>
          match PylogixList.by_name (tag_key h) tags' tag_meta_name with
          | Some tag =>
              bind_tag_metas h tags program_tags rest
                (PylogixList.append (tag_key h) rung_tags tag false) rung_program_tags
          | None =>
              match program_tags with
              | None => (true, rung_tags, rung_program_tags)
              | Some program_tags' =>
                  match PylogixList.by_name (tag_key h) program_tags' tag_meta_name with
                  | Some tag =>
                      bind_tag_metas h tags program_tags rest rung_tags
                        (PylogixList.append (tag_key h) rung_program_tags tag false)
                  | None =>
                      bind_tag_metas h tags program_tags rest rung_tags rung_program_tags
                  end
              end
          end
      end
  end.

(** [Rung.from_l5x_xml_node] *)
Definition Rung_from_l5x_xml_node (h : Heap) (xml_node : option XmlNode)
    (tags program_tags : option (list TagRef))
    (add_on_instructions : option (list AddOnInstructionDefinition.t))
    : outcome (option (Rung.t * option LogixRungType)) :=
  match xml_node with
  | None => Returns None
  | Some xml_node =>
      if is_Element xml_node then
        let? description := get_text_data xml_node "Description" in
        let? number := int_of (attribute "Number" xml_node) in
        let rung_type := LogixRungType_from_string (attribute "Type" xml_node) in
        let? text := get_text_data xml_node "Text" in
        let? comment := get_text_data xml_node "Comment" in
        let '(key_error, rung_tags, rung_program_tags) :=
          bind_tag_metas h tags program_tags (__get_tag_metas__ text) [] [] in
        let rung_add_on_instructions :=
          if key_error then []
          else
            match add_on_instructions with
            | Some add_on_instructions' =>
                omap (PylogixList.by_name AddOnInstructionDefinition.key add_on_instructions')
                  (__get_instruction_metas__ text)
            | None => []
            end in
        Returns
          (Some
             ({| Rung.super := PyLogixObject_init "" description;
                 Rung.number := Some number;
                 Rung.text := text;
                 Rung.tags := rung_tags;
                 Rung.program_tags := rung_program_tags;
                 Rung.add_on_instructions := rung_add_on_instructions;
                 Rung.comment := comment |},
              rung_type))
      else Raises AttributeErr
  end.

(** [str(self.number)] for a number that may be [None]; integers of at
    most 4300 digits. *)
Definition str_of_number (number : option Z) : string :=
  match number with
  | Some n => int_to_str n
  | None => "None"
  end.

(** [Rung.to_l5x]; a rung without a type has no [value] to write. *)
Definition Rung_to_l5x (self : Rung.t) (rung_type : option LogixRungType)
    : outcome XmlNode :=
  let rung_root := Element "Rung" [] [] in
  let rung_root := setAttribute "Number" (Some (str_of_number (Rung.number self))) rung_root in
  match rung_type with
  | None => Raises AttributeErr
  | Some rung_type_n =>
      let rung_root := setAttribute "Type" (Some "N") rung_root in
      let rung_root :=
        match Rung.comment self with
        | Some comment =>
            if negb (String.eqb comment "")
            then appendChild (Element "Comment" [] [CDATASection comment]) rung_root
            else rung_root
        | None => rung_root
        end in
      let rung_root :=
        match Rung.text self with
        | Some text =>
            if negb (String.eqb text "")
            then appendChild (Element "Text" [] [CDATASection text]) rung_root
            else rung_root
        | None => rung_root
        end in
      Returns rung_root
  end.

(** * Properties *)

(** ** The property list of a description: the recursion ends *)

Lemma find_nonneg (s sub : string) (start : Z) :
  (0 <= start)%Z -> PyStr.find s sub start <> (-1)%Z -> (0 <= PyStr.find s sub start)%Z.
Proof.
  intros Hs. unfold PyStr.find. destruct (PyStr.len s <? start)%Z; [congruence|].
  destruct (PyStr.find_from _ _ _); [lia | congruence].
Qed.

Lemma length_drop_str (k : nat) (s : string) :
  String.length (PyStr.drop_str k s) = String.length s - k.
Proof.
  revert s. induction k as [|k IH]; intros s; simpl; [lia|].
  destruct s as [|c s]; simpl; [reflexivity | apply IH].
Qed.

Lemma length_lstrip_by (p : ascii -> bool) (s : string) :
  String.length (PyStr.lstrip_by p s) <= String.length s.
Proof.
  induction s as [|c s IH]; simpl; [lia|]. destruct (p c); simpl; lia.
Qed.

Lemma length_rest (s : string) (k : Z) :
  s <> "" -> (1 <= k)%Z ->
  String.length (PyStr.lstrip (PyStr.slice_from s k)) < String.length s.
Proof.
  intros Hs Hk. unfold PyStr.lstrip, PyStr.slice_from.
  pose proof (length_lstrip_by PyStr.is_space
                (PyStr.drop_str (PyStr.norm_index (PyStr.len s) k) s)) as H.
  rewrite length_drop_str in H.
  assert (0 < String.length s) by (destruct s; [congruence | simpl; lia]).
  assert (1 <= PyStr.norm_index (PyStr.len s) k).
  { unfold PyStr.norm_index, PyStr.len. destruct (k <? 0)%Z eqn:E; lia. }
  lia.
Qed.

(** Any fuel above the length of the string gives the same list: the fuel
    of [property_list_from_string] never runs out. *)
Lemma property_list_from_string_fuel (fuel fuel' : nat) (s : string) (props : list string) :
  String.length s < fuel -> String.length s < fuel' ->
  property_list_from_string_rec fuel s props "<" ">"
  = property_list_from_string_rec fuel' s props "<" ">".
Proof.
  revert fuel' s props. induction fuel as [|fuel IH]; intros fuel' s props H H'; [lia|].
  destruct fuel' as [|fuel']; [lia|]. simpl.
  destruct (String.eqb_spec s "") as [->|Hs]; [reflexivity|].
  destruct (Z.eqb_spec (PyStr.find s "<" 0) (-1)) as [|Hb]; [reflexivity|].
  destruct (Z.eqb_spec (PyStr.find s ">" (PyStr.find s "<" 0 + PyStr.len "<")) (-1))
    as [|He]; [reflexivity|].
  pose proof (find_nonneg s "<" 0 ltac:(lia) Hb) as Gb.
  assert (Ga : (0 <= PyStr.find s "<" 0 + PyStr.len "<")%Z) by (unfold PyStr.len; simpl; lia).
  pose proof (find_nonneg s ">" _ Ga He) as Ge.
  assert (L : String.length
                (PyStr.lstrip
                   (PyStr.slice_from s
                      (PyStr.find s "<" 0 + PyStr.len "<"
                       + PyStr.find s ">" (PyStr.find s "<" 0 + PyStr.len "<"))))
              < String.length s).
  { apply length_rest; [exact Hs|]. unfold PyStr.len in *. simpl in *. lia. }
  apply IH; lia.
Qed.

(** ** [difflib]: the recursion of the matching blocks ends *)

Section LongestMatch.
Variables (pop : ascii -> bool) (alo ahi blo bhi : nat).

Abbreviation inside := (match_inside alo ahi).

Lemma row_bounds (ai : ascii) (i M : nat) (b : list ascii) :
  alo <= i -> i < ahi -> M <= i - alo ->
  forall j prev j2len best,
    prev <= M -> Forall (fun n => n <= M) j2len -> inside best ->
    Forall (fun n => n <= S M) (fst (difflib.row pop ai i blo bhi b j prev j2len best))
    /\ inside (snd (difflib.row pop ai i blo bhi b j prev j2len best)).
Proof.
  intros Hlo Hhi HM. induction b as [|bj b IH]; intros j prev j2len best Hp Hr Hb; simpl.
  - split; [constructor | exact Hb].
  - destruct j2len as [|old j2len]; simpl; [split; [constructor | exact Hb]|].
    apply Forall_cons in Hr as [Hold Hr].
    set (k := if Nat.leb blo j && Nat.ltb j bhi && Ascii.eqb ai bj && negb (pop bj)
              then S prev else 0).
    assert (Hk : k <= S M) by (unfold k; destruct (_ && _ && _ && _); lia).
    set (best' := if Nat.ltb (snd best) k then (i + 1 - k, j + 1 - k, k) else best).
    assert (Hb' : inside best').
    { unfold best'. destruct (Nat.ltb (snd best) k); [|exact Hb].
      unfold match_inside. simpl. lia. }
    specialize (IH (S j) old j2len best' Hold Hr Hb').
    destruct (difflib.row pop ai i blo bhi b (S j) old j2len best') as [new best''].
    simpl in *. destruct IH as [IH1 IH2]. split; [constructor; assumption | exact IH2].
Qed.

Lemma rows_bounds (b : list ascii) (a : list ascii) :
  forall i j2len best,
    Forall (fun n => n <= i - alo) j2len -> inside best ->
    inside (difflib.rows pop a b i alo ahi blo bhi j2len best).
Proof.
  induction a as [|ai a IH]; intros i j2len best Hr Hb; simpl; [exact Hb|].
  destruct (Nat.leb alo i && Nat.ltb i ahi) eqn:E.
  - apply andb_true_iff in E as [E1 E2].
    apply Nat.leb_le in E1. apply Nat.ltb_lt in E2.
    pose proof (row_bounds ai i (i - alo) b E1 E2 (Nat.le_refl _) 0 0 j2len best
                  (Nat.le_0_l _) Hr Hb) as [H1 H2].
    destruct (difflib.row pop ai i blo bhi b 0 0 j2len best) as [new best'].
    simpl in *. apply IH; [|exact H2].
    eapply Forall_impl; [exact H1|]. simpl. intros n Hn. lia.
  - apply IH; [|exact Hb].
    eapply Forall_impl; [exact Hr|]. simpl. intros n Hn. lia.
Qed.

Lemma extend_left_bounds (fuel : nat) (a b : list ascii) (m : difflib.Match) :
  inside m -> inside (difflib.extend_left fuel a b alo blo m).
Proof.
  revert m. induction fuel as [|fuel IH]; intros [[besti bestj] bestsize] H; simpl;
    [exact H|].
  destruct (Nat.ltb alo besti && Nat.ltb blo bestj && difflib.same_at a b (besti - 1) (bestj - 1))
    eqn:E; [|exact H].
  apply andb_true_iff in E as [E _]. apply andb_true_iff in E as [E _].
  apply Nat.ltb_lt in E. apply IH. unfold match_inside in *. simpl in *. lia.
Qed.

Lemma extend_right_bounds (fuel : nat) (a b : list ascii) (m : difflib.Match) :
  inside m -> inside (difflib.extend_right fuel a b ahi bhi m).
Proof.
  revert m. induction fuel as [|fuel IH]; intros [[besti bestj] bestsize] H; simpl;
    [exact H|].
  destruct (Nat.ltb (besti + bestsize) ahi && Nat.ltb (bestj + bestsize) bhi
            && difflib.same_at a b (besti + bestsize) (bestj + bestsize)) eqn:E; [|exact H].
  apply andb_true_iff in E as [E _]. apply andb_true_iff in E as [E _].
  apply Nat.ltb_lt in E. apply IH. unfold match_inside in *. simpl in *. lia.
Qed.

End LongestMatch.

(** The longest match lies inside the stretch of [a] it was looked for in. *)
Lemma find_longest_match_bounds (a b : list ascii) (alo ahi blo bhi : nat) :
  alo <= ahi ->
  alo <= fst (fst (difflib.find_longest_match a b alo ahi blo bhi))
  /\ fst (fst (difflib.find_longest_match a b alo ahi blo bhi))
     + snd (difflib.find_longest_match a b alo ahi blo bhi) <= ahi.
Proof.
  intros H. unfold difflib.find_longest_match.
  apply extend_right_bounds, extend_left_bounds, rows_bounds.
  - apply Forall_forall. intros n Hn. apply list_elem_of_In, repeat_spec in Hn. lia.
  - unfold match_inside. simpl. lia.
Qed.

(** Any fuel above the length of the stretch gives the same sum: the fuel
    of [matches] never runs out. *)
Lemma matches_fuel (a b : list ascii) (fuel fuel' : nat) :
  forall alo ahi blo bhi,
    alo <= ahi -> ahi - alo < fuel -> ahi - alo < fuel' ->
    difflib.matches fuel a b alo ahi blo bhi = difflib.matches fuel' a b alo ahi blo bhi.
Proof.
  revert fuel'. induction fuel as [|fuel IH]; intros fuel' alo ahi blo bhi H F F'; [lia|].
  destruct fuel' as [|fuel']; [lia|]. simpl.
  pose proof (find_longest_match_bounds a b alo ahi blo bhi H) as [B1 B2].
  destruct (difflib.find_longest_match a b alo ahi blo bhi) as [[i j] k]. simpl in *.
  destruct (Nat.eqb_spec k 0) as [|Hk]; [reflexivity|].
  f_equal; [f_equal|].
  - destruct (Nat.ltb alo i && Nat.ltb blo j); [|reflexivity]. apply IH; lia.
  - destruct (Nat.ltb (i + k) ahi && Nat.ltb (j + k) bhi); [|reflexivity]. apply IH; lia.
Qed.

(** ** The document tree *)

Lemma getAttribute_setAttribute_eq k v e t a c :
  e = Element t a c ->
  getAttribute k (setAttribute k v e) = Some v.
Proof.
  intros ->. unfold getAttribute, setAttribute.
  induction a as [|[n w] a IH]; simpl.
  - rewrite String.eqb_refl. reflexivity.
  - destruct (String.eqb n k) eqn:E; simpl; rewrite E; [reflexivity | exact IH].
Qed.

Lemma getAttribute_setAttribute_ne k k' v e :
  k <> k' ->
  getAttribute k (setAttribute k' v e) = getAttribute k e.
Proof.
  intros Hne. destruct e as [t a c| |]; try reflexivity.
  unfold getAttribute, setAttribute.
  induction a as [|[n w] a IH]; simpl.
  - destruct (String.eqb k' k) eqn:E; [|reflexivity].
    apply String.eqb_eq in E. congruence.
  - destruct (String.eqb n k') eqn:E; simpl.
    + apply String.eqb_eq in E. subst n.
      destruct (String.eqb k' k) eqn:E'; [|reflexivity].
      apply String.eqb_eq in E'. congruence.
    + destruct (String.eqb n k); [reflexivity | exact IH].
Qed.

Lemma getAttribute_appendChild k c e :
  getAttribute k (appendChild c e) = getAttribute k e.
Proof. destruct e; reflexivity. Qed.

Lemma setAttribute_is_element k v e t a c :
  e = Element t a c -> exists a', setAttribute k v e = Element t a' c.
Proof. intros ->. simpl. eauto. Qed.

(** The [DataType] attribute of an emitted member is the value computed by
    [emitted_datatype]. *)
Lemma to_l5x_xml_node_DataType (self : DataTypeMember_t) :
  getAttribute "DataType" (DataTypeMember.to_l5x_xml_node self)
  = Some (DataTypeMember.emitted_datatype self).
Proof.
  unfold DataTypeMember.to_l5x_xml_node.
  set (e0 := setAttribute "Name" _ _).
  assert (H0 : exists a, setAttribute "DataType" (DataTypeMember.emitted_datatype self) e0
                         = Element "Member" a []).
  { eapply setAttribute_is_element. reflexivity. }
  assert (G0 : getAttribute "DataType"
                 (setAttribute "DataType" (DataTypeMember.emitted_datatype self) e0)
               = Some (DataTypeMember.emitted_datatype self)).
  { eapply getAttribute_setAttribute_eq. reflexivity. }
  set (e1 := setAttribute "DataType" _ e0) in *. clearbody e1. clear e0.
  repeat match goal with
  | |- context [match ?x with Some _ => _ | None => _ end] => destruct x
  | |- context [if ?b then _ else _] => destruct b
  end;
  repeat first
    [ rewrite getAttribute_appendChild
    | rewrite getAttribute_setAttribute_ne by discriminate ];
  exact G0.
Qed.

(** C6: for a datatype that is atomic or a base Logix instruction,
    [get_dependencies] returns the empty dependency set, whatever
    [include_root] is and whatever members the datatype has. *)
Theorem atomic_datatype_closure_empty (h : Heap) (d : DataType.t) (include_root : bool) :
  DataType.is_atomic d = true \/ DataType.is_base_logix_instruction d = true ->
  get_dependencies h (EDataType d) include_root = Ok PyLogixDependencies.__init__.
Proof.
  intros H. simpl. f_equal.
  destruct d as [b at_ bi ms]; simpl in *.
  destruct H as [-> | ->]; simpl; [reflexivity|].
  rewrite orb_true_r. reflexivity.
Qed.

Lemma atomic_datatype_closure_empty_witness :
  DataType.is_base_logix_instruction LOGIX_TIMER = true
  /\ get_dependencies [] (EDataType LOGIX_TIMER) true = Ok PyLogixDependencies.__init__.
Proof.
  split; [reflexivity|].
  apply (atomic_datatype_closure_empty [] LOGIX_TIMER true). right. reflexivity.
Defined.

(** C7: a member declared [BIT] is stored with datatype name [BOOL]; its
    emitted [DataType] attribute is [BIT] exactly when its dimension is 0
    and [BOOL] for every other dimension. *)
Theorem bit_member_roundtrip (name : string) (description : option string)
    (dimensions : Z) (radix : option LogixRadix) (hidden : bool)
    (target : option string) (bit_number : option DataTypeMember.BitNumber) :
  let member : DataTypeMember_t :=
    DataTypeMember.__init__ name description (Some "BIT") dimensions radix hidden
      target bit_number in
  DataTypeMember.datatype_meta_name member = Some "BOOL"
  /\ getAttribute "DataType" (DataTypeMember.to_l5x_xml_node member)
     = Some (Some (if (dimensions =? 0)%Z then "BIT" else "BOOL"))
  /\ (getAttribute "DataType" (DataTypeMember.to_l5x_xml_node member) = Some (Some "BIT")
      <-> dimensions = 0%Z).
Proof.
  intros member.
  assert (E : getAttribute "DataType" (DataTypeMember.to_l5x_xml_node member)
              = Some (Some (if (dimensions =? 0)%Z then "BIT" else "BOOL"))).
  { rewrite to_l5x_xml_node_DataType. unfold DataTypeMember.emitted_datatype. simpl.
    destruct (dimensions =? 0)%Z; reflexivity. }
  split; [reflexivity|]. split; [exact E|].
  rewrite E. destruct (Z.eqb_spec dimensions 0) as [->|Hne].
  - split; reflexivity.
  - split; [discriminate | contradiction].
Qed.

(** C10: every scalar member whose stored datatype name is [BOOL] is
    emitted as [BIT], also one that was built with declared type [BOOL]:
    a scalar [BOOL] member does not come back as [BOOL]. *)
Theorem scalar_bool_member_emitted_as_bit (self : DataTypeMember_t) :
  DataTypeMember.datatype_meta_name self = Some "BOOL" ->
  DataTypeMember.dimensions self = 0%Z ->
  getAttribute "DataType" (DataTypeMember.to_l5x_xml_node self) = Some (Some "BIT")
  /\ getAttribute "DataType" (DataTypeMember.to_l5x_xml_node self) <> Some (Some "BOOL").
Proof.
  intros Hm Hd.
  rewrite to_l5x_xml_node_DataType. unfold DataTypeMember.emitted_datatype.
  rewrite Hm, Hd. simpl. split; [reflexivity | discriminate].
Qed.

Lemma scalar_bool_member_emitted_as_bit_witness :
  let member : DataTypeMember_t :=
    DataTypeMember.__init__ "EN" (Some "") (Some "BOOL") 0 None false (Some "") None in
  DataTypeMember.datatype_meta_name member = Some "BOOL"
  /\ getAttribute "DataType" (DataTypeMember.to_l5x_xml_node member) = Some (Some "BIT")
  /\ getAttribute "DataType" (DataTypeMember.to_l5x_xml_node member) <> Some (Some "BOOL").
Proof.
  split; [reflexivity|].
  apply (scalar_bool_member_emitted_as_bit
           (DataTypeMember.__init__ "EN" (Some "") (Some "BOOL") 0 None false (Some "") None));
    reflexivity.
Defined.

(** C8 (as the code has it): assigning a name that contains one of the
    eighteen disallowed characters (the space among them) raises the
    validation error and leaves the object, its stored name included, as it
    was. *)
Theorem name_setter_rejects (self : PyLogixObject) (value x : string) :
  In x bad_vals ->
  PyStr.contains x value = true ->
  name_setter value self = (Raise (ValueError "illegal name set!"), self)
  /\ name (snd (name_setter value self)) = name self.
Proof.
  intros Hin Hc.
  assert (E : existsb (fun x => PyStr.contains x value) bad_vals = true).
  { apply existsb_exists. exists x. split; assumption. }
  unfold name_setter. rewrite E. split; reflexivity.
Qed.

Lemma name_setter_rejects_witness :
  name_setter "My Tag" (PyLogixObject_init "MyTag" None)
    = (Raise (ValueError "illegal name set!"), PyLogixObject_init "MyTag" None)
  /\ name (snd (name_setter "My Tag" (PyLogixObject_init "MyTag" None))) = "MyTag".
Proof.
  apply (name_setter_rejects (PyLogixObject_init "MyTag" None) "My Tag" " ").
  - unfold bad_vals. simpl. tauto.
  - reflexivity.
Defined.

(** C8, the claim as stated fails: a tab and a newline are whitespace, a
    semicolon, a question mark and a colon are punctuation, and none of them
    is among the eighteen disallowed characters; the setter accepts a name
    that holds them and overwrites the stored name. *)
Lemma name_setter_accepts_tab_counterexample :
  PyStr.is_space (ascii_of_nat 9) = true
  /\ PyStr.is_space (ascii_of_nat 10) = true
  /\ name_setter ("My" +:+ String (ascii_of_nat 9) "Tag") (PyLogixObject_init "MyTag" None)
     = (Ok tt, PyLogixObject_init ("My" +:+ String (ascii_of_nat 9) "Tag") None)
  /\ name (snd (name_setter ("My" +:+ String (ascii_of_nat 9) "Tag")
                  (PyLogixObject_init "MyTag" None)))
     <> name (PyLogixObject_init "MyTag" None)
  /\ name_setter ("My" +:+ String (ascii_of_nat 10) "Tag") (PyLogixObject_init "MyTag" None)
     = (Ok tt, PyLogixObject_init ("My" +:+ String (ascii_of_nat 10) "Tag") None)
  /\ name_setter "a;b?c:d" (PyLogixObject_init "MyTag" None)
     = (Ok tt, PyLogixObject_init "a;b?c:d" None).
Proof.
  repeat split; try (vm_compute; reflexivity). vm_compute. discriminate.
Qed.

(** C2 (what the code does on the two texts of the claim): the operand
    miner yields exactly the tag names Start, Motor1 and Setpoint, Output;
    the mnemonic miner yields XIC, OTE and MOV and, with them, the empty
    string cut from the empty fragment behind the last closing parenthesis. *)
Theorem miner_examples :
  (forall x, In x (__get_tag_metas__ (Some "XIC(Start)OTE(Motor1)"))
             <-> In x ["Start"; "Motor1"])
  /\ (forall x, In x (__get_tag_metas__ (Some "MOV(Setpoint[2],Output)"))
                <-> In x ["Setpoint"; "Output"])
  /\ (forall x, In x (__get_instruction_metas__ (Some "XIC(Start)OTE(Motor1)"))
                <-> In x ["XIC"; "OTE"; ""])
  /\ (forall x, In x (__get_instruction_metas__ (Some "MOV(Setpoint[2],Output)"))
                <-> In x ["MOV"; ""])
  /\ In "" (__get_instruction_metas__ (Some "XIC(Start)OTE(Motor1)"))
  /\ In "" (__get_instruction_metas__ (Some "MOV(Setpoint[2],Output)")).
Proof.
  replace (__get_tag_metas__ (Some "XIC(Start)OTE(Motor1)"))
    with ["Start"; "Motor1"] by (vm_compute; reflexivity).
  replace (__get_tag_metas__ (Some "MOV(Setpoint[2],Output)"))
    with ["Setpoint"; "Output"] by (vm_compute; reflexivity).
  replace (__get_instruction_metas__ (Some "XIC(Start)OTE(Motor1)"))
    with ["XIC"; "OTE"; ""] by (vm_compute; reflexivity).
  replace (__get_instruction_metas__ (Some "MOV(Setpoint[2],Output)"))
    with ["MOV"; ""] by (vm_compute; reflexivity).
  repeat split; intros; simpl in *; tauto.
Qed.

(** ** Accumulation by name *)

Section SafeAdd.
Context {A : Type} (key : A -> string).

Lemma in_by_In (item : A) (l : list A) :
  in_by key item l = true <-> In (key item) (map key l).
Proof.
  unfold in_by, name_eqb. rewrite existsb_exists, in_map_iff.
  split; intros (x & H1 & H2).
  - apply String.eqb_eq in H2. eauto.
  - exists x. split; [assumption|]. apply String.eqb_eq. assumption.
Qed.

Lemma in_by_app (item : A) (l1 l2 : list A) :
  in_by key item (l1 ++ l2) = in_by key item l1 || in_by key item l2.
Proof. unfold in_by. apply existsb_app. Qed.

Lemma in_by_self (item : A) (l : list A) :
  In item l -> in_by key item l = true.
Proof. intros H. apply in_by_In. apply in_map. assumption. Qed.

Lemma safe_add_item_NoDup (l : list A) (x : A) :
  NoDup (map key l) -> NoDup (map key (safe_add_item key l x)).
Proof.
  intros H. unfold safe_add_item.
  destruct (in_by key x l) eqn:E; [assumption|].
  rewrite map_app. simpl. apply NoDup_app. split; [assumption|].
  split.
  - intros k Hk Hx. apply list_elem_of_In in Hk. apply list_elem_of_In in Hx.
    destruct Hx as [<-|[]].
    apply in_by_In in Hk. congruence.
  - apply NoDup_singleton.
Qed.

Lemma fold_safe_add_item_NoDup (l1 l2 : list A) :
  NoDup (map key l1) -> NoDup (map key (fold_left (safe_add_item key) l2 l1)).
Proof.
  revert l1. induction l2 as [|x l2 IH]; intros l1 H; simpl; [assumption|].
  apply IH. apply safe_add_item_NoDup. assumption.
Qed.

Lemma safe_add_NoDup (l1 l2 : list A) :
  NoDup (map key l1) -> NoDup (map key (__safe_add__ key l1 l2)).
Proof. apply fold_safe_add_item_NoDup. Qed.

Lemma safe_add_absorb (l1 l2 : list A) :
  (forall x, In x l2 -> in_by key x l1 = true) -> __safe_add__ key l1 l2 = l1.
Proof.
  unfold __safe_add__. induction l2 as [|x l2 IH]; intros H; simpl; [reflexivity|].
  unfold safe_add_item at 2. rewrite (H x) by (left; reflexivity).
  apply IH. intros y Hy. apply H. right. assumption.
Qed.

Lemma safe_add_self (l : list A) : __safe_add__ key l l = l.
Proof. apply safe_add_absorb. intros x Hx. apply in_by_self. assumption. Qed.

End SafeAdd.

Lemma dup_free_init h : dup_free h PyLogixDependencies.__init__.
Proof. unfold dup_free. simpl. repeat split; apply NoDup_nil_2. Qed.

Lemma dup_free_extend h d other : dup_free h d -> dup_free h (extend h d other).
Proof.
  unfold dup_free. intros (H1 & H2 & H3 & H4 & H5 & H6 & H7). simpl.
  repeat split; apply safe_add_NoDup; assumption.
Qed.

Lemma extend_self h d : extend h d d = d.
Proof.
  destruct d. unfold extend. simpl. rewrite !safe_add_self. reflexivity.
Qed.

Lemma dup_free_datatypes h d l :
  dup_free h d -> NoDup (map DataType.key l) -> dup_free h (with_datatypes l d).
Proof. unfold dup_free. simpl. tauto. Qed.

Lemma dup_free_tags h d l :
  dup_free h d -> NoDup (map (tag_key h) l) -> dup_free h (with_tags l d).
Proof. unfold dup_free. simpl. tauto. Qed.

Lemma dup_free_program_tags h d l :
  dup_free h d -> NoDup (map (tag_key h) l) -> dup_free h (with_program_tags l d).
Proof. unfold dup_free. simpl. tauto. Qed.

Lemma dup_free_add_on_instructions h d l :
  dup_free h d -> NoDup (map AddOnInstructionDefinition.key l) ->
  dup_free h (with_add_on_instructions l d).
Proof. unfold dup_free. simpl. tauto. Qed.

Lemma dup_free_programs h d l :
  dup_free h d -> NoDup (map Program.key l) -> dup_free h (with_programs l d).
Proof. unfold dup_free. simpl. tauto. Qed.

Lemma dup_free_tasks h d l :
  dup_free h d -> NoDup (map Task.key l) -> dup_free h (with_tasks l d).
Proof. unfold dup_free. simpl. tauto. Qed.

Lemma DataType_closure_dup_free h d include_root :
  dup_free h (DataType_get_dependencies h d include_root).
Proof.
  destruct d as [b at_ bi ms]. simpl.
  destruct (at_ || bi); [apply dup_free_init|].
  match goal with
  | |- dup_free h (_ ms ?d0) =>
      assert (H0 : dup_free h d0); [|revert H0; generalize d0]
  end.
  { destruct include_root; [|apply dup_free_init].
    apply dup_free_datatypes; [apply dup_free_init|].
    apply (safe_add_item_NoDup DataType.key []). apply NoDup_nil_2. }
  induction ms as [|m ms IH]; intros d0 H0; [assumption|].
  destruct (DataTypeMember.datatype m) as [d'|]; [|apply IH; assumption].
  destruct (is_dependency d'); [|apply IH; assumption].
  apply IH. apply dup_free_extend.
  destruct (negb (in_by DataType.key d' (datatypes d0))) eqn:E; [|assumption].
  apply dup_free_datatypes; [assumption|].
  pose proof (safe_add_item_NoDup DataType.key (datatypes d0) d') as HN.
  unfold safe_add_item in HN. apply negb_true_iff in E. rewrite E in HN.
  apply HN. apply H0.
Qed.

Lemma fold_extend_dup_free {A} h (f : A -> PyLogixDependencies.t) xs d :
  dup_free h d -> dup_free h (fold_left (fun deps x => extend h deps (f x)) xs d).
Proof.
  revert d. induction xs as [|x xs IH]; intros d H; simpl; [assumption|].
  apply IH. apply dup_free_extend. assumption.
Qed.

Lemma extend_with_tag_datatypes_dup_free h refs d :
  dup_free h d -> dup_free h (extend_with_tag_datatypes h refs d).
Proof.
  unfold extend_with_tag_datatypes. revert d.
  induction refs as [|r refs IH]; intros d H; simpl; [assumption|].
  apply IH. destruct (Tag.datatype (deref h r)) as [d'|]; [|assumption].
  destruct (is_dependency d'); [|assumption]. apply dup_free_extend. assumption.
Qed.

Lemma Tag_closure_dup_free h r include_root :
  dup_free h (Tag_get_dependencies h r include_root).
Proof.
  unfold Tag_get_dependencies.
  assert (H0 : dup_free h
                 (if include_root
                  then with_tags (safe_add_item (tag_key h) [] r) PyLogixDependencies.__init__
                  else PyLogixDependencies.__init__)).
  { destruct include_root; [|apply dup_free_init].
    apply dup_free_tags; [apply dup_free_init|].
    apply (safe_add_item_NoDup (tag_key h) []). apply NoDup_nil_2. }
  simpl in *. destruct (Tag.datatype (deref h r)); [|exact H0].
  apply dup_free_extend. exact H0.
Qed.

Lemma Rung_closure_dup_free h x : dup_free h (Rung_get_dependencies h x).
Proof.
  unfold Rung_get_dependencies.
  apply extend_with_tag_datatypes_dup_free, extend_with_tag_datatypes_dup_free.
  apply dup_free_add_on_instructions;
    [|apply fold_safe_add_item_NoDup; apply NoDup_nil_2].
  apply dup_free_program_tags;
    [|apply fold_safe_add_item_NoDup; apply NoDup_nil_2].
  apply dup_free_tags;
    [|apply fold_safe_add_item_NoDup; apply NoDup_nil_2].
  apply dup_free_init.
Qed.

Lemma Routine_closure_dup_free h x : dup_free h (Routine_get_dependencies h x).
Proof. apply fold_extend_dup_free, dup_free_init. Qed.

Lemma Program_closure_dup_free h x include_root :
  dup_free h (Program_get_dependencies h x include_root).
Proof.
  unfold Program_get_dependencies.
  apply (fold_extend_dup_free h (fun tag => Tag_get_dependencies h tag false)).
  apply (fold_extend_dup_free h (Routine_get_dependencies h)).
  destruct include_root; [|apply dup_free_init].
  apply dup_free_programs; [apply dup_free_init|].
  apply (safe_add_item_NoDup Program.key []). apply NoDup_nil_2.
Qed.

Lemma Task_closure_dup_free h x include_root :
  dup_free h (Task_get_dependencies x include_root).
Proof.
  unfold Task_get_dependencies. destruct include_root; [|apply dup_free_init].
  apply dup_free_tasks; [apply dup_free_init|]. simpl. apply NoDup_singleton.
Qed.

Lemma extend_each_dup_free {A} h (f : A -> result PyLogixDependencies.t) xs d d' :
  dup_free h d -> extend_each h f xs d = Ok d' -> dup_free h d'.
Proof.
  revert d. induction xs as [|x xs IH]; intros d H E; simpl in E.
  - injection E as <-. assumption.
  - destruct (f x) as [dx|e]; [|discriminate].
    eapply IH; [|exact E]. apply dup_free_extend. assumption.
Qed.

Lemma closure_dup_free h x include_root d :
  get_dependencies h x include_root = Ok d -> dup_free h d.
Proof.
  destruct x as [dt|r|at_|ap|aoi|rg|rt|pg|tk]; simpl; intros E.
  - injection E as <-. apply DataType_closure_dup_free.
  - injection E as <-. apply Tag_closure_dup_free.
  - unfold AddOnInstructionTag_get_dependencies in E.
    destruct (AddOnInstructionTag.datatype at_); [|discriminate].
    injection E as <-. apply DataType_closure_dup_free.
  - unfold AddOnInstructionParameter_get_dependencies in E.
    destruct (AddOnInstructionParameter.datatype ap); [|discriminate].
    injection E as <-. apply DataType_closure_dup_free.
  - unfold AddOnInstructionDefinition_get_dependencies in E.
    match type of E with
    | match extend_each h ?f ?xs ?d0 with _ => _ end = _ =>
        destruct (extend_each h f xs d0) as [d1|e] eqn:E1; [|discriminate];
        assert (H1 : dup_free h d1)
    end.
    { eapply extend_each_dup_free; [|exact E1].
      destruct include_root; [|apply dup_free_init].
      apply dup_free_add_on_instructions; [apply dup_free_init|].
      apply (safe_add_item_NoDup AddOnInstructionDefinition.key []). apply NoDup_nil_2. }
    eapply extend_each_dup_free; [exact H1 | exact E].
  - injection E as <-. apply Rung_closure_dup_free.
  - injection E as <-. apply Routine_closure_dup_free.
  - injection E as <-. apply Program_closure_dup_free.
  - injection E as <-. apply Task_closure_dup_free.
Qed.

(** C5: for every entity, extending its dependency set with itself leaves
    the set unchanged; no bucket of the set holds two entries of equal
    name, and none does after any further accumulation into it. *)
Theorem closure_accumulation_idempotent_dup_free
    (h : Heap) (x : Entity) (include_root : bool) (d : PyLogixDependencies.t) :
  get_dependencies h x include_root = Ok d ->
  extend h d d = d
  /\ dup_free h d
  /\ forall other, dup_free h (extend h d other).
Proof.
  intros E. split; [apply extend_self|].
  pose proof (closure_dup_free h x include_root d E) as H.
  split; [exact H|]. intros other. apply dup_free_extend. exact H.
Qed.

Lemma closure_accumulation_idempotent_dup_free_witness :
  exists d,
    get_dependencies Example.master_heap (EProgram Example.master_program) true = Ok d
    /\ map DataType.key (datatypes d) = ["Valve"; "ValveState"]
    /\ extend Example.master_heap d d = d
    /\ dup_free Example.master_heap d
    /\ forall other, dup_free Example.master_heap (extend Example.master_heap d other).
Proof.
  eexists. split; [reflexivity|]. split; [reflexivity|].
  apply (closure_accumulation_idempotent_dup_free
           Example.master_heap (EProgram Example.master_program) true).
  reflexivity.
Defined.

(** ** The merge engine: similarity matching of internal routines *)

Lemma find_first {A} (p : A -> bool) (pre : list A) (t : A) (post : list A) :
  Forall (fun r => p r = false) pre -> p t = true ->
  List.find p (pre ++ t :: post) = Some t.
Proof.
  intros Hpre Ht. induction Hpre as [|r pre Hr _ IH]; simpl.
  - rewrite Ht. reflexivity.
  - rewrite Hr. exact IH.
Qed.

Lemma find_none {A} (p : A -> bool) (l : list A) :
  Forall (fun r => p r = false) l -> List.find p l = None.
Proof.
  intros H. induction H as [|r l Hr _ IH]; simpl; [reflexivity|].
  rewrite Hr. exact IH.
Qed.

Lemma list_remove_first {A} (key : A -> string) (pre : list A) (t : A) (post : list A) :
  Forall (fun r => name_eqb (key r) (key t) = false) pre ->
  PylogixList.list_remove key t (pre ++ t :: post) = pre ++ post.
Proof.
  intros Hpre. induction Hpre as [|r pre Hr _ IH]; simpl.
  - unfold name_eqb. rewrite String.eqb_refl. reflexivity.
  - rewrite Hr. f_equal. exact IH.
Qed.

Lemma in_by_middle {A} (key : A -> string) (pre : list A) (t : A) (post : list A) :
  in_by key t (pre ++ t :: post) = true.
Proof. apply in_by_self. apply in_elt. Qed.

Lemma append_no_overwrite {A} (key : A -> string) (l : list A) (x : A) :
  PylogixList.append key l x false = if in_by key x l then l else l ++ [x].
Proof.
  unfold PylogixList.append. rewrite andb_false_r.
  destruct (in_by key x l); reflexivity.
Qed.

(** C3 (as the code has it): with similarity matching on, the call returns
    the routine's dependency set; the first target routine, in list order,
    whose ratio reaches the threshold is the one removed, and the source
    routine is appended unless a remaining routine already has its name;
    when no target reaches the threshold nothing is removed and the source
    routine is appended, again unless a routine already has its name. *)
Theorem push_routine_replaces_first_similar
    (routine : Routine.t) (similarity_gain : Q) (st : MergeState) :
  let routines := Program.routines (other_prog st) in
  let after := __push_routine__ (Some routine) true similarity_gain st in
  let routines' := Program.routines (other_prog (snd after)) in
  fst after = Ok (Routine_get_dependencies (heap st) routine)
  /\ (forall pre t post,
        routines = pre ++ t :: post ->
        Forall (fun r => similar similarity_gain (Routine.key routine) (Routine.key r) = false)
          pre ->
        similar similarity_gain (Routine.key routine) (Routine.key t) = true ->
        routines' = if in_by Routine.key routine (pre ++ post)
                    then pre ++ post else pre ++ post ++ [routine])
  /\ (Forall (fun r => similar similarity_gain (Routine.key routine) (Routine.key r) = false)
        routines ->
      routines' = if in_by Routine.key routine routines
                  then routines else routines ++ [routine]).
Proof.
  intros routines after routines'.
  split; [reflexivity|]. split.
  - intros pre t post E Hpre Ht.
    subst routines' after. unfold __push_routine__, bind, get, put, ret. simpl.
    fold routines. rewrite E.
    rewrite (find_first _ pre t post Hpre Ht).
    rewrite in_by_middle. unfold PylogixList.remove. rewrite in_by_middle.
    rewrite list_remove_first.
    + rewrite append_no_overwrite.
      destruct (in_by Routine.key routine (pre ++ post));
        [reflexivity | rewrite <- app_assoc; reflexivity].
    + eapply Forall_impl; [exact Hpre|]. intros r Hr. simpl in Hr.
      unfold name_eqb. destruct (String.eqb_spec (Routine.key r) (Routine.key t)) as [Ek|];
        [|reflexivity].
      rewrite Ek in Hr. congruence.
  - intros Hall.
    subst routines' after. unfold __push_routine__, bind, get, put, ret. simpl.
    fold routines. rewrite (find_none _ routines Hall).
    apply append_no_overwrite.
Qed.

Lemma push_routine_replaces_first_similar_witness :
  let after :=
    __push_routine__ (Some Example.InternalRoutineName10) true (19 # 20)
      Example.similarity_start in
  Program.routines (other_prog Example.similarity_start)
    = [] ++ Example.InternalRoutineName11 :: [Example.InternalRoutineName10x]
  /\ similar (19 # 20) "InternalRoutineName10" "InternalRoutineName11" = true
  /\ Program.routines (other_prog (snd after))
     = [Example.InternalRoutineName10x; Example.InternalRoutineName10].
Proof.
  split; [reflexivity|]. split; [vm_compute; reflexivity|].
  destruct (push_routine_replaces_first_similar
              Example.InternalRoutineName10 (19 # 20) Example.similarity_start)
    as (_ & H & _).
  apply (H [] Example.InternalRoutineName11 [Example.InternalRoutineName10x]).
  - reflexivity.
  - constructor.
  - vm_compute. reflexivity.
Defined.

(** C3, the claim as stated fails: both targets reach the threshold 0.95
    and the second one has the highest ratio to the source name, yet the
    first is the one removed and the best match stays in the program. *)
Lemma push_routine_best_match_counterexample :
  Qle (19 # 20) (difflib.ratio "InternalRoutineName10" "InternalRoutineName11")
  /\ Qlt (difflib.ratio "InternalRoutineName10" "InternalRoutineName11")
         (difflib.ratio "InternalRoutineName10" "InternalRoutineName10x")
  /\ Program.routines
       (other_prog
          (snd (__push_routine__ (Some Example.InternalRoutineName10) true (19 # 20)
                  Example.similarity_start)))
     = [Example.InternalRoutineName10x; Example.InternalRoutineName10]
  /\ ~ In Example.InternalRoutineName11
         (Program.routines
            (other_prog
               (snd (__push_routine__ (Some Example.InternalRoutineName10) true (19 # 20)
                       Example.similarity_start)))).
Proof.
  split; [vm_compute; discriminate|].
  split; [vm_compute; reflexivity|].
  split; [vm_compute; reflexivity|].
  vm_compute. intros [H|[H|[]]]; discriminate.
Qed.

(** ** The merge engine: malformed driver names *)

Lemma extend_with_each_app {A} (f : A -> M MergeState PyLogixDependencies.t)
    (xs ys : list A) (d : PyLogixDependencies.t) (st : MergeState) :
  extend_with_each f (xs ++ ys) d st
  = match extend_with_each f xs d st with
    | (Ok d', st') => extend_with_each f ys d' st'
    | (Raise e, st') => (Raise e, st')
    end.
Proof.
  revert d st. induction xs as [|x xs IH]; intros d st; simpl.
  - destruct (extend_with_each f ys d st) as [[d'|e] st']; reflexivity.
  - unfold bind, get. destruct (f x st) as [[dx|e] st1]; [|reflexivity].
    apply IH.
Qed.

Lemma push_driver_malformed (routine : Routine.t) (st : MergeState) :
  length (PyStr.split "_" (name (Routine.super routine))) < 3 ->
  __push_driver_routine__ routine st
  = (Raise (ValueError ("Master Driver Routine Naming Violation: "
                        +:+ name (Routine.super routine))), st).
Proof.
  intros H. unfold __push_driver_routine__.
  apply Nat.ltb_lt in H. rewrite H. reflexivity.
Qed.

(** C9 (as the code has it): a driver routine whose name has fewer than
    three tokens makes driver propagation raise the error that carries the
    name, with the target program and the heap exactly as they were; and
    [Program.push_updates] does not catch it: the push of the program ends
    there, in the state left by the steps before, so that the drivers after
    it and the internal routines are not propagated. *)
Theorem malformed_driver_name_is_fatal (routine : Routine.t) :
  length (PyStr.split "_" (name (Routine.super routine))) < 3 ->
  let error :=
    ValueError ("Master Driver Routine Naming Violation: "
                +:+ name (Routine.super routine)) in
  (forall st, __push_driver_routine__ routine st = (Raise error, st))
  /\ (forall self use_similarity_finding similarity_gain st pre post d1 st1 d2 st2,
        driver_routines self = pre ++ routine :: post ->
        extend_with_each (fun r => __push_routine__ r false (19 # 20))
          [main_routine self] (Program_get_dependencies (heap st) self false) st
          = (Ok d1, st1) ->
        extend_with_each __push_driver_routine__ pre d1 st1 = (Ok d2, st2) ->
        Program_push_updates self use_similarity_finding similarity_gain st
        = (Raise error, st2)).
Proof.
  intros H error. split.
  - intros st. apply push_driver_malformed. exact H.
  - intros self u g st pre post d1 st1 d2 st2 Hd Hmain Hpre.
    unfold Program_push_updates. unfold bind at 1. unfold get at 1.
    unfold bind at 1. rewrite Hmain.
    unfold bind at 1. rewrite Hd, extend_with_each_app, Hpre. simpl.
    unfold bind at 1. rewrite push_driver_malformed by exact H. reflexivity.
Qed.

Lemma malformed_driver_name_is_fatal_witness :
  length (PyStr.split "_" "Pump_Start") < 3
  /\ __push_driver_routine__ Example.Pump_Start Example.start
     = (Raise (ValueError "Master Driver Routine Naming Violation: Pump_Start"),
        Example.start)
  /\ Program_push_updates Example.master_program true (19 # 20) Example.start
     = (Raise (ValueError "Master Driver Routine Naming Violation: Pump_Start"),
        Example.start).
Proof.
  split; [simpl; lia|].
  destruct (malformed_driver_name_is_fatal Example.Pump_Start) as [H1 H2];
    [simpl; lia|].
  split; [apply H1|].
  eapply (H2 Example.master_program true (19 # 20) Example.start
             [] [Example.M01_PumpA_Start]);
    reflexivity.
Defined.

(** C9, the claim as stated fails: the master program has a malformed
    driver routine followed by a well-formed one.  Pushed alone, the
    well-formed driver replaces the matching target routine by its clone;
    pushed after the malformed one it is never reached: the push raises and
    the target keeps its old routine, so more than the merge step of the
    malformed routine is aborted.  The push of the program list raises the
    same error. *)
Lemma malformed_driver_aborts_later_steps_counterexample :
  driver_routines Example.master_program = [Example.Pump_Start; Example.M01_PumpA_Start]
  /\ fst (__push_driver_routine__ Example.M01_PumpA_Start Example.start)
     <> Raise (ValueError "Master Driver Routine Naming Violation: Pump_Start")
  /\ ~ In Example.M02_PumpB_Start
         (Program.routines
            (other_prog (snd (__push_driver_routine__ Example.M01_PumpA_Start Example.start))))
  /\ fst (Program_push_updates Example.master_program true (19 # 20) Example.start)
     = Raise (ValueError "Master Driver Routine Naming Violation: Pump_Start")
  /\ In Example.M02_PumpB_Start
        (Program.routines
           (other_prog
              (snd (Program_push_updates Example.master_program true (19 # 20)
                      Example.start))))
  /\ fst (ProgramList_push_updates [Example.master_program]
            {| list_heap := Example.master_heap;
               other_list := [Example.target_program] |})
     = Raise (ValueError "Master Driver Routine Naming Violation: Pump_Start").
Proof.
  split; [reflexivity|].
  split; [vm_compute; discriminate|].
  split; [vm_compute; intros [H|[H|[]]]; discriminate|].
  split; [vm_compute; reflexivity|].
  split; [vm_compute; right; left; reflexivity|].
  vm_compute. reflexivity.
Qed.

(** ** Rebind *)

Lemma PyLogixObject_rebind_idempotent (o : PyLogixObject) :
  PyLogixObject_rebind (PyLogixObject_rebind o) = PyLogixObject_rebind o.
Proof. reflexivity. Qed.

(** A member that points to a datatype keeps its pointer; one that points
    to none is looked up again, by the same name. *)
Lemma DataTypeMember_rebind_by_again {D} (by_name by_name' : string -> option D)
    (m : DataTypeMember.t D) :
  (forall n, by_name' n = by_name n) ->
  DataTypeMember_rebind_by by_name' (DataTypeMember_rebind_by by_name m)
  = DataTypeMember_rebind_by by_name m.
Proof.
  intros H. destruct m as [b d n dims r hd ea tg bn]. unfold DataTypeMember_rebind_by.
  simpl. destruct d as [d|]; simpl; [reflexivity|].
  destruct n as [n|]; simpl; [|reflexivity].
  rewrite H. destruct (by_name n); reflexivity.
Qed.

Lemma DataTypeMember_rebind_idempotent (datatypes : list DataType.t) (m : DataTypeMember_t) :
  DataTypeMember_rebind datatypes (DataTypeMember_rebind datatypes m)
  = DataTypeMember_rebind datatypes m.
Proof.
  unfold DataTypeMember_rebind. apply DataTypeMember_rebind_by_again. reflexivity.
Qed.

Lemma Task_rebind_idempotent (programs : list Program.t) (t : Task.t) :
  Task_rebind programs (Task_rebind programs t) = Task_rebind programs t.
Proof. reflexivity. Qed.

Section RungRebind.
Context {A B : Type} (key : A -> string) (c : B -> option A).

Abbreviation g := (append_found key c).

Lemma append_keeps (acc : list A) (a x : A) :
  in_by key a acc = true -> in_by key a (PylogixList.append key acc x false) = true.
Proof.
  intros H. rewrite append_no_overwrite.
  destruct (in_by key x acc); [assumption|].
  rewrite in_by_app, H. reflexivity.
Qed.

Lemma append_has (acc : list A) (a : A) :
  in_by key a (PylogixList.append key acc a false) = true.
Proof.
  rewrite append_no_overwrite. destruct (in_by key a acc) eqn:E; [assumption|].
  rewrite in_by_app. apply orb_true_iff. right. apply in_by_self. left. reflexivity.
Qed.

Lemma fold_append_keeps (bs : list B) (acc : list A) (a : A) :
  in_by key a acc = true -> in_by key a (fold_left g bs acc) = true.
Proof.
  revert acc. induction bs as [|b bs IH]; intros acc H; simpl; [assumption|].
  apply IH. unfold append_found. destruct (c b); [apply append_keeps|]; assumption.
Qed.

Lemma fold_append_has (bs : list B) (acc : list A) (b : B) (a : A) :
  In b bs -> c b = Some a -> in_by key a (fold_left g bs acc) = true.
Proof.
  revert acc. induction bs as [|b' bs IH]; intros acc Hin Hc; simpl;
    [destruct Hin|].
  destruct Hin as [E|Hin].
  - subst b'. apply fold_append_keeps. unfold append_found. rewrite Hc. apply append_has.
  - apply IH; assumption.
Qed.

Lemma fold_append_absorb (bs : list B) (acc : list A) :
  (forall b a, In b bs -> c b = Some a -> in_by key a acc = true) ->
  fold_left g bs acc = acc.
Proof.
  induction bs as [|b bs IH]; intros H; simpl; [reflexivity|].
  assert (E : append_found key c acc b = acc).
  { unfold append_found. destruct (c b) as [a|] eqn:Hc; [|reflexivity].
    rewrite append_no_overwrite, (H b a); [reflexivity | left; reflexivity | assumption]. }
  rewrite E. apply IH. intros b' a Hin Hc. apply (H b'); [right|]; assumption.
Qed.

Lemma fold_append_idempotent (bs : list B) (acc : list A) :
  fold_left g bs (fold_left g bs acc) = fold_left g bs acc.
Proof.
  apply fold_append_absorb. intros b a Hin Hc. eapply fold_append_has; eassumption.
Qed.

End RungRebind.

Lemma fold_left_pointwise {A B} (f g : A -> B -> A) (l : list B) (a : A) :
  (forall a b, f a b = g a b) -> fold_left f l a = fold_left g l a.
Proof.
  intros H. revert a. induction l as [|b l IH]; intros a; simpl; [reflexivity|].
  rewrite H. apply IH.
Qed.

Lemma Rung_rebind_idempotent (h : Heap) (tags : option (list TagRef)) (r : Rung.t) :
  Rung_rebind h tags (Rung_rebind h tags r) = Rung_rebind h tags r.
Proof.
  destruct tags as [ctrl_tags|]; [|reflexivity].
  unfold Rung_rebind, Rung_with. simpl. f_equal.
  set (c := fun tag => match Tag.alias_for (deref h tag) with
                       | Some target => PylogixList.by_name (tag_key h) ctrl_tags target
                       | None => None
                       end).
  set (g := append_found (tag_key h) c).
  assert (E : forall l acc,
             fold_left
               (fun self_tags tag =>
                  match Tag.alias_for (deref h tag) with
                  | Some target =>
                      match PylogixList.by_name (tag_key h) ctrl_tags target with
                      | Some ctrl_tag => PylogixList.append (tag_key h) self_tags ctrl_tag false
                      | None => self_tags
                      end
                  | None => self_tags
                  end) l acc
             = fold_left g l acc).
  { intros l acc. apply fold_left_pointwise. intros a b. unfold g, append_found, c.
    destruct (Tag.alias_for (deref h b)); reflexivity. }
  rewrite !E. apply (fold_append_idempotent (tag_key h) c).
Qed.

Lemma Routine_rebind_idempotent (h : Heap) (tags : option (list TagRef)) (r : Routine.t) :
  Routine_rebind h tags (Routine_rebind h tags r) = Routine_rebind h tags r.
Proof.
  unfold Routine_rebind. simpl. f_equal.
  rewrite List.map_map. apply List.map_ext. intros x. apply Rung_rebind_idempotent.
Qed.

(** *** The pass over a tag list *)

Lemma deref_insert_eq (h : Heap) (r : TagRef) (v : Tag.t) :
  r < length h -> deref (<[r := v]> h) r = v.
Proof. intros H. unfold deref. rewrite list_lookup_insert_eq by exact H. reflexivity. Qed.

Lemma deref_insert_ne (h : Heap) (r i : TagRef) (v : Tag.t) :
  r <> i -> deref (<[r := v]> h) i = deref h i.
Proof. intros H. unfold deref. rewrite list_lookup_insert_ne by exact H. reflexivity. Qed.

Lemma deref_lookup (h : Heap) (r : TagRef) :
  r < length h -> h !! r = Some (deref h r).
Proof.
  intros H. unfold deref. destruct (h !! r) eqn:E; [reflexivity|].
  apply lookup_ge_None in E. lia.
Qed.

Lemma insert_deref_id (h : Heap) (r : TagRef) : <[r := deref h r]> h = h.
Proof.
  destruct (Nat.lt_ge_cases r (length h)) as [H|H].
  - apply list_insert_id. apply deref_lookup. exact H.
  - apply list_insert_ge. exact H.
Qed.

Lemma filter_pointwise {A} (p q : A -> bool) (l : list A) :
  (forall x, p x = q x) -> List.filter p l = List.filter q l.
Proof.
  intros H. induction l as [|x l IH]; simpl; [reflexivity|].
  rewrite H, IH. reflexivity.
Qed.

Lemma find_pointwise {A} (p q : A -> bool) (l : list A) :
  (forall x, p x = q x) -> List.find p l = List.find q l.
Proof.
  intros H. induction l as [|x l IH]; simpl; [reflexivity|].
  rewrite H, IH. reflexivity.
Qed.

(** [Tag.rebind] in terms of the alias target. *)
Lemma Tag_rebind_object_target (tags : option (list TagRef)) (h' : Heap) (x : Tag.t) :
  Tag_rebind_object tags h' x
  = match alias_target tags h' x with
    | Some a =>
        Tag_with_datatype (Tag.datatype (deref h' a)) (Tag.datatype_meta_name (deref h' a))
          (Tag_with_super (PyLogixObject_rebind (Tag.super x)) x)
    | None => Tag_with_super (PyLogixObject_rebind (Tag.super x)) x
    end.
Proof.
  unfold Tag_rebind_object, alias_target. simpl.
  destruct (Tag.alias_for x) as [target|]; [|reflexivity].
  destruct tags as [l|]; [|destruct (negb (String.eqb target "")); reflexivity].
  destruct (negb (String.eqb target "")); reflexivity.
Qed.

Lemma rebind_keeps_key (tags : option (list TagRef)) h' x : Tag.key (Tag_rebind_object tags h' x) = Tag.key x.
Proof. rewrite Tag_rebind_object_target. destruct (alias_target tags h' x); reflexivity. Qed.

Lemma rebind_keeps_alias_for (tags : option (list TagRef)) h' x :
  Tag.alias_for (Tag_rebind_object tags h' x) = Tag.alias_for x.
Proof. rewrite Tag_rebind_object_target. destruct (alias_target tags h' x); reflexivity. Qed.

Lemma not_alias_no_target (tags : option (list TagRef)) h' x : is_alias x = false -> alias_target tags h' x = None.
Proof.
  unfold is_alias, DataTypeMember.truthy, alias_target.
  destruct (Tag.alias_for x) as [target|]; [|reflexivity].
  intros ->. destruct tags; reflexivity.
Qed.

Local Set Default Proof Using "Type*".

Section TagPass.
Variable tags : option (list TagRef).
Variable self : list TagRef.
Variable h : Heap.
Hypothesis no_chain : no_alias_chain tags self h.

Abbreviation reached := (reached_from tags self h).

Lemma reached_key h' i : reached h' -> tag_key h' i = tag_key h i.
Proof.
  intros [_ H]. unfold tag_key. destruct (H i) as [->|[_ ->]];
    [reflexivity | apply rebind_keeps_key].
Qed.

Lemma reached_alias_for h' i :
  reached h' -> Tag.alias_for (deref h' i) = Tag.alias_for (deref h i).
Proof.
  intros [_ H]. destruct (H i) as [->|[_ ->]];
    [reflexivity | apply rebind_keeps_alias_for].
Qed.

Lemma reached_target h' x : reached h' -> alias_target tags h' x = alias_target tags h x.
Proof.
  intros R.
  assert (B : forall l n, PylogixList.by_name (tag_key h') l n
                          = PylogixList.by_name (tag_key h) l n).
  { intros l n. unfold PylogixList.by_name. apply find_pointwise.
    intros r. rewrite (reached_key h' r R). reflexivity. }
  unfold alias_target.
  destruct (Tag.alias_for x) as [target|]; [|reflexivity].
  destruct tags as [l|]; [|reflexivity].
  destruct (negb (String.eqb target "")); [apply B | reflexivity].
Qed.

Lemma reached_datatype h' a :
  reached h' -> is_alias (deref h a) = false ->
  Tag.datatype (deref h' a) = Tag.datatype (deref h a)
  /\ Tag.datatype_meta_name (deref h' a) = Tag.datatype_meta_name (deref h a).
Proof.
  intros [_ H] Ha. destruct (H a) as [->|[_ ->]]; [split; reflexivity|].
  rewrite Tag_rebind_object_target, (not_alias_no_target tags h _ Ha). split; reflexivity.
Qed.

Lemma rebind_from_reached h' r :
  reached h' -> In r self ->
  Tag_rebind_object tags h' (deref h r) = Tag_rebind_object tags h (deref h r).
Proof.
  intros R Hr. rewrite !Tag_rebind_object_target, (reached_target h' _ R).
  destruct (alias_target tags h (deref h r)) as [a|] eqn:E; [|reflexivity].
  destruct (reached_datatype h' a R (no_chain r a Hr E)) as [-> ->]. reflexivity.
Qed.

Lemma rebind_again_from_reached h' r :
  reached h' -> In r self ->
  Tag_rebind_object tags h' (Tag_rebind_object tags h (deref h r))
  = Tag_rebind_object tags h (deref h r).
Proof.
  intros R Hr.
  rewrite (Tag_rebind_object_target tags h' (Tag_rebind_object tags h (deref h r))).
  assert (T : alias_target tags h' (Tag_rebind_object tags h (deref h r))
              = alias_target tags h (deref h r)).
  { rewrite (reached_target h' _ R). unfold alias_target.
    rewrite rebind_keeps_alias_for. reflexivity. }
  rewrite T, (Tag_rebind_object_target tags h (deref h r)).
  destruct (alias_target tags h (deref h r)) as [a|] eqn:E; [|reflexivity].
  destruct (reached_datatype h' a R (no_chain r a Hr E)) as [-> ->]. reflexivity.
Qed.

Lemma reached_step h' r :
  reached h' -> In r self -> reached (Tag_rebind tags r h').
Proof.
  intros R Hr. pose proof R as [HL H].
  unfold Tag_rebind. split; [rewrite length_insert; exact HL|].
  intros i. destruct (Nat.eq_dec r i) as [<-|Hne].
  - destruct (Nat.lt_ge_cases r (length h')) as [Hlt|Hge].
    + rewrite deref_insert_eq by exact Hlt. right. split; [exact Hr|].
      destruct (H r) as [->|[_ ->]];
        [apply rebind_from_reached | apply rebind_again_from_reached]; assumption.
    + rewrite list_insert_ge by exact Hge. apply H.
  - rewrite deref_insert_ne by exact Hne. apply H.
Qed.

Lemma reached_pass l h' :
  (forall r, In r l -> In r self) -> reached h' ->
  reached (TagList_rebind tags l h')
  /\ forall i, In i l \/ deref h' i = Tag_rebind_object tags h (deref h i) ->
               i < length h ->
               deref (TagList_rebind tags l h') i = Tag_rebind_object tags h (deref h i).
Proof.
  unfold TagList_rebind. revert h'.
  induction l as [|r l IH]; intros h' Hl R; simpl.
  - split; [exact R|]. intros i [[]|Hi] _. exact Hi.
  - assert (Hr : In r self) by (apply Hl; left; reflexivity).
    pose proof (reached_step h' r R Hr) as R'.
    destruct (IH (Tag_rebind tags r h') (fun x Hx => Hl x (or_intror Hx)) R') as [R1 F1].
    split; [exact R1|].
    intros i Hi Hlt. apply F1; [|exact Hlt].
    destruct R as [HL H].
    destruct (Nat.eq_dec r i) as [<-|Hne].
    + right. unfold Tag_rebind. rewrite deref_insert_eq by lia.
      destruct (H r) as [->|[_ ->]];
        [apply rebind_from_reached | apply rebind_again_from_reached];
        solve [assumption | split; assumption].
    + destruct Hi as [[E|Hi]|Hi]; [contradiction | left; exact Hi |].
      right. unfold Tag_rebind. rewrite deref_insert_ne by exact Hne. exact Hi.
Qed.

Lemma settled_pass l h' :
  (forall r, In r l -> In r self) -> reached h' ->
  (forall r, In r l -> r < length h ->
             deref h' r = Tag_rebind_object tags h (deref h r)) ->
  TagList_rebind tags l h' = h'.
Proof.
  unfold TagList_rebind.
  induction l as [|r l IH]; intros Hl R F; simpl; [reflexivity|].
  assert (Hr : In r self) by (apply Hl; left; reflexivity).
  assert (E : Tag_rebind tags r h' = h').
  { unfold Tag_rebind. destruct R as [HL H].
    destruct (Nat.lt_ge_cases r (length h)) as [Hlt|Hge].
    - rewrite (F r (or_introl eq_refl) Hlt).
      rewrite rebind_again_from_reached by solve [assumption | split; assumption].
      rewrite <- (F r (or_introl eq_refl) Hlt). apply insert_deref_id.
    - apply list_insert_ge. lia. }
  rewrite E. apply IH; [|exact R|].
  - intros x Hx. apply Hl. right. exact Hx.
  - intros x Hx. apply F. right. exact Hx.
Qed.

Lemma TagList_rebind_idempotent :
  TagList_rebind tags self (TagList_rebind tags self h) = TagList_rebind tags self h.
Proof.
  assert (R0 : reached h) by (split; [reflexivity | intros i; left; reflexivity]).
  destruct (reached_pass self h (fun r Hr => Hr) R0) as [R1 F1].
  apply settled_pass; [intros r Hr; exact Hr | exact R1 |].
  intros r Hr Hlt. apply F1; [left; exact Hr | exact Hlt].
Qed.

End TagPass.

Local Set Default Proof Using "Type".

Lemma Tag_rebind_object_idempotent (tags : option (list TagRef)) (h : Heap) (x : Tag.t) :
  Tag_rebind_object tags h (Tag_rebind_object tags h x) = Tag_rebind_object tags h x.
Proof.
  rewrite (Tag_rebind_object_target tags h (Tag_rebind_object tags h x)).
  assert (T : alias_target tags h (Tag_rebind_object tags h x) = alias_target tags h x).
  { unfold alias_target. rewrite rebind_keeps_alias_for. reflexivity. }
  rewrite T, (Tag_rebind_object_target tags h x).
  destruct (alias_target tags h x); reflexivity.
Qed.

(** ** The merge engine: driver propagation *)

(** *** Renaming the tags of the clone *)

Lemma set_name_ok (value : string) (o : PyLogixObject) :
  name_ok value -> set_name value o = Ok (with_name value o).
Proof.
  unfold name_ok, set_name, name_setter. intros ->. reflexivity.
Qed.

Lemma with_name_same (o : PyLogixObject) : with_name (name o) o = o.
Proof. destruct o. reflexivity. Qed.

Lemma Tag_with_super_same (x : Tag.t) : Tag_with_super (Tag.super x) x = x.
Proof. destruct x. reflexivity. Qed.

Lemma renamed_key old new x : Tag.key (renamed old new x) = PyStr.replace (Tag.key x) old new.
Proof. reflexivity. Qed.

Lemma renamed_again old new x :
  PyStr.replace (PyStr.replace (Tag.key x) old new) old new
  = PyStr.replace (Tag.key x) old new ->
  renamed old new (renamed old new x) = renamed old new x.
Proof.
  intros E. unfold renamed at 1. rewrite renamed_key, E.
  rewrite <- (renamed_key old new x).
  change (name (Tag.super (renamed old new x))) with (Tag.key (renamed old new x)).
  unfold Tag.key. rewrite with_name_same. apply Tag_with_super_same.
Qed.

Lemma rename_tag_ok old new n st :
  name_ok (PyStr.replace (tag_key (heap st) n) old new) ->
  rename_tag old new n st
  = (Ok tt, with_heap (<[n := renamed old new (deref (heap st) n)]> (heap st)) st).
Proof.
  intros H. unfold rename_tag.
  change (name (Tag.super (deref (heap st) n))) with (tag_key (heap st) n).
  rewrite (set_name_ok _ _ H). reflexivity.
Qed.

Section Renaming.
Variables old new : string.
Variable N : list TagRef.
Variable h1 : Heap.
Hypothesis all_renamable : forall n, In n N -> renamable old new h1 n.

Lemma renaming_step (st : MergeState) (n : TagRef) :
  renaming old new N h1 (heap st) -> In n N ->
  exists h',
    rename_tag old new n st = (Ok tt, with_heap h' st)
    /\ renaming old new N h1 h'
    /\ (n < length h1 -> deref h' n = renamed old new (deref h1 n))
    /\ (forall i, deref (heap st) i = renamed old new (deref h1 i) ->
                  deref h' i = renamed old new (deref h1 i)).
Proof using all_renamable.
  intros [HL H] Hn. destruct (all_renamable n Hn) as [Hok Hidem].
  assert (E : renamed old new (deref (heap st) n) = renamed old new (deref h1 n)).
  { destruct (H n) as [->|[_ ->]]; [reflexivity|]. apply renamed_again. exact Hidem. }
  assert (K : name_ok (PyStr.replace (tag_key (heap st) n) old new)).
  { unfold tag_key. destruct (H n) as [->|[_ ->]]; [exact Hok|].
    rewrite renamed_key. unfold tag_key in Hidem. rewrite Hidem. exact Hok. }
  exists (<[n := renamed old new (deref (heap st) n)]> (heap st)).
  split; [apply rename_tag_ok; exact K|].
  rewrite E. split; [|split].
  - split; [rewrite length_insert; exact HL|].
    intros i. destruct (Nat.eq_dec n i) as [<-|Hne].
    + destruct (Nat.lt_ge_cases n (length (heap st))) as [Hlt|Hge].
      * rewrite deref_insert_eq by exact Hlt. right. split; [exact Hn | reflexivity].
      * rewrite list_insert_ge by exact Hge. apply H.
    + rewrite deref_insert_ne by exact Hne. apply H.
  - intros Hlt. apply deref_insert_eq. lia.
  - intros i Hi. destruct (Nat.eq_dec n i) as [<-|Hne].
    + destruct (Nat.lt_ge_cases n (length (heap st))) as [Hlt|Hge].
      * apply deref_insert_eq. exact Hlt.
      * rewrite list_insert_ge by exact Hge. exact Hi.
    + rewrite deref_insert_ne by exact Hne. exact Hi.
Qed.

Lemma renaming_for_each (ns : list TagRef) (st : MergeState) :
  renaming old new N h1 (heap st) -> (forall n, In n ns -> In n N) ->
  exists h',
    for_each ns (rename_tag old new) st = (Ok tt, with_heap h' st)
    /\ renaming old new N h1 h'
    /\ (forall i, In i ns \/ deref (heap st) i = renamed old new (deref h1 i) ->
                  i < length h1 -> deref h' i = renamed old new (deref h1 i)).
Proof using all_renamable.
  revert st. induction ns as [|n ns IH]; intros st R Hns; simpl.
  - exists (heap st). destruct st. split; [reflexivity|]. split; [exact R|].
    intros i [[]|Hi] _. exact Hi.
  - destruct (renaming_step st n R (Hns n (or_introl eq_refl))) as (ha & E & Ra & Fa & Ka).
    destruct (IH (with_heap ha st) Ra (fun x Hx => Hns x (or_intror Hx)))
      as (hb & Eb & Rb & Fb).
    exists hb. unfold bind. rewrite E, Eb. split; [reflexivity|]. split; [exact Rb|].
    intros i Hi Hlt. apply Fb; [|exact Hlt].
    destruct (Nat.eq_dec n i) as [<-|Hne].
    + right. apply Fa. exact Hlt.
    + destruct Hi as [[Hi|Hi]|Hi]; [contradiction | left; exact Hi |].
      right. apply Ka. exact Hi.
Qed.

Lemma renaming_update_rungs (rungs : list Rung.t) (st : MergeState) :
  renaming old new N h1 (heap st) ->
  (forall rung n, In rung rungs -> In n (Rung.tags rung) -> In n N) ->
  (forall rung, In rung rungs -> Rung.text rung <> None) ->
  exists h',
    update_rungs old new rungs st = (Ok (List.map (retext old new) rungs), with_heap h' st)
    /\ renaming old new N h1 h'
    /\ (forall i, (exists rung, In rung rungs /\ In i (Rung.tags rung))
                  \/ deref (heap st) i = renamed old new (deref h1 i) ->
                  i < length h1 -> deref h' i = renamed old new (deref h1 i)).
Proof using all_renamable.
  revert st. induction rungs as [|rung rungs IH]; intros st R Hin Htext; simpl.
  - exists (heap st). destruct st. split; [reflexivity|]. split; [exact R|].
    intros i [(rung & [] & _)|Hi] _. exact Hi.
  - destruct (Rung.text rung) as [text|] eqn:Et;
      [|exfalso; apply (Htext rung); [left; reflexivity | exact Et]].
    destruct (renaming_for_each (Rung.tags rung) st R
                (fun n Hn => Hin rung n (or_introl eq_refl) Hn)) as (ha & Ea & Ra & Fa).
    destruct (IH (with_heap ha st) Ra
                (fun r n Hr Hn => Hin r n (or_intror Hr) Hn)
                (fun r Hr => Htext r (or_intror Hr))) as (hb & Eb & Rb & Fb).
    exists hb. unfold bind. simpl. rewrite Ea. simpl in Eb. rewrite Eb.
    split; [|split; [exact Rb|]].
    + unfold ret, retext. rewrite Et. reflexivity.
    + intros i Hi Hlt. apply Fb; [|exact Hlt].
      destruct Hi as [(r & [<-|Hr] & Hn)|Hi].
      * right. apply Fa; [left; exact Hn | exact Hlt].
      * left. exists r. split; assumption.
      * right. apply Fa; [right; exact Hi | exact Hlt].
Qed.

End Renaming.

(** *** The deep copy *)

Lemma extends_refl h : extends h h.
Proof. exists []. rewrite app_nil_r. reflexivity. Qed.

Lemma extends_trans h1 h2 h3 : extends h1 h2 -> extends h2 h3 -> extends h1 h3.
Proof. intros [e1 ->] [e2 ->]. exists (e1 ++ e2). rewrite app_assoc. reflexivity. Qed.

Lemma extends_length h h' : extends h h' -> length h <= length h'.
Proof. intros [e ->]. rewrite length_app. lia. Qed.

Lemma extends_lookup h h' r : extends h h' -> r < length h -> h' !! r = h !! r.
Proof. intros [e ->] H. apply lookup_app_l. exact H. Qed.

Lemma extends_deref h h' r : extends h h' -> r < length h -> deref h' r = deref h r.
Proof. intros E H. unfold deref. rewrite (extends_lookup h h' r E H). reflexivity. Qed.

Lemma extends_key h h' r : extends h h' -> r < length h -> tag_key h' r = tag_key h r.
Proof. intros E H. unfold tag_key. rewrite (extends_deref h h' r E H). reflexivity. Qed.

Lemma copy_of_mono h0 h h' r n : extends h h' -> copy_of h0 h r n -> copy_of h0 h' r n.
Proof.
  intros E [[H1 H2] H3]. pose proof (extends_length h h' E).
  split; [lia|]. rewrite (extends_deref h h' n E H2). exact H3.
Qed.

Lemma memo_ok_mono h0 memo h h' : extends h h' -> memo_ok h0 memo h -> memo_ok h0 memo h'.
Proof. intros E M o n Hm. eapply copy_of_mono; [exact E | apply M; exact Hm]. Qed.

Lemma Forall2_copy_of_mono h0 h h' l l' :
  extends h h' -> Forall2 (copy_of h0 h) l l' -> Forall2 (copy_of h0 h') l l'.
Proof.
  intros E F. induction F; constructor; [eapply copy_of_mono; eassumption | assumption].
Qed.

Lemma in_by_pointwise {A} (k1 k2 : A -> string) (x : A) (l : list A) :
  k1 x = k2 x -> (forall y, In y l -> k1 y = k2 y) -> in_by k1 x l = in_by k2 x l.
Proof.
  intros Hx Hl. unfold in_by. rewrite Hx.
  induction l as [|y l IH]; simpl; [reflexivity|].
  rewrite (Hl y) by (left; reflexivity). f_equal. apply IH.
  intros z Hz. apply Hl. right. exact Hz.
Qed.

(** Appending a copy whose name no element of the list has. *)
Lemma append_fresh_key (h : Heap) (acc : list TagRef) (n : TagRef) :
  ~ In (tag_key h n) (map (tag_key h) acc) ->
  PylogixList.append (tag_key h) acc n false = acc ++ [n].
Proof.
  intros H. rewrite append_no_overwrite.
  destruct (in_by (tag_key h) n acc) eqn:E; [|reflexivity].
  apply in_by_In in E. contradiction.
Qed.

Section DeepCopy.
Variable h0 : Heap.

Lemma deepcopy_TagList_spec (refs : list TagRef) :
  forall acc memo h acc' memo' h',
    deepcopy_TagList refs acc memo h = (acc', memo', h') ->
    extends h0 h -> memo_ok h0 memo h ->
    (forall r, In r refs -> r < length h0) ->
    extends h h' /\ memo_ok h0 memo' h'
    /\ ((forall n, In n acc ->
           n < length h /\ ~ In (tag_key h n) (map (tag_key h0) refs)) ->
        NoDup (map (tag_key h0) refs) ->
        exists L, acc' = acc ++ L /\ Forall2 (copy_of h0 h') refs L).
Proof.
  induction refs as [|r rest IH]; intros acc memo h acc' memo' h' E X M V; simpl in E.
  - injection E as <- <- <-. split; [apply extends_refl|]. split; [exact M|].
    intros _ _. exists []. rewrite app_nil_r. split; [reflexivity | constructor].
  - assert (Vr : r < length h0) by (apply V; left; reflexivity).
    assert (Vrest : forall x, In x rest -> x < length h0)
      by (intros x Hx; apply V; right; exact Hx).
    destruct (memo_get memo r) as [r'|] eqn:Em.
    + destruct (IH _ _ _ _ _ _ E X M Vrest) as (X' & M' & P').
      split; [exact X'|]. split; [exact M'|].
      intros Hacc Hnd. pose proof (M r r' Em) as C. pose proof C as [[C1 C2] C3].
      assert (Kr : tag_key h r' = tag_key h0 r) by (unfold tag_key; rewrite C3; reflexivity).
      rewrite append_fresh_key in P'.
      2:{ rewrite Kr. intros Hin. apply in_map_iff in Hin as (n & Hk & Hn).
          destruct (Hacc n Hn) as [_ Hno]. apply Hno. rewrite Hk. left. reflexivity. }
      destruct P' as (L & -> & F).
      * intros n Hn. apply in_app_or in Hn as [Hn|[<-|[]]].
        -- destruct (Hacc n Hn) as [Hl Hno]. split; [exact Hl|].
           intros Hin. apply Hno. right. exact Hin.
        -- split; [exact C2|]. rewrite Kr. simpl in Hnd.
           apply NoDup_cons in Hnd as [Hnd _]. intros Hin. apply Hnd.
           apply list_elem_of_In. exact Hin.
      * simpl in Hnd. apply NoDup_cons in Hnd as [_ Hnd]. exact Hnd.
      * exists (r' :: L). rewrite <- app_assoc. split; [reflexivity|].
        constructor; [eapply copy_of_mono; eassumption | exact F].
    + set (h1 := h ++ [deepcopy_Tag (deref h r)]) in *.
      assert (X1 : extends h h1) by (exists [deepcopy_Tag (deref h r)]; reflexivity).
      assert (X01 : extends h0 h1) by (eapply extends_trans; eassumption).
      pose proof (extends_length h0 h X) as L0.
      assert (C : copy_of h0 h1 r (length h)).
      { split; [unfold h1; rewrite length_app; simpl; lia|].
        unfold deref at 1. unfold h1.
        rewrite lookup_app_r by lia. rewrite Nat.sub_diag. simpl.
        f_equal. apply extends_deref; assumption. }
      assert (M1 : memo_ok h0 ((r, length h) :: memo) h1).
      { intros o n Ho. unfold memo_get in Ho. simpl in Ho.
        destruct (Nat.eqb_spec r o) as [<-|Hne].
        - simpl in Ho. injection Ho as <-. exact C.
        - eapply copy_of_mono; [exact X1|]. apply M. exact Ho. }
      destruct (IH _ _ _ _ _ _ E X01 M1 Vrest) as (X' & M' & P').
      split; [eapply extends_trans; eassumption|]. split; [exact M'|].
      intros Hacc Hnd. pose proof C as [[C1 C2] C3].
      assert (Kr : tag_key h1 (length h) = tag_key h0 r)
        by (unfold tag_key; rewrite C3; reflexivity).
      assert (Kacc : forall n, In n acc -> tag_key h1 n = tag_key h n).
      { intros n Hn. apply extends_key; [exact X1|]. apply Hacc. exact Hn. }
      rewrite append_fresh_key in P'.
      2:{ rewrite Kr. intros Hin. apply in_map_iff in Hin as (n & Hk & Hn).
          destruct (Hacc n Hn) as [_ Hno]. apply Hno.
          rewrite <- (Kacc n Hn), Hk. left. reflexivity. }
      destruct P' as (L & -> & F).
      * intros n Hn. apply in_app_or in Hn as [Hn|[<-|[]]].
        -- destruct (Hacc n Hn) as [Hl Hno]. split; [lia|].
           rewrite (Kacc n Hn). intros Hin. apply Hno. right. exact Hin.
        -- split; [exact C2|]. rewrite Kr. simpl in Hnd.
           apply NoDup_cons in Hnd as [Hnd _]. intros Hin. apply Hnd.
           apply list_elem_of_In. exact Hin.
      * simpl in Hnd. apply NoDup_cons in Hnd as [_ Hnd]. exact Hnd.
      * exists (length h :: L). rewrite <- app_assoc. split; [reflexivity|].
        constructor; [eapply copy_of_mono; eassumption | exact F].
Qed.

Lemma deepcopy_Rung_spec (rung : Rung.t) :
  forall memo h rung' memo' h',
    deepcopy_Rung rung memo h = (rung', memo', h') ->
    extends h0 h -> memo_ok h0 memo h ->
    (forall r, In r (Rung.tags rung ++ Rung.program_tags rung) -> r < length h0) ->
    NoDup (map (tag_key h0) (Rung.tags rung)) ->
    extends h h' /\ memo_ok h0 memo' h' /\ rung_copy h0 h' rung rung'.
Proof.
  intros memo h rung' memo' h' E X M V Hnd. unfold deepcopy_Rung in E.
  destruct (deepcopy_TagList (Rung.tags rung) [] memo h) as [[tags' memo1] ha] eqn:E1.
  destruct (deepcopy_TagList (Rung.program_tags rung) [] memo1 ha)
    as [[ptags' memo2] hb] eqn:E2.
  injection E as <- <- <-.
  destruct (deepcopy_TagList_spec _ _ _ _ _ _ _ E1 X M) as (X1 & M1 & P1).
  { intros r Hr. apply V. apply in_or_app. left. exact Hr. }
  destruct (deepcopy_TagList_spec _ _ _ _ _ _ _ E2 (extends_trans _ _ _ X X1) M1)
    as (X2 & M2 & _).
  { intros r Hr. apply V. apply in_or_app. right. exact Hr. }
  split; [eapply extends_trans; eassumption|]. split; [exact M2|].
  destruct (P1 (fun n (Hn : In n []) => match Hn with end) Hnd) as (L & EL & F).
  simpl in EL. subst tags'.
  unfold rung_copy. simpl. repeat split; try reflexivity.
  eapply Forall2_copy_of_mono; eassumption.
Qed.

Lemma rung_copy_mono h h' rung rung' :
  extends h h' -> rung_copy h0 h rung rung' -> rung_copy h0 h' rung rung'.
Proof.
  intros E (H1 & H2 & H3 & H4 & H5 & H6). unfold rung_copy.
  repeat split; try assumption. eapply Forall2_copy_of_mono; eassumption.
Qed.

Lemma deepcopy_rungs_spec (rungs : list Rung.t) :
  forall memo h rungs' memo' h',
    deepcopy_rungs rungs memo h = (rungs', memo', h') ->
    extends h0 h -> memo_ok h0 memo h ->
    (forall rung r, In rung rungs ->
                    In r (Rung.tags rung ++ Rung.program_tags rung) -> r < length h0) ->
    (forall rung, In rung rungs -> NoDup (map (tag_key h0) (Rung.tags rung))) ->
    extends h h' /\ memo_ok h0 memo' h' /\ Forall2 (rung_copy h0 h') rungs rungs'.
Proof.
  induction rungs as [|rung rungs IH]; intros memo h rungs' memo' h' E X M V Hnd;
    simpl in E.
  - injection E as <- <- <-. split; [apply extends_refl|]. split; [exact M | constructor].
  - destruct (deepcopy_Rung rung memo h) as [[rung' memo1] ha] eqn:E1.
    destruct (deepcopy_rungs rungs memo1 ha) as [[rest' memo2] hb] eqn:E2.
    injection E as <- <- <-.
    destruct (deepcopy_Rung_spec rung _ _ _ _ _ E1 X M) as (X1 & M1 & C1).
    { intros r Hr. apply (V rung); [left; reflexivity | exact Hr]. }
    { apply Hnd. left. reflexivity. }
    destruct (IH _ _ _ _ _ E2 (extends_trans _ _ _ X X1) M1) as (X2 & M2 & C2).
    { intros r x Hr Hx. apply (V r); [right; exact Hr | exact Hx]. }
    { intros r Hr. apply Hnd. right. exact Hr. }
    split; [eapply extends_trans; eassumption|]. split; [exact M2|].
    constructor; [eapply rung_copy_mono; eassumption | exact C2].
Qed.

End DeepCopy.

(** *** One target routine *)

Lemma extends_of_lookup (h h' : Heap) :
  length h <= length h' -> (forall i, i < length h -> h' !! i = h !! i) -> extends h h'.
Proof.
  intros HL H. exists (drop (length h) h').
  rewrite <- (take_drop (length h) h') at 1. f_equal.
  apply list_eq. intros i. destruct (Nat.lt_ge_cases i (length h)) as [Hi|Hi].
  - rewrite lookup_take_lt by exact Hi. apply H. exact Hi.
  - rewrite lookup_take_ge by exact Hi. symmetry. apply lookup_ge_None. exact Hi.
Qed.

Lemma renaming_extends old new N (h h1 h2 : Heap) :
  extends h h1 -> (forall n, In n N -> length h <= n) ->
  renaming old new N h1 h2 -> extends h h2.
Proof.
  intros X HN [HL H]. pose proof (extends_length h h1 X) as L1.
  apply extends_of_lookup; [lia|].
  intros i Hi. rewrite (deref_lookup h2 i) by lia.
  rewrite <- (extends_lookup h h1 i X Hi), (deref_lookup h1 i) by lia.
  f_equal. destruct (H i) as [E|[Hin _]]; [exact E|].
  pose proof (HN i Hin). lia.
Qed.

Lemma well_formed_routine_mono h0 h routine :
  extends h0 h -> well_formed_routine h0 routine -> well_formed_routine h routine.
Proof.
  intros X (V & T & D). pose proof (extends_length h0 h X) as L.
  split; [|split; [exact T|]].
  - intros rung r Hr Hin. pose proof (V rung r Hr Hin). lia.
  - intros rung Hr. rewrite (map_ext_in (tag_key h) (tag_key h0)); [apply D; exact Hr|].
    intros r Hin. apply extends_key; [exact X|].
    apply (V rung r Hr). apply in_or_app. left. exact Hin.
Qed.

Lemma propagates_to_mono h0 h routine target :
  extends h0 h -> well_formed_routine h0 routine ->
  propagates_to routine h0 target -> propagates_to routine h target.
Proof.
  intros X (V & _ & _) (N1 & N2 & K). split; [exact N1|]. split; [exact N2|].
  intros rung r Hr Hin. unfold renamable.
  rewrite (extends_key h0 h r X); [apply (K rung r Hr Hin)|].
  apply (V rung r Hr). apply in_or_app. left. exact Hin.
Qed.

Lemma rung_clone_mono h0 h' h'' old new rung rung' :
  extends h' h'' -> rung_clone h0 h' old new rung rung' ->
  rung_clone h0 h'' old new rung rung'.
Proof.
  intros X (H1 & H2 & H3 & H4 & H5 & H6 & H7). pose proof (extends_length h' h'' X).
  unfold rung_clone. repeat split; try assumption.
  - rewrite <- H6. apply map_ext_in. intros n Hn.
    rewrite Forall_forall in H7. apply extends_key; [exact X|]. apply H7.
    apply list_elem_of_In. exact Hn.
  - eapply Forall_impl; [exact H7|]. simpl. intros n Hn. lia.
Qed.

Lemma is_clone_mono routine h0 h' h'' target clone :
  extends h' h'' -> is_clone routine h0 h' target clone -> is_clone routine h0 h'' target clone.
Proof.
  intros X [H1 H2]. split; [exact H1|].
  eapply Forall2_impl; [exact H2|]. intros rung rung'. apply rung_clone_mono. exact X.
Qed.

Lemma Forall2_in_r {A B} (R : A -> B -> Prop) (l : list A) (l' : list B) (y : B) :
  Forall2 R l l' -> In y l' -> exists x, In x l /\ R x y.
Proof.
  intros F. induction F as [|x y' l l' HR F IH]; intros Hin; [destruct Hin|].
  destruct Hin as [<-|Hin].
  - exists x. split; [left; reflexivity | exact HR].
  - destruct (IH Hin) as (x' & Hx & HR'). exists x'. split; [right; exact Hx | exact HR'].
Qed.

Lemma Forall2_map_r_in {A B C} (P : A -> B -> Prop) (Q : A -> C -> Prop) (f : B -> C)
    (l : list A) (l' : list B) :
  Forall2 P l l' ->
  (forall x y, In x l -> In y l' -> P x y -> Q x (f y)) ->
  Forall2 Q l (List.map f l').
Proof.
  intros F. induction F as [|x y l l' HP F IH]; intros H; simpl; constructor.
  - apply H; [left; reflexivity | left; reflexivity | exact HP].
  - apply IH. intros x' y' Hx Hy. apply H; right; assumption.
Qed.

Lemma apply_routine_update_spec (routine : Routine.t) (h0 : Heap) (st : MergeState)
    (deps : PyLogixDependencies.t) (target : Routine.t) :
  extends h0 (heap st) -> well_formed_routine h0 routine ->
  propagates_to routine h0 target ->
  exists clone deps' st',
    apply_routine_update routine deps
      {| entry_routine := target;
         name_split := PyStr.split "_" (Routine.key routine);
         other_name_split := PyStr.split "_" (Routine.key target) |} st
    = (Ok deps', st')
    /\ extends (heap st) (heap st')
    /\ is_clone routine h0 (heap st') target clone
    /\ Program.routines (other_prog st')
       = PylogixList.append Routine.key
           (PylogixList.remove Routine.key (Program.routines (other_prog st)) target)
           clone false
    /\ Program.tags (other_prog st') = Program.tags (other_prog st)
    /\ Program.super (other_prog st') = Program.super (other_prog st).
Proof.
  intros X0 WF0 PR0.
  pose proof (well_formed_routine_mono h0 (heap st) routine X0 WF0) as (V & T & D).
  pose proof (propagates_to_mono h0 (heap st) routine target X0 WF0 PR0) as (N1 & N2 & K).
  set (s1 := item (PyStr.split "_" (Routine.key routine)) 1) in *.
  set (t1 := item (PyStr.split "_" (Routine.key target)) 1) in *.
  destruct (deepcopy_rungs (Routine.rungs routine) [] (heap st))
    as [[rungs' memo'] h1] eqn:Ed.
  destruct (deepcopy_rungs_spec (heap st) _ _ _ _ _ _ Ed (extends_refl _)) as (X1 & _ & C).
  { intros o n Ho. discriminate. }
  { exact V. }
  { exact D. }
  set (N := concat (List.map Rung.tags rungs')).
  assert (InN : forall rung' n, In rung' rungs' -> In n (Rung.tags rung') -> In n N).
  { intros rung' n Hr Hn. unfold N. apply in_concat. exists (Rung.tags rung').
    split; [apply in_map; exact Hr | exact Hn]. }
  assert (NC : forall n, In n N ->
                 exists rung r, In rung (Routine.rungs routine) /\ In r (Rung.tags rung)
                                /\ copy_of (heap st) h1 r n).
  { intros n Hn. unfold N in Hn. apply in_concat in Hn as (l & Hl & Hn).
    apply in_map_iff in Hl as (rung' & <- & Hr').
    destruct (Forall2_in_r _ _ _ _ C Hr') as (rung & Hr & RC).
    destruct RC as (_ & _ & _ & _ & _ & F).
    destruct (Forall2_in_r _ _ _ _ F Hn) as (r & Hin & CO).
    exists rung, r. split; [|split]; assumption. }
  assert (REN : forall n, In n N -> renamable s1 t1 h1 n).
  { intros n Hn. destruct (NC n Hn) as (rung & r & Hr & Hin & [_ CO]).
    unfold renamable, tag_key. rewrite CO. apply (K rung r Hr Hin). }
  set (st1 := with_heap h1
                (with_routines
                   (PylogixList.remove Routine.key (Program.routines (other_prog st)) target)
                   st)).
  destruct (renaming_update_rungs s1 t1 N h1 REN rungs' st1) as (h2 & Eu & R2 & F2).
  { split; [reflexivity|]. intros i. left. reflexivity. }
  { exact InN. }
  { intros rung' Hr'. destruct (Forall2_in_r _ _ _ _ C Hr') as (rung & Hr & RC).
    destruct RC as (_ & _ & -> & _). apply T. exact Hr. }
  exists {| Routine.super := with_name (clone_name routine target) (Routine.super routine);
            Routine.rungs := List.map (retext s1 t1) rungs' |}.
  eexists _, _. split.
  { unfold apply_routine_update, bind, modify, deepcopy_Routine, lift_result, get, ret.
    cbn [entry_routine name_split other_name_split heap with_routines other_prog].
    rewrite Ed.
    cbn [Routine.super Routine.rungs].
    change (name (Routine.super routine)) with (Routine.key routine).
    rewrite (set_name_ok _ _ N1). cbv beta iota.
    change (name (with_name ?v ?o)) with v.
    unfold clone_name in N2 |- *. fold s1 t1 in N2 |- *.
    rewrite (set_name_ok _ _ N2). cbv beta iota.
    fold st1. rewrite Eu. reflexivity. }
  cbn [heap with_routines with_heap other_prog st1 Program.routines Program.tags Program.super].
  assert (NB : forall n, In n N -> length (heap st) <= n).
  { intros n Hn. destruct (NC n Hn) as (_ & _ & _ & _ & [[Hlo _] _]). exact Hlo. }
  pose proof (extends_length h0 (heap st) X0) as L0.
  pose proof R2 as [L2 _].
  split; [eapply renaming_extends; eassumption|].
  split; [|split; [reflexivity | split; reflexivity]].
  split; [reflexivity|]. cbn [Routine.rungs]. fold s1 t1.
  apply (Forall2_map_r_in _ _ _ _ _ C).
  intros rung rung' Hr Hr' (C1 & C2 & C3 & C4 & C5 & C6).
  unfold rung_clone, retext, Rung_with. cbn [Rung.super Rung.number Rung.text Rung.tags
    Rung.add_on_instructions Rung.comment].
  rewrite C3. repeat split; try assumption.
  - assert (G : forall r n, In r (Rung.tags rung) -> In n (Rung.tags rung') ->
                            copy_of (heap st) h1 r n ->
                            tag_key h2 n = PyStr.replace (tag_key h0 r) s1 t1).
    { intros r n Hin Hn [[_ Hhi] CO]. unfold tag_key.
      rewrite (F2 n) by solve [exact Hhi | left; exists rung'; split; assumption].
      rewrite renamed_key, CO.
      change (Tag.key (deepcopy_Tag ?x)) with (Tag.key x).
      f_equal. f_equal. apply extends_deref; [exact X0|].
      destruct WF0 as (V0 & _). apply (V0 rung r Hr). apply in_or_app. left. exact Hin. }
    clear -C6 G. induction C6 as [|r n l l' HC F IH]; [reflexivity|].
    simpl. f_equal.
    + apply G; [left; reflexivity | left; reflexivity | exact HC].
    + apply IH. intros r' n' Hr' Hn'. apply G; right; assumption.
  - clear -C6 L0 L2. induction C6 as [|r n l l' [[H1 H2] _] F IH]; constructor.
    + lia.
    + exact IH.
Qed.

(** *** Every target routine *)

Lemma gather_routine_updates_spec (split : list string) (routines : list Routine.t) :
  gather_routine_updates split routines
  = List.map
      (fun target =>
         {| entry_routine := target; name_split := split;
            other_name_split := PyStr.split "_" (Routine.key target) |})
      (List.filter (is_candidate split) routines).
Proof.
  unfold gather_routine_updates.
  induction routines as [|r routines IH]; [reflexivity|].
  cbn [omap list_omap List.filter]. unfold is_candidate at 1.
  destruct (Nat.ltb (length (PyStr.split "_" (Routine.key r))) 3); cbn [negb andb].
  - exact IH.
  - destruct (bool_decide (drop 2 split = drop 2 (PyStr.split "_" (Routine.key r)))).
    + cbn [List.map]. f_equal. exact IH.
    + exact IH.
Qed.

Lemma apply_routine_updates_spec (routine : Routine.t) (h0 : Heap)
    (candidates : list Routine.t) :
  well_formed_routine h0 routine ->
  forall st deps,
    extends h0 (heap st) ->
    (forall target, In target candidates -> propagates_to routine h0 target) ->
    exists clones deps' st',
      apply_routine_updates routine deps
        (List.map
           (fun target =>
              {| entry_routine := target;
                 name_split := PyStr.split "_" (Routine.key routine);
                 other_name_split := PyStr.split "_" (Routine.key target) |})
           candidates) st
      = (Ok deps', st')
      /\ extends (heap st) (heap st')
      /\ Forall2 (is_clone routine h0 (heap st')) candidates clones
      /\ Program.routines (other_prog st')
         = replace_targets (Program.routines (other_prog st)) (zip candidates clones).
Proof.
  intros WF. induction candidates as [|c cs IH]; intros st deps X P.
  - exists [], deps, st. split; [reflexivity|]. split; [apply extends_refl|].
    split; [constructor | reflexivity].
  - destruct (apply_routine_update_spec routine h0 st deps c X WF (P c (or_introl eq_refl)))
      as (clone & d1 & st1 & E1 & X1 & C1 & R1 & _).
    destruct (IH st1 d1 (extends_trans _ _ _ X X1) (fun t Ht => P t (or_intror Ht)))
      as (clones & d2 & st2 & E2 & X2 & C2 & R2).
    exists (clone :: clones), d2, st2.
    split; [cbn [List.map apply_routine_updates]; unfold bind; rewrite E1; exact E2|].
    split; [eapply extends_trans; eassumption|].
    split; [constructor; [eapply is_clone_mono; eassumption | exact C2]|].
    rewrite R2, R1. reflexivity.
Qed.

(** A target of fewer than three tokens has no suffix, and the source has
    one: the length test of the first loop follows from the suffix test. *)
Lemma is_candidate_same_suffix (split : list string) (other_routine : Routine.t) :
  3 <= length split -> is_candidate split other_routine = same_suffix split other_routine.
Proof.
  intros H. unfold is_candidate, same_suffix.
  destruct (Nat.ltb_spec (length (PyStr.split "_" (Routine.key other_routine))) 3) as [L|L];
    [|reflexivity].
  cbn [negb andb]. symmetry. apply bool_decide_eq_false. intros E.
  apply (f_equal length) in E. rewrite !length_drop in E. lia.
Qed.

(** C1 (as the code has it): for a source driver routine of at least
    three tokens, every target routine whose suffix tokens[2:] match is
    removed and a deep clone of the source routine is appended for it.  The
    clone's name is the source name with token 0 and then token 1 replaced
    by the target's tokens; the text of every rung and the name of every
    tag of the rung's tag list have token 1 replaced by the target's token
    1, and token 0 left as it is; the tag objects of the source routine are
    untouched. *)
Theorem driver_propagation_substitutes (routine : Routine.t) (st : MergeState) :
  3 <= length (PyStr.split "_" (Routine.key routine)) ->
  well_formed_routine (heap st) routine ->
  (forall target,
      In target (List.filter (same_suffix (PyStr.split "_" (Routine.key routine)))
                   (Program.routines (other_prog st))) ->
      propagates_to routine (heap st) target) ->
  exists clones deps st',
    __push_driver_routine__ routine st = (Ok deps, st')
    /\ Forall2 (is_clone routine (heap st) (heap st'))
         (List.filter (same_suffix (PyStr.split "_" (Routine.key routine)))
            (Program.routines (other_prog st)))
         clones
    /\ Program.routines (other_prog st')
       = replace_targets (Program.routines (other_prog st))
           (zip (List.filter (same_suffix (PyStr.split "_" (Routine.key routine)))
                   (Program.routines (other_prog st)))
                clones)
    /\ extends (heap st) (heap st').
Proof.
  intros Hlen WF P.
  rewrite <- (filter_pointwise _ _ (Program.routines (other_prog st))
                (fun r => is_candidate_same_suffix _ r Hlen)) in *.
  destruct (apply_routine_updates_spec routine (heap st) _ WF st
              PyLogixDependencies.__init__ (extends_refl _) P)
    as (clones & deps & st' & E & X & C & R).
  exists clones, deps, st'. split; [|split; [exact C | split; [exact R | exact X]]].
  unfold __push_driver_routine__.
  change (name (Routine.super routine)) with (Routine.key routine).
  assert (L : Nat.ltb (length (PyStr.split "_" (Routine.key routine))) 3 = false)
    by (apply Nat.ltb_ge; exact Hlen).
  rewrite L. unfold bind, get. rewrite gather_routine_updates_spec. exact E.
Qed.

Lemma driver_propagation_substitutes_witness :
  3 <= length (PyStr.split "_" "M01_PumpA_Start")
  /\ exists clones deps st',
       __push_driver_routine__ Example.M01_PumpA_Start Example.start = (Ok deps, st')
       /\ Forall2 (is_clone Example.M01_PumpA_Start (heap Example.start) (heap st'))
            [Example.M02_PumpB_Start] clones
       /\ Program.routines (other_prog st')
          = replace_targets (Program.routines (other_prog Example.start))
              (zip [Example.M02_PumpB_Start] clones)
       /\ extends (heap Example.start) (heap st').
Proof.
  split; [vm_compute; lia|].
  apply (driver_propagation_substitutes Example.M01_PumpA_Start Example.start).
  - vm_compute. lia.
  - split; [|split].
    + intros rung r [<-|[<-|[]]] Hin; simpl in Hin;
        repeat match goal with H : _ \/ _ |- _ => destruct H as [<-|?] end;
        solve [simpl; lia | contradiction].
    + intros rung [<-|[<-|[]]]; discriminate.
    + intros rung [<-|[<-|[]]]; vm_compute;
        repeat (constructor; [rewrite ?list_elem_of_In; simpl; intuition discriminate|]);
        constructor.
  - intros target Hin.
    assert (E : target = Example.M02_PumpB_Start).
    { vm_compute in Hin. destruct Hin as [<-|[]]. reflexivity. }
    subst target. split; [vm_compute; reflexivity|]. split; [vm_compute; reflexivity|].
    intros rung r [<-|[<-|[]]] Hr; simpl in Hr;
      repeat match goal with H : _ \/ _ |- _ => destruct H as [<-|?] end;
      solve [split; vm_compute; reflexivity | contradiction].
Defined.

(** C1, the claim as stated fails on the example of the specification:
    the clone made of [M01_PumpA_Start] for [M02_PumpB_Start] has the new
    name, but its first rung still reads [M01] and its first tag is still
    named after [M01]: token 0 is substituted in the routine name only. *)
Lemma driver_propagation_token0_counterexample :
  let st' := snd (__push_driver_routine__ Example.M01_PumpA_Start Example.start) in
  exists clone,
    Program.routines (other_prog st') = [Example.Housekeeping; clone]
    /\ Routine.key clone = "M02_PumpB_Start"
    /\ List.map Rung.text (Routine.rungs clone)
       = [Some "XIC(M01_PumpB_Run)OTE(PumpB_Cmd)"; Some "XIC(PumpB_Valve.State.Code)"]
    /\ List.map (fun rung => List.map (tag_key (heap st')) (Rung.tags rung))
         (Routine.rungs clone)
       = [["M01_PumpB_Run"; "PumpB_Cmd"]; ["PumpB_Valve"]]
    /\ List.map Rung.text (Routine.rungs clone)
       <> [Some (PyStr.replace
                   (PyStr.replace "XIC(M01_PumpA_Run)OTE(PumpA_Cmd)" "M01" "M02")
                   "PumpA" "PumpB");
           Some (PyStr.replace
                   (PyStr.replace "XIC(PumpA_Valve.State.Code)" "M01" "M02")
                   "PumpA" "PumpB")].
Proof.
  eexists. split; [vm_compute; reflexivity|].
  split; [reflexivity|]. split; [reflexivity|]. split; [reflexivity|].
  vm_compute. discriminate.
Qed.

(** *** The rebind of a program *)

Lemma lstrip_by_idempotent (p : ascii -> bool) (s : string) :
  PyStr.lstrip_by p (PyStr.lstrip_by p s) = PyStr.lstrip_by p s.
Proof.
  induction s as [|c s IH]; simpl; [reflexivity|].
  destruct (p c) eqn:E; [exact IH|]. simpl. rewrite E. reflexivity.
Qed.

Lemma rstrip_by_cons (p : ascii -> bool) (c : ascii) (s : string) :
  PyStr.rstrip_by p (String c s)
  = match PyStr.rstrip_by p s with
    | EmptyString => if p c then EmptyString else String c EmptyString
    | r => String c r
    end.
Proof. reflexivity. Qed.

Lemma rstrip_by_idempotent (p : ascii -> bool) (s : string) :
  PyStr.rstrip_by p (PyStr.rstrip_by p s) = PyStr.rstrip_by p s.
Proof.
  induction s as [|c s IH]; [reflexivity|].
  rewrite rstrip_by_cons.
  destruct (PyStr.rstrip_by p s) as [|c' r] eqn:E.
  - destruct (p c) eqn:Ec; [reflexivity|].
    rewrite rstrip_by_cons. simpl. rewrite Ec. reflexivity.
  - rewrite rstrip_by_cons, IH. reflexivity.
Qed.

Lemma strip_by_commute (p : ascii -> bool) (s : string) :
  PyStr.lstrip_by p (PyStr.rstrip_by p s) = PyStr.rstrip_by p (PyStr.lstrip_by p s).
Proof.
  induction s as [|c s IH]; [reflexivity|].
  rewrite rstrip_by_cons. cbn [PyStr.lstrip_by].
  destruct (p c) eqn:Ec.
  - rewrite <- IH. destruct (PyStr.rstrip_by p s) as [|c' r]; [reflexivity|].
    cbn [PyStr.lstrip_by]. rewrite Ec. reflexivity.
  - rewrite rstrip_by_cons.
    destruct (PyStr.rstrip_by p s) as [|c' r]; cbn [PyStr.lstrip_by]; rewrite Ec;
      reflexivity.
Qed.

Lemma strip_idempotent (s : string) : PyStr.strip (PyStr.strip s) = PyStr.strip s.
Proof.
  unfold PyStr.strip, PyStr.lstrip, PyStr.rstrip.
  rewrite <- (strip_by_commute PyStr.is_space (PyStr.rstrip_by PyStr.is_space s)).
  rewrite rstrip_by_idempotent, lstrip_by_idempotent. reflexivity.
Qed.

(** [Rung.rebind] reads the names and the [alias_for] of the tags only. *)
Lemma Rung_rebind_heap (h h' : Heap) (tags : option (list TagRef)) (r : Rung.t) :
  (forall i, tag_key h' i = tag_key h i) ->
  (forall i, Tag.alias_for (deref h' i) = Tag.alias_for (deref h i)) ->
  Rung_rebind h' tags r = Rung_rebind h tags r.
Proof.
  intros HK HA. destruct tags as [ctrl_tags|]; [|reflexivity].
  unfold Rung_rebind. f_equal.
  rewrite (filter_pointwise (fun t => is_alias (deref h' t)) (fun t => is_alias (deref h t)))
    by (intros t; unfold is_alias; rewrite HA; reflexivity).
  apply fold_left_pointwise. intros acc tag. rewrite HA.
  destruct (Tag.alias_for (deref h tag)) as [target|]; [|reflexivity].
  unfold PylogixList.by_name.
  rewrite (find_pointwise (fun item => String.eqb (tag_key h' item) target)
             (fun item => String.eqb (tag_key h item) target))
    by (intros t; rewrite HK; reflexivity).
  destruct (List.find _ ctrl_tags) as [c|]; [|reflexivity].
  rewrite !append_no_overwrite.
  rewrite (in_by_pointwise (tag_key h') (tag_key h)); [reflexivity | apply HK |].
  intros y _. apply HK.
Qed.

Lemma Tag_rebind_key (tags : option (list TagRef)) (r : TagRef) (h : Heap) (i : TagRef) :
  tag_key (Tag_rebind tags r h) i = tag_key h i.
Proof.
  unfold Tag_rebind, tag_key. destruct (Nat.eq_dec r i) as [<-|Hne].
  - destruct (Nat.lt_ge_cases r (length h)) as [Hlt|Hge].
    + rewrite deref_insert_eq by exact Hlt. apply rebind_keeps_key.
    + rewrite list_insert_ge by exact Hge. reflexivity.
  - rewrite deref_insert_ne by exact Hne. reflexivity.
Qed.

Lemma Tag_rebind_alias_for (tags : option (list TagRef)) (r : TagRef) (h : Heap) (i : TagRef) :
  Tag.alias_for (deref (Tag_rebind tags r h) i) = Tag.alias_for (deref h i).
Proof.
  unfold Tag_rebind. destruct (Nat.eq_dec r i) as [<-|Hne].
  - destruct (Nat.lt_ge_cases r (length h)) as [Hlt|Hge].
    + rewrite deref_insert_eq by exact Hlt. apply rebind_keeps_alias_for.
    + rewrite list_insert_ge by exact Hge. reflexivity.
  - rewrite deref_insert_ne by exact Hne. reflexivity.
Qed.

Lemma TagList_rebind_key (tags : option (list TagRef)) (l : list TagRef) (h : Heap)
    (i : TagRef) :
  tag_key (TagList_rebind tags l h) i = tag_key h i.
Proof.
  unfold TagList_rebind. revert h. induction l as [|r l IH]; intros h; simpl;
    [reflexivity|].
  rewrite IH. apply Tag_rebind_key.
Qed.

Lemma TagList_rebind_alias_for (tags : option (list TagRef)) (l : list TagRef) (h : Heap)
    (i : TagRef) :
  Tag.alias_for (deref (TagList_rebind tags l h) i) = Tag.alias_for (deref h i).
Proof.
  unfold TagList_rebind. revert h. induction l as [|r l IH]; intros h; simpl;
    [reflexivity|].
  rewrite IH. apply Tag_rebind_alias_for.
Qed.

Lemma TagList_rebind_app (tags : option (list TagRef)) (l1 l2 : list TagRef) (h : Heap) :
  TagList_rebind tags (l1 ++ l2) h = TagList_rebind tags l2 (TagList_rebind tags l1 h).
Proof. unfold TagList_rebind. apply fold_left_app. Qed.

(** The program [Program.rebind] leaves: it depends on the heap through
    the names and the [alias_for] of the tags only. *)
Lemma Program_rebind_fst_heap (tags : option (list TagRef)) (self : Program.t) (h h' : Heap) :
  (forall i, tag_key h' i = tag_key h i) ->
  (forall i, Tag.alias_for (deref h' i) = Tag.alias_for (deref h i)) ->
  fst (Program_rebind tags self h') = fst (Program_rebind tags self h).
Proof.
  intros HK HA. unfold Program_rebind. cbn [fst].
  assert (E : List.map (Routine_rebind h' tags) (Program.routines self)
              = List.map (Routine_rebind h tags) (Program.routines self)).
  { apply List.map_ext. intros r. unfold Routine_rebind. f_equal.
    apply List.map_ext. intros x. apply Rung_rebind_heap; assumption. }
  rewrite E. reflexivity.
Qed.

Lemma Program_rebind_fst_again (tags : option (list TagRef)) (self : Program.t) (h : Heap) :
  fst (Program_rebind tags (fst (Program_rebind tags self h)) h)
  = fst (Program_rebind tags self h).
Proof.
  unfold Program_rebind. cbn [fst snd Program.super Program.routines Program.tags
    Program.main_routine_name].
  assert (ER : List.map (Routine_rebind h tags)
                 (List.map (Routine_rebind h tags) (Program.routines self))
               = List.map (Routine_rebind h tags) (Program.routines self)).
  { rewrite List.map_map. apply List.map_ext. intros r. apply Routine_rebind_idempotent. }
  rewrite ER. f_equal.
  unfold PyLogixObject_rebind, with_description_properties.
  cbn [_name description description_properties _generator_properties].
  f_equal.
  match goal with
  | |- List.map _ (fold_left ?f ?l ?a) = List.map _ (fold_left ?f ?l ?b) =>
      destruct l as [|d l'] eqn:El
  end.
  - simpl. rewrite List.map_map. apply List.map_ext. intros x. apply strip_idempotent.
  - reflexivity.
Qed.

Lemma Program_rebind_idempotent (tags : option (list TagRef)) (self : Program.t) (h : Heap) :
  no_alias_chain tags (Program.tags self) h ->
  Program_rebind tags (fst (Program_rebind tags self h)) (snd (Program_rebind tags self h))
  = Program_rebind tags self h.
Proof.
  intros NC. apply injective_projections.
  - rewrite <- (Program_rebind_fst_again tags self h) at 2.
    apply Program_rebind_fst_heap; intros i;
      [apply TagList_rebind_key | apply TagList_rebind_alias_for].
  - apply (TagList_rebind_idempotent tags (Program.tags self) h NC).
Qed.

(** *** The pass over the datatypes of a controller *)

Lemma deref_datatype_insert_eq (dh : DataTypeHeap) (r : DataTypeRef) (v : DataTypeObject.t) :
  r < length dh -> deref_datatype (<[r := v]> dh) r = v.
Proof.
  intros H. unfold deref_datatype. rewrite list_lookup_insert_eq by exact H. reflexivity.
Qed.

Lemma deref_datatype_insert_ne (dh : DataTypeHeap) (r i : DataTypeRef) (v : DataTypeObject.t) :
  r <> i -> deref_datatype (<[r := v]> dh) i = deref_datatype dh i.
Proof.
  intros H. unfold deref_datatype. rewrite list_lookup_insert_ne by exact H. reflexivity.
Qed.

Lemma insert_deref_datatype_id (dh : DataTypeHeap) (r : DataTypeRef) :
  <[r := deref_datatype dh r]> dh = dh.
Proof.
  destruct (Nat.lt_ge_cases r (length dh)) as [H|H].
  - apply list_insert_id. unfold deref_datatype.
    destruct (dh !! r) eqn:E; [reflexivity|]. apply lookup_ge_None in E. lia.
  - apply list_insert_ge. exact H.
Qed.

Lemma DataTypeMember_rebind_by_ext {D} (by_name by_name' : string -> option D)
    (m : DataTypeMember.t D) :
  (forall n, by_name' n = by_name n) ->
  DataTypeMember_rebind_by by_name' m = DataTypeMember_rebind_by by_name m.
Proof.
  intros H. unfold DataTypeMember_rebind_by.
  destruct (DataTypeMember.datatype m); [reflexivity|].
  destruct (DataTypeMember.datatype_meta_name m); [rewrite H|]; reflexivity.
Qed.

Lemma DataTypeObject_rebind_ext (by_name by_name' : string -> option DataTypeRef)
    (x : DataTypeObject.t) :
  (forall n, by_name' n = by_name n) ->
  DataTypeObject_rebind by_name' x = DataTypeObject_rebind by_name x.
Proof.
  intros H. unfold DataTypeObject_rebind. f_equal.
  apply List.map_ext. intros m. apply DataTypeMember_rebind_by_ext. exact H.
Qed.

Lemma DataTypeObject_rebind_again (by_name by_name' : string -> option DataTypeRef)
    (x : DataTypeObject.t) :
  (forall n, by_name' n = by_name n) ->
  DataTypeObject_rebind by_name' (DataTypeObject_rebind by_name x)
  = DataTypeObject_rebind by_name x.
Proof.
  intros H. unfold DataTypeObject_rebind. simpl. f_equal.
  rewrite List.map_map. apply List.map_ext. intros m.
  apply DataTypeMember_rebind_by_again. exact H.
Qed.

Section DataTypePass.
Variable datatypes : list DataTypeRef.
Variable dh : DataTypeHeap.

Abbreviation dreached := (datatypes_reached_from datatypes dh).
Abbreviation by0 := (PylogixList.by_name (datatype_key dh) datatypes).
Abbreviation dpass := (fold_left (fun dh d => DataType_rebind datatypes d dh)).

Lemma dreached_by_name dh' n :
  dreached dh' -> PylogixList.by_name (datatype_key dh') datatypes n = by0 n.
Proof.
  intros [_ H]. unfold PylogixList.by_name. apply find_pointwise. intros r.
  unfold datatype_key. destruct (H r) as [->| ->]; reflexivity.
Qed.

Lemma dreached_rebind dh' d :
  dreached dh' ->
  DataTypeObject_rebind (PylogixList.by_name (datatype_key dh') datatypes)
    (deref_datatype dh' d)
  = DataTypeObject_rebind by0 (deref_datatype dh d).
Proof.
  intros R. pose proof R as [_ H]. destruct (H d) as [->| ->].
  - apply DataTypeObject_rebind_ext. intros n. apply dreached_by_name. exact R.
  - apply DataTypeObject_rebind_again. intros n. apply dreached_by_name. exact R.
Qed.

Lemma dreached_step dh' d : dreached dh' -> dreached (DataType_rebind datatypes d dh').
Proof.
  intros R. pose proof R as [HL H]. unfold DataType_rebind.
  rewrite (dreached_rebind dh' d R).
  split; [rewrite length_insert; exact HL|].
  intros i. destruct (Nat.eq_dec d i) as [<-|Hne].
  - destruct (Nat.lt_ge_cases d (length dh')) as [Hlt|Hge].
    + rewrite deref_datatype_insert_eq by exact Hlt. right. reflexivity.
    + rewrite list_insert_ge by exact Hge. apply H.
  - rewrite deref_datatype_insert_ne by exact Hne. apply H.
Qed.

Lemma dreached_pass l dh' :
  dreached dh' ->
  dreached (dpass l dh')
  /\ forall i, In i l \/ deref_datatype dh' i = DataTypeObject_rebind by0 (deref_datatype dh i) ->
               i < length dh ->
               deref_datatype (dpass l dh') i = DataTypeObject_rebind by0 (deref_datatype dh i).
Proof.
  revert dh'. induction l as [|d l IH]; intros dh' R; simpl.
  - split; [exact R|]. intros i [[]|Hi] _. exact Hi.
  - pose proof (dreached_step dh' d R) as R'.
    destruct (IH (DataType_rebind datatypes d dh') R') as [R1 F1].
    split; [exact R1|].
    intros i Hi Hlt. apply F1; [|exact Hlt].
    pose proof R as [HL H].
    destruct (Nat.eq_dec d i) as [<-|Hne].
    + right. unfold DataType_rebind. rewrite deref_datatype_insert_eq by lia.
      apply dreached_rebind. exact R.
    + destruct Hi as [[E|Hi]|Hi]; [contradiction | left; exact Hi |].
      right. unfold DataType_rebind. rewrite deref_datatype_insert_ne by exact Hne. exact Hi.
Qed.

Lemma dsettled_pass l dh' :
  dreached dh' ->
  (forall d, In d l -> d < length dh ->
             deref_datatype dh' d = DataTypeObject_rebind by0 (deref_datatype dh d)) ->
  dpass l dh' = dh'.
Proof.
  induction l as [|d l IH]; intros R F; simpl; [reflexivity|].
  assert (E : DataType_rebind datatypes d dh' = dh').
  { unfold DataType_rebind. rewrite (dreached_rebind dh' d R). destruct R as [HL H].
    destruct (Nat.lt_ge_cases d (length dh)) as [Hlt|Hge].
    - rewrite <- (F d (or_introl eq_refl) Hlt). apply insert_deref_datatype_id.
    - apply list_insert_ge. lia. }
  rewrite E. apply IH; [exact R|].
  intros x Hx. apply F. right. exact Hx.
Qed.

Lemma dpass_idempotent l : dpass l (dpass l dh) = dpass l dh.
Proof.
  assert (R0 : dreached dh) by (split; [reflexivity | intros i; left; reflexivity]).
  destruct (dreached_pass l dh R0) as [R1 F1].
  apply dsettled_pass; [exact R1|].
  intros d Hd Hlt. apply F1; [left; exact Hd | exact Hlt].
Qed.

End DataTypePass.

Lemma DataTypeList_rebind_idempotent (datatypes : option (list DataTypeRef))
    (self : list DataTypeRef) (dh : DataTypeHeap) :
  DataTypeList_rebind datatypes self (DataTypeList_rebind datatypes self dh)
  = DataTypeList_rebind datatypes self dh.
Proof. unfold DataTypeList_rebind. apply dpass_idempotent. Qed.

(** *** The rebind of a controller *)

Lemma ProgramList_rebind_snd (tags : option (list TagRef)) (self : list Program.t)
    (h : Heap) :
  snd (ProgramList_rebind tags self h)
  = TagList_rebind tags (concat (List.map Program.tags self)) h.
Proof.
  revert h. induction self as [|prog rest IH]; intros h; [reflexivity|].
  cbn [ProgramList_rebind List.map concat]. rewrite TagList_rebind_app.
  destruct (Program_rebind tags prog h) as [prog' h1] eqn:E1.
  assert (Eh : h1 = TagList_rebind tags (Program.tags prog) h)
    by (change h1 with (snd (prog', h1)); rewrite <- E1; reflexivity).
  specialize (IH h1).
  destruct (ProgramList_rebind tags rest h1) as [rest' h2]. simpl in *.
  rewrite IH, Eh. reflexivity.
Qed.

Lemma ProgramList_rebind_fst (tags : option (list TagRef)) (self : list Program.t)
    (h h' : Heap) :
  (forall i, tag_key h' i = tag_key h i) ->
  (forall i, Tag.alias_for (deref h' i) = Tag.alias_for (deref h i)) ->
  fst (ProgramList_rebind tags self h')
  = List.map (fun prog => fst (Program_rebind tags prog h)) self.
Proof.
  revert h'. induction self as [|prog rest IH]; intros h' HK HA; [reflexivity|].
  cbn [ProgramList_rebind List.map].
  destruct (Program_rebind tags prog h') as [prog' h1] eqn:E1.
  assert (Ep : prog' = fst (Program_rebind tags prog h)).
  { rewrite <- (Program_rebind_fst_heap tags prog h h' HK HA), E1. reflexivity. }
  assert (Eh : h1 = TagList_rebind tags (Program.tags prog) h')
    by (change h1 with (snd (prog', h1)); rewrite <- E1; reflexivity).
  assert (IH1 := IH h1).
  destruct (ProgramList_rebind tags rest h1) as [rest' h2]. simpl in *.
  rewrite IH1, Ep; [reflexivity | |].
  - intros i. rewrite Eh, TagList_rebind_key. apply HK.
  - intros i. rewrite Eh, TagList_rebind_alias_for. apply HA.
Qed.

Lemma Controller_rebind_idempotent (self : Controller.t) (dh : DataTypeHeap) (h : Heap) :
  no_alias_chain (Some (Controller.tags self)) (Controller_all_tags self) h ->
  let '(self1, dh1, h1) := Controller_rebind self dh h in
  Controller_rebind self1 dh1 h1 = (self1, dh1, h1).
Proof.
  intros NC.
  set (tags := Some (Controller.tags self)) in *.
  assert (P1 : fst (ProgramList_rebind tags (Controller.programs self)
                      (TagList_rebind tags (Controller.tags self) h))
               = List.map (fun prog => fst (Program_rebind tags prog h))
                   (Controller.programs self)).
  { apply ProgramList_rebind_fst; intros i;
      [apply TagList_rebind_key | apply TagList_rebind_alias_for]. }
  assert (H1 : snd (ProgramList_rebind tags (Controller.programs self)
                      (TagList_rebind tags (Controller.tags self) h))
               = TagList_rebind tags (Controller_all_tags self) h).
  { rewrite ProgramList_rebind_snd. unfold Controller_all_tags.
    rewrite TagList_rebind_app. reflexivity. }
  unfold Controller_rebind. fold tags.
  destruct (ProgramList_rebind tags (Controller.programs self)
              (TagList_rebind tags (Controller.tags self) h)) as [programs1 h1] eqn:E1.
  simpl in P1, H1.
  cbn [Controller.super Controller.datatypes Controller.modules
       Controller.add_on_instructions Controller.tags Controller.programs Controller.tasks].
  fold tags.
  assert (T1 : concat (List.map Program.tags programs1)
               = concat (List.map Program.tags (Controller.programs self))).
  { rewrite P1, List.map_map. reflexivity. }
  assert (HK : forall i, tag_key h1 i = tag_key h i)
    by (intros i; rewrite H1; apply TagList_rebind_key).
  assert (HA : forall i, Tag.alias_for (deref h1 i) = Tag.alias_for (deref h i))
    by (intros i; rewrite H1; apply TagList_rebind_alias_for).
  assert (P2 : fst (ProgramList_rebind tags programs1
                      (TagList_rebind tags (Controller.tags self) h1)) = programs1).
  { rewrite (ProgramList_rebind_fst tags programs1 h).
    - rewrite P1, List.map_map. apply List.map_ext. intros prog.
      apply Program_rebind_fst_again.
    - intros i. rewrite TagList_rebind_key. apply HK.
    - intros i. rewrite TagList_rebind_alias_for. apply HA. }
  assert (H2 : snd (ProgramList_rebind tags programs1
                      (TagList_rebind tags (Controller.tags self) h1)) = h1).
  { rewrite ProgramList_rebind_snd, T1, <- TagList_rebind_app.
    fold (Controller_all_tags self). rewrite H1.
    apply TagList_rebind_idempotent. exact NC. }
  destruct (ProgramList_rebind tags programs1
              (TagList_rebind tags (Controller.tags self) h1)) as [programs2 h2].
  simpl in P2, H2. subst programs2 h2.
  rewrite DataTypeList_rebind_idempotent.
  f_equal. f_equal. f_equal.
  - rewrite List.map_map. apply List.map_ext. intros m. reflexivity.
  - rewrite List.map_map. apply List.map_ext. intros a. reflexivity.
  - rewrite List.map_map. apply List.map_ext. intros t. reflexivity.
Qed.

(** C4 (as the code has it): rebinding twice gives the same state as
    rebinding once for an object's description properties, a datatype
    member, a rung, a routine, a task and a single tag, each against the
    same collections, and for the pass over the datatypes of a controller;
    and for the pass over a tag list, the rebind of a program and the
    rebind of a controller, provided no aliasing tag among those rebound
    points to a tag that is an alias itself. *)
Theorem rebind_idempotent :
  (forall o, PyLogixObject_rebind (PyLogixObject_rebind o) = PyLogixObject_rebind o)
  /\ (forall datatypes m,
        DataTypeMember_rebind datatypes (DataTypeMember_rebind datatypes m)
        = DataTypeMember_rebind datatypes m)
  /\ (forall h tags r, Rung_rebind h tags (Rung_rebind h tags r) = Rung_rebind h tags r)
  /\ (forall h tags r,
        Routine_rebind h tags (Routine_rebind h tags r) = Routine_rebind h tags r)
  /\ (forall programs t,
        Task_rebind programs (Task_rebind programs t) = Task_rebind programs t)
  /\ (forall tags h x,
        Tag_rebind_object tags h (Tag_rebind_object tags h x) = Tag_rebind_object tags h x)
  /\ (forall datatypes self dh,
        DataTypeList_rebind datatypes self (DataTypeList_rebind datatypes self dh)
        = DataTypeList_rebind datatypes self dh)
  /\ (forall tags self h,
        no_alias_chain tags self h ->
        TagList_rebind tags self (TagList_rebind tags self h) = TagList_rebind tags self h)
  /\ (forall tags self h,
        no_alias_chain tags (Program.tags self) h ->
        Program_rebind tags (fst (Program_rebind tags self h))
          (snd (Program_rebind tags self h))
        = Program_rebind tags self h)
  /\ (forall self dh h,
        no_alias_chain (Some (Controller.tags self)) (Controller_all_tags self) h ->
        let once := Controller_rebind self dh h in
        Controller_rebind (fst (fst once)) (snd (fst once)) (snd once) = once).
Proof.
  split; [exact PyLogixObject_rebind_idempotent|].
  split; [exact DataTypeMember_rebind_idempotent|].
  split; [exact Rung_rebind_idempotent|].
  split; [exact Routine_rebind_idempotent|].
  split; [exact Task_rebind_idempotent|].
  split; [exact Tag_rebind_object_idempotent|].
  split; [exact DataTypeList_rebind_idempotent|].
  split; [exact TagList_rebind_idempotent|].
  split; [exact Program_rebind_idempotent|].
  intros self dh h NC once. subst once.
  pose proof (Controller_rebind_idempotent self dh h NC) as H.
  destruct (Controller_rebind self dh h) as [[self1 dh1] h1]. exact H.
Qed.

Lemma rebind_idempotent_witness :
  let once :=
    Controller_rebind Example.controller Example.datatype_store Example.alias_to_base_heap in
  no_alias_chain (Some [0; 1]) [0; 1] Example.alias_to_base_heap
  /\ Tag.datatype (deref (snd once) 0) = Some Example.DINT
  /\ List.map DataTypeMember.datatype (DataTypeObject.members (deref_datatype (snd (fst once)) 2))
     = [Some 1; Some 0]
  /\ TagList_rebind (Some [0; 1]) [0; 1]
       (TagList_rebind (Some [0; 1]) [0; 1] Example.alias_to_base_heap)
     = TagList_rebind (Some [0; 1]) [0; 1] Example.alias_to_base_heap
  /\ Controller_rebind (fst (fst once)) (snd (fst once)) (snd once) = once.
Proof.
  intros once.
  assert (H : no_alias_chain (Some [0; 1]) [0; 1] Example.alias_to_base_heap).
  { intros r a [<-|[<-|[]]] E; vm_compute in E; [|discriminate].
    injection E as <-. reflexivity. }
  split; [exact H|]. split; [reflexivity|]. split; [reflexivity|].
  destruct rebind_idempotent as (_ & _ & _ & _ & _ & _ & _ & P & _ & Q).
  split.
  - apply (P (Some [0; 1]) [0; 1] Example.alias_to_base_heap). exact H.
  - apply (Q Example.controller Example.datatype_store Example.alias_to_base_heap). exact H.
Defined.

(** C4, the claim as stated fails: A is an alias for B, B an alias for C,
    and A is listed first.  The first pass gives A the datatype B had then,
    none; the second pass gives it the datatype B has got meanwhile.  So it
    is for the pass over the tag list and for the rebind of the controller
    that holds it. *)
Lemma rebind_alias_chain_counterexample :
  let once := TagList_rebind (Some [0; 1; 2]) [0; 1; 2] Example.alias_heap in
  let twice := TagList_rebind (Some [0; 1; 2]) [0; 1; 2] once in
  let controller_once := Controller_rebind Example.chain_controller [] Example.alias_heap in
  let controller_twice :=
    Controller_rebind (fst (fst controller_once)) (snd (fst controller_once))
      (snd controller_once) in
  Tag.datatype (deref once 0) = None
  /\ Tag.datatype (deref twice 0) = Some Example.DINT
  /\ twice <> once
  /\ Tag.datatype (deref (snd controller_once) 0) = None
  /\ Tag.datatype (deref (snd controller_twice) 0) = Some Example.DINT
  /\ controller_twice <> controller_once.
Proof.
  split; [reflexivity|]. split; [reflexivity|].
  split; [vm_compute; discriminate|].
  split; [reflexivity|]. split; [reflexivity|].
  vm_compute. discriminate.
Qed.

(** * Further properties of the sources *)

(** ** base/pylogix_list.py: a list keyed by name *)

Section ListLaws.
Context {A : Type} (key : A -> string).

Lemma in_by_key (x y : A) (l : list A) :
  key x = key y -> in_by key x l = in_by key y l.
Proof. intros E. unfold in_by. rewrite E. reflexivity. Qed.

Lemma in_by_false_not_In (x : A) (l : list A) :
  in_by key x l = false -> ~ In (key x) (map key l).
Proof. intros E H. apply (in_by_In key) in H. congruence. Qed.

Lemma list_remove_incl (x : A) (l : list A) (k : string) :
  In k (map key (PylogixList.list_remove key x l)) -> In k (map key l).
Proof.
  induction l as [|y l IH]; simpl; [tauto|].
  destruct (name_eqb (key y) (key x)); simpl; tauto.
Qed.

Lemma list_remove_NoDup (x : A) (l : list A) :
  NoDup (map key l) -> NoDup (map key (PylogixList.list_remove key x l)).
Proof.
  induction l as [|y l IH]; simpl; intros H; [assumption|].
  apply NoDup_cons in H as [Hy Hl].
  destruct (name_eqb (key y) (key x)); [assumption|].
  simpl. apply NoDup_cons. split; [|apply IH; assumption].
  rewrite list_elem_of_In in *. intros Hin. apply Hy. eapply list_remove_incl. exact Hin.
Qed.

Lemma list_remove_gone (x : A) (l : list A) :
  NoDup (map key l) -> ~ In (key x) (map key (PylogixList.list_remove key x l)).
Proof.
  induction l as [|y l IH]; simpl; intros H; [tauto|].
  apply NoDup_cons in H as [Hy Hl].
  rewrite list_elem_of_In in Hy.
  unfold name_eqb. destruct (String.eqb_spec (key y) (key x)) as [E|E].
  - rewrite <- E. exact Hy.
  - simpl. intros [E'|Hin]; [congruence|]. apply (IH Hl). exact Hin.
Qed.

Lemma append_NoDup (self : list A) (x : A) (overwrite : bool) :
  NoDup (map key self) -> NoDup (map key (PylogixList.append key self x overwrite)).
Proof.
  intros H. unfold PylogixList.append.
  destruct (in_by key x self) eqn:E; destruct overwrite; simpl; try assumption.
  - rewrite map_app. simpl. apply NoDup_app. split; [apply list_remove_NoDup; assumption|].
    split; [|apply NoDup_singleton].
    intros k Hk Hx. rewrite list_elem_of_In in Hk, Hx. destruct Hx as [<-|[]].
    apply (list_remove_gone x self H). exact Hk.
  - rewrite map_app. simpl. apply NoDup_app. split; [assumption|].
    split; [|apply NoDup_singleton].
    intros k Hk Hx. rewrite list_elem_of_In in Hk, Hx. destruct Hx as [<-|[]].
    apply (in_by_false_not_In x self E). exact Hk.
  - rewrite map_app. simpl. apply NoDup_app. split; [assumption|].
    split; [|apply NoDup_singleton].
    intros k Hk Hx. rewrite list_elem_of_In in Hk, Hx. destruct Hx as [<-|[]].
    apply (in_by_false_not_In x self E). exact Hk.
Qed.

Lemma extend_NoDup (self items : list A) (overwrite : bool) :
  NoDup (map key self) -> NoDup (map key (PylogixList.extend key self items overwrite)).
Proof.
  unfold PylogixList.extend. revert self.
  induction items as [|x items IH]; intros self H; simpl; [assumption|].
  apply IH. apply append_NoDup. assumption.
Qed.

Lemma remove_NoDup (self : list A) (x : A) :
  NoDup (map key self) -> NoDup (map key (PylogixList.remove key self x)).
Proof.
  intros H. unfold PylogixList.remove.
  destruct (in_by key x self); [apply list_remove_NoDup|]; assumption.
Qed.

Lemma by_name_app (l1 l2 : list A) (n : string) :
  PylogixList.by_name key (l1 ++ l2) n
  = match PylogixList.by_name key l1 n with
    | Some y => Some y
    | None => PylogixList.by_name key l2 n
    end.
Proof.
  unfold PylogixList.by_name. induction l1 as [|y l1 IH]; simpl; [reflexivity|].
  destruct (String.eqb (key y) n); [reflexivity | exact IH].
Qed.

Lemma by_name_None (l : list A) (n : string) :
  PylogixList.by_name key l n = None <-> ~ In n (map key l).
Proof.
  unfold PylogixList.by_name. induction l as [|y l IH]; simpl; [tauto|].
  destruct (String.eqb_spec (key y) n) as [E|E].
  - split; [discriminate | tauto].
  - rewrite IH. tauto.
Qed.

Lemma by_name_key (l : list A) (n : string) (y : A) :
  PylogixList.by_name key l n = Some y -> key y = n /\ In y l.
Proof.
  unfold PylogixList.by_name. intros H. apply find_some in H as [H1 H2].
  apply String.eqb_eq in H2. split; assumption.
Qed.

Lemma by_name_list_remove_ne (x : A) (l : list A) (n : string) :
  n <> key x ->
  PylogixList.by_name key (PylogixList.list_remove key x l) n = PylogixList.by_name key l n.
Proof.
  intros Hne. unfold PylogixList.by_name.
  induction l as [|y l IH]; simpl; [reflexivity|].
  unfold name_eqb. destruct (String.eqb_spec (key y) (key x)) as [E|E].
  - destruct (String.eqb_spec (key y) n) as [E'|E']; [congruence | reflexivity].
  - simpl. destruct (String.eqb (key y) n); [reflexivity | exact IH].
Qed.

End ListLaws.

Lemma list_remove_length {A} (key : A -> string) (x : A) (l : list A) :
  in_by key x l = true -> S (length (PylogixList.list_remove key x l)) = length l.
Proof.
  induction l as [|y l IH]; simpl; [discriminate|].
  destruct (name_eqb (key y) (key x)); simpl; [reflexivity|].
  intros H. rewrite IH by exact H. reflexivity.
Qed.

(** X1: a [PylogixList] keeps the names of its objects pairwise distinct.
    [append], [extend] and [remove] take a list without two objects of the
    same name to one without, whatever the overwrite flag; so a list filled
    from the empty one holds no two objects of the same name. *)
Theorem pylogix_list_names_distinct {A : Type} (key : A -> string) :
  (forall self x overwrite,
      NoDup (map key self) -> NoDup (map key (PylogixList.append key self x overwrite)))
  /\ (forall self items overwrite,
        NoDup (map key self) ->
        NoDup (map key (PylogixList.extend key self items overwrite)))
  /\ (forall self x,
        NoDup (map key self) -> NoDup (map key (PylogixList.remove key self x)))
  /\ (forall items overwrite,
        NoDup (map key (PylogixList.extend key [] items overwrite))).
Proof.
  split; [apply append_NoDup|]. split; [apply extend_NoDup|].
  split; [apply remove_NoDup|].
  intros items overwrite. apply extend_NoDup. apply NoDup_nil_2.
Qed.

(** X2: looking a name up after [append].  Without the overwrite flag the
    object that already had the name stays the one found, and the appended
    object is found only when the name was free; with the flag, in a list of
    distinct names, the appended object is the one found.  The lookup of
    every other name is as before. *)
Theorem pylogix_list_append_by_name {A : Type} (key : A -> string) (self : list A) (x : A) :
  PylogixList.by_name key (PylogixList.append key self x false) (key x)
  = match PylogixList.by_name key self (key x) with
    | Some y => Some y
    | None => Some x
    end
  /\ (NoDup (map key self) ->
      PylogixList.by_name key (PylogixList.append key self x true) (key x) = Some x)
  /\ (forall overwrite n,
        n <> key x ->
        PylogixList.by_name key (PylogixList.append key self x overwrite) n
        = PylogixList.by_name key self n).
Proof.
  assert (X : PylogixList.by_name key [x] (key x) = Some x).
  { unfold PylogixList.by_name. simpl. rewrite String.eqb_refl. reflexivity. }
  assert (Y : forall n, n <> key x -> PylogixList.by_name key [x] n = None).
  { intros n Hn. unfold PylogixList.by_name. simpl.
    destruct (String.eqb_spec (key x) n); [congruence | reflexivity]. }
  split; [|split].
  - rewrite append_no_overwrite. destruct (in_by key x self) eqn:E.
    + destruct (PylogixList.by_name key self (key x)) eqn:B; [reflexivity|].
      apply by_name_None in B. apply in_by_In in E. contradiction.
    + rewrite by_name_app, X.
      destruct (PylogixList.by_name key self (key x)); reflexivity.
  - intros H. unfold PylogixList.append. destruct (in_by key x self) eqn:E; simpl.
    + rewrite by_name_app, X.
      pose proof (list_remove_gone key x self H) as G. apply by_name_None in G.
      rewrite G. reflexivity.
    + rewrite by_name_app, X.
      pose proof (in_by_false_not_In key x self E) as G. apply by_name_None in G.
      rewrite G. reflexivity.
  - intros overwrite n Hn. unfold PylogixList.append.
    destruct (in_by key x self) eqn:E; destruct overwrite; simpl;
      try reflexivity; rewrite by_name_app, (Y n Hn);
      rewrite ?by_name_list_remove_ne by exact Hn;
      destruct (PylogixList.by_name key self n); reflexivity.
Qed.

(** X3: [remove] goes by name.  It takes out the first object of the name
    of its argument and no other, so in a list of distinct names the name is
    not found afterwards; the lookup of every other name is as before, and
    removing a name the list does not hold changes nothing. *)
Theorem pylogix_list_remove_by_name {A : Type} (key : A -> string) (self : list A) (x : A) :
  (NoDup (map key self) ->
   PylogixList.by_name key (PylogixList.remove key self x) (key x) = None)
  /\ (forall n,
        n <> key x ->
        PylogixList.by_name key (PylogixList.remove key self x) n
        = PylogixList.by_name key self n)
  /\ (in_by key x self = false -> PylogixList.remove key self x = self)
  /\ length (PylogixList.remove key self x) + (if in_by key x self then 1 else 0)
     = length self.
Proof.
  unfold PylogixList.remove. split; [|split; [|split]].
  - intros H. destruct (in_by key x self) eqn:E; apply by_name_None.
    + apply list_remove_gone. exact H.
    + apply in_by_false_not_In. exact E.
  - intros n Hn. destruct (in_by key x self); [|reflexivity].
    apply by_name_list_remove_ne. exact Hn.
  - intros ->. reflexivity.
  - destruct (in_by key x self) eqn:E; [|lia].
    rewrite <- (list_remove_length key x self E). lia.
Qed.

(** ** The dependency closure: what it holds and what it never holds *)

(** Induction over a datatype and the datatypes of its members. *)
Lemma DataType_members_ind (P : DataType.t -> Prop) :
  (forall b a bi ms,
      (forall m d, In m ms -> DataTypeMember.datatype m = Some d -> P d) ->
      P (DataType.Build b a bi ms)) ->
  forall d, P d.
Proof.
  intros H. fix IH 1. intros [b a bi ms]. apply H.
  induction ms as [|m ms IHms]; intros m' d Hin E; [destruct Hin|].
  destruct Hin as [<-|Hin]; [|exact (IHms m' d Hin E)].
  destruct m as [s [d'|] n dims r hd ea tg bn]; simpl in E; [|discriminate].
  injection E as <-. apply IH.
Qed.

Section SafeAddMore.
Context {A : Type} (key : A -> string).

Lemma safe_add_item_keeps (l : list A) (x y : A) :
  in_by key y l = true -> in_by key y (safe_add_item key l x) = true.
Proof.
  intros H. unfold safe_add_item. destruct (in_by key x l); [assumption|].
  rewrite in_by_app, H. reflexivity.
Qed.

Lemma safe_add_item_has (l : list A) (x : A) :
  in_by key x (safe_add_item key l x) = true.
Proof.
  unfold safe_add_item. destruct (in_by key x l) eqn:E; [assumption|].
  rewrite in_by_app. apply orb_true_iff. right. apply in_by_self. left. reflexivity.
Qed.

Lemma safe_add_keeps (l1 l2 : list A) (y : A) :
  in_by key y l1 = true -> in_by key y (__safe_add__ key l1 l2) = true.
Proof.
  unfold __safe_add__. revert l1. induction l2 as [|x l2 IH]; intros l1 H; simpl;
    [assumption|].
  apply IH. apply safe_add_item_keeps. assumption.
Qed.

Lemma safe_add_has (l1 l2 : list A) (y : A) :
  in_by key y l2 = true -> in_by key y (__safe_add__ key l1 l2) = true.
Proof.
  unfold __safe_add__. revert l1. induction l2 as [|x l2 IH]; intros l1 H; simpl in *;
    [discriminate|].
  apply orb_true_iff in H as [H|H].
  - apply (safe_add_keeps _ l2). unfold name_eqb in H. apply String.eqb_eq in H.
    rewrite <- (in_by_key key x y) by exact H. apply safe_add_item_has.
  - apply IH. assumption.
Qed.

Lemma safe_add_item_Forall (P : A -> Prop) (l : list A) (x : A) :
  Forall P l -> P x -> Forall P (safe_add_item key l x).
Proof.
  intros Hl Hx. unfold safe_add_item. destruct (in_by key x l); [assumption|].
  apply Forall_app. split; [assumption|]. constructor; [assumption | constructor].
Qed.

Lemma safe_add_Forall (P : A -> Prop) (l1 l2 : list A) :
  Forall P l1 -> Forall P l2 -> Forall P (__safe_add__ key l1 l2).
Proof.
  unfold __safe_add__. revert l1. induction l2 as [|x l2 IH]; intros l1 H1 H2; simpl;
    [assumption|].
  apply Forall_cons in H2 as [Hx H2].
  apply IH; [apply safe_add_item_Forall|]; assumption.
Qed.

End SafeAddMore.

(** A dependency set whose datatypes are neither atomic nor base
    instructions. *)
Lemma extend_no_atomic h d other :
  Forall (fun dt => is_dependency dt = true) (datatypes d) ->
  Forall (fun dt => is_dependency dt = true) (datatypes other) ->
  Forall (fun dt => is_dependency dt = true) (datatypes (extend h d other)).
Proof. intros H1 H2. simpl. apply safe_add_Forall; assumption. Qed.

Lemma DataType_closure_no_atomic h d include_root :
  Forall (fun dt => is_dependency dt = true)
    (datatypes (DataType_get_dependencies h d include_root)).
Proof.
  revert include_root. induction d as [b at_ bi ms IH] using DataType_members_ind.
  intros include_root. simpl.
  destruct (at_ || bi) eqn:E; [constructor|].
  match goal with
  | |- Forall _ (datatypes (_ ms ?d0)) =>
      assert (H0 : Forall (fun dt => is_dependency dt = true) (datatypes d0));
        [|revert H0; generalize d0]
  end.
  { destruct include_root; [|constructor]. simpl.
    apply (safe_add_item_Forall DataType.key); [constructor|].
    unfold is_dependency. simpl. apply orb_false_iff in E as [-> ->]. reflexivity. }
  induction ms as [|m ms IHms]; intros d0 H0; [assumption|].
  assert (IH' : forall m' d', In m' ms -> DataTypeMember.datatype m' = Some d' ->
                              forall ir, Forall (fun dt => is_dependency dt = true)
                                           (datatypes (DataType_get_dependencies h d' ir)))
    by (intros m' d' Hin; apply IH; right; exact Hin).
  destruct (DataTypeMember.datatype m) as [d'|] eqn:Em; [|apply IHms; assumption].
  destruct (is_dependency d') eqn:Ed; [|apply IHms; assumption].
  apply IHms; [assumption|].
  apply extend_no_atomic; [|apply (IH m d'); [left; reflexivity | exact Em]].
  destruct (negb (in_by DataType.key d' (datatypes d0))); [|assumption].
  simpl. apply Forall_app. split; [assumption|]. constructor; [exact Ed | constructor].
Qed.

Lemma fold_extend_no_atomic {A} h (f : A -> PyLogixDependencies.t) xs d :
  (forall x, Forall (fun dt => is_dependency dt = true) (datatypes (f x))) ->
  Forall (fun dt => is_dependency dt = true) (datatypes d) ->
  Forall (fun dt => is_dependency dt = true)
    (datatypes (fold_left (fun deps x => extend h deps (f x)) xs d)).
Proof.
  intros Hf. revert d. induction xs as [|x xs IH]; intros d H; simpl; [assumption|].
  apply IH. apply extend_no_atomic; [assumption | apply Hf].
Qed.

Lemma extend_with_tag_datatypes_no_atomic h refs d :
  Forall (fun dt => is_dependency dt = true) (datatypes d) ->
  Forall (fun dt => is_dependency dt = true)
    (datatypes (extend_with_tag_datatypes h refs d)).
Proof.
  unfold extend_with_tag_datatypes. revert d.
  induction refs as [|r refs IH]; intros d H; simpl; [assumption|].
  apply IH. destruct (Tag.datatype (deref h r)) as [d'|]; [|assumption].
  destruct (is_dependency d'); [|assumption].
  apply extend_no_atomic; [assumption | apply DataType_closure_no_atomic].
Qed.

Lemma Tag_closure_no_atomic h r include_root :
  Forall (fun dt => is_dependency dt = true)
    (datatypes (Tag_get_dependencies h r include_root)).
Proof.
  unfold Tag_get_dependencies.
  destruct (Tag.datatype (deref h r)) as [d|].
  - apply extend_no_atomic; [destruct include_root; constructor|].
    apply DataType_closure_no_atomic.
  - destruct include_root; constructor.
Qed.

Lemma Rung_closure_no_atomic h rung :
  Forall (fun dt => is_dependency dt = true) (datatypes (Rung_get_dependencies h rung)).
Proof.
  unfold Rung_get_dependencies.
  do 2 apply extend_with_tag_datatypes_no_atomic. constructor.
Qed.

Lemma Routine_closure_no_atomic h routine :
  Forall (fun dt => is_dependency dt = true)
    (datatypes (Routine_get_dependencies h routine)).
Proof.
  unfold Routine_get_dependencies.
  apply (fold_extend_no_atomic h (Rung_get_dependencies h)); [|constructor].
  apply Rung_closure_no_atomic.
Qed.

Lemma Program_closure_no_atomic h program include_root :
  Forall (fun dt => is_dependency dt = true)
    (datatypes (Program_get_dependencies h program include_root)).
Proof.
  unfold Program_get_dependencies.
  apply (fold_extend_no_atomic h (fun tag => Tag_get_dependencies h tag false));
    [intros x; apply Tag_closure_no_atomic|].
  apply (fold_extend_no_atomic h (Routine_get_dependencies h));
    [apply Routine_closure_no_atomic|].
  destruct include_root; constructor.
Qed.

Lemma extend_each_no_atomic {A} h (f : A -> result PyLogixDependencies.t) xs d d' :
  (forall x dx, f x = Ok dx -> Forall (fun dt => is_dependency dt = true) (datatypes dx)) ->
  Forall (fun dt => is_dependency dt = true) (datatypes d) ->
  extend_each h f xs d = Ok d' ->
  Forall (fun dt => is_dependency dt = true) (datatypes d').
Proof.
  intros Hf. revert d. induction xs as [|x xs IH]; intros d H E; simpl in E.
  - injection E as <-. assumption.
  - destruct (f x) as [dx|e] eqn:Ex; [|discriminate].
    eapply IH; [|exact E]. apply extend_no_atomic; [assumption|].
    apply (Hf x). exact Ex.
Qed.

(** X4: no dependency set computed by [get_dependencies] holds an atomic
    datatype or a base Logix instruction among its datatypes, whatever the
    entity it is computed for and whatever [include_root] is. *)
Theorem closure_holds_no_atomic_datatype
    (h : Heap) (x : Entity) (include_root : bool) (d : PyLogixDependencies.t) :
  get_dependencies h x include_root = Ok d ->
  Forall (fun dt => DataType.is_atomic dt = false
                    /\ DataType.is_base_logix_instruction dt = false)
    (datatypes d).
Proof.
  intros E.
  assert (H : Forall (fun dt => is_dependency dt = true) (datatypes d)).
  { destruct x as [dt|r|at_|ap|aoi|rg|rt|pg|tk]; simpl in E.
    - injection E as <-. apply DataType_closure_no_atomic.
    - injection E as <-. apply Tag_closure_no_atomic.
    - unfold AddOnInstructionTag_get_dependencies in E.
      destruct (AddOnInstructionTag.datatype at_); [|discriminate].
      injection E as <-. apply DataType_closure_no_atomic.
    - unfold AddOnInstructionParameter_get_dependencies in E.
      destruct (AddOnInstructionParameter.datatype ap); [|discriminate].
      injection E as <-. apply DataType_closure_no_atomic.
    - unfold AddOnInstructionDefinition_get_dependencies in E.
      match type of E with
      | match extend_each h ?f ?xs ?d0 with _ => _ end = _ =>
          destruct (extend_each h f xs d0) as [d1|e] eqn:E1; [|discriminate];
          assert (H1 : Forall (fun dt => is_dependency dt = true) (datatypes d1))
      end.
      { eapply extend_each_no_atomic; [| |exact E1].
        - intros t dx Et. unfold AddOnInstructionTag_get_dependencies in Et.
          destruct (AddOnInstructionTag.datatype t); [|discriminate].
          injection Et as <-. apply DataType_closure_no_atomic.
        - destruct include_root; constructor. }
      eapply extend_each_no_atomic; [|exact H1|exact E].
      intros p dx Ep. unfold AddOnInstructionParameter_get_dependencies in Ep.
      destruct (AddOnInstructionParameter.datatype p); [|discriminate].
      injection Ep as <-. apply DataType_closure_no_atomic.
    - injection E as <-. apply Rung_closure_no_atomic.
    - injection E as <-. apply Routine_closure_no_atomic.
    - injection E as <-. apply Program_closure_no_atomic.
    - injection E as <-. unfold Task_get_dependencies. destruct include_root; constructor. }
  eapply Forall_impl; [exact H|]. intros dt Hd. simpl in Hd.
  unfold is_dependency in Hd. apply andb_true_iff in Hd as [H1 H2].
  apply negb_true_iff in H1, H2. split; assumption.
Qed.

Lemma closure_holds_no_atomic_datatype_witness :
  exists d,
    get_dependencies Example.master_heap (EProgram Example.master_program) true = Ok d
    /\ map DataType.key (datatypes d) = ["Valve"; "ValveState"]
    /\ Forall (fun dt => DataType.is_atomic dt = false
                         /\ DataType.is_base_logix_instruction dt = false)
         (datatypes d).
Proof.
  eexists. split; [reflexivity|]. split; [reflexivity|].
  apply (closure_holds_no_atomic_datatype
           Example.master_heap (EProgram Example.master_program) true).
  reflexivity.
Defined.

Lemma extend_datatypes_keeps h d other x :
  in_by DataType.key x (datatypes d) = true ->
  in_by DataType.key x (datatypes (extend h d other)) = true.
Proof. intros H. simpl. apply safe_add_keeps. assumption. Qed.

Lemma extend_datatypes_has h d other x :
  in_by DataType.key x (datatypes other) = true ->
  in_by DataType.key x (datatypes (extend h d other)) = true.
Proof. intros H. simpl. apply safe_add_has. assumption. Qed.

(** The loop over the members of a datatype: what the set holds before
    stays, and every member datatype that counts is added with its own
    closure. *)
Lemma DataType_closure_members h b ms include_root :
  let self := DataType.Build b false false ms in
  (include_root = true ->
   in_by DataType.key self (datatypes (DataType_get_dependencies h self include_root)) = true)
  /\ forall m d', In m ms -> DataTypeMember.datatype m = Some d' -> is_dependency d' = true ->
       in_by DataType.key d' (datatypes (DataType_get_dependencies h self include_root)) = true
       /\ forall x, in_by DataType.key x (datatypes (DataType_get_dependencies h d' false)) = true ->
                    in_by DataType.key x
                      (datatypes (DataType_get_dependencies h self include_root)) = true.
Proof.
  intros self. subst self. cbn [DataType_get_dependencies DataType.is_atomic
    DataType.is_base_logix_instruction DataType.members orb].
  match goal with
  | |- context [?L ms ?d0] =>
      match type of L with
      | list DataTypeMember_t -> PyLogixDependencies.t -> PyLogixDependencies.t =>
          set (loop := L); set (start := d0)
      end
  end.
  assert (K : forall ms d0 x, in_by DataType.key x (datatypes d0) = true ->
                              in_by DataType.key x (datatypes (loop ms d0)) = true).
  { clear. induction ms as [|m ms IH]; intros d0 x H; [exact H|].
    cbn [loop]. fold loop.
    destruct (DataTypeMember.datatype m) as [d'|]; [|apply IH; exact H].
    destruct (is_dependency d'); [|apply IH; exact H].
    apply IH. apply extend_datatypes_keeps.
    destruct (negb (in_by DataType.key d' (datatypes d0))); [|exact H].
    simpl. rewrite in_by_app, H. reflexivity. }
  split.
  - intros ->. apply K. subst start. simpl. unfold name_eqb.
    rewrite String.eqb_refl. reflexivity.
  - generalize start. clear start.
    induction ms as [|m0 ms IH]; intros d0 m d' Hin Em Ed; [destruct Hin|].
    cbn [loop]. fold loop.
    destruct Hin as [->|Hin].
    + rewrite Em, Ed. split.
      * apply K. apply extend_datatypes_keeps.
        destruct (negb (in_by DataType.key d' (datatypes d0))) eqn:E.
        -- simpl. rewrite in_by_app. apply orb_true_iff. right. simpl.
           unfold name_eqb. rewrite String.eqb_refl. reflexivity.
        -- apply negb_false_iff in E. exact E.
      * intros x Hx. apply K. apply extend_datatypes_has. exact Hx.
    + destruct (DataTypeMember.datatype m0) as [d0'|]; [|apply (IH _ m d'); assumption].
      destruct (is_dependency d0'); apply (IH _ m d'); assumption.
Qed.

Lemma is_dependency_flags d :
  is_dependency d = true ->
  DataType.is_atomic d = false /\ DataType.is_base_logix_instruction d = false.
Proof.
  unfold is_dependency. intros H. apply andb_true_iff in H as [H1 H2].
  apply negb_true_iff in H1, H2. split; assumption.
Qed.

Lemma DataType_closure_below h d d' :
  member_datatype d d' ->
  forall include_root,
    is_dependency d = true ->
    in_by DataType.key d' (datatypes (DataType_get_dependencies h d include_root)) = true.
Proof.
  induction 1 as [d m d' Hin Em Ed | d m d' d'' Hin Em Ed Hb IH];
    intros include_root Hd;
    destruct d as [b a bi ms]; apply is_dependency_flags in Hd as [Ha Hbi];
    simpl in Ha, Hbi; subst a bi; simpl in Hin;
    destruct (DataType_closure_members h b ms include_root) as [_ H];
    destruct (H m d' Hin Em Ed) as [H1 H2].
  - exact H1.
  - apply H2. apply IH. exact Ed.
Qed.

(** X5: the closure of a datatype that is neither atomic nor a base
    instruction is complete.  It holds, by name, every datatype that hangs
    off it through members whose datatypes are neither atomic nor base
    instructions, at any depth, and the datatype itself when [include_root]
    is set. *)
Theorem datatype_closure_complete (h : Heap) (d : DataType.t) (include_root : bool) :
  is_dependency d = true ->
  (include_root = true ->
   in_by DataType.key d (datatypes (DataType_get_dependencies h d include_root)) = true)
  /\ forall d', member_datatype d d' ->
       in_by DataType.key d' (datatypes (DataType_get_dependencies h d include_root)) = true.
Proof.
  intros Hd. split.
  - destruct d as [b a bi ms]. apply is_dependency_flags in Hd as [Ha Hbi].
    simpl in Ha, Hbi. subst a bi.
    apply (DataType_closure_members h b ms include_root).
  - intros d' H. apply DataType_closure_below; assumption.
Qed.

Lemma datatype_closure_complete_witness :
  is_dependency Example.Valve = true
  /\ member_datatype Example.Valve Example.ValveState
  /\ in_by DataType.key Example.Valve
       (datatypes (DataType_get_dependencies [] Example.Valve true)) = true
  /\ in_by DataType.key Example.ValveState
       (datatypes (DataType_get_dependencies [] Example.Valve true)) = true.
Proof.
  split; [reflexivity|].
  assert (M : member_datatype Example.Valve Example.ValveState).
  { eapply member_datatype_here; [left; reflexivity | reflexivity | reflexivity]. }
  split; [exact M|].
  destruct (datatype_closure_complete [] Example.Valve true) as [H1 H2]; [reflexivity|].
  split; [apply H1; reflexivity | apply H2; exact M].
Defined.

Lemma DataType_closure_root h d :
  is_dependency d = true ->
  in_by DataType.key d (datatypes (DataType_get_dependencies h d true)) = true.
Proof.
  intros Hd. destruct d as [b a bi ms]. apply is_dependency_flags in Hd as [Ha Hbi].
  simpl in Ha, Hbi. subst a bi.
  apply (DataType_closure_members h b ms true). reflexivity.
Qed.

Lemma included_refl h d : included h d d.
Proof. unfold included. tauto. Qed.

Lemma included_trans h d1 d2 d3 : included h d1 d2 -> included h d2 d3 -> included h d1 d3.
Proof.
  unfold included. intros (A1 & A2 & A3 & A4 & A5 & A6 & A7) (B1 & B2 & B3 & B4 & B5 & B6 & B7).
  repeat split; auto.
Qed.

Lemma extend_included_l h d other : included h d (extend h d other).
Proof. unfold included. simpl. repeat split; intros x H; apply safe_add_keeps; exact H. Qed.

Lemma extend_included_r h d other : included h other (extend h d other).
Proof. unfold included. simpl. repeat split; intros x H; apply safe_add_has; exact H. Qed.

Lemma fold_extend_included {A} h (f : A -> PyLogixDependencies.t) xs d :
  included h d (fold_left (fun deps x => extend h deps (f x)) xs d)
  /\ forall x, In x xs -> included h (f x) (fold_left (fun deps x => extend h deps (f x)) xs d).
Proof.
  revert d. induction xs as [|y xs IH]; intros d; simpl.
  - split; [apply included_refl | intros x []].
  - destruct (IH (extend h d (f y))) as [I1 I2]. split.
    + eapply included_trans; [apply extend_included_l | exact I1].
    + intros x [<-|Hin]; [|apply I2; exact Hin].
      eapply included_trans; [apply extend_included_r | exact I1].
Qed.

Lemma fold_safe_add_item_keeps {A} (key : A -> string) (xs acc : list A) (y : A) :
  in_by key y acc = true -> in_by key y (fold_left (safe_add_item key) xs acc) = true.
Proof. apply (safe_add_keeps key acc xs y). Qed.

Lemma fold_safe_add_item_has {A} (key : A -> string) (xs acc : list A) (y : A) :
  In y xs -> in_by key y (fold_left (safe_add_item key) xs acc) = true.
Proof. intros H. apply (safe_add_has key acc xs y). apply in_by_self. exact H. Qed.

Lemma extend_with_tag_datatypes_included h refs d :
  included h d (extend_with_tag_datatypes h refs d)
  /\ forall r dt, In r refs -> Tag.datatype (deref h r) = Some dt -> is_dependency dt = true ->
       in_by DataType.key dt (datatypes (extend_with_tag_datatypes h refs d)) = true.
Proof.
  unfold extend_with_tag_datatypes. revert d.
  induction refs as [|r0 refs IH]; intros d; cbn [fold_left].
  - split; [apply included_refl | intros r dt []].
  - set (d1 := match Tag.datatype (deref h r0) with
               | Some d0 =>
                   if is_dependency d0
                   then extend h d (DataType_get_dependencies h d0 true)
                   else d
               | None => d
               end).
    destruct (IH d1) as [I1 I2].
    assert (I0 : included h d d1).
    { subst d1. destruct (Tag.datatype (deref h r0)) as [d0|]; [|apply included_refl].
      destruct (is_dependency d0); [apply extend_included_l | apply included_refl]. }
    split; [eapply included_trans; eassumption|].
    intros r dt Hin Et Ed. destruct Hin as [E0|Hin]; [|apply (I2 r dt Hin Et Ed)].
    subst r0. destruct I1 as (_ & I1 & _). apply I1.
    subst d1. rewrite Et, Ed. apply extend_datatypes_has.
    apply DataType_closure_root. exact Ed.
Qed.

Lemma Rung_closure_holds h rung :
  (forall r, In r (Rung.tags rung) ->
             in_by (tag_key h) r (tags (Rung_get_dependencies h rung)) = true)
  /\ (forall r, In r (Rung.program_tags rung) ->
                in_by (tag_key h) r (program_tags (Rung_get_dependencies h rung)) = true)
  /\ (forall a, In a (Rung.add_on_instructions rung) ->
                in_by AddOnInstructionDefinition.key a
                  (add_on_instructions (Rung_get_dependencies h rung)) = true)
  /\ (forall r dt, In r (Rung.tags rung ++ Rung.program_tags rung) ->
                   Tag.datatype (deref h r) = Some dt -> is_dependency dt = true ->
                   in_by DataType.key dt (datatypes (Rung_get_dependencies h rung)) = true).
Proof.
  unfold Rung_get_dependencies.
  set (dc := with_add_on_instructions _ _).
  destruct (extend_with_tag_datatypes_included h (Rung.tags rung) dc) as [I1 D1].
  set (dd := extend_with_tag_datatypes h (Rung.tags rung) dc) in *.
  destruct (extend_with_tag_datatypes_included h (Rung.program_tags rung) dd) as [I2 D2].
  pose proof (included_trans h _ _ _ I1 I2) as (IA & ID & _ & _ & IT & IP & _).
  split; [|split; [|split]].
  - intros r Hr. apply IT. subst dc. simpl. apply fold_safe_add_item_has. exact Hr.
  - intros r Hr. apply IP. subst dc. simpl. apply fold_safe_add_item_has. exact Hr.
  - intros a Ha. apply IA. subst dc. simpl. apply fold_safe_add_item_has. exact Ha.
  - intros r dt Hr Et Ed. apply in_app_or in Hr as [Hr|Hr].
    + destruct I2 as (_ & I2 & _). apply I2. apply (D1 r dt Hr Et Ed).
    + apply (D2 r dt Hr Et Ed).
Qed.

Lemma Program_closure_included h program include_root routine rung :
  In routine (Program.routines program) -> In rung (Routine.rungs routine) ->
  included h (Rung_get_dependencies h rung)
    (Program_get_dependencies h program include_root).
Proof.
  intros Hr Hg. unfold Program_get_dependencies.
  match goal with
  | |- included h _ (fold_left ?f (Program.tags program) (fold_left ?g ?rs ?d0)) =>
      destruct (fold_extend_included h (Routine_get_dependencies h) rs d0) as [_ I1];
      destruct (fold_extend_included h (fun tag => Tag_get_dependencies h tag false)
                  (Program.tags program) (fold_left g rs d0)) as [I2 _]
  end.
  destruct (fold_extend_included h (Rung_get_dependencies h) (Routine.rungs routine)
              PyLogixDependencies.__init__) as [_ I0].
  eapply included_trans; [apply (I0 rung Hg)|].
  eapply included_trans; [apply (I1 routine Hr) | exact I2].
Qed.

(** X6: the closure of a program is complete for what its rungs refer to.
    For every rung of every routine of the program it holds, by name, every
    tag of the rung among its tags, every program tag of the rung among its
    program tags, every add-on instruction of the rung, and the datatype of
    every such tag when it is neither atomic nor a base instruction. *)
Theorem program_closure_complete
    (h : Heap) (program : Program.t) (include_root : bool)
    (routine : Routine.t) (rung : Rung.t) :
  In routine (Program.routines program) ->
  In rung (Routine.rungs routine) ->
  let d := Program_get_dependencies h program include_root in
  (forall r, In r (Rung.tags rung) -> in_by (tag_key h) r (tags d) = true)
  /\ (forall r, In r (Rung.program_tags rung) -> in_by (tag_key h) r (program_tags d) = true)
  /\ (forall a, In a (Rung.add_on_instructions rung) ->
                in_by AddOnInstructionDefinition.key a (add_on_instructions d) = true)
  /\ (forall r dt, In r (Rung.tags rung ++ Rung.program_tags rung) ->
                   Tag.datatype (deref h r) = Some dt -> is_dependency dt = true ->
                   in_by DataType.key dt (datatypes d) = true).
Proof.
  intros Hr Hg d. subst d.
  pose proof (Program_closure_included h program include_root routine rung Hr Hg)
    as (IA & ID & _ & _ & IT & IP & _).
  destruct (Rung_closure_holds h rung) as (R1 & R2 & R3 & R4).
  split; [|split; [|split]].
  - intros r H. apply IT. apply R1. exact H.
  - intros r H. apply IP. apply R2. exact H.
  - intros a H. apply IA. apply R3. exact H.
  - intros r dt H Et Ed. apply ID. apply (R4 r dt H Et Ed).
Qed.

Lemma program_closure_complete_witness :
  let d := Program_get_dependencies Example.master_heap Example.master_program false in
  In Example.M01_PumpA_Start (Program.routines Example.master_program)
  /\ map (tag_key Example.master_heap) (tags d) = ["PumpA_Cmd"; "M01_PumpA_Run"; "PumpA_Valve"]
  /\ (forall r, In r [2] -> in_by (tag_key Example.master_heap) r (tags d) = true)
  /\ in_by DataType.key Example.Valve (datatypes d) = true.
Proof.
  intros d.
  assert (H1 : In Example.M01_PumpA_Start (Program.routines Example.master_program))
    by (right; left; reflexivity).
  split; [exact H1|]. split; [reflexivity|].
  destruct (program_closure_complete Example.master_heap Example.master_program false
              Example.M01_PumpA_Start
              (Example.rung "XIC(PumpA_Valve.State.Code)" [2] []) H1)
    as (T & _ & _ & D); [right; left; reflexivity|].
  split; [exact T|].
  apply (D 2 Example.Valve); [left; reflexivity | reflexivity | reflexivity].
Defined.

(** ** base/pylogix_dependencies.py: [sort] *)

Lemma ascii_compare_lt_trans (a b c : ascii) :
  Ascii.compare a b = Lt -> Ascii.compare b c = Lt -> Ascii.compare a c = Lt.
Proof.
  unfold Ascii.compare. rewrite !N.compare_lt_iff. apply N.lt_trans.
Qed.

Lemma string_compare_lt_trans (s1 s2 s3 : string) :
  String.compare s1 s2 = Lt -> String.compare s2 s3 = Lt -> String.compare s1 s3 = Lt.
Proof.
  revert s2 s3. induction s1 as [|c1 s1 IH]; intros [|c2 s2] [|c3 s3]; simpl;
    try discriminate; try reflexivity.
  destruct (Ascii.compare c1 c2) eqn:E12; try discriminate;
    destruct (Ascii.compare c2 c3) eqn:E23; try discriminate; intros H1 H2.
  - apply Ascii.compare_eq_iff in E12, E23. subst c2 c3.
    assert (E : Ascii.compare c1 c1 = Eq) by (unfold Ascii.compare; apply N.compare_refl).
    rewrite E. eapply IH; eassumption.
  - apply Ascii.compare_eq_iff in E12. subst c2. rewrite E23. reflexivity.
  - apply Ascii.compare_eq_iff in E23. subst c3. rewrite E12. reflexivity.
  - rewrite (ascii_compare_lt_trans _ _ _ E12 E23). reflexivity.
Qed.

Lemma string_compare_refl (s : string) : String.compare s s = Eq.
Proof.
  induction s as [|c s IH]; simpl; [reflexivity|].
  assert (E : Ascii.compare c c = Eq) by (unfold Ascii.compare; apply N.compare_refl).
  rewrite E. exact IH.
Qed.

Lemma string_ltb_leb (s1 s2 : string) : String.ltb s1 s2 = negb (String.leb s2 s1).
Proof.
  unfold String.ltb, String.leb. rewrite (String.compare_antisym s1 s2).
  destruct (String.compare s2 s1); reflexivity.
Qed.

Lemma string_leb_trans (s1 s2 s3 : string) :
  String.leb s1 s2 = true -> String.leb s2 s3 = true -> String.leb s1 s3 = true.
Proof.
  unfold String.leb.
  destruct (String.compare s1 s2) eqn:E12; try discriminate;
    destruct (String.compare s2 s3) eqn:E23; try discriminate; intros _ _.
  - apply String.compare_eq_iff in E12, E23. subst. rewrite string_compare_refl. reflexivity.
  - apply String.compare_eq_iff in E12. subst. rewrite E23. reflexivity.
  - apply String.compare_eq_iff in E23. subst. rewrite E12. reflexivity.
  - rewrite (string_compare_lt_trans _ _ _ E12 E23). reflexivity.
Qed.

Lemma string_ltb_leb_weak (s1 s2 : string) : String.ltb s1 s2 = true -> String.leb s1 s2 = true.
Proof. unfold String.ltb, String.leb. destruct (String.compare s1 s2); congruence. Qed.

Lemma string_ltb_irrefl_eqb (s k : string) (t : string) :
  String.eqb s k = true -> String.eqb t k = true -> String.ltb s t = false.
Proof.
  intros H1 H2. apply String.eqb_eq in H1, H2. subst.
  unfold String.ltb. rewrite string_compare_refl. reflexivity.
Qed.

Section Sorted.
Context {A : Type} (key : A -> string).

Abbreviation le_key := (fun x y : A => String.leb (key x) (key y) = true).

Lemma insert_sorted_Permutation (x : A) (l : list A) :
  Permutation (x :: l) (insert_sorted key x l).
Proof.
  induction l as [|y l IH]; simpl; [reflexivity|].
  destruct (String.ltb (key y) (key x)); [|reflexivity].
  rewrite perm_swap. apply perm_skip. exact IH.
Qed.

Lemma sorted_Permutation (l : list A) : Permutation l (sorted key l).
Proof.
  induction l as [|x l IH]; simpl; [reflexivity|].
  rewrite <- insert_sorted_Permutation. apply perm_skip. exact IH.
Qed.

Lemma insert_sorted_StronglySorted (x : A) (l : list A) :
  StronglySorted le_key l -> StronglySorted le_key (insert_sorted key x l).
Proof.
  induction l as [|y l IH]; simpl; intros H.
  - constructor; constructor.
  - apply StronglySorted_inv in H as [Hl Hy].
    destruct (String.ltb (key y) (key x)) eqn:E.
    + constructor; [apply IH; exact Hl|].
      apply (Permutation_Forall (insert_sorted_Permutation x l)).
      constructor; [apply string_ltb_leb_weak; exact E | exact Hy].
    + assert (Exy : String.leb (key x) (key y) = true).
      { rewrite string_ltb_leb in E. apply negb_false_iff in E. exact E. }
      constructor; [constructor; assumption|].
      constructor; [exact Exy|].
      eapply Forall_impl; [exact Hy|]. intros z Hz. simpl in Hz.
      eapply string_leb_trans; eassumption.
Qed.

Lemma sorted_StronglySorted (l : list A) : StronglySorted le_key (sorted key l).
Proof.
  induction l as [|x l IH]; simpl; [constructor|].
  apply insert_sorted_StronglySorted. exact IH.
Qed.

Lemma insert_sorted_filter (x : A) (l : list A) (k : string) :
  List.filter (fun y => String.eqb (key y) k) (insert_sorted key x l)
  = List.filter (fun y => String.eqb (key y) k) (x :: l).
Proof.
  induction l as [|y l IH]; [reflexivity|].
  cbn [insert_sorted]. destruct (String.ltb (key y) (key x)) eqn:E; [|reflexivity].
  cbn [List.filter] in *. rewrite IH.
  destruct (String.eqb (key x) k) eqn:Ex; destruct (String.eqb (key y) k) eqn:Ey;
    try reflexivity.
  rewrite (string_ltb_irrefl_eqb _ k _ Ey Ex) in E. discriminate.
Qed.

Lemma sorted_filter (l : list A) (k : string) :
  List.filter (fun y => String.eqb (key y) k) (sorted key l)
  = List.filter (fun y => String.eqb (key y) k) l.
Proof.
  induction l as [|x l IH]; [reflexivity|].
  cbn [sorted]. rewrite insert_sorted_filter. cbn [List.filter]. rewrite IH. reflexivity.
Qed.

Lemma sorted_stably_sorted (l : list A) : stably_sorted key l (sorted key l).
Proof.
  split; [apply sorted_Permutation|]. split; [apply sorted_StronglySorted|].
  intros k. apply sorted_filter.
Qed.

Lemma sorted_of_sorted (l : list A) : StronglySorted le_key l -> sorted key l = l.
Proof.
  induction l as [|x l IH]; intros H; [reflexivity|].
  apply StronglySorted_inv in H as [Hl Hx]. cbn [sorted]. rewrite (IH Hl).
  destruct l as [|y l]; [reflexivity|]. cbn [insert_sorted].
  apply Forall_cons in Hx as [Hxy _]. simpl in Hxy.
  rewrite string_ltb_leb, Hxy. reflexivity.
Qed.

Lemma sorted_idempotent (l : list A) : sorted key (sorted key l) = sorted key l.
Proof. apply sorted_of_sorted. apply sorted_StronglySorted. Qed.

Lemma sorted_NoDup {B} (f : A -> B) (l : list A) :
  NoDup (map f l) -> NoDup (map f (sorted key l)).
Proof.
  intros H. pose proof (Permutation_map f (sorted_Permutation l)) as P.
  rewrite <- P. exact H.
Qed.

End Sorted.

(** X7: [sort] orders every bucket but [program_tags] by lower-cased name
    and loses nothing.  Each sorted bucket holds the objects it held, in
    ascending order of their lower-cased names, objects of one lower-cased
    name in the order they had; [program_tags] is left as it was, and a set
    without two entries of one name in a bucket stays so. *)
Theorem dependencies_sort_stable (h : Heap) (d : PyLogixDependencies.t) :
  let d' := PyLogixDependencies_sort h d in
  stably_sorted (fun x => lower (AddOnInstructionDefinition.key x))
    (add_on_instructions d) (add_on_instructions d')
  /\ stably_sorted (fun x => lower (DataType.key x)) (datatypes d) (datatypes d')
  /\ stably_sorted (fun x => lower (Module_.key x)) (modules d) (modules d')
  /\ stably_sorted (fun x => lower (Program.key x)) (programs d) (programs d')
  /\ stably_sorted (fun x => lower (tag_key h x)) (tags d) (tags d')
  /\ stably_sorted (fun x => lower (Task.key x)) (tasks d) (tasks d')
  /\ program_tags d' = program_tags d
  /\ (dup_free h d -> dup_free h d').
Proof.
  intros d'. subst d'. simpl.
  repeat (split; [apply sorted_stably_sorted|]).
  split; [reflexivity|].
  unfold dup_free. simpl. intros (H1 & H2 & H3 & H4 & H5 & H6 & H7).
  repeat split; try apply sorted_NoDup; assumption.
Qed.

(** X8: sorting a dependency set twice is sorting it once, and a set whose
    buckets are in order already is left as it is. *)
Theorem dependencies_sort_idempotent (h : Heap) (d : PyLogixDependencies.t) :
  PyLogixDependencies_sort h (PyLogixDependencies_sort h d) = PyLogixDependencies_sort h d
  /\ (StronglySorted (fun x y => String.leb (lower (AddOnInstructionDefinition.key x))
                                   (lower (AddOnInstructionDefinition.key y)) = true)
        (add_on_instructions d) ->
      StronglySorted (fun x y => String.leb (lower (DataType.key x))
                                   (lower (DataType.key y)) = true) (datatypes d) ->
      StronglySorted (fun x y => String.leb (lower (Module_.key x))
                                   (lower (Module_.key y)) = true) (modules d) ->
      StronglySorted (fun x y => String.leb (lower (Program.key x))
                                   (lower (Program.key y)) = true) (programs d) ->
      StronglySorted (fun x y => String.leb (lower (tag_key h x))
                                   (lower (tag_key h y)) = true) (tags d) ->
      StronglySorted (fun x y => String.leb (lower (Task.key x))
                                   (lower (Task.key y)) = true) (tasks d) ->
      PyLogixDependencies_sort h d = d).
Proof.
  split.
  - unfold PyLogixDependencies_sort. simpl. rewrite !sorted_idempotent. reflexivity.
  - intros H1 H2 H3 H4 H5 H6. destruct d as [a dt m p t pt tk].
    unfold PyLogixDependencies_sort. simpl in *.
    rewrite (sorted_of_sorted _ a H1), (sorted_of_sorted _ dt H2),
      (sorted_of_sorted _ m H3), (sorted_of_sorted _ p H4),
      (sorted_of_sorted _ t H5), (sorted_of_sorted _ tk H6).
    reflexivity.
Qed.

(** ** Integers as text: [int(str(n))] *)

Lemma uint_string_digits (d : Decimal.uint) :
  Forall (fun c => PyStr.is_digit c = true)
    (list_ascii_of_string (NilEmpty.string_of_uint d)).
Proof. induction d; simpl; constructor; solve [reflexivity | assumption]. Qed.

Lemma int_to_str_chars (n : Z) :
  exists sign digits,
    int_to_str n = sign +:+ digits
    /\ (sign = "" \/ sign = "-")
    /\ digits <> ""
    /\ Forall (fun c => PyStr.is_digit c = true) (list_ascii_of_string digits).
Proof.
  unfold int_to_str.
  assert (U : forall d, d <> Decimal.Nil ->
                NilZero.string_of_uint d <> ""
                /\ Forall (fun c => PyStr.is_digit c = true)
                     (list_ascii_of_string (NilZero.string_of_uint d))).
  { intros d Hd. split.
    - destruct d; simpl; congruence.
    - replace (NilZero.string_of_uint d) with (NilEmpty.string_of_uint d)
        by (destruct d; [contradiction | reflexivity..]).
      apply uint_string_digits. }
  destruct n as [|p|p]; simpl.
  - exists "", "0". repeat split; [left; reflexivity | discriminate |].
    repeat constructor.
  - destruct (U (Pos.to_uint p) (Unsigned.to_uint_nonnil p)) as [U1 U2].
    exists "", (NilZero.string_of_uint (Pos.to_uint p)).
    repeat split; [left; reflexivity | exact U1 | exact U2].
  - destruct (U (Pos.to_uint p) (Unsigned.to_uint_nonnil p)) as [U1 U2].
    exists "-", (NilZero.string_of_uint (Pos.to_uint p)).
    repeat split; [right; reflexivity | exact U1 | exact U2].
Qed.

Lemma is_digit_not_space (c : ascii) : PyStr.is_digit c = true -> PyStr.is_space c = false.
Proof.
  unfold PyStr.is_digit, PyStr.is_space. intros H.
  apply andb_true_iff in H as [H1 H2]. apply Nat.leb_le in H1, H2.
  repeat match goal with
  | |- context [Nat.leb ?a ?b] => destruct (Nat.leb_spec a b)
  | |- context [Nat.eqb ?a ?b] => destruct (Nat.eqb_spec a b)
  end; simpl; try reflexivity; lia.
Qed.

Lemma lstrip_by_head (p : ascii -> bool) (c : ascii) (s : string) :
  p c = false -> PyStr.lstrip_by p (String c s) = String c s.
Proof. intros H. simpl. rewrite H. reflexivity. Qed.

Lemma rstrip_by_none (p : ascii -> bool) (s : string) :
  Forall (fun c => p c = false) (list_ascii_of_string s) -> PyStr.rstrip_by p s = s.
Proof.
  induction s as [|c s IH]; intros H; [reflexivity|].
  simpl in H. apply Forall_cons in H as [Hc Hs].
  rewrite rstrip_by_cons, (IH Hs). destruct s; [rewrite Hc|]; reflexivity.
Qed.

Lemma strip_none (s : string) :
  Forall (fun c => PyStr.is_space c = false) (list_ascii_of_string s) -> PyStr.strip s = s.
Proof.
  intros H. unfold PyStr.strip, PyStr.lstrip, PyStr.rstrip.
  rewrite (rstrip_by_none _ s H). destruct s as [|c s]; [reflexivity|].
  simpl in H. apply Forall_cons in H as [Hc _]. apply lstrip_by_head. exact Hc.
Qed.

Lemma remove_chars_none (cs : list ascii) (s : string) :
  Forall (fun c => PyStr.mem_char c cs = false) (list_ascii_of_string s) ->
  PyStr.remove_chars cs s = s.
Proof.
  induction s as [|c s IH]; intros H; [reflexivity|].
  simpl in H. apply Forall_cons in H as [Hc Hs].
  simpl. rewrite Hc, (IH Hs). reflexivity.
Qed.

Lemma digits_ok_digits (s : string) :
  Forall (fun c => PyStr.is_digit c = true) (list_ascii_of_string s) ->
  PyStr.digits_ok true s = true /\ (s <> "" -> PyStr.digits_ok false s = true).
Proof.
  induction s as [|c s IH]; intros H; [split; [reflexivity | congruence]|].
  simpl in H. apply Forall_cons in H as [Hc Hs]. destruct (IH Hs) as [I1 _].
  simpl. rewrite Hc. split; [exact I1 | intros _; exact I1].
Qed.

Lemma digit_facts (c : ascii) :
  PyStr.is_digit c = true ->
  Ascii.eqb c "+" = false /\ Ascii.eqb c "-" = false /\ Ascii.eqb c "_" = false.
Proof.
  intros H.
  repeat split; destruct (Ascii.eqb_spec c "+"), (Ascii.eqb_spec c "-"),
    (Ascii.eqb_spec c "_"); subst; try reflexivity; discriminate.
Qed.

Lemma is_space_int_space (c : ascii) :
  PyStr.is_space c = false -> PyStr.is_int_space c = false.
Proof.
  unfold PyStr.is_space, PyStr.is_int_space. intros H.
  repeat match goal with
  | H : context [Nat.leb ?a ?b] |- _ => destruct (Nat.leb_spec a b)
  | H : context [Nat.eqb ?a ?b] |- _ => destruct (Nat.eqb_spec a b)
  end; simpl in *; try reflexivity; try discriminate;
  repeat match goal with
  | |- context [Nat.leb ?a ?b] => destruct (Nat.leb_spec a b)
  | |- context [Nat.eqb ?a ?b] => destruct (Nat.eqb_spec a b)
  end; simpl; try reflexivity; lia.
Qed.

Lemma int_strip_none (s : string) :
  Forall (fun c => PyStr.is_space c = false) (list_ascii_of_string s) ->
  PyStr.int_strip s = s.
Proof.
  intros H. unfold PyStr.int_strip.
  assert (H' : Forall (fun c => PyStr.is_int_space c = false) (list_ascii_of_string s)).
  { eapply Forall_impl; [exact H|]. intros c. apply is_space_int_space. }
  rewrite (rstrip_by_none _ s H'). destruct s as [|c s]; [reflexivity|].
  simpl in H'. apply Forall_cons in H' as [Hc _]. apply lstrip_by_head. exact Hc.
Qed.

(** Reading back the text of an integer of at most 4300 digits gives the
    integer. *)
Lemma int_of_str_int_to_str (n : Z) :
  PyStr.count_digits (int_to_str n) <= 4300 ->
  int_of_str (int_to_str n) = Returns n.
Proof.
  intros Hlen.
  destruct (int_to_str_chars n) as (sign & digits & E & Hs & Hne & Hd).
  assert (Hsp : Forall (fun c => PyStr.is_space c = false)
                  (list_ascii_of_string (int_to_str n))).
  { rewrite E. destruct Hs as [-> | ->]; simpl.
    - eapply Forall_impl; [exact Hd|]. intros c. apply is_digit_not_space.
    - constructor; [reflexivity|].
      eapply Forall_impl; [exact Hd|]. intros c. apply is_digit_not_space. }
  assert (Hrm : PyStr.remove_chars ["_"%char; "+"%char] (int_to_str n) = int_to_str n).
  { apply remove_chars_none. rewrite E. destruct Hs as [-> | ->]; simpl.
    - eapply Forall_impl; [exact Hd|]. intros c Hc. simpl.
      destruct (digit_facts c Hc) as (-> & _ & ->). reflexivity.
    - constructor; [reflexivity|].
      eapply Forall_impl; [exact Hd|]. intros c Hc. simpl.
      destruct (digit_facts c Hc) as (-> & _ & ->). reflexivity. }
  assert (Hp : PyStr.int_parses (int_to_str n) = true).
  { unfold PyStr.int_parses. rewrite (int_strip_none _ Hsp).
    apply Nat.leb_le in Hlen. revert Hlen. rewrite E.
    destruct (digits_ok_digits digits Hd) as [_ D]. specialize (D Hne).
    destruct Hs as [-> | ->];
      [change ("" +:+ digits) with digits | change ("-" +:+ digits) with (String "-" digits)].
    - destruct digits as [|c digits]; [contradiction|]. intros ->.
      simpl in Hd. apply Forall_cons in Hd as [Hc _].
      destruct (digit_facts c Hc) as (-> & -> & _). cbn [orb]. rewrite D. reflexivity.
    - intros Hlen. change (Ascii.eqb "-" "+" || Ascii.eqb "-" "-") with true.
      cbv iota. rewrite D. exact Hlen. }
  unfold int_of_str. rewrite Hp, (int_strip_none _ Hsp), Hrm.
  unfold int_to_str. rewrite NilZero.isi.
  - rewrite DecimalZ.of_to. reflexivity.
  - destruct n; simpl; try discriminate.
    intros H. injection H as H. apply (Unsigned.to_uint_nonnil _ H).
  - destruct n; simpl; try discriminate.
    intros H. injection H as H. apply (Unsigned.to_uint_nonnil _ H).
Qed.


(** ** datatype/datatype.py: a member written and read back *)

Lemma append_empty_r (s : string) : s +:+ "" = s.
Proof.
  induction s as [|c s IH]; [reflexivity|].
  change (String c s +:+ "") with (String c (s +:+ "")). f_equal. exact IH.
Qed.

Lemma LogixRadix_from_string_value (r : LogixRadix) :
  LogixRadix_from_string (Some (LogixRadix_value r)) = Some r.
Proof. destruct r; reflexivity. Qed.

Lemma init_meta_emitted {D} (m : DataTypeMember.t D) :
  match DataTypeMember.emitted_datatype m with
  | Some s => if String.eqb s "BIT" then Some "BOOL" else Some s
  | None => None
  end
  = match DataTypeMember.datatype_meta_name m with
    | Some s => if String.eqb s "BIT" then Some "BOOL" else Some s
    | None => None
    end.
Proof.
  unfold DataTypeMember.emitted_datatype.
  destruct (DataTypeMember.datatype_meta_name m) as [s|]; [|reflexivity].
  destruct (String.eqb_spec s "BOOL") as [->|Hne]; simpl.
  - destruct (DataTypeMember.dimensions m =? 0)%Z; reflexivity.
  - reflexivity.
Qed.

(** The node written for a member reads back as [member_read_back] of the
    member. *)
Lemma member_node_read_back {D D'} (m : DataTypeMember.t D) :
  PyStr.count_digits (int_to_str (DataTypeMember.dimensions m)) <= 4300 ->
  DataTypeMember_from_l5x_xml_node (D := D') (Some (DataTypeMember.to_l5x_xml_node m))
  = Returns (Some (member_read_back m)).
Proof.
  intros Hlen. pose proof (int_of_str_int_to_str _ Hlen) as Hint.
  pose proof (init_meta_emitted m) as Hmeta.
  unfold member_read_back, description_read_back, DataTypeMember_from_l5x_xml_node,
    DataTypeMember.to_l5x_xml_node, DataTypeMember.__init__.
  set (e := DataTypeMember.emitted_datatype m) in *. clearbody e.
  destruct m as [[nm desc dp gp] dt meta dims radix hidden ea target bn].
  cbn [DataTypeMember.super DataTypeMember.datatype DataTypeMember.datatype_meta_name
       DataTypeMember.dimensions DataTypeMember.radix DataTypeMember.hidden
       DataTypeMember.external_access DataTypeMember.target DataTypeMember.bit_number
       name _name description] in *.
  rewrite <- Hmeta. clear Hmeta.
  destruct radix as [radix|]; [pose proof (LogixRadix_from_string_value radix) as Hr|];
    (destruct desc as [d|]; [destruct (String.eqb d "") eqn:Ed|]);
    (destruct target as [t|]; [cbn [DataTypeMember.truthy]; destruct (String.eqb t "") eqn:Et|]);
    (destruct bn as [[n|b]|]; cbn [DataTypeMember.bit_number_truthy];
       [destruct (Z.eqb n 0) eqn:En | destruct (String.eqb b "") eqn:Eb |]);
    cbn -[int_to_str int_of_str PyStr.strip LogixRadix_from_string bool_decide];
    rewrite ?Hint; cbn -[int_to_str int_of_str PyStr.strip LogixRadix_from_string bool_decide];
    rewrite ?Hr, ?append_empty_r; destruct hidden; reflexivity.
Qed.

(** X9.  A member written by [DataTypeMember.to_l5x_xml_node] and read by
    [DataTypeMember.from_l5x_xml_node] comes back as the member [__init__]
    builds from the same name, declared datatype name, dimensions, radix and
    hidden flag, with these differences: the description comes back without
    the blanks around it, and as [None] when it was empty; a target that was
    [None] comes back as the empty string; the bit number comes back as a
    string, the empty one when it was [None], [0] or empty; the bound
    datatype is gone and the external access is [Read/Write] again. *)
Theorem member_encode_decode {D D'} (m : DataTypeMember.t D) :
  PyStr.count_digits (int_to_str (DataTypeMember.dimensions m)) <= 4300 ->
  DataTypeMember_from_l5x_xml_node (D := D') (Some (DataTypeMember.to_l5x_xml_node m))
  = Returns
      (Some
         (DataTypeMember.__init__
            (name (DataTypeMember.super m))
            (description_read_back (description (DataTypeMember.super m)))
            (DataTypeMember.datatype_meta_name m)
            (DataTypeMember.dimensions m)
            (DataTypeMember.radix m)
            (DataTypeMember.hidden m)
            (Some (if DataTypeMember.truthy (DataTypeMember.target m)
                   then default "" (DataTypeMember.target m) else ""))
            (Some (DataTypeMember.BitStr
                     (if DataTypeMember.bit_number_truthy (DataTypeMember.bit_number m)
                      then default ""
                             (DataTypeMember.bit_number_str <$> DataTypeMember.bit_number m)
                      else ""))))).
Proof.
  intros Hlen. rewrite (member_node_read_back (D' := D') m Hlen).
  unfold member_read_back. reflexivity.
Qed.

Lemma member_encode_decode_witness :
  DataTypeMember_from_l5x_xml_node (D := unit)
    (Some (DataTypeMember.to_l5x_xml_node (DataType := unit)
             (DataTypeMember.__init__ "Count" (Some " parts made ") (Some "DINT") 0
                (Some Decimal) false None (Some (DataTypeMember.BitInt 3)))))
  = Returns
      (Some
         (DataTypeMember.__init__ "Count" (Some "parts made") (Some "DINT") 0
            (Some Decimal) false (Some "") (Some (DataTypeMember.BitStr "3")))).
Proof.
  apply (member_encode_decode (D := unit) (D' := unit)
           (DataTypeMember.__init__ "Count" (Some " parts made ") (Some "DINT") 0
              (Some Decimal) false None (Some (DataTypeMember.BitInt 3)))).
  vm_compute. lia.
Defined.

(** ** base/pylogix_object.py: the properties of a bracketed description *)

Lemma append_cons (c : ascii) (s t : string) : String c s +:+ t = String c (s +:+ t).
Proof. reflexivity. Qed.

Lemma length_append (s t : string) :
  String.length (s +:+ t) = String.length s + String.length t.
Proof.
  induction s as [|c s IH]; [reflexivity|].
  rewrite append_cons. simpl. rewrite IH. reflexivity.
Qed.

Lemma prefix_char (c x : ascii) (s : string) :
  String.prefix (String c "") (String x s) = Ascii.eqb x c.
Proof.
  simpl. destruct (Ascii.eqb_spec x c) as [->|Hne].
  - destruct (ascii_dec c c); [destruct s; reflexivity | contradiction].
  - destruct (ascii_dec c x); [congruence | reflexivity].
Qed.

Lemma contains_char_false (c : ascii) (s : string) :
  PyStr.contains (String c "") s = false ->
  Forall (fun x => Ascii.eqb x c = false) (list_ascii_of_string s).
Proof.
  induction s as [|x s IH]; intros H; [constructor|].
  cbn [PyStr.contains] in H. rewrite prefix_char in H.
  apply orb_false_iff in H as [H1 H2]. simpl. constructor; [exact H1 | exact (IH H2)].
Qed.

Lemma find_from_char (c : ascii) (p rest : string) (k : nat) :
  Forall (fun x => Ascii.eqb x c = false) (list_ascii_of_string p) ->
  PyStr.find_from (String c "") (p +:+ String c rest) k = Some (k + String.length p).
Proof.
  revert k. induction p as [|x p IH]; intros k H.
  - change ("" +:+ String c rest) with (String c rest).
    cbn [PyStr.find_from]. rewrite prefix_char, Ascii.eqb_refl. simpl. f_equal. lia.
  - simpl in H. apply Forall_cons in H as [Hx Hp].
    rewrite append_cons. cbn [PyStr.find_from]. rewrite prefix_char, Hx.
    rewrite (IH (S k) Hp). simpl. f_equal. lia.
Qed.

Lemma take_str_append (p rest : string) :
  PyStr.take_str (String.length p) (p +:+ rest) = p.
Proof.
  induction p as [|x p IH]; [reflexivity|].
  rewrite append_cons. simpl. rewrite IH. reflexivity.
Qed.

Lemma drop_str_append_cons (p : string) (c : ascii) (rest : string) :
  PyStr.drop_str (S (String.length p)) (p +:+ String c rest) = rest.
Proof.
  induction p as [|x p IH]; [destruct rest; reflexivity|].
  rewrite append_cons. exact IH.
Qed.

Lemma lstrip_by_none (f : ascii -> bool) (s : string) :
  Forall (fun c => f c = false) (list_ascii_of_string s) -> PyStr.lstrip_by f s = s.
Proof.
  destruct s as [|c s]; [reflexivity|]. simpl. intros H.
  apply Forall_cons in H as [Hc _]. rewrite Hc. reflexivity.
Qed.

Lemma lstrip_by_all (f : ascii -> bool) (gap rest : string) :
  Forall (fun c => f c = true) (list_ascii_of_string gap) ->
  PyStr.lstrip_by f (gap +:+ rest) = PyStr.lstrip_by f rest.
Proof.
  induction gap as [|c gap IH]; intros H; [reflexivity|].
  simpl in H. apply Forall_cons in H as [Hc Hg].
  rewrite append_cons. simpl. rewrite Hc. exact (IH Hg).
Qed.

(** One call of the recursion on a string that opens with a bracketed
    property. *)
Lemma property_list_step (fuel : nat) (p rest : string) (props : list string) :
  PyStr.contains "<" p = false -> PyStr.contains ">" p = false ->
  property_list_from_string_rec (S fuel) ("<" +:+ p +:+ ">" +:+ rest) props "<" ">"
  = property_list_from_string_rec fuel (PyStr.lstrip rest) (props ++ [p]) "<" ">".
Proof.
  intros Hlt Hgt.
  apply contains_char_false in Hlt, Hgt.
  set (s := "<" +:+ p +:+ ">" +:+ rest).
  assert (Es : s = String "<" (p +:+ String ">" rest)) by reflexivity.
  assert (Ls : PyStr.len s = (2 + Z.of_nat (String.length p) + Z.of_nat (String.length rest))%Z).
  { unfold PyStr.len. rewrite Es. simpl. rewrite length_append. simpl. lia. }
  assert (Fb : PyStr.find s "<" 0 = 0%Z).
  { unfold PyStr.find. rewrite Ls.
    destruct (Z.ltb_spec (2 + Z.of_nat (String.length p) + Z.of_nat (String.length rest)) 0);
      [lia|].
    replace (PyStr.norm_index _ 0) with 0 by (unfold PyStr.norm_index; simpl; lia).
    rewrite Es. cbn [PyStr.drop_str PyStr.find_from]. rewrite prefix_char. reflexivity. }
  assert (Fe : PyStr.find s ">" 1 = (1 + Z.of_nat (String.length p))%Z).
  { unfold PyStr.find. rewrite Ls.
    destruct (Z.ltb_spec (2 + Z.of_nat (String.length p) + Z.of_nat (String.length rest)) 1);
      [lia|].
    replace (PyStr.norm_index _ 1) with 1
      by (unfold PyStr.norm_index; simpl; lia).
    rewrite Es. cbn [PyStr.drop_str]. rewrite (find_from_char _ _ _ _ Hgt). lia. }
  cbn [property_list_from_string_rec].
  replace (String.eqb s "") with false by (rewrite Es; reflexivity).
  rewrite Fb. change (PyStr.len "<") with 1%Z. change (PyStr.len ">") with 1%Z.
  change (0 + 1)%Z with 1%Z. rewrite Fe.
  change (0 =? -1)%Z with false. cbv iota.
  replace (1 + Z.of_nat (String.length p) =? -1)%Z with false by (symmetry; apply Z.eqb_neq; lia).
  replace (1 + (1 + Z.of_nat (String.length p) - 1))%Z with (1 + Z.of_nat (String.length p))%Z
    by lia.
  assert (Sl : PyStr.slice s 1 (1 + Z.of_nat (String.length p)) = p).
  { unfold PyStr.slice. rewrite Ls.
    replace (PyStr.norm_index _ 1) with 1 by (unfold PyStr.norm_index; simpl; lia).
    replace (PyStr.norm_index _ (1 + Z.of_nat (String.length p))) with (S (String.length p)).
    2:{ unfold PyStr.norm_index.
        destruct (Z.ltb_spec (1 + Z.of_nat (String.length p)) 0); lia. }
    rewrite Es. cbn [PyStr.drop_str]. replace (S (String.length p) - 1) with (String.length p) by lia.
    apply take_str_append. }
  assert (Sf : PyStr.slice_from s (1 + (1 + Z.of_nat (String.length p))) = rest).
  { unfold PyStr.slice_from. rewrite Ls.
    replace (PyStr.norm_index _ _) with (S (S (String.length p))).
    2:{ unfold PyStr.norm_index.
        destruct (Z.ltb_spec (1 + (1 + Z.of_nat (String.length p))) 0); lia. }
    rewrite Es. change (PyStr.drop_str (S (S (String.length p))) (String "<" (p +:+ String ">" rest)))
      with (PyStr.drop_str (S (String.length p)) (p +:+ String ">" rest)).
    apply drop_str_append_cons. }
  rewrite Sl, Sf.
  unfold PyStr.lstrip_chars, PyStr.rstrip_chars.
  rewrite lstrip_by_none, rstrip_by_none; [reflexivity | |].
  - eapply Forall_impl; [exact Hgt|]. intros c Hc. simpl. rewrite Hc. reflexivity.
  - eapply Forall_impl; [exact Hlt|]. intros c Hc. simpl. rewrite Hc. reflexivity.
Qed.

Lemma bracketed_lstrip (gap : string) (ps : list string) :
  PyStr.lstrip (bracketed gap ps) = bracketed gap ps.
Proof. destruct ps; reflexivity. Qed.

Lemma property_list_bracketed (gap : string) (ps props : list string) (fuel : nat) :
  Forall (fun c => PyStr.is_space c = true) (list_ascii_of_string gap) ->
  Forall (fun p => PyStr.contains "<" p = false /\ PyStr.contains ">" p = false) ps ->
  String.length (bracketed gap ps) < fuel ->
  property_list_from_string_rec fuel (bracketed gap ps) props "<" ">" = props ++ ps.
Proof.
  intros Hgap Hps. revert props fuel.
  induction Hps as [|p ps [H1 H2] Hps IH]; intros props fuel Hfuel.
  - destruct fuel; [lia|]. simpl. rewrite app_nil_r. reflexivity.
  - destruct fuel as [|fuel]; [lia|].
    change (bracketed gap (p :: ps)) with ("<" +:+ p +:+ ">" +:+ gap +:+ bracketed gap ps) in *.
    rewrite (property_list_step fuel p _ props H1 H2).
    unfold PyStr.lstrip at 1. rewrite (lstrip_by_all _ _ _ Hgap).
    fold (PyStr.lstrip (bracketed gap ps)). rewrite bracketed_lstrip.
    rewrite IH.
    + rewrite <- app_assoc. reflexivity.
    + revert Hfuel. change ("<" +:+ p +:+ ">" +:+ gap +:+ bracketed gap ps)
        with (String "<" (p +:+ ">" +:+ gap +:+ bracketed gap ps)).
      simpl. rewrite !length_append. lia.
Qed.

(** X10.  A description that lists properties in angle brackets, each
    followed by the same run of blanks (possibly none), none of them holding
    an angle bracket, is read back by [property_list_from_string] as the list
    of these properties, in order; [rebind] then stores the
    [get_properties] of that list. *)
Theorem bracketed_description_read (gap : string) (ps : list string) (self : PyLogixObject) :
  Forall (fun c => PyStr.is_space c = true) (list_ascii_of_string gap) ->
  Forall (fun p => PyStr.contains "<" p = false /\ PyStr.contains ">" p = false) ps ->
  property_list_from_string (Some (bracketed gap ps)) = ps
  /\ (description self = Some (bracketed gap ps) ->
      description_properties (PyLogixObject_rebind self) = get_properties ps).
Proof.
  intros Hgap Hps.
  assert (E : property_list_from_string (Some (bracketed gap ps)) = ps).
  { unfold property_list_from_string.
    rewrite (property_list_bracketed gap ps [] _ Hgap Hps); [reflexivity | lia]. }
  split; [exact E|].
  intros Hd. unfold PyLogixObject_rebind. rewrite Hd, E. reflexivity.
Qed.

Lemma bracketed_description_read_witness :
  property_list_from_string (Some "<@AOI> <@TYPE Valve> <@NOEDITS> ")
  = ["@AOI"; "@TYPE Valve"; "@NOEDITS"]
  /\ (description (PyLogixObject_init "V" (Some "<@AOI> <@TYPE Valve> <@NOEDITS> "))
      = Some "<@AOI> <@TYPE Valve> <@NOEDITS> " ->
      description_properties
        (PyLogixObject_rebind (PyLogixObject_init "V" (Some "<@AOI> <@TYPE Valve> <@NOEDITS> ")))
      = {| identifier := Some "@AOI"; type := Some "Valve"; version := None;
           dp_description := None; editable := Some false |}).
Proof.
  apply (bracketed_description_read " " ["@AOI"; "@TYPE Valve"; "@NOEDITS"]
           (PyLogixObject_init "V" (Some "<@AOI> <@TYPE Valve> <@NOEDITS> "))).
  - repeat constructor.
  - repeat constructor.
Defined.

(** ** rung/rung.py: the miners on the neutral text of instructions *)

Lemma list_ascii_append (s t : string) :
  list_ascii_of_string (s +:+ t) = list_ascii_of_string s ++ list_ascii_of_string t.
Proof.
  induction s as [|c s IH]; [reflexivity|].
  rewrite append_cons. simpl. rewrite IH. reflexivity.
Qed.

Lemma append_assoc_r (s t u : string) : (s +:+ t) +:+ u = s +:+ t +:+ u.
Proof.
  induction s as [|c s IH]; [reflexivity|].
  rewrite !append_cons, IH. reflexivity.
Qed.

Lemma append_char (c : ascii) (s : string) : String c "" +:+ s = String c s.
Proof. reflexivity. Qed.

Lemma split_append_sep (c : ascii) (s rest : string) :
  Forall (fun x => Ascii.eqb x c = false) (list_ascii_of_string s) ->
  PyStr.split c (s +:+ String c rest) = s :: PyStr.split c rest.
Proof.
  induction s as [|x s IH]; intros H.
  - change ("" +:+ String c rest) with (String c rest). simpl.
    rewrite Ascii.eqb_refl. reflexivity.
  - simpl in H. apply Forall_cons in H as [Hx Hs].
    rewrite append_cons. cbn [PyStr.split]. rewrite Hx, (IH Hs). reflexivity.
Qed.

Lemma split_none (c : ascii) (s : string) :
  Forall (fun x => Ascii.eqb x c = false) (list_ascii_of_string s) ->
  PyStr.split c s = [s].
Proof.
  induction s as [|x s IH]; intros H; [reflexivity|].
  simpl in H. apply Forall_cons in H as [Hx Hs].
  cbn [PyStr.split]. rewrite Hx, (IH Hs). reflexivity.
Qed.

Lemma split_head_lacks (c : ascii) (s : string) :
  Forall (fun x => Ascii.eqb x c = false)
    (list_ascii_of_string (head_or_empty (PyStr.split c s))).
Proof.
  induction s as [|x s IH]; [constructor|].
  cbn [PyStr.split]. destruct (Ascii.eqb x c) eqn:E; [constructor|].
  destruct (PyStr.split c s) as [|w ws]; simpl in *.
  - repeat constructor. exact E.
  - constructor; [exact E | exact IH].
Qed.

Lemma in_list_of_set (x : string) (l : list string) : In x (list_of_set l) <-> In x l.
Proof.
  induction l as [|a l IH]; [reflexivity|].
  cbn [list_of_set]. simpl. rewrite List.filter_In, IH.
  destruct (String.eqb_spec a x) as [->|Hne]; simpl; [tauto|].
  split; [intros [H|[H _]]; auto | intros [H|H]; auto].
Qed.

Lemma NoDup_list_of_set (l : list string) : NoDup (list_of_set l).
Proof.
  induction l as [|a l IH]; [constructor|].
  cbn [list_of_set]. apply NoDup_cons. split.
  - intros H. apply list_elem_of_In, List.filter_In in H as [_ H].
    rewrite String.eqb_refl in H. discriminate.
  - apply NoDup_ListNoDup, List.NoDup_filter, NoDup_ListNoDup. exact IH.
Qed.

Lemma contains_char_true (c : ascii) (p rest : string) :
  PyStr.contains (String c "") (p +:+ String c rest) = true.
Proof.
  induction p as [|x p IH].
  - change ("" +:+ String c rest) with (String c rest).
    cbn [PyStr.contains]. rewrite prefix_char, Ascii.eqb_refl. reflexivity.
  - rewrite append_cons. cbn [PyStr.contains]. rewrite IH. apply orb_true_r.
Qed.

Lemma find_char (c : ascii) (p rest : string) :
  Forall (fun x => Ascii.eqb x c = false) (list_ascii_of_string p) ->
  PyStr.find (p +:+ String c rest) (String c "") 0 = Z.of_nat (String.length p).
Proof.
  intros H. unfold PyStr.find.
  replace (PyStr.len _ <? 0)%Z with false by (symmetry; apply Z.ltb_ge; unfold PyStr.len; lia).
  replace (PyStr.norm_index _ 0) with 0 by (unfold PyStr.norm_index, PyStr.len; simpl; lia).
  cbn [PyStr.drop_str]. rewrite (find_from_char _ _ _ _ H). reflexivity.
Qed.

Lemma slice_to_append (p rest : string) :
  PyStr.slice_to (p +:+ rest) (Z.of_nat (String.length p)) = p.
Proof.
  unfold PyStr.slice_to.
  replace (PyStr.norm_index _ _) with (String.length p).
  - apply take_str_append.
  - unfold PyStr.norm_index, PyStr.len. rewrite length_append.
    destruct (Z.ltb_spec (Z.of_nat (String.length p)) 0); lia.
Qed.

Lemma slice_from_append_cons (p : string) (c : ascii) (rest : string) :
  PyStr.slice_from (p +:+ String c rest) (Z.of_nat (String.length p) + 1) = rest.
Proof.
  unfold PyStr.slice_from.
  replace (PyStr.norm_index _ _) with (S (String.length p)).
  - apply drop_str_append_cons.
  - unfold PyStr.norm_index, PyStr.len. rewrite length_append. simpl.
    destruct (Z.ltb_spec (Z.of_nat (String.length p) + 1) 0); lia.
Qed.

(** The operands of an instruction, none of which holds a comma, are the
    fields of its [src_text]. *)
Lemma src_text_split (i : Instruction.t) :
  Forall (fun op => PyStr.contains "," op = false) (operands i) ->
  PyStr.split "," (Instruction.src_text i) = operands i.
Proof.
  unfold operands, Instruction.src_text.
  destruct i as [m a b d]. cbn [Instruction.src_a Instruction.src_b Instruction.dest].
  intros H. apply Forall_cons in H as [Ha H]. apply contains_char_false in Ha.
  destruct b as [b|]; [destruct (negb (String.eqb b ""))|];
    (destruct d as [d|]; [destruct (negb (String.eqb d ""))|]);
    cbn [app] in *;
    repeat match goal with
    | H : Forall _ (_ :: _) |- _ =>
        let H1 := fresh in apply Forall_cons in H as [H1 H]; apply contains_char_false in H1
    end;
    rewrite ?append_assoc_r, ?append_char;
    repeat (rewrite split_append_sep by assumption);
    rewrite ?split_none by assumption; reflexivity.
Qed.

Lemma src_text_lacks (c : ascii) (i : Instruction.t) :
  Ascii.eqb "," c = false ->
  Forall (fun op => PyStr.contains (String c "") op = false) (operands i) ->
  Forall (fun x => Ascii.eqb x c = false) (list_ascii_of_string (Instruction.src_text i)).
Proof.
  unfold operands, Instruction.src_text.
  destruct i as [m a b d]. cbn [Instruction.src_a Instruction.src_b Instruction.dest].
  intros Hc H. apply Forall_cons in H as [Ha H]. apply contains_char_false in Ha.
  destruct b as [b|]; [destruct (negb (String.eqb b ""))|];
    (destruct d as [d|]; [destruct (negb (String.eqb d ""))|]);
    cbn [app] in *;
    repeat match goal with
    | H : Forall _ (_ :: _) |- _ =>
        let H1 := fresh in apply Forall_cons in H as [H1 H]; apply contains_char_false in H1
    end;
    rewrite ?append_assoc_r, ?append_char; repeat (rewrite list_ascii_append; simpl);
    repeat first [assumption | apply Forall_app; split | apply Forall_cons; split].
Qed.

(** The fragments of a rung text of neutral texts between its closing
    parentheses: one per instruction, and the empty one behind the last. *)
Lemma neutral_text_split (instructions : list Instruction.t) :
  Forall (fun i => PyStr.contains ")" (Instruction.mnemonic i) = false
                   /\ Forall (fun op => PyStr.contains ")" op = false) (operands i))
    instructions ->
  PyStr.split ")" (neutral_text instructions)
  = map (fun i => Instruction.mnemonic i +:+ String "(" (Instruction.src_text i)) instructions
    ++ [""].
Proof.
  induction 1 as [|i l [Hm Ho] Hl IH]; [reflexivity|].
  cbn [neutral_text fold_right map app]. fold (neutral_text l).
  unfold Instruction.to_neutral_text.
  replace ((Instruction.mnemonic i +:+ "(" +:+ Instruction.src_text i +:+ ")") +:+ neutral_text l)
    with ((Instruction.mnemonic i +:+ String "(" (Instruction.src_text i))
          +:+ String ")" (neutral_text l)).
  2:{ rewrite !append_assoc_r. reflexivity. }
  rewrite split_append_sep, IH; [reflexivity|].
  rewrite list_ascii_append. apply Forall_app. split.
  - apply contains_char_false. exact Hm.
  - simpl. constructor; [reflexivity|]. apply src_text_lacks; [reflexivity | exact Ho].
Qed.

Lemma neutral_text_nonempty (i : Instruction.t) (l : list Instruction.t) :
  String.eqb (neutral_text (i :: l)) "" = false.
Proof.
  cbn [neutral_text fold_right]. unfold Instruction.to_neutral_text.
  destruct (Instruction.mnemonic i); reflexivity.
Qed.

(** X11.  From a rung text that is the neutral texts of instructions one
    after the other, the mnemonics having no blank and none of the
    characters the miner cuts at or drops, and the operands no closing
    parenthesis, [__get_instruction_metas__] mines exactly the mnemonics of
    the instructions, and with them the empty string. *)
Theorem instruction_metas_of_neutral_text (instructions : list Instruction.t) :
  instructions <> [] ->
  Forall (fun i =>
            Forall (fun c => PyStr.is_space c = false
                             /\ PyStr.mem_char c mnemonic_breakers = false)
              (list_ascii_of_string (Instruction.mnemonic i))
            /\ Forall (fun op => PyStr.contains ")" op = false) (operands i))
    instructions ->
  forall x,
    In x (__get_instruction_metas__ (Some (neutral_text instructions)))
    <-> x = "" \/ In x (map Instruction.mnemonic instructions).
Proof.
  intros Hne H x.
  assert (Hb : forall i, In i instructions -> forall b,
             In b mnemonic_breakers ->
             Forall (fun c => Ascii.eqb c b = false)
               (list_ascii_of_string (Instruction.mnemonic i))).
  { intros i Hi b Hb. rewrite Forall_forall in H. destruct (H i) as [Hm _].
    { apply list_elem_of_In. exact Hi. }
    eapply Forall_impl; [exact Hm|]. intros c [_ Hc].
    destruct (Ascii.eqb_spec c b) as [->|]; [|reflexivity].
    exfalso. clear -Hc Hb. unfold mnemonic_breakers in *. simpl in *.
    repeat (destruct Hb as [<-|Hb]; [vm_compute in Hc; discriminate|]). exact Hb. }
  unfold __get_instruction_metas__.
  destruct instructions as [|i0 l0]; [congruence|].
  rewrite neutral_text_nonempty. set (instructions := i0 :: l0) in *. clearbody instructions.
  rewrite in_list_of_set, neutral_text_split.
  2:{ rewrite Forall_forall. intros i Hi. rewrite Forall_forall in H.
      destruct (H i Hi) as [_ Ho]. split; [|exact Ho].
      apply list_elem_of_In in Hi.
      assert (G := Hb i Hi ")"%char ltac:(unfold mnemonic_breakers; simpl; tauto)).
      clear -G. induction (Instruction.mnemonic i) as [|c s IH]; [reflexivity|].
      simpl in G. apply Forall_cons in G as [G1 G2].
      cbn [PyStr.contains]. rewrite prefix_char, G1, (IH G2). reflexivity. }
  rewrite map_app, in_app_iff, map_map. cbn [map In].
  assert (E : forall i, In i instructions ->
            PyStr.strip
              (PyStr.remove_chars
                 [","%char; dquote; "'"%char; "?"%char; ":"%char; "["%char; "]"%char]
                 (PyStr.slice_to
                    (Instruction.mnemonic i +:+ String "(" (Instruction.src_text i))
                    (PyStr.find
                       (Instruction.mnemonic i +:+ String "(" (Instruction.src_text i))
                       "(" 0)))
            = Instruction.mnemonic i).
  { intros i Hi.
    rewrite find_char by (apply (Hb i Hi); unfold mnemonic_breakers; simpl; tauto).
    rewrite slice_to_append.
    rewrite Forall_forall in H. destruct (H i) as [Hm _]; [apply list_elem_of_In; exact Hi|].
    rewrite remove_chars_none.
    - apply strip_none. eapply Forall_impl; [exact Hm|]. intros c [Hc _]. exact Hc.
    - eapply Forall_impl; [exact Hm|]. intros c [_ Hc].
      unfold mnemonic_breakers in Hc. cbn [PyStr.mem_char existsb] in Hc |- *.
      apply orb_false_iff in Hc as [_ Hc]. apply orb_false_iff in Hc as [_ Hc]. exact Hc. }
  rewrite !in_map_iff. split.
  - intros [(i & Hx & Hi) | [Hx | []]].
    + right. exists i. split; [|exact Hi]. rewrite <- Hx. symmetry. apply E. exact Hi.
    + left. rewrite <- Hx. reflexivity.
  - intros [-> | (i & Hx & Hi)].
    + right. left. reflexivity.
    + left. exists i. split; [|exact Hi]. rewrite <- Hx. apply E. exact Hi.
Qed.

Lemma instruction_metas_of_neutral_text_witness :
  neutral_text
    [Instruction.Build "MOV" "Setpoint[2]" None (Some "Output");
     Instruction.Build "TON" "Timer1" (Some "") None]
  = "MOV(Setpoint[2],Output)TON(Timer1)"
  /\ (In "TON" (__get_instruction_metas__ (Some "MOV(Setpoint[2],Output)TON(Timer1)"))
      <-> "TON" = "" \/ In "TON" ["MOV"; "TON"]).
Proof.
  split; [reflexivity|].
  apply (instruction_metas_of_neutral_text
           [Instruction.Build "MOV" "Setpoint[2]" None (Some "Output");
            Instruction.Build "TON" "Timer1" (Some "") None]).
  - discriminate.
  - repeat constructor.
Defined.

Lemma head_split_head (c : ascii) (s : string) :
  head_or_empty (PyStr.split c (head_or_empty (PyStr.split c s)))
  = head_or_empty (PyStr.split c s).
Proof. rewrite (split_none c _ (split_head_lacks c s)). reflexivity. Qed.

Lemma mined_tag_head (op : string) :
  mined_tag (head_or_empty (PyStr.split "." op)) = mined_tag op.
Proof. unfold mined_tag. rewrite head_split_head. reflexivity. Qed.

(** The loop of [__get_tag_metas__] over names without a dot. *)
Lemma tag_metas_fold (l acc : list string) (t : string) :
  Forall (fun u => head_or_empty (PyStr.split "." u) = u) l ->
  In t (fold_left
          (fun upper_tags tag =>
             if String.eqb tag "" then upper_tags
             else if existsb (fun x => PyStr.contains (String x EmptyString) tag)
                       [","%char; dquote; "'"%char; "?"%char; ":"%char]
             then upper_tags
             else if PyStr.int_parses tag then upper_tags
             else
               let bracket_char := PyStr.find tag "[" 0 in
               let tag :=
                 if negb (bracket_char =? -1)%Z then PyStr.slice_to tag bracket_char
                 else tag in
               upper_tags ++ [tag])
          l acc)
  <-> In t acc \/ exists u, In u l /\ mined_tag u = Some t.
Proof.
  intros H. revert acc. induction H as [|u l Hu Hl IH]; intros acc.
  - simpl. split; [auto | intros [H | (u & [] & _)]; exact H].
  - cbn [fold_left]. rewrite IH. clear IH.
    assert (M : mined_tag u
                = if String.eqb u "" then None
                  else if existsb (fun x => PyStr.contains (String x EmptyString) u)
                            [","%char; dquote; "'"%char; "?"%char; ":"%char]
                  then None
                  else if PyStr.int_parses u then None
                  else Some (if negb (PyStr.find u "[" 0 =? -1)%Z
                             then PyStr.slice_to u (PyStr.find u "[" 0) else u)).
    { unfold mined_tag. rewrite Hu. reflexivity. }
    destruct (String.eqb u "");
      [|destruct (existsb _ _); [|destruct (PyStr.int_parses u)]].
    1-3: split;
      [ intros [G | (v & G1 & G2)]; [left; exact G | right; exists v; split; [right; exact G1 | exact G2]]
      | intros [G | (v & [<- | G1] & G2)];
        [left; exact G | congruence | right; exists v; split; assumption] ].
    cbv zeta. rewrite in_app_iff. cbn [In]. split.
    + intros [[G | [<- | []]] | (v & G1 & G2)].
      * left. exact G.
      * right. exists u. split; [left; reflexivity | exact M].
      * right. exists v. split; [right; exact G1 | exact G2].
    + intros [G | (v & [<- | G1] & G2)].
      * left. left. exact G.
      * left. right. left. congruence.
      * right. exists v. split; assumption.
Qed.

(** X12.  From a rung text that is the neutral texts of instructions one
    after the other, the mnemonics having no parenthesis and the operands
    neither a comma nor a closing parenthesis, [__get_tag_metas__] mines
    exactly the names [mined_tag] keeps of the operands of the instructions. *)
Theorem tag_metas_of_neutral_text (instructions : list Instruction.t) :
  Forall (fun i =>
            PyStr.contains "(" (Instruction.mnemonic i) = false
            /\ PyStr.contains ")" (Instruction.mnemonic i) = false
            /\ Forall (fun op => PyStr.contains "," op = false
                                 /\ PyStr.contains ")" op = false) (operands i))
    instructions ->
  forall t,
    In t (__get_tag_metas__ (Some (neutral_text instructions)))
    <-> exists i op, In i instructions /\ In op (operands i) /\ mined_tag op = Some t.
Proof.
  intros H t. unfold __get_tag_metas__.
  destruct instructions as [|i0 l0].
  { simpl. split; [intros [] | intros (i & _ & [] & _)]. }
  rewrite neutral_text_nonempty. set (instructions := i0 :: l0) in *. clearbody instructions.
  rewrite neutral_text_split.
  2:{ eapply Forall_impl; [exact H|]. intros i (_ & Hm & Ho). split; [exact Hm|].
      eapply Forall_impl; [exact Ho|]. intros op [_ G]. exact G. }
  assert (F : List.filter (fun instr => PyStr.contains "(" instr)
                (map (fun i => Instruction.mnemonic i +:+ String "(" (Instruction.src_text i))
                   instructions ++ [""])
              = map (fun i => Instruction.mnemonic i +:+ String "(" (Instruction.src_text i))
                  instructions).
  { clear. induction instructions as [|i l IH]; [reflexivity|].
    cbn [map app List.filter]. rewrite contains_char_true, IH. reflexivity. }
  rewrite F, map_map. clear F.
  assert (E : map (fun i =>
                     PyStr.split ","
                       (PyStr.slice_from
                          (Instruction.mnemonic i +:+ String "(" (Instruction.src_text i))
                          (PyStr.find
                             (Instruction.mnemonic i +:+ String "(" (Instruction.src_text i))
                             "(" 0 + 1)))
                  instructions
              = map operands instructions).
  { clear t. induction H as [|i l (Hm & _ & Ho) Hl IH]; [reflexivity|].
    cbn [map]. rewrite IH. f_equal.
    rewrite find_char by (apply contains_char_false; exact Hm).
    rewrite slice_from_append_cons. apply src_text_split.
    eapply Forall_impl; [exact Ho|]. intros op [G _]. exact G. }
  rewrite E. clear E.
  rewrite tag_metas_fold.
  2:{ rewrite Forall_forall. intros u Hu. apply list_elem_of_In in Hu.
      apply (proj1 (in_list_of_set _ _)) in Hu.
      apply in_map_iff in Hu as (op & <- & _). apply head_split_head. }
  cbn [In]. split.
  - intros [[] | (u & Hu & Hm)].
    apply (proj1 (in_list_of_set _ _)) in Hu. apply in_map_iff in Hu as (op & <- & Hop).
    rewrite mined_tag_head in Hm.
    apply in_concat in Hop as (ops & Hops & Hop).
    apply in_map_iff in Hops as (i & <- & Hi).
    exists i, op. repeat split; assumption.
  - intros (i & op & Hi & Hop & Hm). right.
    exists (head_or_empty (PyStr.split "." op)). split.
    + apply in_list_of_set, in_map_iff. exists op. split; [reflexivity|].
      apply in_concat. exists (operands i). split; [|exact Hop].
      apply in_map_iff. exists i. split; [reflexivity | exact Hi].
    + rewrite mined_tag_head. exact Hm.
Qed.

Lemma tag_metas_of_neutral_text_witness :
  neutral_text
    [Instruction.Build "MOV" "Setpoint[2]" None (Some "Pump.Speed");
     Instruction.Build "TON" "Timer1" (Some "100") None]
  = "MOV(Setpoint[2],Pump.Speed)TON(Timer1,100)"
  /\ (In "Pump" (__get_tag_metas__ (Some "MOV(Setpoint[2],Pump.Speed)TON(Timer1,100)"))
      <-> exists i op,
            In i [Instruction.Build "MOV" "Setpoint[2]" None (Some "Pump.Speed");
                  Instruction.Build "TON" "Timer1" (Some "100") None]
            /\ In op (operands i) /\ mined_tag op = Some "Pump").
Proof.
  split; [reflexivity|].
  apply (tag_metas_of_neutral_text
           [Instruction.Build "MOV" "Setpoint[2]" None (Some "Pump.Speed");
            Instruction.Build "TON" "Timer1" (Some "100") None]).
  repeat constructor.
Defined.

(** ** program/program.py: [__push_routine__] by exact name *)

Section RemoveByName.
Context {A : Type} (key : A -> string).

Lemma filter_other_names_id (x : A) (l : list A) :
  ~ In (key x) (map key l) ->
  List.filter (fun y => negb (String.eqb (key y) (key x))) l = l.
Proof.
  induction l as [|y l IH]; simpl; intros H; [reflexivity|].
  destruct (String.eqb_spec (key y) (key x)) as [E|E]; [tauto|].
  simpl. rewrite IH; [reflexivity | tauto].
Qed.

Lemma list_remove_filter (x : A) (l : list A) :
  NoDup (map key l) ->
  PylogixList.list_remove key x l
  = List.filter (fun y => negb (String.eqb (key y) (key x))) l.
Proof.
  induction l as [|y l IH]; simpl; intros H; [reflexivity|].
  apply NoDup_cons in H as [Hy Hl]. rewrite list_elem_of_In in Hy.
  unfold name_eqb. destruct (String.eqb_spec (key y) (key x)) as [E|E]; simpl.
  - symmetry. apply filter_other_names_id. rewrite <- E. exact Hy.
  - rewrite (IH Hl). reflexivity.
Qed.

Lemma filter_other_names_gone (x : A) (l : list A) :
  in_by key x (List.filter (fun y => negb (String.eqb (key y) (key x))) l) = false.
Proof.
  unfold in_by, name_eqb. induction l as [|y l IH]; simpl; [reflexivity|].
  destruct (String.eqb (key y) (key x)) eqn:E; simpl; [exact IH|].
  rewrite E, IH. reflexivity.
Qed.

Lemma filter_other_names_NoDup (x : A) (l : list A) :
  NoDup (map key l) ->
  NoDup (map key (List.filter (fun y => negb (String.eqb (key y) (key x))) l)).
Proof.
  intros H. rewrite <- (list_remove_filter x l H). apply list_remove_NoDup. exact H.
Qed.

(** Taking the object found under the name of [x] out of a list of distinct
    names and appending [x] leaves the objects of the other names, in their
    order, followed by [x]. *)
Lemma replace_by_name (x : A) (l : list A) :
  NoDup (map key l) ->
  PylogixList.append key
    match PylogixList.by_name key l (key x) with
    | Some target => if in_by key target l then PylogixList.remove key l target else l
    | None => l
    end x false
  = List.filter (fun y => negb (String.eqb (key y) (key x))) l ++ [x].
Proof.
  intros H. rewrite append_no_overwrite.
  destruct (PylogixList.by_name key l (key x)) as [t|] eqn:B.
  - apply by_name_key in B as [Ek Hin].
    rewrite (in_by_self key t l Hin). unfold PylogixList.remove.
    rewrite (in_by_self key t l Hin), (list_remove_filter t l H), Ek.
    rewrite filter_other_names_gone. reflexivity.
  - apply by_name_None in B.
    destruct (in_by key x l) eqn:E; [apply in_by_In in E; contradiction|].
    rewrite (filter_other_names_id x l B). reflexivity.
Qed.

End RemoveByName.

Lemma extend_twice {A} (key : A -> string) (self items : list A) :
  PylogixList.extend key (PylogixList.extend key self items false) items false
  = PylogixList.extend key self items false.
Proof.
  exact (fold_append_idempotent key Some items self).
Qed.

(** X13.  [__push_routine__] without similarity matching, on a target whose
    routines have distinct names: it returns the dependency set of the
    routine and raises nothing; the target then holds its routines of the
    other names, in their order, followed by the pushed routine; and pushing
    the same routine again changes nothing more. *)
Theorem push_routine_by_name (routine : Routine.t) (similarity_gain : Q) (st : MergeState) :
  NoDup (map Routine.key (Program.routines (other_prog st))) ->
  let after := __push_routine__ (Some routine) false similarity_gain st in
  fst after = Ok (Routine_get_dependencies (heap st) routine)
  /\ Program.routines (other_prog (snd after))
     = List.filter
         (fun r => negb (String.eqb (Routine.key r) (Routine.key routine)))
         (Program.routines (other_prog st))
       ++ [routine]
  /\ __push_routine__ (Some routine) false similarity_gain (snd after) = after.
Proof.
  intros H after.
  assert (E : after
              = (Ok (Routine_get_dependencies (heap st) routine),
                 with_program_tags_of
                   (PylogixList.extend (tag_key (heap st)) (Program.tags (other_prog st))
                      (program_tags (Routine_get_dependencies (heap st) routine)) false)
                   (with_routines
                      (List.filter
                         (fun r => negb (String.eqb (Routine.key r) (Routine.key routine)))
                         (Program.routines (other_prog st)) ++ [routine]) st))).
  { subst after. unfold __push_routine__, bind, get, put, ret.
    rewrite (replace_by_name Routine.key routine _ H). reflexivity. }
  rewrite E. split; [reflexivity|]. split; [reflexivity|].
  cbn [snd]. unfold __push_routine__, bind, get, put, ret.
  cbn [heap other_prog with_program_tags_of with_routines Program.routines Program.tags
       Program.super Program.main_routine_name].
  rewrite (replace_by_name Routine.key routine).
  2:{ rewrite map_app. apply NoDup_app. split; [apply filter_other_names_NoDup; exact H|].
      split; [|apply NoDup_singleton].
      intros k Hk Hx. rewrite list_elem_of_In in Hk, Hx. destruct Hx as [<-|[]].
      pose proof (filter_other_names_gone Routine.key routine
                    (Program.routines (other_prog st))) as G.
      apply (in_by_false_not_In _ _ _ G). exact Hk. }
  rewrite extend_twice.
  rewrite List.filter_app. cbn [List.filter]. rewrite String.eqb_refl. cbn [negb].
  rewrite app_nil_r.
  replace (List.filter (fun r => negb (String.eqb (Routine.key r) (Routine.key routine)))
             (List.filter (fun r => negb (String.eqb (Routine.key r) (Routine.key routine)))
                (Program.routines (other_prog st))))
    with (List.filter (fun r => negb (String.eqb (Routine.key r) (Routine.key routine)))
            (Program.routines (other_prog st))).
  - reflexivity.
  - symmetry. apply filter_other_names_id.
    apply in_by_false_not_In. apply filter_other_names_gone.
Qed.

Lemma push_routine_by_name_witness :
  let after := __push_routine__ (Some Example.Pump_Start) false (19 # 20) Example.start in
  fst after = Ok (Routine_get_dependencies (heap Example.start) Example.Pump_Start)
  /\ Program.routines (other_prog (snd after))
     = List.filter
         (fun r => negb (String.eqb (Routine.key r) (Routine.key Example.Pump_Start)))
         (Program.routines (other_prog Example.start))
       ++ [Example.Pump_Start]
  /\ __push_routine__ (Some Example.Pump_Start) false (19 # 20) (snd after) = after.
Proof.
  apply (push_routine_by_name Example.Pump_Start (19 # 20) Example.start).
  vm_compute. repeat constructor; rewrite ?list_elem_of_In; simpl; intuition discriminate.
Defined.

(** ** base/pylogix_object.py: [get_unique_name] ends with a free name *)

Lemma append_inj_l (base s s' : string) : base +:+ s = base +:+ s' -> s = s'.
Proof.
  induction base as [|c base IH]; intros H; [exact H|].
  rewrite !append_cons in H. injection H as H. exact (IH H).
Qed.

Lemma all_digits_Forall (s : string) :
  all_digits s = true ->
  Forall (fun c => PyStr.is_digit c = true) (list_ascii_of_string s).
Proof.
  induction s as [|c s IH]; simpl; intros H; [constructor|].
  apply andb_true_iff in H as [H1 H2]. constructor; [exact H1 | exact (IH H2)].
Qed.

Lemma all_digits_digit_suffix (s : string) : all_digits (digit_suffix s) = true.
Proof.
  induction s as [|c s IH]; [reflexivity|].
  cbn [digit_suffix]. destruct (all_digits (String c s)) eqn:E; [exact E | exact IH].
Qed.

(** A string of digits reads as a number that is not negative. *)
Lemma int_of_str_digits_nonneg (group : string) (n : Z) :
  all_digits group = true -> int_of_str group = Returns n -> (0 <= n)%Z.
Proof.
  intros Hd. apply all_digits_Forall in Hd. unfold int_of_str.
  destruct (PyStr.int_parses group); [|discriminate].
  rewrite int_strip_none by (eapply Forall_impl; [exact Hd|]; apply is_digit_not_space).
  rewrite remove_chars_none.
  2:{ eapply Forall_impl; [exact Hd|]. intros c Hc. simpl.
      destruct (digit_facts c Hc) as (-> & _ & ->). reflexivity. }
  destruct group as [|c group]; [discriminate|].
  simpl in Hd. apply Forall_cons in Hd as [Hc _].
  destruct (digit_facts c Hc) as (_ & Hm & _).
  unfold NilZero.int_of_string. rewrite Hm.
  destruct (NilZero.uint_of_string (String c group)) as [u|]; [|discriminate].
  simpl. intros H. injection H as <-. unfold Z.of_uint. lia.
Qed.

(** The two-digit form of a counter reads back as the counter. *)
Lemma searching_name_counter (base : string) (counter : Z) (name : string) :
  (0 <= counter)%Z ->
  searching_name base counter = Returns name ->
  exists digits, name = base +:+ digits /\ int_of_str digits = Returns counter.
Proof.
  intros Hc. unfold searching_name, str_of_int.
  destruct (Nat.ltb_spec 4300 (PyStr.count_digits (int_to_str counter))) as [|Hlen];
    [discriminate|].
  cbn [and_then]. intros H. injection H as <-.
  destruct (Z.leb_spec 10 counter) as [Hge|Hlt].
  - exists (int_to_str counter). split; [reflexivity|].
    apply int_of_str_int_to_str. exact Hlen.
  - exists ("0" +:+ int_to_str counter). split; [reflexivity|].
    assert (E : (counter = 0 \/ counter = 1 \/ counter = 2 \/ counter = 3 \/ counter = 4
                 \/ counter = 5 \/ counter = 6 \/ counter = 7 \/ counter = 8
                 \/ counter = 9)%Z) by lia.
    repeat (destruct E as [->|E]; [vm_compute; reflexivity|]).
    subst counter. vm_compute. reflexivity.
Qed.

Lemma searching_name_inj (base : string) (c c' : Z) (name : string) :
  (0 <= c)%Z -> (0 <= c')%Z ->
  searching_name base c = Returns name -> searching_name base c' = Returns name -> c = c'.
Proof.
  intros Hc Hc' H H'.
  destruct (searching_name_counter base c name Hc H) as (d & -> & Hd).
  destruct (searching_name_counter base c' _ Hc' H') as (d' & E & Hd').
  apply append_inj_l in E. subst d'. congruence.
Qed.

Lemma searching_name_raises (base : string) (counter : Z) (e : exception) :
  searching_name base counter = Raises e -> e = ValueErr.
Proof.
  unfold searching_name, str_of_int.
  destruct (Nat.ltb 4300 (PyStr.count_digits (int_to_str counter))); cbn [and_then];
    [intros H; injection H as <-; reflexivity | discriminate].
Qed.

(** More fuel does not change what the loop returns. *)
Lemma get_unique_name_loop_mono {A} (key : A -> string) (l : list A) (base : string)
    (fuel fuel' : nat) (c : Z) (r : outcome string) :
  fuel <= fuel' ->
  get_unique_name_loop fuel key l base c = Some r ->
  get_unique_name_loop fuel' key l base c = Some r.
Proof.
  revert fuel' c. induction fuel as [|fuel IH]; intros fuel' c Hle; [discriminate|].
  destruct fuel' as [|fuel']; [lia|]. cbn [get_unique_name_loop].
  destruct (searching_name base c) as [name|e]; [|auto].
  destruct (List.find _ l); [|auto]. apply IH. lia.
Qed.

(** The loop ends before it has tried more names than the list holds. *)
Lemma get_unique_name_loop_ends {A} (key : A -> string) (l : list A) (base : string)
    (fuel : nat) :
  forall (rest : list string) (c : Z),
    (0 <= c)%Z ->
    (forall c' name, (c <= c')%Z -> searching_name base c' = Returns name ->
                     In name (map key l) -> In name rest) ->
    length rest < fuel ->
    exists r,
      get_unique_name_loop fuel key l base c = Some r
      /\ match r with
         | Returns name => ~ In name (map key l)
         | Raises e => e = ValueErr
         end.
Proof.
  induction fuel as [|fuel IH]; intros rest c Hc Hrest Hlen; [lia|].
  cbn [get_unique_name_loop].
  destruct (searching_name base c) as [name|e] eqn:Es.
  2:{ exists (Raises e). split; [reflexivity|]. exact (searching_name_raises _ _ _ Es). }
  destruct (List.find (fun thing => String.eqb (key thing) name) l) as [t|] eqn:Ef.
  2:{ exists (Returns name). split; [reflexivity|].
      apply (by_name_None key). exact Ef. }
  apply (by_name_key key) in Ef as [Ek Hin].
  assert (Hn : In name rest).
  { apply (Hrest c name); [lia | exact Es |]. rewrite <- Ek. apply in_map. exact Hin. }
  apply (IH (List.remove string_dec name rest)).
  - lia.
  - intros c' name' Hc' Es' Hin'.
    apply List.in_in_remove.
    + intros ->. assert (c = c') by (eapply searching_name_inj; eauto; lia). lia.
    + apply (Hrest c' name'); [lia | exact Es' | exact Hin'].
  - pose proof (List.remove_length_lt string_dec rest name Hn). lia.
Qed.

(** X14.  [get_unique_name] ends: its loop makes at most one round more
    than the list has objects.  The name it returns is the name of no object
    of the list; the only exception it can end with is the [ValueError] of
    a counter that has grown beyond 4300 digits. *)
Theorem get_unique_name_free {A} (key : A -> string) (named_object : PyLogixObject)
    (list_to_search : list A) :
  exists r,
    (forall fuel, length list_to_search < fuel ->
                  get_unique_name fuel key named_object list_to_search = Some r)
    /\ match r with
       | Returns name => PylogixList.by_name key list_to_search name = None
       | Raises e => e = ValueErr
       end.
Proof.
  unfold get_unique_name.
  set (base := match search_trailing_digits (name named_object) with
               | Some group => _
               | None => _
               end).
  set (counter := match match search_trailing_digits (name named_object) with
                        | Some group => _
                        | None => _
                        end with
                  | Some n => _
                  | None => _
                  end).
  assert (Hc : (0 <= counter)%Z).
  { subst counter. unfold search_trailing_digits.
    pose proof (all_digits_digit_suffix (chop_newline (name named_object))) as Hd.
    destruct (digit_suffix (chop_newline (name named_object))) as [|ch g]; [lia|].
    destruct (int_of_str (String ch g)) as [n|] eqn:En; [|lia].
    pose proof (int_of_str_digits_nonneg _ _ Hd En).
    destruct (n =? 0)%Z; simpl; lia. }
  clearbody base counter.
  destruct (get_unique_name_loop_ends key list_to_search base (S (length list_to_search))
              (map key list_to_search) counter Hc) as (r & Hr & Hfree).
  - intros c' name _ _ H. exact H.
  - rewrite length_map. lia.
  - exists r. split.
    + intros fuel Hfuel. apply (get_unique_name_loop_mono key _ _ (S (length list_to_search)));
        [lia | exact Hr].
    + destruct r as [name|e]; [|exact Hfree].
      apply by_name_None. exact Hfree.
Qed.

(** ** datatype/datatype.py: a datatype written and read back *)

Local Abbreviation own name node :=
  (match node with
   | Element t _ _ => if String.eqb name "*" || String.eqb t name then [node] else []
   | _ => []
   end).

Local Abbreviation description_nodes desc :=
  (match desc with
   | Some d =>
       if negb (String.eqb d "")
       then [Element "Description" [] [CDATASection d; TextNode ""]]
       else []
   | None => []
   end).

Lemma getElementsByTagName_Element (name t : string) a (c : list XmlNode) :
  getElementsByTagName name (Element t a c)
  = concat (map (fun child => own name child ++ getElementsByTagName name child) c).
Proof.
  induction c as [|x c IH]; [reflexivity|].
  change (getElementsByTagName name (Element t a (x :: c)))
    with (own name x ++ getElementsByTagName name x
          ++ getElementsByTagName name (Element t a c)).
  rewrite IH. cbn [map concat]. rewrite app_assoc. reflexivity.
Qed.

(** What a loop of [appendChild] builds. *)
Lemma fold_appendChild {A} (f : A -> XmlNode) (l : list A) (t : string) a
    (c : list XmlNode) :
  fold_left (fun root x => appendChild (f x) root) l (Element t a c)
  = Element t a (c ++ map f l).
Proof.
  revert c. induction l as [|x l IH]; intros c; cbn [fold_left map].
  - rewrite app_nil_r. reflexivity.
  - cbn [appendChild]. rewrite IH, <- app_assoc. reflexivity.
Qed.

(** The node of a member: an element [Member] whose only child is the
    [Description] element of a description that is not empty. *)
Lemma member_node_shape {D} (m : DataTypeMember.t D) :
  exists attrs,
    DataTypeMember.to_l5x_xml_node m
    = Element "Member" attrs (description_nodes (description (DataTypeMember.super m))).
Proof.
  unfold DataTypeMember.to_l5x_xml_node.
  destruct (DataTypeMember.radix m); destruct (DataTypeMember.truthy (DataTypeMember.target m));
    destruct (DataTypeMember.bit_number_truthy (DataTypeMember.bit_number m));
    (destruct (description (DataTypeMember.super m)) as [d|];
       [destruct (negb (String.eqb d ""))|]);
    cbn [setAttribute appendChild app]; eexists; reflexivity.
Qed.

Lemma member_node_descriptions {D} (m : DataTypeMember.t D) :
  own "Description" (DataTypeMember.to_l5x_xml_node m)
  ++ getElementsByTagName "Description" (DataTypeMember.to_l5x_xml_node m)
  = description_nodes (description (DataTypeMember.super m)).
Proof.
  destruct (member_node_shape m) as (attrs & ->).
  rewrite getElementsByTagName_Element.
  destruct (description (DataTypeMember.super m)) as [d|];
    [destruct (negb (String.eqb d ""))|]; reflexivity.
Qed.

Lemma member_node_members {D} (m : DataTypeMember.t D) :
  own "Members" (DataTypeMember.to_l5x_xml_node m)
  ++ getElementsByTagName "Members" (DataTypeMember.to_l5x_xml_node m)
  = [].
Proof.
  destruct (member_node_shape m) as (attrs & ->).
  rewrite getElementsByTagName_Element.
  destruct (description (DataTypeMember.super m)) as [d|];
    [destruct (negb (String.eqb d ""))|]; reflexivity.
Qed.

Lemma member_nodes_elements {D} (l : list (DataTypeMember.t D)) :
  List.filter is_Element (map DataTypeMember.to_l5x_xml_node l)
  = map DataTypeMember.to_l5x_xml_node l.
Proof.
  induction l as [|m l IH]; [reflexivity|]. cbn [map List.filter].
  destruct (member_node_shape m) as (attrs & E). rewrite E at 1. cbn [is_Element].
  rewrite IH. reflexivity.
Qed.

(** The text [get_text_data] reads when the [Description] elements below
    an element are those written for a list of descriptions. *)
Lemma get_text_data_descriptions (t : string) a (ch : list XmlNode)
    (descs : list (option string)) :
  getElementsByTagName "Description" (Element t a ch)
  = concat (map (fun desc => description_nodes desc) descs) ->
  get_text_data (Element t a ch) "Description"
  = Returns (description_read_back (default None (List.find DataTypeMember.truthy descs))).
Proof.
  unfold get_text_data. cbn [is_Element]. intros ->.
  induction descs as [|desc descs IH]; [reflexivity|].
  cbn [map concat List.find].
  destruct desc as [d|]; cbn [DataTypeMember.truthy].
  - destruct (String.eqb d "") eqn:E; cbn [negb app]; [exact IH|].
    cbn [from_option id description_read_back childNodes wholeText]. rewrite E.
    rewrite !append_empty_r. reflexivity.
  - exact IH.
Qed.

Lemma description_nodes_descriptions (desc : option string) :
  concat (map (fun child => own "Description" child
                            ++ getElementsByTagName "Description" child)
            (description_nodes desc))
  = description_nodes desc.
Proof. destruct desc as [d|]; [destruct (negb (String.eqb d ""))|]; reflexivity. Qed.

Lemma description_nodes_members (desc : option string) :
  concat (map (fun child => own "Members" child ++ getElementsByTagName "Members" child)
            (description_nodes desc))
  = [].
Proof. destruct desc as [d|]; [destruct (negb (String.eqb d ""))|]; reflexivity. Qed.

Lemma member_nodes_descriptions {D} (l : list (DataTypeMember.t D)) :
  concat (map (fun child => own "Description" child
                            ++ getElementsByTagName "Description" child)
            (map DataTypeMember.to_l5x_xml_node l))
  = concat (map (fun desc => description_nodes desc)
              (map (fun m => description (DataTypeMember.super m)) l)).
Proof.
  induction l as [|m l IH]; [reflexivity|].
  cbn [map concat]. rewrite member_node_descriptions, IH. reflexivity.
Qed.

Lemma member_nodes_members {D} (l : list (DataTypeMember.t D)) :
  concat (map (fun child => own "Members" child ++ getElementsByTagName "Members" child)
            (map DataTypeMember.to_l5x_xml_node l))
  = [].
Proof.
  induction l as [|m l IH]; [reflexivity|].
  cbn [map concat]. rewrite member_node_members, IH. reflexivity.
Qed.

Lemma dependency_nodes_hold {A} (f : A -> option string) (l : list A) (name : string) :
  String.eqb name "*" = false -> String.eqb "Dependency" name = false ->
  concat
    (map (fun child => own name child ++ getElementsByTagName name child)
       (map (fun x => setAttribute "Name" (f x)
                        (setAttribute "Type" (Some "DataType") (Element "Dependency" [] [])))
          l))
  = [].
Proof.
  intros H1 H2. induction l as [|x l IH]; [reflexivity|].
  cbn [map concat setAttribute set_attr]. rewrite H2. rewrite H1 in *.
  cbn [orb app getElementsByTagName] in *. exact IH.
Qed.

Lemma for_all_members (l : list DataTypeMember_t) :
  Forall (fun m => PyStr.count_digits (int_to_str (DataTypeMember.dimensions m)) <= 4300) l ->
  for_all (fun member_node =>
             DataTypeMember_from_l5x_xml_node (D := DataType.t) (Some member_node))
    (map DataTypeMember.to_l5x_xml_node l)
  = Returns (map (fun m => Some (member_read_back m)) l).
Proof.
  induction 1 as [|m l Hm Hl IH]; [reflexivity|].
  cbn [map for_all]. rewrite (member_node_read_back m Hm), IH. reflexivity.
Qed.

Lemma omap_id_Some {A B} (f : A -> B) (l : list A) :
  omap id (map (fun x => Some (f x)) l) = map f l.
Proof. induction l as [|x l IH]; [reflexivity|]. cbn. rewrite IH. reflexivity. Qed.

(** Objects of distinct names, none of them in the list yet, all go in. *)
Lemma extend_distinct {A} (key : A -> string) (self items : list A) :
  NoDup (map key (self ++ items)) ->
  PylogixList.extend key self items false = self ++ items.
Proof.
  unfold PylogixList.extend. revert self.
  induction items as [|x items IH]; intros self H; cbn [fold_left].
  - rewrite app_nil_r. reflexivity.
  - rewrite append_no_overwrite.
    assert (E : in_by key x self = false).
    { destruct (in_by key x self) eqn:E; [|reflexivity].
      apply in_by_In in E. rewrite map_app in H. apply NoDup_app in H as (_ & H & _).
      exfalso. apply (H (key x)); rewrite list_elem_of_In; [exact E | left; reflexivity]. }
    rewrite E, IH; rewrite <- app_assoc; [reflexivity | exact H].
Qed.

Lemma own_other (name t : string) a (c : list XmlNode) :
  String.eqb name "*" = false -> String.eqb t name = false ->
  (if String.eqb name "*" || String.eqb t name then [Element t a c] else []) = [].
Proof. intros -> ->. reflexivity. Qed.

Lemma own_same (name : string) a (c : list XmlNode) :
  String.eqb name "*" = false ->
  (if String.eqb name "*" || String.eqb name name then [Element name a c] else [])
  = [Element name a c].
Proof. intros ->. rewrite String.eqb_refl. reflexivity. Qed.

Lemma LogixFamily_from_string_value (f : LogixFamily) :
  LogixFamily_from_string (Some (LogixFamily_value f)) = Some f.
Proof. destruct f; reflexivity. Qed.

(** The node of a datatype that is neither atomic nor built in. *)
Lemma datatype_node_shape (d : DataType.t) (family : LogixFamily)
    (datatype_class : LogixDataTypeClass) (as_target include_dependencies : bool) :
  DataType.is_atomic d = false -> DataType.is_base_logix_instruction d = false ->
  exists attrs dependencies,
    DataType_to_l5x_xml_node d family datatype_class as_target include_dependencies
    = Some (Element "DataType" attrs
              (description_nodes (description (DataType.super d))
               ++ match DataType.members d with
                  | [] => []
                  | members =>
                      Element "Members" [] (map DataTypeMember.to_l5x_xml_node members)
                      :: dependencies
                  end))
    /\ (forall ch, attribute_str "Name" (Element "DataType" attrs ch)
                   = name (DataType.super d))
    /\ (forall ch, attribute "Family" (Element "DataType" attrs ch)
                   = Some (LogixFamily_value family))
    /\ (forall ch, default User
                     (LogixDataTypeClass_from_string
                        (attribute "Class" (Element "DataType" attrs ch)))
                   = match datatype_class with
                     | standard => User
                     | c => c
                     end)
    /\ (forall name, String.eqb name "*" = false -> String.eqb "Dependency" name = false ->
                     String.eqb "Dependencies" name = false ->
                     concat (map (fun child => own name child
                                               ++ getElementsByTagName name child)
                               dependencies)
                     = []).
Proof.
  intros Ha Hb. unfold DataType_to_l5x_xml_node. rewrite Ha, Hb. cbn [orb].
  destruct (DataType.members d) as [|m members].
  - destruct as_target, datatype_class;
      (destruct (description (DataType.super d)) as [d0|];
         [destruct (negb (String.eqb d0 ""))|]);
      eexists; exists [];
      (split; [cbn -[DataTypeMember.to_l5x_xml_node]; reflexivity|]);
      repeat split; reflexivity.
  - unfold dependant_members.
    rewrite !fold_appendChild.
    destruct (List.filter _ (m :: members)) as [|x l]; [|destruct include_dependencies];
      destruct as_target, datatype_class;
      (destruct (description (DataType.super d)) as [d0|];
         [destruct (negb (String.eqb d0 ""))|]);
      eexists; eexists;
      (split; [cbn -[DataTypeMember.to_l5x_xml_node map]; reflexivity|]);
      (split; [reflexivity|]); (split; [reflexivity|]); (split; [reflexivity|]);
      intros name H1 H2 H3; cbn [map concat app]; rewrite ?H1, ?H3;
      cbn [orb app]; rewrite ?getElementsByTagName_Element, ?app_nil_r;
      try reflexivity;
      exact (dependency_nodes_hold
               (fun x0 : DataTypeMember_t => DataType.key <$> DataTypeMember.datatype x0)
               (x :: l) name H1 H2).
Qed.

(** X15.  A datatype that is neither atomic nor built in, with members of
    distinct names, is written by [to_l5x_xml_node] as a node that
    [from_l5x_xml_node] reads back with the same name and family and with
    the members as [DataTypeMember.from_l5x_xml_node] reads each of them
    back, in order.  Two things are not kept.  The description is the text
    of the first [Description] element below the node: the datatype's own
    description when it has one, else the description of its first member
    that has one.  The class [standard] is not written and comes back as
    [User]. *)
Theorem datatype_encode_decode (d : DataType.t) (family : LogixFamily)
    (datatype_class : LogixDataTypeClass) (as_target include_dependencies : bool) :
  DataType.is_atomic d = false -> DataType.is_base_logix_instruction d = false ->
  NoDup (map member_key (DataType.members d)) ->
  Forall (fun m => PyStr.count_digits (int_to_str (DataTypeMember.dimensions m)) <= 4300)
    (DataType.members d) ->
  exists node,
    DataType_to_l5x_xml_node d family datatype_class as_target include_dependencies
    = Some node
    /\ DataType_from_l5x_xml_node (Some node)
       = Returns
           (Some
              (DataType.Build
                 (PyLogixObject_init (name (DataType.super d))
                    (description_read_back
                       (default None
                          (List.find DataTypeMember.truthy
                             (description (DataType.super d)
                              :: map (fun m => description (DataTypeMember.super m))
                                   (DataType.members d))))))
                 false false
                 (map member_read_back (DataType.members d)),
               family,
               match datatype_class with
               | standard => User
               | c => c
               end)).
Proof.
  intros Ha Hb Hnames Hdims.
  destruct (datatype_node_shape d family datatype_class as_target include_dependencies Ha Hb)
    as (attrs & deps & -> & Hname & Hfamily & Hclass & Hdeps).
  eexists. split; [reflexivity|].
  set (children := _ ++ _).
  unfold DataType_from_l5x_xml_node. cbn [is_Element].
  rewrite (get_text_data_descriptions _ _ _
             (description (DataType.super d)
              :: map (fun m => description (DataTypeMember.super m)) (DataType.members d))).
  2:{ rewrite getElementsByTagName_Element. subst children.
      rewrite map_app, concat_app, description_nodes_descriptions.
      change (concat (map (fun desc => description_nodes desc)
                        (description (DataType.super d)
                         :: map (fun m => description (DataTypeMember.super m))
                              (DataType.members d))))
        with (description_nodes (description (DataType.super d))
              ++ concat (map (fun desc => description_nodes desc)
                           (map (fun m => description (DataTypeMember.super m))
                              (DataType.members d)))).
      f_equal.
      destruct (DataType.members d) as [|m members]; [reflexivity|].
      set (ms := m :: members). cbn [map concat app].
      rewrite (own_other "Description" "Members") by reflexivity. cbn [app].
      rewrite getElementsByTagName_Element, member_nodes_descriptions,
        (Hdeps "Description") by reflexivity.
      rewrite app_nil_r. reflexivity. }
  cbn [and_then]. rewrite Hname, Hfamily, Hclass, LogixFamily_from_string_value.
  unfold get_first_element. cbn [is_Element and_then].
  rewrite getElementsByTagName_Element. subst children.
  rewrite map_app, concat_app, description_nodes_members. cbn [app].
  destruct (DataType.members d) as [|m members] eqn:Em.
  - reflexivity.
  - set (ms := m :: members) in *. cbn [map concat app].
    rewrite (own_same "Members") by reflexivity.
    cbn [app head and_then childNodes].
    rewrite member_nodes_elements, (for_all_members _ Hdims). cbn [and_then].
    rewrite (omap_id_Some member_read_back).
    rewrite (extend_distinct member_key []); [reflexivity|].
    cbn [app DataType.members DataType.__init__]. rewrite map_map. exact Hnames.
Qed.

Lemma datatype_encode_decode_witness :
  let d :=
    DataType.Build (PyLogixObject_init "Motor" None) false false
      [DataTypeMember.__init__ "Run" None (Some "BOOL") 0 None false None None;
       DataTypeMember.__init__ "Speed" (Some " rpm ") (Some "DINT") 0 (Some Decimal)
         false None None] in
  exists node,
    DataType_to_l5x_xml_node d no_family standard true true = Some node
    /\ DataType_from_l5x_xml_node (Some node)
       = Returns
           (Some
              (DataType.Build
                 (PyLogixObject_init (name (DataType.super d))
                    (description_read_back
                       (default None
                          (List.find DataTypeMember.truthy
                             (description (DataType.super d)
                              :: map (fun m => description (DataTypeMember.super m))
                                   (DataType.members d))))))
                 false false
                 (map member_read_back (DataType.members d)),
               no_family, User)).
Proof.
  intros d.
  apply (datatype_encode_decode d no_family standard true true).
  - reflexivity.
  - reflexivity.
  - vm_compute. repeat constructor; rewrite ?list_elem_of_In; simpl; intuition discriminate.
  - repeat (constructor; [vm_compute; lia|]). constructor.
Defined.

(** ** tag/tag.py: the dimensions of a tag, written and read *)


















(** ** datatype/datatype.py: [DataTypeList.push_updates] *)

Section ReplaceStep.
Context {A : Type} (key : A -> string).

Lemma list_remove_keeps (x : A) (l : list A) (n : string) :
  n <> key x -> In n (map key l) -> In n (map key (PylogixList.list_remove key x l)).
Proof.
  intros Hn. induction l as [|y l IH]; simpl; [tauto|].
  unfold name_eqb. destruct (String.eqb_spec (key y) (key x)) as [E|E].
  - intros [H|H]; [congruence | exact H].
  - simpl. intros [H|H]; [left; exact H | right; exact (IH H)].
Qed.

Lemma append_names (l : list A) (x : A) (n : string) :
  In n (map key (PylogixList.append key l x false))
  <-> In n (map key l) \/ n = key x.
Proof.
  rewrite append_no_overwrite. destruct (in_by key x l) eqn:E.
  - apply in_by_In in E. split; [tauto | intros [H | ->]; assumption].
  - rewrite map_app, in_app_iff. simpl. split; intros [H|H]; auto.
    destruct H as [<-|[]]. right. reflexivity.
Qed.

(** Taking out the object of a name and appending one of the same name
    leaves the names of the list as they were. *)
Lemma replace_names (l : list A) (x x' : A) (n : string) :
  key x' = key x -> in_by key x l = true ->
  In n (map key (PylogixList.append key (PylogixList.remove key l x) x' false))
  <-> In n (map key l).
Proof.
  intros Ek Hin. rewrite append_names. unfold PylogixList.remove. rewrite Hin, Ek.
  split.
  - intros [H | ->]; [eapply list_remove_incl; exact H | apply in_by_In; exact Hin].
  - intros H. destruct (String.eqb_spec n (key x)) as [E|E]; [right; exact E|].
    left. apply list_remove_keeps; assumption.
Qed.

Lemma replace_NoDup (l : list A) (x x' : A) :
  NoDup (map key l) ->
  NoDup (map key (PylogixList.append key (PylogixList.remove key l x) x' false)).
Proof. intros H. apply append_NoDup, remove_NoDup. exact H. Qed.

End ReplaceStep.

Lemma deepcopy_DataType_key (d : DataType.t) :
  DataType.key (deepcopy_DataType d) = DataType.key d.
Proof. destruct d. reflexivity. Qed.

(** The inner loop of [push_updates]: the dependencies of one object. *)
Lemma push_dependencies_names (deps l : list DataType.t) (n : string) :
  In n (map DataType.key
          (fold_left
             (fun other_list d =>
                if in_by DataType.key d other_list then
                  let other_list := PylogixList.remove DataType.key other_list d in
                  PylogixList.append DataType.key other_list d false
                else if negb (in_by DataType.key d other_list) then
                  PylogixList.append DataType.key other_list d false
                else other_list)
             deps l))
  <-> In n (map DataType.key l) \/ In n (map DataType.key deps).
Proof.
  revert l. induction deps as [|d deps IH]; intros l; cbn [fold_left map In]; [tauto|].
  rewrite IH. clear IH. destruct (in_by DataType.key d l) eqn:E; cbv zeta.
  - rewrite (replace_names DataType.key l d d n eq_refl E).
    apply in_by_In in E. split; [tauto|].
    intros [H | [<- | H]]; auto.
  - cbn [negb]. rewrite append_names. split; [intros [[H|H]|H]; auto | intros [H|[H|H]]; auto].
Qed.

Lemma push_dependencies_NoDup (deps l : list DataType.t) :
  NoDup (map DataType.key l) ->
  NoDup (map DataType.key
           (fold_left
              (fun other_list d =>
                 if in_by DataType.key d other_list then
                   let other_list := PylogixList.remove DataType.key other_list d in
                   PylogixList.append DataType.key other_list d false
                 else if negb (in_by DataType.key d other_list) then
                   PylogixList.append DataType.key other_list d false
                 else other_list)
              deps l)).
Proof.
  revert l. induction deps as [|d deps IH]; intros l H; cbn [fold_left]; [exact H|].
  apply IH. destruct (in_by DataType.key d l); cbv zeta; cbn [negb].
  - apply replace_NoDup. exact H.
  - apply append_NoDup. exact H.
Qed.

(** X17.  [DataTypeList.push_updates] only updates: the other list keeps
    every name it had, and the names it gains are names of datatypes the
    objects of [self] depend on; an object of [self] whose name the other
    list does not hold is not copied into it, and when none of them is held
    the other list is left as it is.  Names that were pairwise distinct stay
    so. *)
Theorem datatype_list_push_updates_names (h : Heap) (self other_list : list DataType.t) :
  (forall n, In n (map DataType.key other_list) ->
             In n (map DataType.key (DataTypeList_push_updates h self other_list)))
  /\ (forall n,
        In n (map DataType.key (DataTypeList_push_updates h self other_list)) ->
        In n (map DataType.key other_list)
        \/ exists obj,
             In obj self
             /\ In n (map DataType.key (datatypes (DataType_get_dependencies h obj false))))
  /\ (Forall (fun obj => in_by DataType.key obj other_list = false) self ->
      DataTypeList_push_updates h self other_list = other_list)
  /\ (NoDup (map DataType.key other_list) ->
      NoDup (map DataType.key (DataTypeList_push_updates h self other_list))).
Proof.
  unfold DataTypeList_push_updates.
  split; [|split; [|split]].
  - revert other_list. induction self as [|obj self IH]; intros l n Hn; cbn [fold_left];
      [exact Hn|].
    apply IH. destruct (in_by DataType.key obj l) eqn:E; [|exact Hn]. cbv zeta.
    apply push_dependencies_names. left.
    apply (replace_names DataType.key l obj _ n (deepcopy_DataType_key obj) E). exact Hn.
  - revert other_list. induction self as [|obj self IH]; intros l n Hn; cbn [fold_left] in Hn;
      [left; exact Hn|].
    apply IH in Hn as [Hn | (o & Ho & Hn)].
    + destruct (in_by DataType.key obj l) eqn:E; [|left; exact Hn]. cbv zeta in Hn.
      apply push_dependencies_names in Hn as [Hn | Hn].
      * left. apply (replace_names DataType.key l obj _ n (deepcopy_DataType_key obj) E).
        exact Hn.
      * right. exists obj. split; [left; reflexivity | exact Hn].
    + right. exists o. split; [right; exact Ho | exact Hn].
  - revert other_list. induction self as [|obj self IH]; intros l H; cbn [fold_left];
      [reflexivity|].
    apply Forall_cons in H as [Ho Hs]. rewrite Ho. apply IH. exact Hs.
  - revert other_list. induction self as [|obj self IH]; intros l H; cbn [fold_left];
      [exact H|].
    apply IH. destruct (in_by DataType.key obj l); [|exact H]. cbv zeta.
    apply push_dependencies_NoDup, replace_NoDup. exact H.
Qed.

(** ** rung/rung.py: what the miners never return *)

Lemma take_str_Forall (P : ascii -> Prop) (k : nat) (s : string) :
  Forall P (list_ascii_of_string s) -> Forall P (list_ascii_of_string (PyStr.take_str k s)).
Proof.
  revert s. induction k as [|k IH]; intros s H; [destruct s; constructor|].
  destruct s as [|c s]; [constructor|]. simpl in *.
  apply Forall_cons in H as [Hc Hs]. constructor; [exact Hc | exact (IH s Hs)].
Qed.

Lemma drop_str_Forall (P : ascii -> Prop) (k : nat) (s : string) :
  Forall P (list_ascii_of_string s) -> Forall P (list_ascii_of_string (PyStr.drop_str k s)).
Proof.
  revert s. induction k as [|k IH]; intros s H; [destruct s; exact H|].
  destruct s as [|c s]; [exact H|]. simpl in *.
  apply Forall_cons in H as [_ Hs]. exact (IH s Hs).
Qed.

Lemma split_Forall (P : ascii -> Prop) (c : ascii) (s : string) :
  Forall P (list_ascii_of_string s) ->
  Forall (fun w => Forall P (list_ascii_of_string w)) (PyStr.split c s).
Proof.
  induction s as [|x s IH]; intros H; [repeat constructor|].
  simpl in H. apply Forall_cons in H as [Hx Hs]. specialize (IH Hs).
  cbn [PyStr.split]. destruct (Ascii.eqb x c).
  - constructor; [constructor | exact IH].
  - destruct (PyStr.split c s) as [|w ws].
    + repeat constructor. exact Hx.
    + apply Forall_cons in IH as [Hw Hws]. constructor; [|exact Hws].
      simpl. constructor; [exact Hx | exact Hw].
Qed.

Lemma split_lacks (c : ascii) (s : string) :
  Forall (fun w => Forall (fun x => Ascii.eqb x c = false) (list_ascii_of_string w))
    (PyStr.split c s).
Proof.
  induction s as [|x s IH]; [repeat constructor|].
  cbn [PyStr.split]. destruct (Ascii.eqb x c) eqn:E.
  - constructor; [constructor | exact IH].
  - destruct (PyStr.split c s) as [|w ws].
    + repeat constructor. exact E.
    + apply Forall_cons in IH as [Hw Hws]. constructor; [|exact Hws].
      simpl. constructor; [exact E | exact Hw].
Qed.

Lemma head_or_empty_Forall (P : string -> Prop) (l : list string) :
  P "" -> Forall P l -> P (head_or_empty l).
Proof. intros H0 H. destruct H; [exact H0 | assumption]. Qed.

Lemma find_from_None (c : ascii) (s : string) (pos : nat) :
  PyStr.find_from (String c "") s pos = None ->
  Forall (fun x => Ascii.eqb x c = false) (list_ascii_of_string s).
Proof.
  revert pos. induction s as [|x s IH]; intros pos H; [constructor|].
  cbn [PyStr.find_from] in H. rewrite prefix_char in H.
  destruct (Ascii.eqb x c) eqn:E; [discriminate|].
  simpl. constructor; [exact E | exact (IH _ H)].
Qed.

Lemma find_from_Some (c : ascii) (s : string) (pos r : nat) :
  PyStr.find_from (String c "") s pos = Some r ->
  exists k, r = pos + k /\ k <= String.length s
            /\ Forall (fun x => Ascii.eqb x c = false)
                 (list_ascii_of_string (PyStr.take_str k s)).
Proof.
  revert pos. induction s as [|x s IH]; intros pos H; [discriminate|].
  cbn [PyStr.find_from] in H. rewrite prefix_char in H.
  destruct (Ascii.eqb x c) eqn:E.
  - injection H as <-. exists 0. repeat split; [lia | simpl; lia | constructor].
  - destruct (IH _ H) as (k & -> & Hk & Hf). exists (S k).
    repeat split; [lia | simpl; lia |]. simpl. constructor; [exact E | exact Hf].
Qed.

(** The part of a string in front of the first occurrence of a character
    does not hold it; nor does what [s[:-1]] leaves when there is none. *)
Lemma slice_to_find_lacks (c : ascii) (s : string) :
  Forall (fun x => Ascii.eqb x c = false)
    (list_ascii_of_string (PyStr.slice_to s (PyStr.find s (String c "") 0))).
Proof.
  unfold PyStr.find, PyStr.slice_to.
  replace (PyStr.len s <? 0)%Z with false by (symmetry; apply Z.ltb_ge; unfold PyStr.len; lia).
  replace (PyStr.norm_index (PyStr.len s) 0) with 0
    by (unfold PyStr.norm_index; simpl; unfold PyStr.len; lia).
  cbn [PyStr.drop_str].
  replace (match s with "" => s | String _ _ => s end) with s by (destruct s; reflexivity).
  destruct (PyStr.find_from (String c "") s 0) as [r|] eqn:E.
  - destruct (find_from_Some c s 0 r E) as (k & -> & Hk & Hf).
    replace (PyStr.norm_index (PyStr.len s) (Z.of_nat (0 + k))) with k; [exact Hf|].
    unfold PyStr.norm_index, PyStr.len.
    destruct (Z.ltb_spec (Z.of_nat (0 + k)) 0); lia.
  - apply take_str_Forall. exact (find_from_None c s 0 E).
Qed.

Lemma slice_to_Forall (P : ascii -> Prop) (s : string) (z : Z) :
  Forall P (list_ascii_of_string s) ->
  Forall P (list_ascii_of_string (PyStr.slice_to s z)).
Proof. apply take_str_Forall. Qed.

Lemma slice_from_Forall (P : ascii -> Prop) (s : string) (z : Z) :
  Forall P (list_ascii_of_string s) ->
  Forall P (list_ascii_of_string (PyStr.slice_from s z)).
Proof. apply drop_str_Forall. Qed.

Lemma remove_chars_Forall (P : ascii -> Prop) (cs : list ascii) (s : string) :
  Forall P (list_ascii_of_string s) ->
  Forall P (list_ascii_of_string (PyStr.remove_chars cs s)).
Proof.
  induction s as [|x s IH]; intros H; [constructor|].
  simpl in H. apply Forall_cons in H as [Hx Hs]. cbn [PyStr.remove_chars].
  destruct (PyStr.mem_char x cs); [exact (IH Hs)|].
  simpl. constructor; [exact Hx | exact (IH Hs)].
Qed.

Lemma remove_chars_gone (cs : list ascii) (s : string) :
  Forall (fun c => PyStr.mem_char c cs = false)
    (list_ascii_of_string (PyStr.remove_chars cs s)).
Proof.
  induction s as [|x s IH]; [constructor|]. cbn [PyStr.remove_chars].
  destruct (PyStr.mem_char x cs) eqn:E; [exact IH|].
  simpl. constructor; [exact E | exact IH].
Qed.

Lemma lstrip_by_Forall (P : ascii -> Prop) (p : ascii -> bool) (s : string) :
  Forall P (list_ascii_of_string s) ->
  Forall P (list_ascii_of_string (PyStr.lstrip_by p s)).
Proof.
  induction s as [|x s IH]; intros H; [constructor|].
  cbn [PyStr.lstrip_by]. destruct (p x); [|exact H].
  simpl in H. apply Forall_cons in H as [_ Hs]. exact (IH Hs).
Qed.

Lemma rstrip_by_Forall (P : ascii -> Prop) (p : ascii -> bool) (s : string) :
  Forall P (list_ascii_of_string s) ->
  Forall P (list_ascii_of_string (PyStr.rstrip_by p s)).
Proof.
  induction s as [|x s IH]; intros H; [constructor|].
  simpl in H. apply Forall_cons in H as [Hx Hs]. specialize (IH Hs).
  rewrite rstrip_by_cons. destruct (PyStr.rstrip_by p s) as [|y r].
  - destruct (p x); [constructor | repeat constructor; exact Hx].
  - simpl. constructor; [exact Hx | exact IH].
Qed.

Lemma strip_Forall (P : ascii -> Prop) (s : string) :
  Forall P (list_ascii_of_string s) -> Forall P (list_ascii_of_string (PyStr.strip s)).
Proof. intros H. apply lstrip_by_Forall, rstrip_by_Forall. exact H. Qed.

Lemma all_lack_breakers (cs : list ascii) (s : string) :
  (forall c, In c cs -> Forall (fun x => Ascii.eqb x c = false) (list_ascii_of_string s)) ->
  Forall (fun x => PyStr.mem_char x cs = false) (list_ascii_of_string s).
Proof.
  intros H. induction cs as [|c cs IH].
  - clear H. induction (list_ascii_of_string s) as [|x l IH];
      [constructor | constructor; [reflexivity | exact IH]].
  - assert (Hc := H c (or_introl eq_refl)).
    assert (Hcs := IH (fun c' Hc' => H c' (or_intror Hc'))).
    clear H IH. induction Hc as [|x l Hx Hl IH]; [constructor|].
    apply Forall_cons in Hcs as [H1 H2]. constructor; [|exact (IH H2)].
    cbn [PyStr.mem_char existsb] in *. rewrite Hx. exact H1.
Qed.

Lemma mem_char_false_lacks (cs : list ascii) (c : ascii) (s : string) :
  In c cs ->
  Forall (fun x => PyStr.mem_char x cs = false) (list_ascii_of_string s) ->
  Forall (fun x => Ascii.eqb x c = false) (list_ascii_of_string s).
Proof.
  intros Hc H. eapply Forall_impl; [exact H|]. intros x Hx.
  destruct (Ascii.eqb_spec x c) as [->|]; [|reflexivity].
  unfold PyStr.mem_char in Hx. rewrite <- Hx. symmetry. apply existsb_exists.
  exists c. split; [exact Hc | apply Ascii.eqb_refl].
Qed.

(** What [mined_tag] keeps of a name holds none of the characters the
    miner tests for, and no character the name did not have. *)
Lemma mined_tag_clean (P : ascii -> Prop) (u t : string) :
  mined_tag u = Some t ->
  Forall P (list_ascii_of_string u) ->
  Forall P (list_ascii_of_string t)
  /\ Forall (fun x => PyStr.mem_char x ["."%char; ","%char; dquote; "'"%char; "?"%char;
                                        ":"%char; "["%char] = false)
       (list_ascii_of_string t).
Proof.
  unfold mined_tag. set (tag := head_or_empty (PyStr.split "." u)).
  intros H HP.
  assert (Ptag : Forall P (list_ascii_of_string tag)).
  { apply (head_or_empty_Forall (fun w => Forall P (list_ascii_of_string w)));
      [constructor | apply split_Forall; exact HP]. }
  assert (Dtag : Forall (fun x => Ascii.eqb x "." = false) (list_ascii_of_string tag))
    by apply split_head_lacks.
  destruct (String.eqb tag ""); [discriminate|].
  destruct (existsb _ _) eqn:Ex; [discriminate|].
  destruct (PyStr.int_parses tag); [discriminate|].
  injection H as <-.
  assert (Ill : forall c, In c [","%char; dquote; "'"%char; "?"%char; ":"%char] ->
                  Forall (fun x => Ascii.eqb x c = false) (list_ascii_of_string tag)).
  { intros c Hc. apply contains_char_false.
    destruct (PyStr.contains (String c "") tag) eqn:E; [|reflexivity].
    rewrite <- Ex. symmetry. apply existsb_exists. exists c. split; assumption. }
  set (cut := if negb (PyStr.find tag "[" 0 =? -1)%Z
              then PyStr.slice_to tag (PyStr.find tag "[" 0) else tag).
  assert (Sub : forall Q : ascii -> Prop,
            Forall Q (list_ascii_of_string tag) -> Forall Q (list_ascii_of_string cut)).
  { intros Q HQ. subst cut. destruct (negb _); [apply slice_to_Forall|]; exact HQ. }
  assert (Br : Forall (fun x => Ascii.eqb x "[" = false) (list_ascii_of_string cut)).
  { subst cut. destruct (Z.eqb_spec (PyStr.find tag "[" 0) (-1)) as [E|E]; cbn [negb].
    - (* no bracket: the name itself holds none *)
      unfold PyStr.find in E.
      destruct (PyStr.len tag <? 0)%Z eqn:L;
        [apply Z.ltb_lt in L; unfold PyStr.len in L; lia|].
      replace (PyStr.norm_index (PyStr.len tag) 0) with 0 in E
        by (unfold PyStr.norm_index; simpl; unfold PyStr.len; lia).
      cbn [PyStr.drop_str] in E.
      replace (match tag with "" => tag | String _ _ => tag end) with tag in E
        by (destruct tag; reflexivity).
      destruct (PyStr.find_from "[" tag 0) as [r|] eqn:F; [lia|].
      exact (find_from_None "[" tag 0 F).
    - apply slice_to_find_lacks. }
  split; [apply Sub; exact Ptag|].
  apply all_lack_breakers. intros c Hc. simpl in Hc.
  destruct Hc as [<-|[<-|[<-|[<-|[<-|[<-|[<-|[]]]]]]]];
    try (apply Sub, Ill; simpl; tauto).
  - apply Sub. exact Dtag.
  - exact Br.
Qed.

(** X18.  Whatever the rung text: the mnemonics mined by
    [__get_instruction_metas__] are pairwise distinct, have no blank at
    either end and hold no parenthesis, comma, quote, question mark, colon
    or square bracket; the tag names mined by [__get_tag_metas__] hold no
    closing parenthesis, dot, comma, quote, question mark, colon or opening
    square bracket. *)
Theorem mined_names_clean (text : option string) :
  NoDup (__get_instruction_metas__ text)
  /\ (forall x,
        In x (__get_instruction_metas__ text) ->
        PyStr.strip x = x
        /\ Forall (fun c => PyStr.mem_char c mnemonic_breakers = false)
             (list_ascii_of_string x))
  /\ (forall t,
        In t (__get_tag_metas__ text) ->
        Forall (fun c => PyStr.mem_char c [")"%char; "."%char; ","%char; dquote; "'"%char;
                                            "?"%char; ":"%char; "["%char] = false)
          (list_ascii_of_string t)).
Proof.
  split; [|split].
  - unfold __get_instruction_metas__. destruct text as [text|]; [|constructor].
    destruct (String.eqb text ""); [constructor | apply NoDup_list_of_set].
  - intros x Hx. unfold __get_instruction_metas__ in Hx.
    destruct text as [text|]; [|destruct Hx].
    destruct (String.eqb text ""); [destruct Hx|].
    apply (proj1 (in_list_of_set _ _)) in Hx.
    apply in_map_iff in Hx as (seg & <- & Hseg).
    split; [apply strip_idempotent|].
    pose proof (split_lacks ")" text) as Hl. rewrite Forall_forall in Hl.
    specialize (Hl seg (proj2 (list_elem_of_In _ _) Hseg)).
    set (inst := PyStr.slice_to seg (PyStr.find seg "(" 0)).
    assert (H1 : Forall (fun c => Ascii.eqb c "(" = false) (list_ascii_of_string inst))
      by apply slice_to_find_lacks.
    assert (H2 : Forall (fun c => Ascii.eqb c ")" = false) (list_ascii_of_string inst))
      by (apply slice_to_Forall; exact Hl).
    apply all_lack_breakers. intros c Hc.
    apply strip_Forall. unfold mnemonic_breakers in Hc. simpl in Hc.
    destruct Hc as [<-|[<-|Hc]].
    + apply remove_chars_Forall. exact H1.
    + apply remove_chars_Forall. exact H2.
    + apply (mem_char_false_lacks
               [","%char; dquote; "'"%char; "?"%char; ":"%char; "["%char; "]"%char]);
        [simpl; tauto | apply remove_chars_gone].
  - intros t Ht. unfold __get_tag_metas__ in Ht.
    destruct text as [text|]; [|destruct Ht].
    destruct (String.eqb text ""); [destruct Ht|].
    apply tag_metas_fold in Ht.
    2:{ rewrite Forall_forall. intros u Hu. apply list_elem_of_In in Hu.
        apply (proj1 (in_list_of_set _ _)) in Hu.
        apply in_map_iff in Hu as (op & <- & _). apply head_split_head. }
    destruct Ht as [[] | (u & Hu & Hm)].
    apply (proj1 (in_list_of_set _ _)) in Hu.
    apply in_map_iff in Hu as (op & <- & Hop).
    rewrite mined_tag_head in Hm.
    apply in_concat in Hop as (ops & Hops & Hop).
    apply in_map_iff in Hops as (seg & <- & Hseg).
    apply List.filter_In in Hseg as [Hseg _].
    pose proof (split_lacks ")" text) as Hl. rewrite Forall_forall in Hl.
    specialize (Hl seg (proj2 (list_elem_of_In _ _) Hseg)).
    pose proof (split_Forall _ "," _
                  (slice_from_Forall _ seg (PyStr.find seg "(" 0 + 1) Hl)) as Hs.
    rewrite Forall_forall in Hs. specialize (Hs op (proj2 (list_elem_of_In _ _) Hop)).
    destruct (mined_tag_clean _ op t Hm Hs) as [Hp Hb].
    apply all_lack_breakers. intros c Hc. simpl in Hc.
    destruct Hc as [<-|Hc]; [exact Hp|].
    apply (mem_char_false_lacks
             ["."%char; ","%char; dquote; "'"%char; "?"%char; ":"%char; "["%char]);
      [simpl; tauto | exact Hb].
Qed.

(** ** program/program.py: a driver clone whose name is rejected *)

Lemma deepcopy_TagList_extends (refs : list TagRef) :
  forall acc memo h, extends h (snd (deepcopy_TagList refs acc memo h)).
Proof.
  induction refs as [|r refs IH]; intros acc memo h; cbn [deepcopy_TagList].
  - apply extends_refl.
  - destruct (memo_get memo r); [apply IH|].
    eapply extends_trans; [|apply IH]. eexists. reflexivity.
Qed.

Lemma deepcopy_rungs_extends (rungs : list Rung.t) :
  forall memo h, extends h (snd (deepcopy_rungs rungs memo h)).
Proof.
  induction rungs as [|rung rungs IH]; intros memo h; cbn [deepcopy_rungs].
  - apply extends_refl.
  - unfold deepcopy_Rung.
    pose proof (deepcopy_TagList_extends (Rung.tags rung) [] memo h) as X1.
    destruct (deepcopy_TagList (Rung.tags rung) [] memo h) as [[tags memo1] h1].
    pose proof (deepcopy_TagList_extends (Rung.program_tags rung) [] memo1 h1) as X2.
    destruct (deepcopy_TagList (Rung.program_tags rung) [] memo1 h1) as [[ptags memo2] h2].
    pose proof (IH memo2 h2) as X3.
    destruct (deepcopy_rungs rungs memo2 h2) as [[rest memo3] h3].
    cbn [snd] in *. eapply extends_trans; [exact X1|]. eapply extends_trans; eassumption.
Qed.

Lemma set_name_rejected (value : string) (o : PyLogixObject) :
  ~ name_ok value -> set_name value o = Raise (ValueError "illegal name set!").
Proof.
  unfold name_ok, set_name, name_setter. intros H.
  destruct (existsb (fun x => PyStr.contains x value) bad_vals); [reflexivity | congruence].
Qed.

(** X19.  A failed propagation of a driver routine is not undone.  When
    the first target routine the driver matches gives the clone a name the
    name setter rejects, [__push_driver_routine__] raises the [ValueError]
    of the setter after that target routine has been taken out of the
    target program: the program has lost the routine and got no clone for
    it. *)
Theorem driver_clone_rejected (routine : Routine.t) (st : MergeState)
    (pre post : list Routine.t) (target : Routine.t) :
  let split := PyStr.split "_" (Routine.key routine) in
  3 <= length split ->
  Program.routines (other_prog st) = pre ++ target :: post ->
  Forall (fun r => is_candidate split r = false) pre ->
  is_candidate split target = true ->
  ~ name_ok (PyStr.replace (Routine.key routine) (item split 0)
               (item (PyStr.split "_" (Routine.key target)) 0)) ->
  exists st',
    __push_driver_routine__ routine st = (Raise (ValueError "illegal name set!"), st')
    /\ Program.routines (other_prog st')
       = PylogixList.remove Routine.key (Program.routines (other_prog st)) target
    /\ Program.tags (other_prog st') = Program.tags (other_prog st)
    /\ extends (heap st) (heap st').
Proof.
  intros split Hlen Hr Hpre Ht Hbad.
  unfold __push_driver_routine__.
  change (name (Routine.super routine)) with (Routine.key routine). fold split.
  replace (Nat.ltb (length split) 3) with false by (symmetry; apply Nat.ltb_ge; exact Hlen).
  unfold bind at 1, get at 1.
  rewrite gather_routine_updates_spec, Hr, List.filter_app.
  replace (List.filter (is_candidate split) pre) with (@nil Routine.t).
  2:{ clear -Hpre. induction Hpre as [|r l Hx Hl IH]; [reflexivity|].
      cbn [List.filter]. rewrite Hx. exact IH. }
  cbn [List.filter app]. rewrite Ht. cbn [map apply_routine_updates].
  unfold bind at 1. unfold apply_routine_update.
  unfold bind at 1, modify at 1.
  unfold bind at 1, deepcopy_Routine at 1.
  cbn [heap with_routines other_prog entry_routine name_split other_name_split].
  pose proof (deepcopy_rungs_extends (Routine.rungs routine) [] (heap st)) as X.
  destruct (deepcopy_rungs (Routine.rungs routine) [] (heap st)) as [[rungs memo] h'].
  cbn [snd] in X. cbn [Routine.super].
  unfold bind at 1.
  change (name (Routine.super routine)) with (Routine.key routine).
  rewrite (set_name_rejected _ _ Hbad). cbn [lift_result raise].
  eexists. split; [reflexivity|].
  cbn [other_prog with_heap with_routines Program.routines Program.tags heap].
  rewrite Hr. repeat split. exact X.
Qed.

Lemma driver_clone_rejected_witness :
  let st :=
    {| heap := Example.master_heap;
       other_prog :=
         Example.program "Pumps" "ZONE" []
           [Example.Housekeeping;
            Example.routine "M-2_PumpB_Start" "DRIVER" [Example.rung "NOP()" [] []]] |} in
  exists st',
    __push_driver_routine__ Example.M01_PumpA_Start st
    = (Raise (ValueError "illegal name set!"), st')
    /\ Program.routines (other_prog st')
       = PylogixList.remove Routine.key (Program.routines (other_prog st))
           (Example.routine "M-2_PumpB_Start" "DRIVER" [Example.rung "NOP()" [] []])
    /\ Program.tags (other_prog st') = Program.tags (other_prog st)
    /\ extends (heap st) (heap st').
Proof.
  intros st.
  apply (driver_clone_rejected Example.M01_PumpA_Start st [Example.Housekeeping] []
           (Example.routine "M-2_PumpB_Start" "DRIVER" [Example.rung "NOP()" [] []])).
  - vm_compute. lia.
  - reflexivity.
  - repeat constructor.
  - vm_compute. reflexivity.
  - vm_compute. discriminate.
Defined.

(** ** [rename_strings]: a name the setter rejects *)

Lemma contains_false_prefix (old : string) (x : ascii) (s : string) :
  PyStr.contains old (String x s) = false ->
  String.prefix old (String x s) = false /\ PyStr.contains old s = false.
Proof. cbn [PyStr.contains]. apply orb_false_iff. Qed.

(** Replacing a string that does not occur changes nothing. *)
Lemma replace_absent (s old new : string) :
  PyStr.contains old s = false -> PyStr.replace s old new = s.
Proof.
  intros H. unfold PyStr.replace. destruct old as [|c old].
  - exfalso. destruct s; discriminate H.
  - induction s as [|x s IH]; [reflexivity|].
    apply contains_false_prefix in H as [H1 H2].
    cbn [PyStr.replace_nonempty]. rewrite H1, (IH H2). reflexivity.
Qed.

Lemma rename_strings_accepted (_old_name _new_name : string) (self : PyLogixObject) :
  name_ok (PyStr.replace (name self) _old_name _new_name) ->
  PyLogixObject_rename_strings _old_name _new_name self
  = (Ok tt,
     with_object_description
       match description self with
       | Some d => Some (if String.eqb d "" then d else PyStr.replace d _old_name _new_name)
       | None => None
       end
       (if String.eqb (name self) "" then self
        else with_name (PyStr.replace (name self) _old_name _new_name) self)).
Proof.
  unfold name_ok. intros H. destruct self as [n d p g]. cbn [name _name] in H.
  unfold PyLogixObject_rename_strings, bind, get, name_setter, __on_new_name__, modify,
    ret, put.
  cbn [name _name description]. rewrite H.
  destruct (String.eqb n ""); cbn [negb name _name description with_name];
    (destruct d as [d|]; [destruct (String.eqb d "")|]); reflexivity.
Qed.

Lemma rename_strings_rejected (_old_name _new_name : string) (self : PyLogixObject) :
  name self <> "" ->
  ~ name_ok (PyStr.replace (name self) _old_name _new_name) ->
  PyLogixObject_rename_strings _old_name _new_name self
  = (Raise (ValueError "illegal name set!"), self).
Proof.
  unfold name_ok. intros Hn H.
  unfold PyLogixObject_rename_strings, bind, get, name_setter.
  destruct (String.eqb_spec (name self) "") as [E|_]; [contradiction|]. cbn [negb].
  destruct (existsb _ bad_vals); [reflexivity | congruence].
Qed.

(** X20.  [rename_strings] goes through the name setter.  On an object
    whose new name the setter accepts it replaces in the name and in the
    description.  On an object with a name the setter rejects after the
    replacement it raises the [ValueError] of the setter and leaves the
    object as it was, the description included; this is so for every
    replacement of a string that does not occur in a name that holds a
    disallowed value, a name [__init__] accepts.  The loop of a list stops
    at the first such object: the objects in front of it are renamed, the
    others are not. *)
Theorem rename_strings_stops_at_rejected_name (_old_name _new_name : string) :
  (forall self,
      name self <> "" ->
      ~ name_ok (PyStr.replace (name self) _old_name _new_name) ->
      PyLogixObject_rename_strings _old_name _new_name self
      = (Raise (ValueError "illegal name set!"), self))
  /\ (forall self,
        name self <> "" -> ~ name_ok (name self) ->
        PyStr.contains _old_name (name self) = false ->
        PyLogixObject_rename_strings _old_name _new_name self
        = (Raise (ValueError "illegal name set!"), self))
  /\ (forall pre x post,
        Forall (fun o => name_ok (PyStr.replace (name o) _old_name _new_name)) pre ->
        name x <> "" ->
        ~ name_ok (PyStr.replace (name x) _old_name _new_name) ->
        PylogixList_rename_strings _old_name _new_name (pre ++ x :: post)
        = (Raise (ValueError "illegal name set!"),
           map (fun o => snd (PyLogixObject_rename_strings _old_name _new_name o)) pre
           ++ x :: post)
        /\ Forall
             (fun o =>
                let o' := snd (PyLogixObject_rename_strings _old_name _new_name o) in
                name o' = (if String.eqb (name o) "" then ""
                           else PyStr.replace (name o) _old_name _new_name)
                /\ description o'
                   = match description o with
                     | Some d =>
                         Some (if String.eqb d "" then d
                               else PyStr.replace d _old_name _new_name)
                     | None => None
                     end)
             pre).
Proof.
  split; [|split].
  - intros self Hn H. apply rename_strings_rejected; assumption.
  - intros self Hn H Hc. apply rename_strings_rejected; [exact Hn|].
    rewrite (replace_absent _ _ _ Hc). exact H.
  - intros pre x post Hpre Hn Hx. split.
    + induction Hpre as [|o pre Ho Hpre IH]; cbn [app map PylogixList_rename_strings].
      * rewrite (rename_strings_rejected _ _ x Hn Hx). reflexivity.
      * rewrite (rename_strings_accepted _ _ o Ho), IH. reflexivity.
    + eapply Forall_impl; [exact Hpre|]. intros o Ho. cbv zeta.
      rewrite (rename_strings_accepted _ _ o Ho). cbn [snd].
      destruct o as [n d p g]. cbn [name _name description with_object_description].
      destruct (String.eqb_spec n "") as [->|]; split; reflexivity.
Qed.

(** ** rung/rung.py: the tags a rung is bound to when it is read *)

Section BindTags.
Variable h : Heap.
Variables tags program_tags : list TagRef.

Abbreviation found l n := (PylogixList.by_name (tag_key h) l n).

Lemma append_found_in (l : list TagRef) (found_in : list TagRef) (r tag : TagRef) :
  (forall r', In r' l -> found found_in (tag_key h r') = Some r') ->
  found found_in (tag_key h tag) = Some tag ->
  In r (PylogixList.append (tag_key h) l tag false) <-> In r l \/ r = tag.
Proof.
  intros Hl Ht. rewrite append_no_overwrite.
  destruct (in_by (tag_key h) tag l) eqn:E.
  - split; [auto|]. intros [H | ->]; [exact H|].
    apply in_by_In, in_map_iff in E as (r' & Ek & Hr').
    pose proof (Hl r' Hr') as F. rewrite Ek, Ht in F. injection F as ->. exact Hr'.
  - rewrite in_app_iff. simpl. split; intros [H|H]; auto.
    destruct H as [<-|[]]. right. reflexivity.
Qed.

Lemma found_key (l : list TagRef) (n : string) (r : TagRef) :
  found l n = Some r -> found l (tag_key h r) = Some r.
Proof. intros H. destruct (by_name_key _ _ _ _ H) as [<- _]. exact H. Qed.

Lemma bind_tag_metas_spec (names : list string) :
  forall rt rp,
    (forall r, In r rt -> found tags (tag_key h r) = Some r) ->
    (forall r, In r rp -> found program_tags (tag_key h r) = Some r) ->
    let '(key_error, rt', rp') :=
      bind_tag_metas h (Some tags) (Some program_tags) names rt rp in
    key_error = false
    /\ (forall r, In r rt' <-> In r rt \/ exists n, In n names /\ found tags n = Some r)
    /\ (forall r, In r rp' <-> In r rp \/ exists n, In n names /\ found tags n = None
                                              /\ found program_tags n = Some r).
Proof.
  induction names as [|n names IH]; intros rt rp Ht Hp; cbn [bind_tag_metas].
  - split; [reflexivity|]. split; intros r; (split; [auto|]).
    + intros [H | (n & [] & _)]. exact H.
    + intros [H | (n & [] & _)]. exact H.
  - destruct (found tags n) as [tag|] eqn:F.
    + pose proof (found_key _ _ _ F) as Fk.
      specialize (IH (PylogixList.append (tag_key h) rt tag false) rp).
      destruct (bind_tag_metas h (Some tags) (Some program_tags) names _ rp)
        as [[ke rt'] rp'].
      destruct IH as (K & T & P); [|exact Hp|].
      { intros r Hr. apply (append_found_in rt tags r tag Ht Fk) in Hr as [Hr | ->];
          [exact (Ht r Hr) | exact Fk]. }
      split; [exact K|]. split; intros r.
      * rewrite T, (append_found_in rt tags r tag Ht Fk). split.
        -- intros [[H | ->] | (m & Hm & Fm)]; [left; exact H | |].
           ++ right. exists n. split; [left; reflexivity | exact F].
           ++ right. exists m. split; [right; exact Hm | exact Fm].
        -- intros [H | (m & [<- | Hm] & Fm)]; [left; left; exact H | |].
           ++ left. right. congruence.
           ++ right. exists m. split; assumption.
      * rewrite P. split.
        -- intros [H | (m & Hm & Fm)]; [left; exact H|].
           right. exists m. split; [right; exact Hm | exact Fm].
        -- intros [H | (m & [<- | Hm] & Fm & Gm)]; [left; exact H | congruence |].
           right. exists m. repeat split; assumption.
    + destruct (found program_tags n) as [tag|] eqn:G.
      * pose proof (found_key _ _ _ G) as Gk.
        specialize (IH rt (PylogixList.append (tag_key h) rp tag false)).
        destruct (bind_tag_metas h (Some tags) (Some program_tags) names rt _)
          as [[ke rt'] rp'].
        destruct IH as (K & T & P); [exact Ht| |].
        { intros r Hr. apply (append_found_in rp program_tags r tag Hp Gk) in Hr
            as [Hr | ->]; [exact (Hp r Hr) | exact Gk]. }
        split; [exact K|]. split; intros r.
        -- rewrite T. split.
           ++ intros [H | (m & Hm & Fm)]; [left; exact H|].
              right. exists m. split; [right; exact Hm | exact Fm].
           ++ intros [H | (m & [<- | Hm] & Fm)]; [left; exact H | congruence |].
              right. exists m. split; assumption.
        -- rewrite P, (append_found_in rp program_tags r tag Hp Gk). split.
           ++ intros [[H | ->] | (m & Hm & Fm & Gm)]; [left; exact H | |].
              ** right. exists n. repeat split; [left; reflexivity | exact F | exact G].
              ** right. exists m. repeat split; [right; exact Hm | exact Fm | exact Gm].
           ++ intros [H | (m & [<- | Hm] & Fm & Gm)]; [left; left; exact H | |].
              ** left. right. congruence.
              ** right. exists m. repeat split; assumption.
      * specialize (IH rt rp Ht Hp).
        destruct (bind_tag_metas h (Some tags) (Some program_tags) names rt rp)
          as [[ke rt'] rp'].
        destruct IH as (K & T & P). split; [exact K|]. split; intros r.
        -- rewrite T. split.
           ++ intros [H | (m & Hm & Fm)]; [left; exact H|].
              right. exists m. split; [right; exact Hm | exact Fm].
           ++ intros [H | (m & [<- | Hm] & Fm)]; [left; exact H | congruence |].
              right. exists m. split; assumption.
        -- rewrite P. split.
           ++ intros [H | (m & Hm & Fm)]; [left; exact H|].
              right. exists m. split; [right; exact Hm | exact Fm].
           ++ intros [H | (m & [<- | Hm] & Fm & Gm)]; [left; exact H | congruence |].
              right. exists m. repeat split; assumption.
Qed.

End BindTags.

(** X21.  A rung read by [Rung.from_l5x_xml_node], with the three lists
    passed: its tags are the controller tags found under a name
    [__get_tag_metas__] mines from the text just read; its program tags are
    the program tags found under a mined name that is the name of no
    controller tag; its add-on instructions are those found under the names
    [__get_instruction_metas__] mines.  The rung has the empty name. *)
Theorem rung_read_binds_named_tags (h : Heap) (xml_node : XmlNode)
    (tags program_tags : list TagRef)
    (add_on_instructions : list AddOnInstructionDefinition.t)
    (rung : Rung.t) (rung_type : option LogixRungType) :
  Rung_from_l5x_xml_node h (Some xml_node) (Some tags) (Some program_tags)
    (Some add_on_instructions)
  = Returns (Some (rung, rung_type)) ->
  get_text_data xml_node "Text" = Returns (Rung.text rung)
  /\ name (Rung.super rung) = ""
  /\ (forall r,
        In r (Rung.tags rung)
        <-> exists n, In n (__get_tag_metas__ (Rung.text rung))
                      /\ PylogixList.by_name (tag_key h) tags n = Some r)
  /\ (forall r,
        In r (Rung.program_tags rung)
        <-> exists n, In n (__get_tag_metas__ (Rung.text rung))
                      /\ PylogixList.by_name (tag_key h) tags n = None
                      /\ PylogixList.by_name (tag_key h) program_tags n = Some r)
  /\ Rung.add_on_instructions rung
     = omap (PylogixList.by_name AddOnInstructionDefinition.key add_on_instructions)
         (__get_instruction_metas__ (Rung.text rung)).
Proof.
  unfold Rung_from_l5x_xml_node.
  destruct (is_Element xml_node); [|discriminate].
  destruct (get_text_data xml_node "Description") as [description|]; [|discriminate].
  cbn [and_then].
  destruct (int_of (attribute "Number" xml_node)) as [number|]; [|discriminate].
  cbn [and_then].
  destruct (get_text_data xml_node "Text") as [text|]; [|discriminate].
  cbn [and_then].
  destruct (get_text_data xml_node "Comment") as [comment|]; [|discriminate].
  cbn [and_then].
  pose proof (bind_tag_metas_spec h tags program_tags (__get_tag_metas__ text) [] []) as S.
  destruct (bind_tag_metas h (Some tags) (Some program_tags) (__get_tag_metas__ text) [] [])
    as [[key_error rt] rp].
  destruct S as (-> & T & P); [intros r [] | intros r [] |].
  intros E. injection E as <- <-. cbn [Rung.text Rung.tags Rung.program_tags
                                      Rung.add_on_instructions Rung.super].
  split; [reflexivity|]. split; [reflexivity|]. split; [|split; [|reflexivity]].
  - intros r. rewrite T. split; [intros [[] | H]; exact H | intros H; right; exact H].
  - intros r. rewrite P. split; [intros [[] | H]; exact H | intros H; right; exact H].
Qed.

Lemma rung_read_binds_named_tags_witness :
  let xml_node :=
    Element "Rung" [("Number", Some "3"); ("Type", Some "N")]
      [Element "Comment" [] [CDATASection " start the pump "];
       Element "Text" []
         [CDATASection "XIC(M01_PumpA_Run)OTE(PumpA_Cmd)MOV(Speed[1],7);"]] in
  let rung :=
    {| Rung.super := PyLogixObject_init "" None;
       Rung.number := Some 3%Z;
       Rung.text := Some "XIC(M01_PumpA_Run)OTE(PumpA_Cmd)MOV(Speed[1],7);";
       Rung.tags := [0; 1];
       Rung.program_tags := [];
       Rung.add_on_instructions := [];
       Rung.comment := Some "start the pump" |} in
  get_text_data xml_node "Text" = Returns (Rung.text rung)
  /\ name (Rung.super rung) = ""
  /\ (forall r,
        In r (Rung.tags rung)
        <-> exists n, In n (__get_tag_metas__ (Rung.text rung))
                      /\ PylogixList.by_name (tag_key Example.master_heap) [0; 1; 2] n
                         = Some r)
  /\ (forall r,
        In r (Rung.program_tags rung)
        <-> exists n, In n (__get_tag_metas__ (Rung.text rung))
                      /\ PylogixList.by_name (tag_key Example.master_heap) [0; 1; 2] n = None
                      /\ PylogixList.by_name (tag_key Example.master_heap) [] n = Some r)
  /\ Rung.add_on_instructions rung
     = omap (PylogixList.by_name AddOnInstructionDefinition.key [])
         (__get_instruction_metas__ (Rung.text rung)).
Proof.
  intros xml_node rung.
  apply (rung_read_binds_named_tags Example.master_heap xml_node [0; 1; 2] [] [] rung
           (Some rung_type_n)).
  vm_compute. reflexivity.
Defined.

(** ** rung/rung.py: a rung written and read back *)

(** X22.  A rung with a number and a type, written by [Rung.to_l5x] and
    read by [Rung.from_l5x_xml_node]: the number and the type come back; the
    text and the comment come back without the blanks around them, and as
    [None] when they were empty; the description is not written and comes
    back as [None].  A rung without a number is written with the number
    [None] and cannot be read: [ValueError]. *)
Theorem rung_written_and_read (h : Heap) (self : Rung.t) (n : Z)
    (tags program_tags : option (list TagRef))
    (add_on_instructions : option (list AddOnInstructionDefinition.t)) :
  PyStr.count_digits (int_to_str n) <= 4300 ->
  (Rung.number self = Some n ->
   exists node,
     Rung_to_l5x self (Some rung_type_n) = Returns node
     /\ exists rung,
          Rung_from_l5x_xml_node h (Some node) tags program_tags add_on_instructions
          = Returns (Some (rung, Some rung_type_n))
          /\ Rung.number rung = Some n
          /\ Rung.text rung = description_read_back (Rung.text self)
          /\ Rung.comment rung = description_read_back (Rung.comment self)
          /\ description (Rung.super rung) = None)
  /\ (Rung.number self = None ->
      exists node,
        Rung_to_l5x self (Some rung_type_n) = Returns node
        /\ Rung_from_l5x_xml_node h (Some node) tags program_tags add_on_instructions
           = Raises ValueErr).
Proof.
  intros Hlen. pose proof (int_of_str_int_to_str n Hlen) as Hint.
  unfold Rung_to_l5x, Rung_from_l5x_xml_node, description_read_back.
  destruct self as [b number text rtags rptags aois comment]. cbn [Rung.number Rung.text Rung.comment].
  split; intros ->; cbn [str_of_number].
  - destruct comment as [c|]; [destruct (String.eqb c "") eqn:Ec|];
      (destruct text as [t|]; [destruct (String.eqb t "") eqn:Et|]);
      eexists; (split; [reflexivity|]);
      cbn -[int_to_str int_of_str PyStr.strip __get_tag_metas__ __get_instruction_metas__
            bind_tag_metas];
      rewrite ?Hint; cbn [and_then];
      match goal with
      | |- context [bind_tag_metas ?a ?b ?c ?d ?e ?f] =>
          destruct (bind_tag_metas a b c d e f) as [[ke rt] rp]
      end;
      eexists; (split; [reflexivity|]);
      cbn [Rung.number Rung.text Rung.comment Rung.super description PyLogixObject_init];
      rewrite ?append_empty_r; repeat split; reflexivity.
  - destruct comment as [c|]; [destruct (String.eqb c "")|];
      (destruct text as [t|]; [destruct (String.eqb t "")|]);
      eexists; (split; [reflexivity|]); reflexivity.
Qed.

Lemma rung_written_and_read_witness :
  let self :=
    {| Rung.super := PyLogixObject_init "" (Some "first rung");
       Rung.number := Some 3%Z;
       Rung.text := Some "XIC(M01_PumpA_Run)OTE(PumpA_Cmd); ";
       Rung.tags := [0; 1]; Rung.program_tags := []; Rung.add_on_instructions := [];
       Rung.comment := Some " start the pump " |} in
  exists node,
    Rung_to_l5x self (Some rung_type_n) = Returns node
    /\ exists rung,
         Rung_from_l5x_xml_node Example.master_heap (Some node) (Some [0; 1; 2]) (Some [])
           (Some [])
         = Returns (Some (rung, Some rung_type_n))
         /\ Rung.number rung = Some 3%Z
         /\ Rung.text rung = description_read_back (Rung.text self)
         /\ Rung.comment rung = description_read_back (Rung.comment self)
         /\ description (Rung.super rung) = None.
Proof.
  intros self.
  apply (rung_written_and_read Example.master_heap self 3 (Some [0; 1; 2]) (Some [])
           (Some [])).
  - vm_compute. lia.
  - reflexivity.
Defined.
